(** * Command router, deployment workflow and status reconciler

    A shallow embedding of the routing / orchestration code of the
    repository (web-ui/app.py, agentcore-agent-runtime/agent.py,
    agentcore-eks-runtime/agent.py and the container-migration Lambda),
    and the properties the specification states about it.

    Python values that come out of JSON are modelled by [json]; the calls
    the code makes to its collaborators (Bedrock, ECR, CloudFormation,
    Kubernetes, HTTP, subprocesses, the clock) are the constructors of
    [call]; a program is a finite tree of such calls ([prog]) and a
    [world] answers them. *)

From Stdlib Require Import ZArith List Ascii String Lia Bool DecimalString.
From stdpp Require Import base gmap strings.
Import ListNotations.

Set Warnings "-register-all".

Local Open Scope string_scope.
Local Open Scope Z_scope.

(** ** Strings *)

Module Str.

Definition nl : string := String (ascii_of_nat 10) EmptyString.
(** The double quote character. *)
Definition dq : string := String (ascii_of_nat 34) EmptyString.
Definition sq : string := String (ascii_of_nat 39) EmptyString.

Definition of_bytes (l : list nat) : string :=
  string_of_list_ascii (List.map ascii_of_nat l).

(** [needle in hay] for two Python strings. *)
Fixpoint contains (needle hay : string) : bool :=
  if String.prefix needle hay then true
  else match hay with
       | EmptyString => false
       | String _ t => contains needle t
       end.

Fixpoint drop (n : nat) (s : string) : string :=
  match n, s with
  | O, _ => s
  | S n', String _ t => drop n' t
  | S _, EmptyString => EmptyString
  end.

(** The text before and after the leftmost occurrence of a non-empty
    separator. *)
Fixpoint split_once (sep s : string) : option (string * string) :=
  if String.prefix sep s then Some (EmptyString, drop (String.length sep) s)
  else match s with
       | EmptyString => None
       | String c t =>
           match split_once sep t with
           | Some (a, b) => Some (String c a, b)
           | None => None
           end
       end.

(** [s.split(sep)[0]] *)
Definition split_0 (sep s : string) : string :=
  match split_once sep s with
  | Some (a, _) => a
  | None => s
  end.

(** [s.split(sep)[1]], [None] standing for the IndexError. *)
Definition split_1 (sep s : string) : option string :=
  match split_once sep s with
  | Some (_, rest) => Some (split_0 sep rest)
  | None => None
  end.

(** [s.split(sep)[-1]] *)
Fixpoint split_last_fuel (fuel : nat) (sep s : string) : string :=
  match fuel with
  | O => s
  | S f =>
      match split_once sep s with
      | Some (_, rest) => split_last_fuel f sep rest
      | None => s
      end
  end.
Definition split_last (sep s : string) : string :=
  split_last_fuel (String.length s) sep s.

(** [s.replace(c, by)] for a one-character pattern. *)
Fixpoint replace_char (c : ascii) (by_ : string) (s : string) : string :=
  match s with
  | EmptyString => EmptyString
  | String d t =>
      if Ascii.eqb c d then by_ ++ replace_char c by_ t
      else String d (replace_char c by_ t)
  end.

Definition lower_ascii (c : ascii) : ascii :=
  let n := nat_of_ascii c in
  if (Nat.leb 65 n && Nat.leb n 90)%bool then ascii_of_nat (n + 32) else c.

(** [s.lower()]. Strings are UTF-8 byte sequences here; only the ASCII
    capitals are mapped, which is exact for the substring tests the code
    performs on the result (no non-ASCII character lowers to one of the
    letters of "blog" or "sample"). *)
Fixpoint lower (s : string) : string :=
  match s with
  | EmptyString => EmptyString
  | String c t => String (lower_ascii c) (lower t)
  end.

Fixpoint rev_acc (s acc : string) : string :=
  match s with
  | EmptyString => acc
  | String c t => rev_acc t (String c acc)
  end.
Definition rev (s : string) : string := rev_acc s EmptyString.

(** The characters [str.strip()] removes, as UTF-8 byte sequences. *)
Definition whitespace : list string :=
  List.map of_bytes
    [ [9]; [10]; [11]; [12]; [13]; [28]; [29]; [30]; [31]; [32];
      [194; 133]; [194; 160]; [225; 154; 128];
      [226; 128; 128]; [226; 128; 129]; [226; 128; 130]; [226; 128; 131];
      [226; 128; 132]; [226; 128; 133]; [226; 128; 134]; [226; 128; 135];
      [226; 128; 136]; [226; 128; 137]; [226; 128; 138];
      [226; 128; 168]; [226; 128; 169]; [226; 128; 175]; [226; 129; 159];
      [227; 128; 128] ]%nat.

Definition strip_one (toks : list string) (s : string) : option string :=
  match List.find (fun t => String.prefix t s) toks with
  | Some t => Some (drop (String.length t) s)
  | None => None
  end.

Fixpoint lstrip_fuel (fuel : nat) (toks : list string) (s : string) : string :=
  match fuel with
  | O => s
  | S f =>
      match strip_one toks s with
      | Some s' => lstrip_fuel f toks s'
      | None => s
      end
  end.

Definition lstrip_with (toks : list string) (s : string) : string :=
  lstrip_fuel (String.length s) toks s.

(** [s.strip()] *)
Definition strip (s : string) : string :=
  let s1 := lstrip_with whitespace s in
  rev (lstrip_with (List.map rev whitespace) (rev s1)).

(** [str(n)] for an integer. *)
Definition of_Z (n : Z) : string := NilEmpty.string_of_int (Z.to_int n).

(** [s.split(sep)] *)
Fixpoint split_all_fuel (fuel : nat) (sep s : string) : list string :=
  match fuel with
  | O => [s]
  | S f =>
      match split_once sep s with
      | Some (a, rest) => a :: split_all_fuel f sep rest
      | None => [s]
      end
  end.
Definition split_all (sep s : string) : list string :=
  split_all_fuel (String.length s) sep s.

(** A byte that continues a UTF-8 character. *)
Definition is_continuation (c : ascii) : bool :=
  let n := nat_of_ascii c in (Nat.leb 128 n && Nat.ltb n 192)%bool.

(** [s[:n]]: the first [n] characters. *)
Fixpoint take_chars (n : nat) (s : string) : string :=
  match s with
  | EmptyString => EmptyString
  | String c t =>
      if is_continuation c then String c (take_chars n t)
      else match n with
           | O => EmptyString
           | S n' => String c (take_chars n' t)
           end
  end.

End Str.

(** ** Python values *)

(** The values [json.loads] produces and the handlers pass around:
    [None], booleans, integers, strings, lists and dictionaries.  A
    dictionary keeps its insertion order, as a Python [dict] does.
    Numbers with a fraction or an exponent are outside the model. *)
Inductive json : Type :=
| JNull
| JBool (b : bool)
| JNum (n : Z)
| JStr (s : string)
| JArr (l : list json)
| JObj (kv : list (string * json)).

Module Dict.

Fixpoint lookup (k : string) (kv : list (string * json)) : option json :=
  match kv with
  | [] => None
  | (k', v) :: rest => if String.eqb k k' then Some v else lookup k rest
  end.

(** [d[k] = v]: an existing key keeps its position. *)
Fixpoint set (k : string) (v : json) (kv : list (string * json))
  : list (string * json) :=
  match kv with
  | [] => [(k, v)]
  | (k', v') :: rest =>
      if String.eqb k k' then (k, v) :: rest else (k', v') :: set k v rest
  end.

(** [d.update(other)] *)
Definition update (kv other : list (string * json)) : list (string * json) :=
  List.fold_left (fun d '(k, v) => set k v d) other kv.

End Dict.

(** [type(v).__name__] *)
Definition type_name (v : json) : string :=
  match v with
  | JNull => "NoneType"
  | JBool _ => "bool"
  | JNum _ => "int"
  | JStr _ => "str"
  | JArr _ => "list"
  | JObj _ => "dict"
  end.

(** [bool(v)] *)
Definition truthy (v : json) : bool :=
  match v with
  | JNull => false
  | JBool b => b
  | JNum n => negb (n =? 0)
  | JStr s => negb (String.eqb s "")
  | JArr l => match l with [] => false | _ => true end
  | JObj kv => match kv with [] => false | _ => true end
  end.

(** [v == s] for a string literal [s]. *)
Definition eq_str (v : json) (s : string) : bool :=
  match v with
  | JStr t => String.eqb t s
  | _ => false
  end.

(** ** Exceptions *)

Inductive exn_class : Type :=
| ClientError                        (* botocore.exceptions.ClientError *)
| RepositoryAlreadyExistsException   (* a ClientError *)
| ApiException (status : Z) (reason : string)   (* kubernetes client *)
| JSONDecodeError                    (* a ValueError *)
| ValueError
| KeyError
| IndexError
| TypeError
| AttributeError
| CalledProcessError
| OtherException.

(** An exception: its class and [str(e)]. *)
Record exn : Type := Exn { exn_cls : exn_class; exn_msg : string }.

(** [isinstance(e, ClientError)] *)
Definition is_client_error (e : exn) : bool :=
  match exn_cls e with
  | ClientError | RepositoryAlreadyExistsException => true
  | _ => false
  end.

Definition is_repository_already_exists (e : exn) : bool :=
  match exn_cls e with
  | RepositoryAlreadyExistsException => true
  | _ => false
  end.

Definition api_status (e : exn) : option Z :=
  match exn_cls e with
  | ApiException st _ => Some st
  | _ => None
  end.

Definition is_json_decode_error (e : exn) : bool :=
  match exn_cls e with
  | JSONDecodeError => true
  | _ => false
  end.

(** [ValueError] and its subclass. *)
Definition is_value_error (e : exn) : bool :=
  match exn_cls e with
  | JSONDecodeError | ValueError => true
  | _ => false
  end.

Definition attribute_error (v : json) (attr : string) : exn :=
  Exn AttributeError
    (Str.sq ++ type_name v ++ "' object has no attribute '" ++ attr ++ Str.sq).

Definition key_error (k : string) : exn :=
  Exn KeyError (Str.sq ++ k ++ Str.sq).

Definition not_subscriptable (v : json) : exn :=
  Exn TypeError (Str.sq ++ type_name v ++ "' object is not subscriptable").

(** The router's test on [str(e)] (app.py, lines 190 and 335). *)
Definition is_throttling (error_str : string) : bool :=
  Str.contains "ServiceUnavailableException" error_str
  || Str.contains "Too many connections" error_str
  || Str.contains "ThrottlingException" error_str.

(** ** The Python library *)

(** Library functions the handlers call and whose code is not part of
    the repository.  [json_loads s = inl m] stands for a
    [json.JSONDecodeError] whose [str] is [m]; such a message names a
    syntax error and a position, never one of the throttling markers. *)
Class PyLib : Type := {
  json_loads : string -> string + json;
  json_loads_msg :
    forall s m, json_loads s = inl m -> is_throttling m = false;
  (** [json.dumps(v)] and [json.dumps(v, indent=2)] *)
  json_dumps : json -> string;
  json_dumps_indent : json -> string;
  (** [repr(v)] *)
  py_repr : json -> string;
  (** [int(s)], [None] standing for the ValueError *)
  py_int : string -> option Z;
}.

Section Values.
Context `{PyLib}.

(** [str(v)], also what an f-string writes for [{v}]. *)
Definition py_str (v : json) : string :=
  match v with
  | JNull => "None"
  | JBool true => "True"
  | JBool false => "False"
  | JNum n => Str.of_Z n
  | JStr s => s
  | _ => py_repr v
  end.

(** [v.get(key, default)] *)
Definition py_get (v : json) (key : string) (default : json) : exn + json :=
  match v with
  | JObj kv =>
      inr (match Dict.lookup key kv with Some x => x | None => default end)
  | _ => inl (attribute_error v "get")
  end.

(** [v[key]] for a string key. *)
Definition py_item (v : json) (key : string) : exn + json :=
  match v with
  | JObj kv =>
      match Dict.lookup key kv with
      | Some x => inr x
      | None => inl (key_error key)
      end
  | JArr _ =>
      inl (Exn TypeError "list indices must be integers or slices, not str")
  | JStr _ => inl (Exn TypeError "string indices must be integers, not 'str'")
  | _ => inl (not_subscriptable v)
  end.

(** [v[0]] *)
Definition py_first (v : json) : exn + json :=
  match v with
  | JArr (x :: _) => inr x
  | JArr [] => inl (Exn IndexError "list index out of range")
  | JStr (String c _) => inr (JStr (String c EmptyString))
  | JStr EmptyString => inl (Exn IndexError "string index out of range")
  | JObj _ => inl (Exn KeyError "0")
  | _ => inl (not_subscriptable v)
  end.

(** [s in v] for a string [s]: a substring of a string, an element of a
    list, a key of a dictionary. *)
Definition py_in (s : string) (v : json) : exn + bool :=
  match v with
  | JStr t => inr (Str.contains s t)
  | JArr l => inr (List.existsb (fun x => eq_str x s) l)
  | JObj kv =>
      inr (match Dict.lookup s kv with Some _ => true | None => false end)
  | _ =>
      inl (Exn TypeError
             ("argument of type '" ++ type_name v ++ "' is not iterable"))
  end.

(** [v.lower()] *)
Definition py_lower (v : json) : exn + string :=
  match v with
  | JStr s => inr (Str.lower s)
  | _ => inl (attribute_error v "lower")
  end.

(** [json.loads(v)] *)
Definition py_json_loads (v : json) : exn + json :=
  match v with
  | JStr s =>
      match json_loads s with
      | inl m => inl (Exn JSONDecodeError m)
      | inr j => inr j
      end
  | _ =>
      inl (Exn TypeError
             ("the JSON object must be str, bytes or bytearray, not "
                ++ type_name v))
  end.

End Values.

(** ** Calls to the collaborators *)

(** The prompt of a routing request is a fixed template (app.py, lines
    107-154 and 258-299) filled with the user's message and the context
    values; it is kept by its slots. *)
Inductive routing_prompt : Type :=
| EcsRoutingPrompt (message region : string)
| EksRoutingPrompt (message cluster region : string).

Record completed_process : Type :=
  { returncode : Z; stdout : string; stderr : string }.

Record http_response : Type := { status_code : Z; text : string }.

Record repository : Type :=
  { repositoryUri : string; repositoryArn : string }.

Record stack : Type :=
  { StackStatus : string;
    StackStatusReason : option string;
    Outputs : option (list (string * string)) }.

(** [Timestamp] is the event's time as [isoformat()] prints it. *)
Record stack_event : Type :=
  { Timestamp : string;
    LogicalResourceId : option string;
    ResourceType : option string;
    ResourceStatus : option string;
    ResourceStatusReason : option string }.

Record stack_summary : Type :=
  { StackName : string; SummaryStatus : string; CreationTime : string }.

Inductive call : Type :=
| InvokeModel (p : routing_prompt)
| Sleep (seconds : Z)
| TimeTime
| FormatExc (e : exn)
| PathExists (path : string)
| SubprocessRun (cmd : list json) (input : option string) (check : bool)
| HttpPost (url : string) (payload : json)
| EcrCreateRepository (region name : json)
| EcrDescribeRepositories (region : json) (names : list json)
| CfnDescribeStacks (region stack_name : json)
| CfnDescribeStackEvents (region stack_name : json)
| CfnListStacks (region : json) (status_filter : list string)
| CfnCreateStack (region : json) (stack_name : string) (template : json)
| CfnDeleteStack (region stack_name : json)
| GetK8sClient (cluster_name region : string)
| K8sDeleteDeployment (name : string)
| K8sDeleteService (name : string)
| K8sDeleteServiceAccount (name : string)
| OsUnlink (path : string)
| StsGetCallerIdentity
| Ec2DescribeVpcs (region : json) (default_only : bool)
| Ec2DescribeSubnets (region vpc_id : json) (public_only : bool)
| EcsCreateExpressGatewayService (region : json) (request : json)
| Boto3Client (service : string) (region : json).

(** What a call answers.  [InvokeModel] answers the text read from the
    response body; [TimeTime] answers [int(time.time())]; [GetK8sClient]
    (the helper [get_k8s_client]: describe the cluster, sign a token,
    write the CA file) answers the CA file's name. *)
Definition resp_ty (c : call) : Type :=
  match c with
  | InvokeModel _ => exn + string
  | Sleep _ => unit
  | TimeTime => Z
  | FormatExc _ => string
  | PathExists _ => bool
  | SubprocessRun _ _ _ => exn + completed_process
  | HttpPost _ _ => exn + http_response
  | EcrCreateRepository _ _ => exn + repository
  | EcrDescribeRepositories _ _ => exn + list repository
  | CfnDescribeStacks _ _ => exn + list stack
  | CfnDescribeStackEvents _ _ => exn + list stack_event
  | CfnListStacks _ _ => exn + list stack_summary
  | CfnCreateStack _ _ _ => exn + string
  | CfnDeleteStack _ _ => exn + unit
  | GetK8sClient _ _ => exn + string
  | K8sDeleteDeployment _ => exn + unit
  | K8sDeleteService _ => exn + unit
  | K8sDeleteServiceAccount _ => exn + unit
  | OsUnlink _ => exn + unit
  | StsGetCallerIdentity => exn + string
  | Ec2DescribeVpcs _ _ => exn + list string
  | Ec2DescribeSubnets _ _ _ => exn + list string
  | EcsCreateExpressGatewayService _ _ => exn + option string
  | Boto3Client _ _ => exn + unit
  end.

(** ** Programs *)

(** A handler's run: it returns, raises, or makes a call and goes on
    with the answer. *)
Inductive prog (A : Type) : Type :=
| Ret (a : A)
| Raise (e : exn)
| Call (c : call) (k : resp_ty c -> prog A).

Arguments Ret {A} a.
Arguments Raise {A} e.
Arguments Call {A} c k.

Fixpoint bind {A B : Type} (p : prog A) (f : A -> prog B) : prog B :=
  match p with
  | Ret a => f a
  | Raise e => Raise e
  | Call c k => Call c (fun r => bind (k r) f)
  end.

(** [try: p  except Exception as e: h e] *)
Fixpoint catch {A : Type} (p : prog A) (h : exn -> prog A) : prog A :=
  match p with
  | Ret a => Ret a
  | Raise e => h e
  | Call c k => Call c (fun r => catch (k r) h)
  end.

(** [try: p  except <class> as e: h e] *)
Definition catch_if {A : Type} (sel : exn -> bool) (p : prog A)
  (h : exn -> prog A) : prog A :=
  catch p (fun e => if sel e then h e else Raise e).

Definition lift {A : Type} (r : exn + A) : prog A :=
  match r with
  | inl e => Raise e
  | inr a => Ret a
  end.

(** Sequencing of steps that may raise and make no call. *)
Definition ebind {A B : Type} (r : exn + A) (f : A -> exn + B) : exn + B :=
  match r with
  | inl e => inl e
  | inr a => f a
  end.

(** A call that cannot raise. *)
Definition ask (c : call) : prog (resp_ty c) := Call c Ret.

Declare Scope prog_scope.
Delimit Scope prog_scope with prog.
Notation "x <- p ;; k" := (bind p (fun x => k))
  (at level 100, p at next level, right associativity) : prog_scope.
Notation "p ;;; k" := (bind p (fun _ => k))
  (at level 100, right associativity) : prog_scope.
Notation "x <-- r ; k" := (ebind r (fun x => k))
  (at level 100, r at next level, right associativity) : prog_scope.
Local Open Scope prog_scope.

(** The calls that may raise. *)
Definition invoke_model p : prog string :=
  r <- ask (InvokeModel p) ;; lift r.
Definition subprocess_run cmd input check : prog completed_process :=
  r <- ask (SubprocessRun cmd input check) ;; lift r.
Definition http_post url payload : prog http_response :=
  r <- ask (HttpPost url payload) ;; lift r.
Definition ecr_create_repository region name : prog repository :=
  r <- ask (EcrCreateRepository region name) ;; lift r.
Definition ecr_describe_repositories region names : prog (list repository) :=
  r <- ask (EcrDescribeRepositories region names) ;; lift r.
Definition cfn_describe_stacks region name : prog (list stack) :=
  r <- ask (CfnDescribeStacks region name) ;; lift r.
Definition cfn_describe_stack_events region name : prog (list stack_event) :=
  r <- ask (CfnDescribeStackEvents region name) ;; lift r.
Definition cfn_list_stacks region filter : prog (list stack_summary) :=
  r <- ask (CfnListStacks region filter) ;; lift r.
Definition cfn_create_stack region name template : prog string :=
  r <- ask (CfnCreateStack region name template) ;; lift r.
Definition cfn_delete_stack region name : prog unit :=
  r <- ask (CfnDeleteStack region name) ;; lift r.
Definition get_k8s_client cluster region : prog string :=
  r <- ask (GetK8sClient cluster region) ;; lift r.
Definition k8s_delete_deployment name : prog unit :=
  r <- ask (K8sDeleteDeployment name) ;; lift r.
Definition k8s_delete_service name : prog unit :=
  r <- ask (K8sDeleteService name) ;; lift r.
Definition k8s_delete_service_account name : prog unit :=
  r <- ask (K8sDeleteServiceAccount name) ;; lift r.
Definition os_unlink path : prog unit :=
  r <- ask (OsUnlink path) ;; lift r.
Definition sts_get_caller_identity : prog string :=
  r <- ask StsGetCallerIdentity ;; lift r.
Definition ec2_describe_vpcs region default_only : prog (list string) :=
  r <- ask (Ec2DescribeVpcs region default_only) ;; lift r.
Definition ec2_describe_subnets region vpc public_only : prog (list string) :=
  r <- ask (Ec2DescribeSubnets region vpc public_only) ;; lift r.
Definition ecs_create_express_gateway_service region request
  : prog (option string) :=
  r <- ask (EcsCreateExpressGatewayService region request) ;; lift r.
(** [boto3.client(service, region_name=region)] where the code creates
    the client outside of a [try]: the creation can raise (a region name
    that is no region name, a profile that is not found). *)
Definition boto3_client service region : prog unit :=
  r <- ask (Boto3Client service region) ;; lift r.

(** ** Worlds and runs *)

(** A world answers every call from its current state. *)
Record world (S : Type) : Type :=
  { respond : forall c : call, S -> resp_ty c * S }.
Arguments respond {S} w c s.

(** The outcome of a run: what the program returned or raised, the
    world's final state, and the calls made, in order. *)
Fixpoint run {S A : Type} (w : world S) (p : prog A) (s : S)
  : (exn + A) * S * list call :=
  match p with
  | Ret a => (inr a, s, [])
  | Raise e => (inl e, s, [])
  | Call c k =>
      let '(r, s1) := respond w c s in
      let '(out, s2, calls) := run w (k r) s1 in
      (out, s2, c :: calls)
  end.

Definition result_of {S A : Type} (o : (exn + A) * S * list call) : exn + A :=
  fst (fst o).
Definition state_of {S A : Type} (o : (exn + A) * S * list call) : S :=
  snd (fst o).
Definition calls_of {S A : Type} (o : (exn + A) * S * list call) : list call :=
  snd o.

(** ** web-ui/app.py *)

Module CONFIG.
Definition ecs_agent_arn : string :=
  "arn:aws:bedrock-agentcore:us-west-2:<AWS_ACCOUNT_ID>:runtime/ecs_deployment_agent-Kq38Lc3cm5".
Definition eks_agent_arn : string :=
  "arn:aws:bedrock-agentcore:us-west-2:<AWS_ACCOUNT_ID>:runtime/eks_deployment_agent-bJq2whDHLA".
Definition agent_region : string := "us-west-2".
Definition account_id : string := "<AWS_ACCOUNT_ID>".
Definition app_path : string := "$PROJECT_ROOT/sample-application".
Definition dynamodb_table : string := "blog-posts".
Definition s3_bucket_prefix : string := "blog-images-private".
Definition cognito_user_pool_id : string := "REPLACE_WITH_YOUR_USER_POOL_ID".
Definition cognito_client_id : string := "REPLACE_WITH_YOUR_CLIENT_ID".
Definition app_port : string := "3000".
Definition default_cpu : string := "512".
Definition default_memory : string := "1024".
Definition default_replicas : Z := 2.
End CONFIG.

Definition max_retries : Z := 5.
Definition base_delay : Z := 3.

(** [range(n)] *)
Definition range (n : Z) : list Z := List.map Z.of_nat (List.seq 0 (Z.to_nat n)).

(** The decision returned when an attempt fails for good
    (app.py, lines 201-206 and 346-350). *)
Definition ecs_error_decision (error_str : string) : json :=
  JObj [ ("operation", JStr "error");
         ("arguments", JObj []);
         ("reasoning",
           JStr ("Failed to route command after " ++ Str.of_Z max_retries
                   ++ " attempts: " ++ error_str)) ].

Definition eks_error_decision (error_str : string) : json :=
  JObj [ ("tool_name", JStr "error");
         ("arguments", JObj []);
         ("reasoning",
           JStr ("Failed to route command after " ++ Str.of_Z max_retries
                   ++ " attempts: " ++ error_str));
         ("needs_build", JBool false) ].

(** The decision after the loop (lines 209-214 and 353-357). *)
Definition ecs_exhausted_decision : json :=
  JObj [ ("operation", JStr "error");
         ("arguments", JObj []);
         ("reasoning",
           JStr "Failed to route command: Bedrock service unavailable after retries") ].

Definition eks_exhausted_decision : json :=
  JObj [ ("tool_name", JStr "error");
         ("arguments", JObj []);
         ("reasoning",
           JStr "Failed to route command: Bedrock service unavailable after retries");
         ("needs_build", JBool false) ].

Definition fence : string := "```".
Definition fence_json : string := "```json".

(** The pictographs of the chat replies, byte for byte as the source
    file has them. *)
Module Mark.
Definition robot := Str.of_bytes [239; 163; 191; 195; 188; 194; 167; 195; 177]%nat.
Definition bulb := Str.of_bytes [239; 163; 191; 195; 188; 195; 173; 194; 176]%nat.
Definition rocket := Str.of_bytes [239; 163; 191; 195; 188; 195; 182; 195; 132]%nat.
Definition ok := Str.of_bytes [226; 128; 154; 195; 186; 195; 150]%nat.
Definition cross := Str.of_bytes [226; 128; 154; 195; 185; 195; 165]%nat.
Definition hammer := Str.of_bytes [239; 163; 191; 195; 188; 195; 174; 194; 174]%nat.
Definition hourglass := Str.of_bytes [226; 128; 154; 195; 168; 226; 137; 165]%nat.
Definition clipboard := Str.of_bytes [239; 163; 191; 195; 188; 195; 172; 195; 163]%nat.
Definition bin :=
  Str.of_bytes [239; 163; 191; 195; 188; 195; 179; 195; 171; 195; 148; 226; 136;
                143; 195; 168]%nat.
Definition chart := Str.of_bytes [239; 163; 191; 195; 188; 195; 172; 195; 164]%nat.
Definition bullet := Str.of_bytes [226; 128; 154; 195; 132; 194; 162]%nat.
Definition warning :=
  Str.of_bytes [226; 128; 154; 195; 182; 226; 128; 160; 195; 148; 226; 136; 143;
                195; 168]%nat.
Definition globe := Str.of_bytes [239; 163; 191; 195; 188; 195; 165; 195; 170]%nat.
Definition package := Str.of_bytes [239; 163; 191; 195; 188; 195; 172; 194; 182]%nat.
Definition numbers := Str.of_bytes [239; 163; 191; 195; 188; 195; 174; 194; 162]%nat.
End Mark.

Definition nl : string := Str.nl.

Section WebUI.
Context `{PyLib}.

(** [content.split(sep)[1].split('```')[0].strip()] *)
Definition between_fences (sep : string) (content : json) : exn + json :=
  match content with
  | JStr s =>
      match Str.split_1 sep s with
      | Some x => inr (JStr (Str.strip (Str.split_0 fence x)))
      | None => inl (Exn IndexError "list index out of range")
      end
  | _ => inl (attribute_error content "split")
  end.

(** "Extract JSON from response" (lines 178-182 and 323-327). *)
Definition extract_json (content : json) : exn + json :=
  match py_in fence_json content with
  | inl e => inl e
  | inr true => between_fences fence_json content
  | inr false =>
      match py_in fence content with
      | inl e => inl e
      | inr true => between_fences fence content
      | inr false => inr content
      end
  end.

(** What the [try] of one attempt does with the text the oracle
    answered (lines 175-185 and 320-330): the envelope is parsed, the
    text of its first content block taken out of its code fence, and
    parsed in turn. *)
Definition decode_reply (body : string) : exn + json :=
  result <-- py_json_loads (JStr body) ;
  blocks <-- py_item result "content" ;
  block <-- py_first blocks ;
  content <-- py_item block "text" ;
  content <-- extract_json content ;
  py_json_loads content.

(** The body of the [try] of one attempt (lines 162-185 and 307-330). *)
Definition route_attempt (p : routing_prompt) : prog json :=
  body <- invoke_model p ;;
  routing_decision <- lift (decode_reply body) ;;
  Ret routing_decision.

(** The retry loop, [for attempt in range(max_retries)], with the
    decisions of the router at hand. *)
Fixpoint route_loop (error_decision : string -> json) (exhausted : json)
  (p : routing_prompt) (attempts : list Z) : prog json :=
  match attempts with
  | [] => Ret exhausted
  | attempt :: rest =>
      catch (route_attempt p)
        (fun e =>
           let error_str := exn_msg e in
           if is_throttling error_str && (attempt <? max_retries - 1) then
             let delay := base_delay * 2 ^ attempt in
             ask (Sleep delay) ;;;
             route_loop error_decision exhausted p rest
           else Ret (error_decision error_str))
  end.

Definition llm_route_eks_command (message cluster region : string) : prog json :=
  route_loop eks_error_decision eks_exhausted_decision
    (EksRoutingPrompt message cluster region) (range max_retries).

Definition llm_route_ecs_command (message region : string) : prog json :=
  route_loop ecs_error_decision ecs_exhausted_decision
    (EcsRoutingPrompt message region) (range max_retries).

(** *** check_stack_status *)

Definition opt_str (o : option string) : json :=
  match o with
  | Some s => JStr s
  | None => JNull
  end.

Definition event_info (event : stack_event) : json :=
  JObj [ ("timestamp", JStr (Timestamp event));
         ("resource", opt_str (LogicalResourceId event));
         ("type", opt_str (ResourceType event));
         ("status", opt_str (ResourceStatus event));
         ("reason", JStr (default "" (ResourceStatusReason event))) ].

(** ['FAILED' in event.get('ResourceStatus', '')] *)
Definition event_failed (event : stack_event) : bool :=
  Str.contains "FAILED" (default "" (ResourceStatus event)).

(** The stack's outputs as a dictionary, filled key by key. *)
Definition outputs_dict (outs : list (string * string)) : list (string * json) :=
  List.fold_left (fun d '(k, v) => Dict.set k (JStr v) d) outs [].

(** [status == 'CREATE_COMPLETE' or status == 'UPDATE_COMPLETE'] *)
Definition is_complete (status : string) : bool :=
  String.eqb status "CREATE_COMPLETE" || String.eqb status "UPDATE_COMPLETE".

Definition check_stack_status (stack_name region : json) : prog json :=
  catch_if is_client_error
    (stacks <- cfn_describe_stacks region stack_name ;;
     match stacks with
     | [] => Raise (Exn IndexError "list index out of range")
     | stack :: _ =>
         let status := StackStatus stack in
         let status_reason := default "" (StackStatusReason stack) in
         let result :=
           [ ("status", JStr status);
             ("reason", JStr status_reason);
             ("stack_name", stack_name) ] in
         result <-
           (if negb (is_complete status) then
              events <- cfn_describe_stack_events region stack_name ;;
              let recent := List.firstn 20 events in
              let failed_events := List.map event_info (List.filter event_failed recent) in
              let all_events := List.map event_info recent in
              Ret (Dict.set "recent_events" (JArr all_events)
                     (Dict.set "failed_events" (JArr failed_events) result))
            else Ret result) ;;
         let result :=
           if is_complete status then
             Dict.set "outputs"
               (JObj (outputs_dict (default [] (Outputs stack)))) result
           else result in
         Ret (JObj result)
     end)
    (fun e =>
       if Str.contains "does not exist" (exn_msg e) then
         Ret (JObj [("status", JStr "NOT_FOUND"); ("stack_name", stack_name)])
       else
         Ret (JObj [("status", JStr "ERROR"); ("message", JStr (exn_msg e))])).

(** *** build_and_push_docker_image *)

(** [for path in potential_paths]: both existence tests are made for a
    path before it is judged. *)
Fixpoint find_app_path (potential_paths : list string) : prog (option string) :=
  match potential_paths with
  | [] => Ret None
  | path :: rest =>
      let dockerfile_path := path ++ "/Dockerfile" in
      exists_ <- ask (PathExists path) ;;
      has_dockerfile <- ask (PathExists dockerfile_path) ;;
      if exists_ && has_dockerfile then Ret (Some path)
      else find_app_path rest
  end.

Definition build_error (message : string) : json :=
  JObj [("status", JStr "error"); ("message", JStr message)].

Definition build_and_push_docker_image (app_name : string) (region : json)
  : prog json :=
  let account_id := CONFIG.account_id in
  let workspace_root := "$PROJECT_ROOT" in
  found <- find_app_path
             [ workspace_root ++ "/" ++ app_name;
               workspace_root ++ "/sample-application" ] ;;
  let app_path := default CONFIG.app_path found in
  let registry := account_id ++ ".dkr.ecr." ++ py_str region ++ ".amazonaws.com" in
  let image_uri := registry ++ "/" ++ app_name ++ ":latest" in
  catch
    (catch_if is_repository_already_exists
       (ecr_create_repository region (JStr app_name) ;;; Ret tt)
       (fun _ => Ret tt) ;;;
     login_result <-
       subprocess_run
         [JStr "aws"; JStr "ecr"; JStr "get-login-password"; JStr "--region"; region]
         None false ;;
     if negb (returncode login_result =? 0) then
       Ret (build_error ("ECR login failed: " ++ stderr login_result))
     else
       docker_login <-
         subprocess_run
           [ JStr "docker"; JStr "login"; JStr "--username"; JStr "AWS";
             JStr "--password-stdin"; JStr registry ]
           (Some (stdout login_result)) false ;;
       if negb (returncode docker_login =? 0) then
         Ret (build_error ("Docker login failed: " ++ stderr docker_login))
       else
         let success :=
           JObj [ ("status", JStr "success");
                  ("image_uri", JStr image_uri);
                  ("app_path", JStr app_path);
                  ("message", JStr ("Successfully built and pushed " ++ image_uri)) ] in
         result <-
           subprocess_run
             [ JStr "docker"; JStr "buildx"; JStr "build"; JStr "--platform";
               JStr "linux/amd64,linux/arm64"; JStr "-t"; JStr image_uri;
               JStr "--push"; JStr app_path ]
             None false ;;
         if negb (returncode result =? 0) then
           result <-
             subprocess_run
               [ JStr "docker"; JStr "build"; JStr "-t";
                 JStr (app_name ++ ":latest"); JStr app_path ]
               None false ;;
           if negb (returncode result =? 0) then
             Ret (build_error ("Docker build failed: " ++ stderr result))
           else
             subprocess_run
               [JStr "docker"; JStr "tag"; JStr (app_name ++ ":latest"); JStr image_uri]
               None true ;;;
             result <-
               subprocess_run [JStr "docker"; JStr "push"; JStr image_uri] None false ;;
             if negb (returncode result =? 0) then
               Ret (build_error ("Docker push failed: " ++ stderr result))
             else Ret success
         else Ret success)
    (fun e => Ret (build_error (exn_msg e))).

(** *** invoke_strands_agent *)

Definition agent_url (agent_arn agent_region : string) : string :=
  let encoded_arn :=
    Str.replace_char "/" "%2F" (Str.replace_char ":" "%3A" agent_arn) in
  "https://bedrock-agentcore." ++ agent_region ++ ".amazonaws.com/runtimes/"
    ++ encoded_arn ++ "/invocations?qualifier=DEFAULT".

Definition invoke_strands_agent (agent_arn prompt agent_region : string)
  : prog json :=
  let url := agent_url agent_arn agent_region in
  let payload := JObj [("prompt", JStr prompt)] in
  response <- http_post url payload ;;
  if status_code response =? 200 then
    result <- lift (py_json_loads (JStr (text response))) ;;
    message <- lift (py_get result "message" (JObj [])) ;;
    content <- lift (py_get message "content" (JArr [])) ;;
    if truthy content then
      first <- lift (py_first content) ;;
      lift (py_get first "text" (JStr (py_str result)))
    else Ret (JStr ("Error: " ++ text response))
  else Ret (JStr ("Error: " ++ text response)).

(** *** ecs_chat *)

(** [jsonify({...})] *)
Definition jsonify (fields : list (string * json)) : json := JObj fields.

(** [text += v] *)
Definition py_concat (text : string) (v : json) : exn + string :=
  match v with
  | JStr s => inr (text ++ s)
  | _ =>
      inl (Exn TypeError
             ("can only concatenate str (not " ++ Str.dq ++ type_name v
                ++ Str.dq ++ ") to str"))
  end.

(** [v.update(other)] *)
Definition py_update (v : json) (other : list (string * json)) : exn + json :=
  match v with
  | JObj kv => inr (JObj (Dict.update kv other))
  | _ => inl (attribute_error v "update")
  end.

(** The elements [for x in v] walks through.  A string yields its
    characters (here its bytes: every loop of the handlers first calls
    [.get] on the element or subscripts it by a key, which fails alike on
    either). *)
Definition py_iter (v : json) : exn + list json :=
  match v with
  | JArr l => inr l
  | JObj kv => inr (List.map (fun '(k, _) => JStr k) kv)
  | JStr s =>
      inr (List.map (fun c => JStr (String c EmptyString)) (list_ascii_of_string s))
  | _ => inl (Exn TypeError (Str.sq ++ type_name v ++ "' object is not iterable"))
  end.

(** [v[:n]] *)
Definition py_slice (n : nat) (v : json) : exn + json :=
  match v with
  | JArr l => inr (JArr (List.firstn n l))
  | JStr s => inr (JStr (Str.take_chars n s))
  | JObj _ => inl (Exn TypeError "unhashable type: 'slice'")
  | _ => inl (not_subscriptable v)
  end.

(** [for x in l: text += ...] *)
Fixpoint for_each {A : Type} (l : list A) (text : string)
  (body : string -> A -> prog string) : prog string :=
  match l with
  | [] => Ret text
  | x :: rest => text <- body text x ;; for_each rest text body
  end.

(** ['blog' in app_name.lower() or 'sample' in app_name.lower()] *)
Definition is_blog_app (app_name : json) : exn + bool :=
  match py_lower app_name with
  | inl e => inl e
  | inr l => inr (Str.contains "blog" l || Str.contains "sample" l)
  end.

(** The values written over the oracle's [env_vars] for a blog or
    sample application (lines 1008-1015). *)
Definition ecs_enrichment (deploy_region app_port : json) : list (string * json) :=
  [ ("AWS_REGION", deploy_region);
    ("DYNAMODB_TABLE", JStr CONFIG.dynamodb_table);
    ("S3_BUCKET",
      JStr (CONFIG.s3_bucket_prefix ++ "-" ++ CONFIG.account_id ++ "-"
              ++ py_str deploy_region));
    ("COGNITO_USER_POOL_ID", JStr CONFIG.cognito_user_pool_id);
    ("COGNITO_CLIENT_ID", JStr CONFIG.cognito_client_id);
    ("PORT", JStr (py_str app_port)) ].

(** The prompt that submits the deployment to the agent (lines 1057-1067). *)
Definition ecs_deploy_prompt (image_uri : string) (deploy_region : json)
  (service_name : string) (cpu memory app_port desired_count env_vars : json)
  : string :=
  "Deploy the image " ++ image_uri ++ " to ECS Express Mode in "
    ++ py_str deploy_region ++ "." ++ nl
    ++ "Use these parameters:" ++ nl
    ++ "- service_name: " ++ service_name ++ nl
    ++ "- cpu: " ++ py_str cpu ++ nl
    ++ "- memory: " ++ py_str memory ++ nl
    ++ "- port: " ++ py_str app_port ++ nl
    ++ "- region: " ++ py_str deploy_region ++ nl
    ++ "- desired_count: " ++ py_str desired_count ++ nl
    ++ "- environment_variables: " ++ json_dumps env_vars ++ nl
    ++ nl
    ++ "Make sure to pass the environment_variables and desired_count parameters to the deploy_ecs_express_service tool.".

(** The report on the stack after the submission (lines 1089-1117). *)
Definition ecs_stack_report (stack_name : string) (stack_status : json)
  (response_text : string) : prog string :=
  status <- lift (py_item stack_status "status") ;;
  if eq_str status "CREATE_IN_PROGRESS" then
    Ret (response_text
           ++ Mark.hourglass ++ " Stack is being created: " ++ stack_name ++ nl
           ++ "Status: " ++ py_str status ++ nl
           ++ nl ++ Mark.bulb
           ++ " Monitor progress in CloudFormation console or check back in a few minutes."
           ++ nl)
  else
    failed <- lift (py_in "FAILED" status) ;;
    rollback <- (if failed then Ret true else lift (py_in "ROLLBACK" status)) ;;
    if rollback then
      let response_text :=
        response_text ++ Mark.cross ++ " Stack creation failed: " ++ py_str status ++ nl in
      reason <- lift (py_get stack_status "reason" JNull) ;;
      let response_text :=
        if truthy reason then response_text ++ "Reason: " ++ py_str reason ++ nl
        else response_text in
      failed_events <- lift (py_get stack_status "failed_events" JNull) ;;
      response_text <-
        (if truthy failed_events then
           events <- lift (py_iter failed_events) ;;
           for_each events (response_text ++ nl ++ "**Failed Resources:**" ++ nl)
             (fun text event =>
                resource <- lift (py_item event "resource") ;;
                type <- lift (py_item event "type") ;;
                status <- lift (py_item event "status") ;;
                reason <- lift (py_item event "reason") ;;
                Ret (text ++ "- " ++ py_str resource ++ " (" ++ py_str type ++ ")" ++ nl
                       ++ "  Status: " ++ py_str status ++ nl
                       ++ "  Reason: " ++ py_str reason ++ nl ++ nl))
         else Ret response_text) ;;
      recent_events <- lift (py_get stack_status "recent_events" JNull) ;;
      if truthy recent_events then
        recent <- lift (py_slice 5 recent_events) ;;
        events <- lift (py_iter recent) ;;
        for_each events
          (response_text ++ nl ++ "**Recent Events:**" ++ nl)
          (fun text event =>
             timestamp <- lift (py_item event "timestamp") ;;
             resource <- lift (py_item event "resource") ;;
             status <- lift (py_item event "status") ;;
             let text :=
               text ++ "- [" ++ py_str timestamp ++ "] " ++ py_str resource ++ ": "
                 ++ py_str status ++ nl in
             reason <- lift (py_item event "reason") ;;
             if truthy reason then Ret (text ++ "  " ++ py_str reason ++ nl)
             else Ret text)
      else Ret response_text
    else if eq_str status "CREATE_COMPLETE" then
      let response_text :=
        response_text ++ Mark.ok ++ " Stack created successfully!" ++ nl in
      outputs <- lift (py_get stack_status "outputs" JNull) ;;
      if truthy outputs then
        match outputs with
        | JObj kv =>
            for_each kv (response_text ++ nl ++ "**Endpoints:**" ++ nl)
              (fun text '(key, value) =>
                 Ret (text ++ "- " ++ key ++ ": " ++ py_str value ++ nl))
        | _ => Raise (attribute_error outputs "items")
        end
      else Ret response_text
    else Ret response_text.

(** Step 1 of the deployment: the registry (lines 1031-1038). *)
Definition ecs_step_registry (app_name : string) (deploy_region : json)
  (response_text : string) : prog string :=
  let response_text := response_text ++ "**Step 1: Create ECR Repository**" ++ nl in
  catch_if is_repository_already_exists
    (ecr_create_repository deploy_region (JStr app_name) ;;;
     Ret (response_text ++ Mark.ok ++ " Created ECR repository: " ++ app_name ++ nl))
    (fun _ =>
       Ret (response_text ++ Mark.ok ++ " ECR repository already exists: "
              ++ app_name ++ nl)).

(** Step 3 and the status check (lines 1052-1119). *)
Definition ecs_step_deploy (app_name service_name image_uri : string)
  (deploy_region cpu memory app_port desired_count env_vars : json)
  (response_text : string) : prog json :=
  let response_text :=
    response_text ++ nl ++ "**Step 3: Deploy to ECS Express Mode**" ++ nl
      ++ Mark.rocket ++ " Deploying service " ++ service_name ++ " with "
      ++ py_str desired_count ++ " task(s)..." ++ nl in
  let prompt :=
    ecs_deploy_prompt image_uri deploy_region service_name cpu memory app_port
      desired_count env_vars in
  result <- invoke_strands_agent CONFIG.ecs_agent_arn prompt CONFIG.agent_region ;;
  let response_text :=
    response_text ++ nl ++ Mark.ok ++ " **Deployment Initiated!**" ++ nl ++ nl
      ++ "Service: " ++ service_name ++ nl
      ++ "Region: " ++ py_str deploy_region ++ nl
      ++ "CPU: " ++ py_str cpu ++ ", Memory: " ++ py_str memory ++ " MB" ++ nl
      ++ "Desired Tasks: " ++ py_str desired_count ++ nl
      ++ "Port: " ++ py_str app_port ++ nl
      ++ "Image: " ++ image_uri ++ nl ++ nl
      ++ "Agent response:" ++ nl ++ py_str result ++ nl ++ nl in
  let stack_name := "ecs-express-" ++ service_name in
  let response_text :=
    response_text ++ "**Checking deployment status...**" ++ nl ++ nl in
  ask (Sleep 5) ;;;
  stack_status <- check_stack_status (JStr stack_name) deploy_region ;;
  response_text <- ecs_stack_report stack_name stack_status response_text ;;
  Ret (jsonify [("status", JStr "success"); ("result", JStr response_text)]).

(** Step 2 and what follows it (lines 1040-1050). *)
Definition ecs_step_build (app_name service_name image_uri : string)
  (deploy_region cpu memory app_port desired_count env_vars : json)
  (response_text : string) : prog json :=
  let response_text :=
    response_text ++ nl ++ "**Step 2: Build and Push Docker Image**" ++ nl in
  build_result <- build_and_push_docker_image app_name deploy_region ;;
  status <- lift (py_item build_result "status") ;;
  if negb (eq_str status "success") then
    message <- lift (py_item build_result "message") ;;
    let response_text :=
      response_text ++ Mark.cross ++ " Build failed: " ++ py_str message ++ nl in
    Ret (jsonify [("status", JStr "error"); ("result", JStr response_text)])
  else
    app_path <- lift (py_get build_result "app_path" (JStr "unknown")) ;;
    built_uri <- lift (py_item build_result "image_uri") ;;
    let response_text :=
      response_text ++ Mark.hammer ++ " Built from: " ++ py_str app_path ++ nl
        ++ Mark.ok ++ " Image built and pushed: " ++ py_str built_uri ++ nl in
    ecs_step_deploy app_name service_name image_uri deploy_region cpu memory
      app_port desired_count env_vars response_text.

(** The three steps of the deployment (lines 1031-1119). *)
Definition ecs_deploy_pipeline (app_name service_name image_uri : string)
  (deploy_region cpu memory app_port desired_count env_vars : json)
  (response_text : string) : prog json :=
  response_text <- ecs_step_registry app_name deploy_region response_text ;;
  ecs_step_build app_name service_name image_uri deploy_region cpu memory
    app_port desired_count env_vars response_text.

(** The [deploy] branch (lines 994-1119). *)
Definition ecs_chat_deploy (arguments region : json) (response_text : string)
  : prog json :=
  app_name <- lift (py_get arguments "app_name" JNull) ;;
  cpu <- lift (py_get arguments "cpu" (JStr CONFIG.default_cpu)) ;;
  memory <- lift (py_get arguments "memory" (JStr CONFIG.default_memory)) ;;
  desired_count <- lift (py_get arguments "desired_count" (JNum 1)) ;;
  deploy_region <- lift (py_get arguments "region" region) ;;
  app_port <- lift (py_get arguments "port" (JStr CONFIG.app_port)) ;;
  env_vars <-
    lift (py_get arguments "env_vars"
            (JObj [("AWS_REGION", deploy_region); ("PORT", JStr (py_str app_port))])) ;;
  blog <- lift (is_blog_app app_name) ;;
  env_vars <-
    (if blog then lift (py_update env_vars (ecs_enrichment deploy_region app_port))
     else Ret env_vars) ;;
  if negb (truthy app_name) then
    Ret (jsonify
           [ ("status", JStr "error");
             ("result",
               JStr "Could not determine app name from your message. Please specify the app name.") ])
  else
    let app_name := py_str app_name in
    now <- ask TimeTime ;;
    let service_name := app_name ++ "-" ++ Str.of_Z now in
    let image_uri :=
      CONFIG.account_id ++ ".dkr.ecr." ++ py_str deploy_region
        ++ ".amazonaws.com/" ++ app_name ++ ":latest" in
    let response_text :=
      response_text ++ Mark.rocket ++ " **ECS Deployment Workflow for " ++ app_name
        ++ "**" ++ nl ++ nl
        ++ "Starting automated deployment to " ++ py_str deploy_region ++ "..." ++ nl
        ++ "CPU: " ++ py_str cpu ++ ", Memory: " ++ py_str memory ++ " MB, Tasks: "
        ++ py_str desired_count ++ ", Port: " ++ py_str app_port ++ nl ++ nl in
    ecs_deploy_pipeline app_name service_name image_uri deploy_region cpu memory
      app_port desired_count env_vars response_text.

(** The [list] branch (lines 1122-1129). *)
Definition ecs_chat_list (arguments region : json) (response_text : string)
  : prog json :=
  list_region <- lift (py_get arguments "region" region) ;;
  let prompt := "List all ECS services in " ++ py_str list_region in
  result <- invoke_strands_agent CONFIG.ecs_agent_arn prompt CONFIG.agent_region ;;
  let response_text :=
    response_text ++ Mark.clipboard ++ " **ECS Services in " ++ py_str list_region
      ++ "**" ++ nl ++ nl in
  response_text <- lift (py_concat response_text result) ;;
  Ret (jsonify [("status", JStr "success"); ("result", JStr response_text)]).

(** The [delete] branch (lines 1132-1148). *)
Definition ecs_chat_delete (arguments region : json) (response_text : string)
  : prog json :=
  service_name <- lift (py_get arguments "service_name" JNull) ;;
  delete_region <- lift (py_get arguments "region" region) ;;
  if negb (truthy service_name) then
    Ret (jsonify
           [ ("status", JStr "error");
             ("result",
               JStr "Could not determine service name from your message. Please specify the service name.") ])
  else
    let prompt :=
      "Delete the ECS service named " ++ py_str service_name ++ " in region "
        ++ py_str delete_region in
    result <- invoke_strands_agent CONFIG.ecs_agent_arn prompt CONFIG.agent_region ;;
    let response_text :=
      response_text ++ Mark.bin ++ " **Deleting Service " ++ py_str service_name
        ++ "**" ++ nl ++ nl in
    response_text <- lift (py_concat response_text result) ;;
    Ret (jsonify [("status", JStr "success"); ("result", JStr response_text)]).

(** The [status] branch (lines 1151-1184). *)
Definition ecs_chat_status (arguments region : json) (response_text : string)
  : prog json :=
  status_region <- lift (py_get arguments "region" region) ;;
  summaries <-
    cfn_list_stacks status_region
      ["CREATE_COMPLETE"; "UPDATE_COMPLETE"; "DELETE_IN_PROGRESS"] ;;
  let ecs_stacks :=
    List.filter (fun st => Str.contains "ecs-express" (StackName st)) summaries in
  let response_text :=
    response_text ++ Mark.chart ++ " **CloudFormation Stacks in "
      ++ py_str status_region ++ "**" ++ nl ++ nl
      ++ "Total ECS stacks: " ++ Str.of_Z (Z.of_nat (List.length ecs_stacks))
      ++ nl ++ nl in
  let response_text :=
    match ecs_stacks with
    | [] => response_text ++ "No ECS stacks found." ++ nl
    | _ =>
        List.fold_left
          (fun text st =>
             text ++ Mark.bullet ++ " **" ++ StackName st ++ "**" ++ nl
               ++ "  Status: " ++ SummaryStatus st ++ nl
               ++ "  Created: " ++ CreationTime st ++ nl ++ nl)
          ecs_stacks response_text
    end in
  Ret (jsonify [("status", JStr "success"); ("result", JStr response_text)]).

(** The dispatch on the routing decision (lines 979-1195). *)
Definition ecs_dispatch (routing region : json) : prog json :=
  operation <- lift (py_get routing "operation" JNull) ;;
  arguments <- lift (py_get routing "arguments" (JObj [])) ;;
  reasoning <- lift (py_get routing "reasoning" (JStr "")) ;;
  if negb (truthy operation) then
    Ret (jsonify
           [ ("status", JStr "error");
             ("result",
               JStr ("LLM failed to determine operation. Routing response: "
                       ++ json_dumps_indent routing)) ])
  else
    let response_text :=
      Mark.robot ++ " **Understanding your request...**" ++ nl ++ nl
        ++ Mark.bulb ++ " " ++ py_str reasoning ++ nl ++ nl in
    if eq_str operation "deploy" then ecs_chat_deploy arguments region response_text
    else if eq_str operation "list" then ecs_chat_list arguments region response_text
    else if eq_str operation "delete" then
      ecs_chat_delete arguments region response_text
    else if eq_str operation "status" then
      ecs_chat_status arguments region response_text
    else if eq_str operation "error" then
      Ret (jsonify [("status", JStr "error"); ("result", reasoning)])
    else
      Ret (jsonify
             [ ("status", JStr "error");
               ("result",
                 JStr ("Unknown operation: " ++ py_str operation
                         ++ ". The LLM suggested an operation that is not implemented.")) ]).

(** The reply of the outer [except Exception] (lines 1197-1199 and
    1428-1430). *)
Definition chat_failure (e : exn) : prog json :=
  traceback <- ask (FormatExc e) ;;
  Ret (jsonify
         [ ("status", JStr "error");
           ("message", JStr (exn_msg e ++ nl ++ nl ++ traceback)) ]).

(** [POST /api/ecs/chat] with the request's JSON body [data]. *)
Definition ecs_chat (data : json) : prog json :=
  message <- lift (py_get data "message" JNull) ;;
  region <- lift (py_get data "region" (JStr "us-west-2")) ;;
  catch
    (routing <- llm_route_ecs_command (py_str message) (py_str region) ;;
     ecs_dispatch routing region)
    chat_failure.

(** *** invoke_mcp_tool *)

(** [len(v) > 0] *)
Definition py_nonempty (v : json) : exn + bool :=
  match v with
  | JStr _ | JArr _ | JObj _ => inr (truthy v)
  | _ => inl (Exn TypeError ("object of type '" ++ type_name v ++ "' has no len()"))
  end.

(** What one [data:] line yields: [Some r] when the function returns
    [r], [None] when the loop goes on (lines 601-614). *)
Definition mcp_data_line (data : string) : prog (option json) :=
  catch_if is_json_decode_error
    (result <- lift (py_json_loads (JStr data)) ;;
     has_result <- lift (py_in "result" result) ;;
     has_content <-
       (if has_result then
          inner <- lift (py_item result "result") ;;
          lift (py_in "content" inner)
        else Ret false) ;;
     if has_content then
       inner <- lift (py_item result "result") ;;
       content <- lift (py_item inner "content") ;;
       nonempty <- (if truthy content then lift (py_nonempty content) else Ret false) ;;
       if nonempty then
         first <- lift (py_first content) ;;
         text <- lift (py_get first "text" (JStr "")) ;;
         catch_if is_json_decode_error
           (parsed <- lift (py_json_loads text) ;; Ret (Some parsed))
           (fun _ =>
              Ret (Some (JObj [("status", JStr "success"); ("message", text)])))
       else Ret (Some result)
     else Ret (Some result))
    (fun _ => Ret None).

Fixpoint mcp_lines (lines : list string) : prog (option json) :=
  match lines with
  | [] => Ret None
  | line :: rest =>
      if String.prefix "data: " line then
        r <- mcp_data_line (Str.drop 6 line) ;;
        match r with
        | Some v => Ret (Some v)
        | None => mcp_lines rest
        end
      else mcp_lines rest
  end.

Definition invoke_mcp_tool (agent_arn : string) (tool_name arguments : json)
  (agent_region : string) : prog json :=
  let url := agent_url agent_arn agent_region in
  let payload :=
    JObj [ ("jsonrpc", JStr "2.0");
           ("id", JNum 1);
           ("method", JStr "tools/call");
           ("params", JObj [("name", tool_name); ("arguments", arguments)]) ] in
  response <- http_post url payload ;;
  if status_code response =? 200 then
    let lines := Str.split_all nl (Str.strip (text response)) in
    r <- mcp_lines lines ;;
    match r with
    | Some v => Ret v
    | None =>
        Ret (JObj [ ("status", JStr "error");
                    ("message",
                      JStr ("No valid MCP response found. Raw response: "
                              ++ Str.take_chars 500 (text response))) ])
    end
  else
    Ret (JObj [ ("status", JStr "error");
                ("message",
                  JStr ("HTTP " ++ Str.of_Z (status_code response) ++ ": "
                          ++ Str.take_chars 500 (text response))) ]).

(** *** eks_chat *)

(** [isinstance(v, dict)] *)
Definition is_dict (v : json) : bool :=
  match v with
  | JObj _ => true
  | _ => false
  end.

(** The values written over the oracle's [env_vars] (lines 1243-1251). *)
Definition eks_enrichment (region app_port : json) : list (string * json) :=
  [ ("AWS_REGION", region);
    ("DYNAMODB_TABLE", JStr CONFIG.dynamodb_table);
    ("S3_BUCKET",
      JStr (CONFIG.s3_bucket_prefix ++ "-" ++ CONFIG.account_id ++ "-"
              ++ py_str region));
    ("COGNITO_USER_POOL_ID", JStr CONFIG.cognito_user_pool_id);
    ("COGNITO_CLIENT_ID", JStr CONFIG.cognito_client_id);
    ("PORT", JStr (py_str app_port));
    ("NODE_ENV", JStr "production") ].

(** "Ensure ... is an integer" (lines 1255-1266). *)
Definition ensure_int (v : json) (fallback : Z) : json :=
  match v with
  | JStr s =>
      match py_int s with
      | Some n => JNum n
      | None => JNum fallback
      end
  | _ => v
  end.

(** The arguments of the deployment tool call (lines 1339-1349). *)
Definition eks_deploy_arguments (cluster : json) (app_name image_uri : string)
  (app_port replicas env_vars region role_arn : json) : json :=
  JObj [ ("cluster_name", cluster);
         ("app_name", JStr app_name);
         ("image_uri", JStr image_uri);
         ("port", app_port);
         ("replicas", replicas);
         ("env_vars", env_vars);
         ("region", region);
         ("role_arn", role_arn);
         ("service_account_name", JStr (app_name ++ "-sa")) ].

(** Step 4 (lines 1331-1372). *)
Definition eks_step_deploy (cluster : json) (app_name image_uri : string)
  (app_port replicas env_vars region role_arn : json) (response_text : string)
  : prog json :=
  let response_text :=
    response_text ++ nl ++ "**Step 4: Deploy to EKS**" ++ nl
      ++ Mark.rocket ++ " Deploying to Kubernetes..." ++ nl in
  deploy_result <-
    invoke_mcp_tool CONFIG.eks_agent_arn (JStr "deploy_to_eks_with_irsa")
      (eks_deploy_arguments cluster app_name image_uri app_port replicas env_vars
         region role_arn)
      CONFIG.agent_region ;;
  if is_dict deploy_result then
    status <- lift (py_get deploy_result "status" JNull) ;;
    if eq_str status "success" then
      let response_text :=
        response_text ++ nl ++ Mark.ok ++ " **Deployment Complete!**" ++ nl ++ nl in
      endpoint <- lift (py_get deploy_result "endpoint" JNull) ;;
      let response_text :=
        if truthy endpoint then
          response_text ++ Mark.globe ++ " Endpoint: " ++ py_str endpoint ++ nl
        else response_text in
      ready <- lift (py_get deploy_result "replicas" replicas) ;;
      let response_text :=
        response_text ++ Mark.package ++ " App: " ++ app_name ++ nl
          ++ Mark.numbers ++ " Replicas: " ++ py_str ready ++ nl
          ++ nl ++ Mark.bulb
          ++ " Access your app at the endpoint above (may take 2-3 minutes for LoadBalancer to be ready)"
          ++ nl in
      Ret (jsonify [("status", JStr "success"); ("result", JStr response_text)])
    else
      error_msg <- lift (py_get deploy_result "message" (JStr (py_str deploy_result))) ;;
      let response_text :=
        response_text ++ Mark.cross ++ " Deployment failed: " ++ py_str error_msg ++ nl in
      Ret (jsonify [("status", JStr "error"); ("result", JStr response_text)])
  else
    let response_text :=
      response_text ++ Mark.cross ++ " Unexpected response type: "
        ++ type_name deploy_result ++ nl
        ++ "Response: " ++ Str.take_chars 500 (py_str deploy_result) ++ nl in
    Ret (jsonify [("status", JStr "error"); ("result", JStr response_text)]).

(** Step 3 and what follows it (lines 1319-1329). *)
Definition eks_step_build (cluster : json) (app_name image_uri : string)
  (app_port replicas env_vars region role_arn : json) (response_text : string)
  : prog json :=
  let response_text :=
    response_text ++ nl ++ "**Step 3: Build and Push Docker Image**" ++ nl in
  build_result <- build_and_push_docker_image app_name region ;;
  status <- lift (py_item build_result "status") ;;
  if negb (eq_str status "success") then
    message <- lift (py_item build_result "message") ;;
    let response_text :=
      response_text ++ Mark.cross ++ " Build failed: " ++ py_str message ++ nl in
    Ret (jsonify [("status", JStr "error"); ("result", JStr response_text)])
  else
    app_path <- lift (py_get build_result "app_path" (JStr "unknown")) ;;
    built_uri <- lift (py_item build_result "image_uri") ;;
    let response_text :=
      response_text ++ Mark.hammer ++ " Built from: " ++ py_str app_path ++ nl
        ++ Mark.ok ++ " Image built and pushed: " ++ py_str built_uri ++ nl in
    eks_step_deploy cluster app_name image_uri app_port replicas env_vars region
      role_arn response_text.

(** Steps 1 and 2: the identity provider and the role (lines 1280-1317). *)
Definition eks_step_identity (cluster : json) (app_name image_uri : string)
  (app_port replicas env_vars region : json) (response_text : string)
  : prog json :=
  let response_text := response_text ++ "**Step 1: Setup OIDC Provider**" ++ nl in
  oidc_result <-
    invoke_mcp_tool CONFIG.eks_agent_arn (JStr "setup_oidc_provider")
      (JObj [("cluster_name", cluster); ("region", region)]) CONFIG.agent_region ;;
  response_text <-
    (if is_dict oidc_result then
       status <- lift (py_get oidc_result "status" JNull) ;;
       if eq_str status "exists" || eq_str status "created" then
         Ret (response_text ++ Mark.ok ++ " OIDC Provider: " ++ py_str status ++ nl)
       else
         message <- lift (py_get oidc_result "message" (JStr "Unknown status")) ;;
         Ret (response_text ++ Mark.warning ++ " OIDC: " ++ py_str message ++ nl)
     else Ret response_text) ;;
  let response_text := response_text ++ nl ++ "**Step 2: Create IRSA Role**" ++ nl in
  irsa_result <-
    invoke_mcp_tool CONFIG.eks_agent_arn (JStr "create_irsa_role")
      (JObj [ ("cluster_name", cluster);
              ("app_name", JStr app_name);
              ("region", region);
              ("s3_bucket",
                JStr (CONFIG.s3_bucket_prefix ++ "-" ++ CONFIG.account_id ++ "-"
                        ++ py_str region));
              ("dynamodb_table", JStr CONFIG.dynamodb_table) ])
      CONFIG.agent_region ;;
  if is_dict irsa_result then
    status <- lift (py_get irsa_result "status" JNull) ;;
    if eq_str status "created" || eq_str status "updated" then
      role_arn <- lift (py_get irsa_result "role_arn" JNull) ;;
      let response_text :=
        response_text ++ Mark.ok ++ " IRSA Role: " ++ py_str role_arn ++ nl in
      eks_step_build cluster app_name image_uri app_port replicas env_vars region
        role_arn response_text
    else
      message <- lift (py_get irsa_result "message" (JStr "Unknown status")) ;;
      let response_text :=
        response_text ++ Mark.warning ++ " IRSA: " ++ py_str message ++ nl in
      Ret (jsonify [("status", JStr "error"); ("result", JStr response_text)])
  else
    eks_step_build cluster app_name image_uri app_port replicas env_vars region
      JNull response_text.

(** The [deploy_workflow] branch (lines 1232-1372). *)
Definition eks_chat_deploy (arguments cluster region : json)
  (response_text : string) : prog json :=
  app_name <- lift (py_get arguments "app_name" JNull) ;;
  replicas <- lift (py_get arguments "replicas" (JNum CONFIG.default_replicas)) ;;
  app_port <- lift (py_get arguments "port" (JNum 3000)) ;;
  env_vars <-
    lift (py_get arguments "env_vars"
            (JObj [("PORT", JStr (py_str app_port)); ("NODE_ENV", JStr "production")])) ;;
  blog <- lift (is_blog_app app_name) ;;
  env_vars <-
    (if blog then lift (py_update env_vars (eks_enrichment region app_port))
     else Ret env_vars) ;;
  let replicas := ensure_int replicas CONFIG.default_replicas in
  let app_port := ensure_int app_port 3000 in
  if negb (truthy app_name) then
    Ret (jsonify
           [ ("status", JStr "error");
             ("result",
               JStr "Could not determine app name from your message. Please specify the app name.") ])
  else
    let app_name := py_str app_name in
    let image_uri :=
      CONFIG.account_id ++ ".dkr.ecr." ++ py_str region ++ ".amazonaws.com/"
        ++ app_name ++ ":latest" in
    let response_text :=
      response_text ++ Mark.rocket ++ " **EKS Deployment Workflow for " ++ app_name
        ++ "**" ++ nl ++ nl
        ++ "Starting automated deployment to " ++ py_str cluster ++ " in "
        ++ py_str region ++ "..." ++ nl
        ++ "Replicas: " ++ py_str replicas ++ ", Port: " ++ py_str app_port
        ++ nl ++ nl in
    eks_step_identity cluster app_name image_uri app_port replicas env_vars region
      response_text.

(** The [list_deployments] branch (lines 1375-1402). *)
Definition eks_chat_list (tool_name arguments cluster : json)
  (response_text : string) : prog json :=
  result <- invoke_mcp_tool CONFIG.eks_agent_arn tool_name arguments CONFIG.agent_region ;;
  if is_dict result then
    status <- lift (py_get result "status" JNull) ;;
    if eq_str status "success" then
      deployments <- lift (py_get result "deployments" (JArr [])) ;;
      count <- lift (py_get result "count" (JNum 0)) ;;
      let response_text :=
        response_text ++ Mark.clipboard ++ " **Deployments in " ++ py_str cluster
          ++ "**" ++ nl ++ nl
          ++ "Total: " ++ py_str count ++ " deployment(s)" ++ nl ++ nl in
      response_text <-
        (if truthy deployments then
           deps <- lift (py_iter deployments) ;;
           for_each deps response_text
             (fun text dep =>
                name <- lift (py_get dep "name" (JStr "unknown")) ;;
                let text := text ++ Mark.bullet ++ " **" ++ py_str name ++ "**" ++ nl in
                replicas <- lift (py_get dep "replicas" (JNum 0)) ;;
                ready <- lift (py_get dep "ready" (JNum 0)) ;;
                let text :=
                  text ++ "  Replicas: " ++ py_str replicas ++ " (Ready: "
                    ++ py_str ready ++ ")" ++ nl in
                created <- lift (py_get dep "created" JNull) ;;
                let text :=
                  if truthy created then text ++ "  Created: " ++ py_str created ++ nl
                  else text in
                Ret (text ++ nl))
         else Ret (response_text ++ "No deployments found." ++ nl)) ;;
      Ret (jsonify [("status", JStr "success"); ("result", JStr response_text)])
    else
      message <- lift (py_get result "message" (JStr "Failed to list deployments")) ;;
      Ret (jsonify [("status", JStr "error"); ("result", message)])
  else
    Ret (jsonify
           [ ("status", JStr "error");
             ("result", JStr ("Unexpected response: " ++ py_str result)) ]).

(** The branch of the tools passed through as they are (lines 1404-1417). *)
Definition eks_chat_tool (tool_name arguments : json) (response_text : string)
  : prog json :=
  result <- invoke_mcp_tool CONFIG.eks_agent_arn tool_name arguments CONFIG.agent_region ;;
  if is_dict result then
    let response_text :=
      response_text ++ "**Result:**" ++ nl ++ nl ++ json_dumps_indent result in
    Ret (jsonify [("status", JStr "success"); ("result", JStr response_text)])
  else
    Ret (jsonify
           [ ("status", JStr "error");
             ("result", JStr ("Unexpected response: " ++ py_str result)) ]).

Definition eks_dispatch (routing cluster region : json) : prog json :=
  tool_name <- lift (py_get routing "tool_name" JNull) ;;
  arguments <- lift (py_get routing "arguments" (JObj [])) ;;
  reasoning <- lift (py_get routing "reasoning" (JStr "")) ;;
  needs_build <- lift (py_get routing "needs_build" (JBool false)) ;;
  if negb (truthy tool_name) then
    Ret (jsonify
           [ ("status", JStr "error");
             ("result",
               JStr ("LLM failed to determine tool. Routing response: "
                       ++ json_dumps_indent routing)) ])
  else
    let response_text :=
      Mark.robot ++ " **Understanding your request...**" ++ nl ++ nl
        ++ Mark.bulb ++ " " ++ py_str reasoning ++ nl ++ nl in
    if eq_str tool_name "deploy_workflow" then
      eks_chat_deploy arguments cluster region response_text
    else if eq_str tool_name "list_deployments" then
      eks_chat_list tool_name arguments cluster response_text
    else if List.existsb (eq_str tool_name)
              [ "get_deployment_status"; "delete_eks_deployment";
                "setup_oidc_provider"; "create_irsa_role" ] then
      eks_chat_tool tool_name arguments response_text
    else if eq_str tool_name "error" then
      Ret (jsonify [("status", JStr "error"); ("result", reasoning)])
    else
      Ret (jsonify
             [ ("status", JStr "error");
               ("result",
                 JStr ("Unknown tool: " ++ py_str tool_name
                         ++ ". The LLM suggested a tool that is not implemented.")) ]).

(** [POST /api/eks/chat] with the request's JSON body [data]. *)
Definition eks_chat (data : json) : prog json :=
  message <- lift (py_get data "message" JNull) ;;
  cluster <- lift (py_get data "cluster" (JStr "ec2-eks-migration")) ;;
  region <- lift (py_get data "region" (JStr "eu-north-1")) ;;
  catch
    (routing <-
       llm_route_eks_command (py_str message) (py_str cluster) (py_str region) ;;
     eks_dispatch routing cluster region)
    chat_failure.

End WebUI.

(** ** agentcore-agent-runtime/agent.py *)

Section EcsAgent.
Context `{PyLib}.

(** The client is created before the [try] (line 20).  Nothing catches
    what its creation raises, nor what [create_repository] raises other
    than [RepositoryAlreadyExistsException], which no creation of a
    client raises: the creation is kept with the first call, and
    [EcrCreateRepository] answers with the exception of either. *)
Definition create_ecr_repository (app_name region : string) : prog json :=
  catch_if is_repository_already_exists
    (response <- ecr_create_repository (JStr region) (JStr app_name) ;;
     Ret (JObj [ ("status", JStr "success");
                 ("repository_uri", JStr (repositoryUri response));
                 ("repository_arn", JStr (repositoryArn response)) ]))
    (fun _ =>
       repositories <- ecr_describe_repositories (JStr region) [JStr app_name] ;;
       match repositories with
       | [] => Raise (Exn IndexError "list index out of range")
       | repo :: _ =>
           Ret (JObj [ ("status", JStr "exists");
                       ("repository_uri", JStr (repositoryUri repo)) ])
       end).

Definition execution_role : string :=
  "arn:aws:iam::<AWS_ACCOUNT_ID>:role/ecsTaskExecutionRole".
Definition task_role : string :=
  "arn:aws:iam::<AWS_ACCOUNT_ID>:role/ecsTaskExecutionRole".
Definition infrastructure_role : string :=
  "arn:aws:iam::<AWS_ACCOUNT_ID>:role/ecsInfrastructureRoleForExpressServices".

(** [[{"Name": k, "Value": str(v)} for k, v in d.items()]] *)
Definition environment_list (name_key value_key : string)
  (d : list (string * json)) : json :=
  JArr (List.map
          (fun '(k, v) => JObj [(name_key, JStr k); (value_key, JStr (py_str v))])
          d).

Definition container_config (image_uri : string) (port : Z)
  (environment_variables : option (list (string * json))) : list (string * json) :=
  let container_config := [("Image", JStr image_uri); ("ContainerPort", JNum port)] in
  match environment_variables with
  | Some ((_ :: _) as d) =>
      Dict.set "Environment" (environment_list "Name" "Value" d) container_config
  | _ => container_config
  end.

(** The scaling block added for more than one task (lines 77-84). *)
Definition scaling_target (desired_count : Z) : json :=
  JObj [ ("MinTaskCount", JNum desired_count);
         ("MaxTaskCount", JNum 50);
         ("AutoScalingMetric", JStr "AVERAGE_CPU");
         ("AutoScalingTargetValue", JNum 70) ].

Definition service_properties (service_name image_uri cpu memory : string)
  (port : Z) (environment_variables : option (list (string * json)))
  (desired_count : Z) : list (string * json) :=
  let service_properties :=
    [ ("ServiceName", JStr service_name);
      ("ExecutionRoleArn", JStr execution_role);
      ("TaskRoleArn", JStr task_role);
      ("InfrastructureRoleArn", JStr infrastructure_role);
      ("Cpu", JStr cpu);
      ("Memory", JStr memory);
      ("PrimaryContainer",
        JObj (container_config image_uri port environment_variables)) ] in
  if desired_count >? 1 then
    Dict.set "ScalingTarget" (scaling_target desired_count) service_properties
  else service_properties.

Definition express_template (properties : list (string * json)) : json :=
  JObj [ ("AWSTemplateFormatVersion", JStr "2010-09-09");
         ("Resources",
           JObj [ ("ExpressService",
                    JObj [ ("Type", JStr "AWS::ECS::ExpressGatewayService");
                           ("Properties", JObj properties) ]) ]);
         ("Outputs",
           JObj [ ("ServiceArn", JObj [("Value", JObj [("Ref", JStr "ExpressService")])]);
                  ("Endpoint",
                    JObj [ ("Value",
                             JObj [ ("Fn::GetAtt",
                                      JArr [JStr "ExpressService"; JStr "Endpoint"]) ]) ]) ]) ].

(** The client is created before the [try] (line 47).  The template is
    handed to [create_stack] as [json.dumps(template)]; the call keeps
    the value that is serialised. *)
Definition deploy_ecs_express_service (service_name image_uri cpu memory : string)
  (port : Z) (region : string)
  (environment_variables : option (list (string * json)))
  (desired_count : Z) : prog json :=
  let stack_name := "ecs-express-" ++ service_name in
  let template :=
    express_template
      (service_properties service_name image_uri cpu memory port
         environment_variables desired_count) in
  boto3_client "cloudformation" (JStr region) ;;;
  catch
    (stack_id <- cfn_create_stack (JStr region) stack_name template ;;
     Ret (JObj [ ("status", JStr "success");
                 ("stack_name", JStr stack_name);
                 ("stack_id", JStr stack_id);
                 ("desired_count", JNum desired_count);
                 ("message",
                   JStr ("CloudFormation stack " ++ stack_name
                           ++ " creation initiated with " ++ Str.of_Z desired_count
                           ++ " task(s).")) ]))
    (fun e => Ret (JObj [("status", JStr "error"); ("message", JStr (exn_msg e))])).

(** [not s] for an optional string argument. *)
Definition missing (s : option string) : bool :=
  match s with
  | None => true
  | Some t => String.eqb t ""
  end.

Definition opt_json (s : option string) : json :=
  match s with
  | Some t => JStr t
  | None => JNull
  end.

(** [{o['OutputKey']: o['OutputValue'] for o in outputs}] *)
Definition outputs_of (outs : list (string * string)) : list (string * json) :=
  List.fold_left (fun d '(k, v) => Dict.set k (JStr v) d) outs [].

(** The client is created before the [try] (line 153). *)
Definition check_service_status (service_arn stack_name : option string)
  (region : string) : prog json :=
  boto3_client "cloudformation" (JStr region) ;;;
  catch
    (let stack_name :=
       if missing stack_name && negb (missing service_arn) then
         let service_name := Str.split_last "/" (default "" service_arn) in
         Some ("ecs-express-" ++ service_name)
       else stack_name in
     if missing stack_name then
       Ret (JObj [ ("status", JStr "error");
                   ("message", JStr "Either service_arn or stack_name required") ])
     else
       stacks <- cfn_describe_stacks (JStr region) (opt_json stack_name) ;;
       match stacks with
       | [] => Raise (Exn IndexError "list index out of range")
       | stack :: _ =>
           let result :=
             [ ("status", JStr (StackStatus stack));
               ("stack_name", opt_json stack_name) ] in
           if String.eqb (StackStatus stack) "CREATE_COMPLETE" then
             let outputs := outputs_of (default [] (Outputs stack)) in
             let get k := default (JStr "N/A") (Dict.lookup k outputs) in
             let result := Dict.set "service_arn" (get "ServiceArn") result in
             let result := Dict.set "endpoint" (get "Endpoint") result in
             let alb_url :=
               if truthy (default JNull (Dict.lookup "Endpoint" outputs)) then
                 JStr ("https://" ++ py_str (get "Endpoint"))
               else JStr "N/A" in
             Ret (JObj (Dict.set "alb_url" alb_url result))
           else Ret (JObj result)
       end)
    (fun e => Ret (JObj [("status", JStr "error"); ("message", JStr (exn_msg e))])).

(** "Determine stack name" (lines 221-223). *)
Definition resolve_stack (service_name stack_name : option string) : option string :=
  if missing stack_name && negb (missing service_name) then
    Some ("ecs-express-" ++ default "" service_name)
  else stack_name.

(** The client is created before the [try] (line 218). *)
Definition delete_ecs_service (service_name stack_name : option string)
  (region : string) : prog json :=
  boto3_client "cloudformation" (JStr region) ;;;
  catch
    (let stack_name := resolve_stack service_name stack_name in
     if missing stack_name then
       Ret (JObj [ ("status", JStr "error");
                   ("message", JStr "Either service_name or stack_name is required") ])
     else
       let name := default "" stack_name in
       found <-
         catch_if is_client_error
           (cfn_describe_stacks (JStr region) (JStr name) ;;; Ret None)
           (fun e =>
              if Str.contains "does not exist" (exn_msg e) then
                Ret (Some (JObj [ ("status", JStr "not_found");
                                  ("stack_name", JStr name);
                                  ("message",
                                    JStr ("Stack " ++ name ++ " does not exist")) ]))
              else Raise e) ;;
       match found with
       | Some not_found => Ret not_found
       | None =>
           cfn_delete_stack (JStr region) (JStr name) ;;;
           Ret (JObj [ ("status", JStr "success");
                       ("stack_name", JStr name);
                       ("service_name", opt_json service_name);
                       ("message",
                         JStr ("Stack " ++ name
                                 ++ " deletion initiated. This will delete the ECS service and all associated resources (ALB, target groups, security groups).")) ])
       end)
    (fun e =>
       Ret (JObj [ ("status", JStr "error");
                   ("message", JStr ("Error deleting service: " ++ exn_msg e)) ])).

End EcsAgent.

(** ** agentcore-eks-runtime/agent.py *)

(** One deletion of [delete_eks_deployment]: the call is made, and a 404
    answer is recorded as "(not found)" (lines 609-623). *)
Definition delete_resource (delete : prog unit) (label : string)
  (deleted_resources : list string) : prog (list string) :=
  catch
    (delete ;;; Ret (deleted_resources ++ [label])%list)
    (fun e =>
       match api_status e with
       | Some status =>
           if status =? 404 then
             Ret (deleted_resources ++ [(label ++ " (not found)")%string])%list
           else Raise e
       | None => Raise e
       end).

Definition delete_eks_deployment (cluster_name app_name region : string)
  (delete_service delete_service_account : bool) : prog json :=
  catch
    (ca_cert_file <- get_k8s_client cluster_name region ;;
     deleted <-
       delete_resource (k8s_delete_deployment app_name)
         ("Deployment: " ++ app_name) [] ;;
     deleted <-
       (if delete_service then
          delete_resource (k8s_delete_service app_name) ("Service: " ++ app_name)
            deleted
        else Ret deleted) ;;
     deleted <-
       (if delete_service_account then
          let service_account_name := app_name ++ "-sa" in
          delete_resource (k8s_delete_service_account service_account_name)
            ("ServiceAccount: " ++ service_account_name) deleted
        else Ret deleted) ;;
     os_unlink ca_cert_file ;;;
     let removed :=
       List.filter (fun r => negb (Str.contains "not found" r)) deleted in
     Ret (JObj [ ("status", JStr "success");
                 ("app_name", JStr app_name);
                 ("deleted_resources", JArr (List.map JStr deleted));
                 ("message",
                   JStr ("Successfully deleted "
                           ++ Str.of_Z (Z.of_nat (List.length removed))
                           ++ " resource(s)")) ]))
    (fun e =>
       match exn_cls e with
       | ApiException _ reason =>
           Ret (JObj [ ("status", JStr "error");
                       ("message", JStr ("Kubernetes API error: " ++ reason));
                       ("details", JStr (exn_msg e)) ])
       | _ =>
           Ret (JObj [ ("status", JStr "error");
                       ("message",
                         JStr ("Error deleting deployment: " ++ exn_msg e)) ])
       end).

(** ** container-migration/lambda_function.py *)

Section Lambda.
Context `{PyLib}.

(** The API Gateway response; [body] is [json.dumps(body)]. *)
Definition create_response (status_code : Z) (body : json) : json :=
  JObj [ ("statusCode", JNum status_code);
         ("headers",
           JObj [ ("Content-Type", JStr "application/json");
                  ("Access-Control-Allow-Origin", JStr "*");
                  ("Access-Control-Allow-Methods", JStr "GET, POST, OPTIONS");
                  ("Access-Control-Allow-Headers", JStr "Content-Type") ]);
         ("body", JStr (json_dumps body)) ].

(** [d.items()] *)
Definition py_items (v : json) : exn + list (string * json) :=
  match v with
  | JObj kv => inr kv
  | _ => inl (attribute_error v "items")
  end.

Definition log_configuration (service_name region : json) : json :=
  JObj [ ("logDriver", JStr "awslogs");
         ("options",
           JObj [ ("awslogs-create-group", JStr "true");
                  ("awslogs-group", JStr ("/ecs/" ++ py_str service_name));
                  ("awslogs-region", region);
                  ("awslogs-stream-prefix", JStr "ecs") ]) ].

(** The arguments of [create_express_gateway_service] (lines 478-519). *)
Definition express_request (service_name image_uri cpu memory port region
  subnet_ids : json) (env_vars : list (string * json)) : json :=
  JObj [ ("serviceName", service_name);
         ("taskDefinition",
           JObj [ ("cpu", cpu);
                  ("memory", memory);
                  ("containerDefinitions",
                    JArr [ JObj [ ("name", JStr "Main");
                                  ("image", image_uri);
                                  ("portMappings",
                                    JArr [ JObj [ ("containerPort", port);
                                                  ("protocol", JStr "tcp") ] ]);
                                  ("environment",
                                    environment_list "name" "value" env_vars);
                                  ("logConfiguration",
                                    log_configuration service_name region) ] ]) ]);
         ("desiredCount", JNum 1);
         ("networkConfiguration",
           JObj [ ("awsvpcConfiguration",
                    JObj [ ("assignPublicIp", JStr "ENABLED");
                           ("subnets", subnet_ids) ]) ]);
         ("loadBalancerConfiguration",
           JObj [("containerName", JStr "Main"); ("containerPort", port)]);
         ("tags",
           JArr [ JObj [("key", JStr "Project"); ("value", JStr "ECS-Express-Migration")];
                  JObj [("key", JStr "ManagedBy"); ("value", JStr "MCP-Server")];
                  JObj [("key", JStr "ServiceName"); ("value", service_name)];
                  JObj [("key", JStr "Environment"); ("value", JStr "Demo")] ]) ].

Definition ref (name : string) : json := JObj [("Ref", JStr name)].

(** The resources of the fallback template (lines 548-673). *)
Definition fallback_resources (service_name image_uri cpu memory port region
  vpc_id subnet_ids : json) (account_id : string)
  (env_vars : list (string * json)) : list (string * json) :=
  [ ("ECSCluster",
      JObj [ ("Type", JStr "AWS::ECS::Cluster");
             ("Properties",
               JObj [("ClusterName", JStr (py_str service_name ++ "-cluster"))]) ]);
    ("ALBSecurityGroup",
      JObj [ ("Type", JStr "AWS::EC2::SecurityGroup");
             ("Properties",
               JObj [ ("GroupDescription", JStr "ALB Security Group");
                      ("VpcId", vpc_id);
                      ("SecurityGroupIngress",
                        JArr [ JObj [ ("IpProtocol", JStr "tcp");
                                      ("FromPort", JNum 80);
                                      ("ToPort", JNum 80);
                                      ("CidrIp", JStr "0.0.0.0/0") ] ]) ]) ]);
    ("ECSTaskSecurityGroup",
      JObj [ ("Type", JStr "AWS::EC2::SecurityGroup");
             ("Properties",
               JObj [ ("GroupDescription", JStr "ECS Task Security Group");
                      ("VpcId", vpc_id);
                      ("SecurityGroupIngress",
                        JArr [ JObj [ ("IpProtocol", JStr "tcp");
                                      ("FromPort", port);
                                      ("ToPort", port);
                                      ("SourceSecurityGroupId",
                                        ref "ALBSecurityGroup") ] ]) ]) ]);
    ("ApplicationLoadBalancer",
      JObj [ ("Type", JStr "AWS::ElasticLoadBalancingV2::LoadBalancer");
             ("Properties",
               JObj [ ("Name", JStr (py_str service_name ++ "-alb"));
                      ("Scheme", JStr "internet-facing");
                      ("Type", JStr "application");
                      ("SecurityGroups", JArr [ref "ALBSecurityGroup"]);
                      ("Subnets", subnet_ids) ]) ]);
    ("TargetGroup",
      JObj [ ("Type", JStr "AWS::ElasticLoadBalancingV2::TargetGroup");
             ("Properties",
               JObj [ ("Name", JStr (py_str service_name ++ "-tg"));
                      ("Port", port);
                      ("Protocol", JStr "HTTP");
                      ("TargetType", JStr "ip");
                      ("VpcId", vpc_id);
                      ("HealthCheckPath", JStr "/");
                      ("HealthCheckPort", JStr (py_str port));
                      ("HealthCheckProtocol", JStr "HTTP");
                      ("HealthCheckIntervalSeconds", JNum 30);
                      ("HealthCheckTimeoutSeconds", JNum 5);
                      ("HealthyThresholdCount", JNum 2);
                      ("UnhealthyThresholdCount", JNum 3) ]) ]);
    ("ALBListener",
      JObj [ ("Type", JStr "AWS::ElasticLoadBalancingV2::Listener");
             ("Properties",
               JObj [ ("DefaultActions",
                        JArr [ JObj [ ("Type", JStr "forward");
                                      ("TargetGroupArn", ref "TargetGroup") ] ]);
                      ("LoadBalancerArn", ref "ApplicationLoadBalancer");
                      ("Port", JNum 80);
                      ("Protocol", JStr "HTTP") ]) ]);
    ("TaskDefinition",
      JObj [ ("Type", JStr "AWS::ECS::TaskDefinition");
             ("Properties",
               JObj [ ("Family", service_name);
                      ("Cpu", cpu);
                      ("Memory", memory);
                      ("NetworkMode", JStr "awsvpc");
                      ("RequiresCompatibilities", JArr [JStr "FARGATE"]);
                      ("ExecutionRoleArn",
                        JStr ("arn:aws:iam::" ++ account_id
                                ++ ":role/ecsTaskExecutionRole"));
                      ("TaskRoleArn",
                        JStr ("arn:aws:iam::" ++ account_id
                                ++ ":role/BlogAppECSTaskRole"));
                      ("ContainerDefinitions",
                        JArr [ JObj [ ("Name", JStr "Main");
                                      ("Image", image_uri);
                                      ("PortMappings",
                                        JArr [ JObj [ ("ContainerPort", port);
                                                      ("Protocol", JStr "tcp") ] ]);
                                      ("Environment",
                                        environment_list "Name" "Value" env_vars);
                                      ("LogConfiguration",
                                        JObj [ ("LogDriver", JStr "awslogs");
                                               ("Options",
                                                 JObj [ ("awslogs-create-group", JStr "true");
                                                        ("awslogs-group",
                                                          JStr ("/ecs/" ++ py_str service_name));
                                                        ("awslogs-region", region);
                                                        ("awslogs-stream-prefix", JStr "ecs") ]) ]) ] ]) ]) ]);
    ("ECSService",
      JObj [ ("Type", JStr "AWS::ECS::Service");
             ("DependsOn", JArr [JStr "ALBListener"]);
             ("Properties",
               JObj [ ("Cluster", ref "ECSCluster");
                      ("ServiceName", service_name);
                      ("TaskDefinition", ref "TaskDefinition");
                      ("DesiredCount", JNum 1);
                      ("LaunchType", JStr "FARGATE");
                      ("NetworkConfiguration",
                        JObj [ ("AwsvpcConfiguration",
                                 JObj [ ("AssignPublicIp", JStr "ENABLED");
                                        ("SecurityGroups",
                                          JArr [ref "ECSTaskSecurityGroup"]);
                                        ("Subnets", subnet_ids) ]) ]);
                      ("LoadBalancers",
                        JArr [ JObj [ ("TargetGroupArn", ref "TargetGroup");
                                      ("ContainerName", JStr "Main");
                                      ("ContainerPort", port) ] ]) ]) ]) ].

Definition fallback_outputs : list (string * json) :=
  [ ("LoadBalancerURL",
      JObj [ ("Value",
               JObj [("Fn::GetAtt", JArr [JStr "ApplicationLoadBalancer"; JStr "DNSName"])]);
             ("Description", JStr "Load Balancer URL") ]);
    ("TargetGroupArn",
      JObj [("Value", ref "TargetGroup"); ("Description", JStr "Target Group ARN")]);
    ("ECSTaskSecurityGroupId",
      JObj [ ("Value", ref "ECSTaskSecurityGroup");
             ("Description", JStr "ECS Task Security Group ID") ]);
    ("ServiceArn",
      JObj [("Value", ref "ECSService"); ("Description", JStr "ECS Service ARN")]) ].

Definition fallback_template (service_name image_uri cpu memory port region
  vpc_id subnet_ids : json) (account_id : string)
  (env_vars : list (string * json)) : json :=
  JObj [ ("AWSTemplateFormatVersion", JStr "2010-09-09");
         ("Resources",
           JObj (fallback_resources service_name image_uri cpu memory port region
                   vpc_id subnet_ids account_id env_vars));
         ("Outputs", JObj fallback_outputs) ].

(** The reply of the managed path (lines 523-538). *)
Definition express_success (service_arn : option string) (service_name port
  vpc_id subnet_ids : json) : json :=
  JObj [ ("status", JStr "success");
         ("service_arn", opt_str service_arn);
         ("service_name", service_name);
         ("container_port", port);
         ("vpc_id", vpc_id);
         ("subnet_ids", subnet_ids);
         ("message",
           JStr ("Express Gateway service " ++ py_str service_name
                   ++ " created successfully"));
         ("details",
           JArr [ JStr "ECS Express Gateway service deployed";
                  JStr ("Service ARN: " ++ py_str (opt_str service_arn));
                  JStr ("Container running on port " ++ py_str port);
                  JStr "Load balancer automatically provisioned";
                  JStr "Service ready for traffic" ]) ].

(** The reply of the fallback path (lines 703-724). *)
Definition fallback_started (stack_name : string) (service_name port vpc_id
  subnet_ids : json) : json :=
  JObj [ ("status", JStr "success");
         ("deployment_status", JStr "in_progress");
         ("stack_name", JStr stack_name);
         ("service_name", service_name);
         ("container_port", port);
         ("vpc_id", vpc_id);
         ("subnet_ids", subnet_ids);
         ("message",
           JStr ("ECS service deployment started for " ++ py_str service_name));
         ("details",
           JArr [ JStr ("CloudFormation stack " ++ stack_name ++ " creation initiated");
                  JStr "ALB and target group will be created automatically";
                  JStr "ECS service will be deployed once infrastructure is ready";
                  JStr ("Container will run on port " ++ py_str port);
                  JStr "Check deployment status using check_ecs_service_status tool" ]);
         ("next_steps",
           JArr [ JStr "Wait 3-5 minutes for infrastructure provisioning";
                  JStr ("Use check_ecs_service_status with stack_name: " ++ stack_name);
                  JStr "Service will be available at ALB DNS once ready" ]) ].

(** The two paths of the submission (lines 475-724): the managed call,
    and on any exception the template. *)
Definition submit_service (service_name image_uri cpu memory port region vpc_id
  subnet_ids env_vars : json) (account_id : string) : prog json :=
  catch
    (items <- lift (py_items env_vars) ;;
     service_arn <-
       ecs_create_express_gateway_service region
         (express_request service_name image_uri cpu memory port region subnet_ids
            items) ;;
     Ret (create_response 200
            (express_success service_arn service_name port vpc_id subnet_ids)))
    (fun express_error =>
       items <- lift (py_items env_vars) ;;
       let template :=
         fallback_template service_name image_uri cpu memory port region vpc_id
           subnet_ids account_id items in
       let stack_name := py_str service_name ++ "-alb-stack" in
       cfn_create_stack region stack_name template ;;;
       Ret (create_response 200
              (fallback_started stack_name service_name port vpc_id subnet_ids))).

Definition strs (l : list string) : json := JArr (List.map JStr l).

(** "Auto-discover VPC and subnets if not provided" (lines 438-470);
    [inl r] is an early reply. *)
Definition discover_network (region vpc_id subnet_ids : json)
  : prog (json + json * json) :=
  if negb (truthy vpc_id) || negb (truthy subnet_ids) then
    found <-
      (if negb (truthy vpc_id) then
         vpcs <- ec2_describe_vpcs region true ;;
         match vpcs with
         | v :: _ => Ret (Some (JStr v))
         | [] =>
             vpcs <- ec2_describe_vpcs region false ;;
             match vpcs with
             | v :: _ => Ret (Some (JStr v))
             | [] => Ret None
             end
         end
       else Ret (Some vpc_id)) ;;
    match found with
    | None => Ret (inl (create_response 400 (JObj [("error", JStr "No VPC found in region")])))
    | Some vpc_id =>
        if negb (truthy subnet_ids) then
          subnets <- ec2_describe_subnets region vpc_id true ;;
          subnets <-
            (match subnets with
             | _ :: _ => Ret subnets
             | [] => ec2_describe_subnets region vpc_id false
             end) ;;
          match subnets with
          | [] =>
              Ret (inl (create_response 400
                          (JObj [ ("error",
                                    JStr ("No subnets found in VPC " ++ py_str vpc_id)) ])))
          | _ => Ret (inr (vpc_id, strs subnets))
          end
        else Ret (inr (vpc_id, subnet_ids))
    end
  else Ret (inr (vpc_id, subnet_ids)).

(** The handler once the fields of the request are read (lines 429-813). *)
Definition deploy_service (service_name image_uri env_vars cpu memory port region
  vpc_id subnet_ids : json) : prog json :=
  if negb (truthy service_name) || negb (truthy image_uri) then
    Ret (create_response 400
           (JObj [("error", JStr "service_name and image_uri are required")]))
  else
    catch
      (account_id <- sts_get_caller_identity ;;
       network <- discover_network region vpc_id subnet_ids ;;
       match network with
       | inl reply => Ret reply
       | inr (vpc_id, subnet_ids) =>
           submit_service service_name image_uri cpu memory port region vpc_id
             subnet_ids env_vars account_id
       end)
      (fun e =>
         Ret (create_response 500
                (JObj [("error", JStr ("Failed to deploy service: " ++ exn_msg e))]))).

Definition handle_deploy_ecs_express_service (request_data : json) : prog json :=
  service_name <- lift (py_get request_data "service_name" JNull) ;;
  image_uri <- lift (py_get request_data "image_uri" JNull) ;;
  env_vars <- lift (py_get request_data "environment_vars" (JObj [])) ;;
  cpu <- lift (py_get request_data "cpu" (JStr "256")) ;;
  memory <- lift (py_get request_data "memory" (JStr "512")) ;;
  port <- lift (py_get request_data "port" (JNum 3000)) ;;
  region <- lift (py_get request_data "region" (JStr "us-west-2")) ;;
  vpc_id <- lift (py_get request_data "vpc_id" JNull) ;;
  subnet_ids <- lift (py_get request_data "subnet_ids" JNull) ;;
  deploy_service service_name image_uri env_vars cpu memory port region vpc_id
    subnet_ids.

End Lambda.

(** ** A reference implementation of the library functions

    [json.loads], [json.dumps], [repr] and [int] for ASCII text and
    integer numbers, the inputs of the examples below: bytes above 127 are
    passed through as they are, [\u] escapes and numbers with a fraction
    or an exponent are refused, and every refusal carries the message of
    a document that starts with a wrong character. *)

Module RefPy.

Definition bytes_of (s : string) : list Z :=
  List.map (fun c => Z.of_nat (nat_of_ascii c)) (list_ascii_of_string s).

Definition char_of (c : Z) : ascii := ascii_of_nat (Z.to_nat c).

Definition str_of (l : list Z) : string :=
  string_of_list_ascii (List.map char_of l).

Definition is_ws (c : Z) : bool :=
  (c =? 32) || (c =? 9) || (c =? 10) || (c =? 13).

Definition is_digit (c : Z) : bool := (48 <=? c) && (c <=? 57).

Fixpoint skip_ws (l : list Z) : list Z :=
  match l with
  | c :: r => if is_ws c then skip_ws r else l
  | [] => []
  end.

(** The characters of a string literal after its opening quote. *)
Fixpoint parse_string (l : list Z) (acc : list Z) : option (string * list Z) :=
  match l with
  | [] => None
  | 34 :: r => Some (str_of (List.rev acc), r)
  | 92 :: e :: r =>
      match e with
      | 34 => parse_string r (34 :: acc)
      | 92 => parse_string r (92 :: acc)
      | 47 => parse_string r (47 :: acc)
      | 98 => parse_string r (8 :: acc)
      | 102 => parse_string r (12 :: acc)
      | 110 => parse_string r (10 :: acc)
      | 114 => parse_string r (13 :: acc)
      | 116 => parse_string r (9 :: acc)
      | _ => None
      end
  | c :: r => if c <? 32 then None else parse_string r (c :: acc)
  end.

Fixpoint parse_digits (l : list Z) (acc : Z) : Z * list Z :=
  match l with
  | c :: r => if is_digit c then parse_digits r (10 * acc + (c - 48)) else (acc, l)
  | [] => (acc, [])
  end.

(** An integer: an optional minus sign, then 0 or a digit string with no
    leading 0; not followed by a fraction or an exponent. *)
Definition parse_number (l : list Z) : option (json * list Z) :=
  let '(neg, l1) := match l with 45 :: r => (true, r) | _ => (false, l) end in
  match l1 with
  | c :: r =>
      if is_digit c then
        let '(n, rest) := if c =? 48 then (0, r) else parse_digits l1 0 in
        match rest with
        | d :: _ =>
            if is_digit d || (d =? 46) || (d =? 101) || (d =? 69) then None
            else Some (JNum (if neg then - n else n), rest)
        | [] => Some (JNum (if neg then - n else n), rest)
        end
      else None
  | [] => None
  end.

Fixpoint parse_value (fuel : nat) (l : list Z) : option (json * list Z) :=
  match fuel with
  | O => None
  | S f =>
      match skip_ws l with
      | 123 :: r =>
          match skip_ws r with
          | 125 :: r' => Some (JObj [], r')
          | r1 => parse_members f r1 []
          end
      | 91 :: r =>
          match skip_ws r with
          | 93 :: r' => Some (JArr [], r')
          | r1 => parse_elements f r1 []
          end
      | 34 :: r =>
          match parse_string r [] with
          | Some (s, r') => Some (JStr s, r')
          | None => None
          end
      | 116 :: 114 :: 117 :: 101 :: r => Some (JBool true, r)
      | 102 :: 97 :: 108 :: 115 :: 101 :: r => Some (JBool false, r)
      | 110 :: 117 :: 108 :: 108 :: r => Some (JNull, r)
      | l' => parse_number l'
      end
  end
with parse_members (fuel : nat) (l : list Z) (acc : list (string * json))
  : option (json * list Z) :=
  match fuel with
  | O => None
  | S f =>
      match skip_ws l with
      | 34 :: r =>
          match parse_string r [] with
          | Some (k, r1) =>
              match skip_ws r1 with
              | 58 :: r2 =>
                  match parse_value f r2 with
                  | Some (v, r3) =>
                      match skip_ws r3 with
                      | 44 :: r4 => parse_members f r4 (Dict.set k v acc)
                      | 125 :: r4 => Some (JObj (Dict.set k v acc), r4)
                      | _ => None
                      end
                  | None => None
                  end
              | _ => None
              end
          | None => None
          end
      | _ => None
      end
  end
with parse_elements (fuel : nat) (l : list Z) (acc : list json)
  : option (json * list Z) :=
  match fuel with
  | O => None
  | S f =>
      match parse_value f l with
      | Some (v, r1) =>
          match skip_ws r1 with
          | 44 :: r2 => parse_elements f r2 (acc ++ [v])%list
          | 93 :: r2 => Some (JArr (acc ++ [v])%list, r2)
          | _ => None
          end
      | None => None
      end
  end.

Definition decode_error : string := "Expecting value: line 1 column 1 (char 0)".

Definition loads (s : string) : string + json :=
  let l := bytes_of s in
  match parse_value (S (List.length l)) l with
  | Some (v, rest) =>
      match skip_ws rest with
      | [] => inr v
      | _ => inl decode_error
      end
  | None => inl decode_error
  end.

Definition hex_digit (n : Z) : Z := if n <? 10 then 48 + n else 87 + n.

(** A character inside a JSON string literal. *)
Definition dumps_char (c : Z) : list Z :=
  if c =? 34 then [92; 34]
  else if c =? 92 then [92; 92]
  else if c =? 10 then [92; 110]
  else if c =? 13 then [92; 114]
  else if c =? 9 then [92; 116]
  else if c =? 8 then [92; 98]
  else if c =? 12 then [92; 102]
  else if c <? 32 then [92; 117; 48; 48; hex_digit (c / 16); hex_digit (c mod 16)]
  else [c].

Definition dumps_string (s : string) : string :=
  Str.dq ++ str_of (List.concat (List.map dumps_char (bytes_of s))) ++ Str.dq.

Fixpoint join (sep : string) (l : list string) : string :=
  match l with
  | [] => ""
  | [x] => x
  | x :: r => x ++ sep ++ join sep r
  end.

(** [json.dumps(v)] *)
Fixpoint dumps (v : json) : string :=
  match v with
  | JNull => "null"
  | JBool true => "true"
  | JBool false => "false"
  | JNum n => Str.of_Z n
  | JStr s => dumps_string s
  | JArr l => "[" ++ join ", " (List.map dumps l) ++ "]"
  | JObj kv =>
      "{" ++ join ", "
               (List.map (fun p => dumps_string (fst p) ++ ": " ++ dumps (snd p)) kv)
        ++ "}"
  end.

Fixpoint spaces (n : nat) : string :=
  match n with
  | O => ""
  | S k => " " ++ spaces k
  end.

(** [json.dumps(v, indent=2)] at a nesting level. *)
Fixpoint dumps_at (level : nat) (v : json) : string :=
  let pad := nl ++ spaces (2 * S level) in
  match v with
  | JArr [] => "[]"
  | JArr l =>
      "[" ++ pad ++ join ("," ++ pad) (List.map (dumps_at (S level)) l)
        ++ nl ++ spaces (2 * level) ++ "]"
  | JObj [] => "{}"
  | JObj kv =>
      "{" ++ pad
        ++ join ("," ++ pad)
             (List.map
                (fun p => dumps_string (fst p) ++ ": " ++ dumps_at (S level) (snd p))
                kv)
        ++ nl ++ spaces (2 * level) ++ "}"
  | _ => dumps v
  end.

Definition dumps_indent (v : json) : string := dumps_at 0 v.

(** A character inside [repr] of a string quoted by [q]. *)
Definition repr_char (q c : Z) : list Z :=
  if c =? 92 then [92; 92]
  else if c =? q then [92; q]
  else if c =? 10 then [92; 110]
  else if c =? 13 then [92; 114]
  else if c =? 9 then [92; 116]
  else if (c <? 32) || (c =? 127) then
    [92; 120; hex_digit (c / 16); hex_digit (c mod 16)]
  else [c].

Definition repr_string (s : string) : string :=
  let b := bytes_of s in
  let q :=
    if List.existsb (Z.eqb 39) b && negb (List.existsb (Z.eqb 34) b) then 34
    else 39 in
  str_of ([q] ++ List.concat (List.map (repr_char q) b) ++ [q])%list.

(** [repr(v)] *)
Fixpoint repr (v : json) : string :=
  match v with
  | JNull => "None"
  | JBool true => "True"
  | JBool false => "False"
  | JNum n => Str.of_Z n
  | JStr s => repr_string s
  | JArr l => "[" ++ join ", " (List.map repr l) ++ "]"
  | JObj kv =>
      "{" ++ join ", "
               (List.map (fun p => repr_string (fst p) ++ ": " ++ repr (snd p)) kv)
        ++ "}"
  end.

(** Digits with single underscores between them. *)
Fixpoint int_digits (l : list Z) (acc : Z) (after_digit : bool) : option Z :=
  match l with
  | [] => if after_digit then Some acc else None
  | c :: r =>
      if is_digit c then int_digits r (10 * acc + (c - 48)) true
      else if (c =? 95) && after_digit then
        match r with
        | d :: _ => if is_digit d then int_digits r acc false else None
        | [] => None
        end
      else None
  end.

(** [int(s)] *)
Definition int (s : string) : option Z :=
  match bytes_of (Str.strip s) with
  | 45 :: r => option_map Z.opp (int_digits r 0 false)
  | 43 :: r => int_digits r 0 false
  | l => int_digits l 0 false
  end.

Lemma loads_msg (s m : string) : loads s = inl m -> is_throttling m = false.
Proof.
  unfold loads. intros Hl.
  destruct (parse_value _ _) as [[v rest] |].
  - destruct (skip_ws rest); [discriminate |].
    injection Hl as <-. reflexivity.
  - injection Hl as <-. reflexivity.
Qed.

End RefPy.

#[export] Instance ref_py : PyLib :=
  {| json_loads := RefPy.loads;
     json_loads_msg := RefPy.loads_msg;
     json_dumps := RefPy.dumps;
     json_dumps_indent := RefPy.dumps_indent;
     py_repr := RefPy.repr;
     py_int := RefPy.int |}.

(** ** A reference environment

    The collaborators as a state machine, for the examples and for the
    properties that follow a resource over several calls: a registry of
    repositories, the stacks of CloudFormation with their events, the
    resources of one Kubernetes namespace, and fixed answers for the
    oracle, the subprocesses and the HTTP endpoint. *)

(** What does not change during a run. *)
Record setting : Type := {
  account : string;
  clock : Z;
  oracle : routing_prompt -> exn + string;
  files : gset string;
  subprocess : list json -> exn + completed_process;
  http : string -> json -> exn + http_response;
  vpcs : list string;
  subnets : list string;
  express : exn + option string;
}.

(** What the calls change. *)
Record cloud : Type := {
  (** repositories by region and name *)
  repositories : gmap (string * string) repository;
  (** stacks and their events by region and stack name *)
  stacks : gmap (string * string) stack;
  stack_events : gmap (string * string) (list stack_event);
  (** the resources of the namespace [default] *)
  deployments : gset string;
  services : gset string;
  service_accounts : gset string;
}.

Module Aws.

Definition set_repositories (s : cloud) r : cloud :=
  {| repositories := r;
     stacks := stacks s; stack_events := stack_events s;
     deployments := deployments s; services := services s;
     service_accounts := service_accounts s |}.

Definition set_stacks (s : cloud) st : cloud :=
  {| repositories := repositories s;
     stacks := st; stack_events := stack_events s;
     deployments := deployments s; services := services s;
     service_accounts := service_accounts s |}.

Definition set_k8s (s : cloud) d sv sa : cloud :=
  {| repositories := repositories s;
     stacks := stacks s; stack_events := stack_events s;
     deployments := d; services := sv; service_accounts := sa |}.

Definition invalid_parameter : exn :=
  Exn OtherException "Parameter validation failed".

Definition new_repository (a : setting) (region name : string) : repository :=
  {| repositoryUri :=
       account a ++ ".dkr.ecr." ++ region ++ ".amazonaws.com/" ++ name;
     repositoryArn :=
       "arn:aws:ecr:" ++ region ++ ":" ++ account a ++ ":repository/" ++ name |}.

Definition repository_exists (name : string) : exn :=
  Exn RepositoryAlreadyExistsException
    ("An error occurred (RepositoryAlreadyExistsException) when calling the CreateRepository operation: The repository with name '"
       ++ name ++ "' already exists in the registry with id '000000000000'").

Definition repository_missing (name : string) : exn :=
  Exn ClientError
    ("An error occurred (RepositoryNotFoundException) when calling the DescribeRepositories operation: The repository with name '"
       ++ name ++ "' does not exist in the registry with id '000000000000'").

Definition stack_missing (operation name : string) : exn :=
  Exn ClientError
    ("An error occurred (ValidationError) when calling the " ++ operation
       ++ " operation: Stack with id " ++ name ++ " does not exist").

Definition stack_exists (name : string) : exn :=
  Exn ClientError
    ("An error occurred (AlreadyExistsException) when calling the CreateStack operation: Stack ["
       ++ name ++ "] already exists").

Definition not_found : exn :=
  Exn (ApiException 404 "Not Found") ("(404)" ++ nl ++ "Reason: Not Found" ++ nl).

Definition new_stack : stack :=
  {| StackStatus := "CREATE_IN_PROGRESS"; StackStatusReason := None; Outputs := None |}.

(** [describe_repositories]: the repositories named, in order, or the
    error for the first one missing. *)
Fixpoint describe_repositories (s : cloud) (region : string) (names : list json)
  : exn + list repository :=
  match names with
  | [] => inr []
  | JStr name :: rest =>
      match repositories s !! (region, name) with
      | Some r =>
          match describe_repositories s region rest with
          | inr l => inr (r :: l)
          | inl e => inl e
          end
      | None => inl (repository_missing name)
      end
  | _ :: _ => inl invalid_parameter
  end.

Definition delete_named (name : string) (resources : gset string)
  : (exn + unit) * gset string :=
  if decide (name ∈ resources) then (inr tt, resources ∖ {[name]})
  else (inl not_found, resources).

Definition respond (a : setting) (c : call) (s : cloud) : resp_ty c * cloud :=
  match c return resp_ty c * cloud with
  | InvokeModel p => (oracle a p, s)
  | Sleep _ => (tt, s)
  | TimeTime => (clock a, s)
  | FormatExc e => ("Traceback (most recent call last):" ++ nl, s)
  | PathExists path => (bool_decide (path ∈ files a), s)
  | SubprocessRun cmd _ _ => (subprocess a cmd, s)
  | HttpPost url payload => (http a url payload, s)
  | EcrCreateRepository (JStr region) (JStr name) =>
      match repositories s !! (region, name) with
      | Some _ => (inl (repository_exists name), s)
      | None =>
          let r := new_repository a region name in
          (inr r, set_repositories s (<[(region, name) := r]> (repositories s)))
      end
  | EcrCreateRepository _ _ => (inl invalid_parameter, s)
  | EcrDescribeRepositories (JStr region) names =>
      (describe_repositories s region names, s)
  | EcrDescribeRepositories _ _ => (inl invalid_parameter, s)
  | CfnDescribeStacks (JStr region) (JStr name) =>
      match stacks s !! (region, name) with
      | Some st => (inr [st], s)
      | None => (inl (stack_missing "DescribeStacks" name), s)
      end
  | CfnDescribeStacks _ _ => (inl invalid_parameter, s)
  | CfnDescribeStackEvents (JStr region) (JStr name) =>
      match stacks s !! (region, name) with
      | Some _ => (inr (default [] (stack_events s !! (region, name))), s)
      | None => (inl (stack_missing "DescribeStackEvents" name), s)
      end
  | CfnDescribeStackEvents _ _ => (inl invalid_parameter, s)
  | CfnListStacks (JStr region) status_filter =>
      (inr (omap
              (fun '((r, name), st) =>
                 if String.eqb r region
                    && List.existsb (String.eqb (StackStatus st)) status_filter
                 then Some {| StackName := name; SummaryStatus := StackStatus st;
                              CreationTime := "1970-01-01T00:00:00+00:00" |}
                 else None)
              (map_to_list (stacks s))), s)
  | CfnListStacks _ _ => (inl invalid_parameter, s)
  | CfnCreateStack (JStr region) name _ =>
      match stacks s !! (region, name) with
      | Some _ => (inl (stack_exists name), s)
      | None =>
          (inr ("arn:aws:cloudformation:" ++ region ++ ":" ++ account a ++ ":stack/"
                  ++ name ++ "/00000000-0000-0000-0000-000000000000"),
            set_stacks s (<[(region, name) := new_stack]> (stacks s)))
      end
  | CfnCreateStack _ _ _ => (inl invalid_parameter, s)
  | CfnDeleteStack (JStr region) (JStr name) =>
      (inr tt, set_stacks s (delete (region, name) (stacks s)))
  | CfnDeleteStack _ _ => (inl invalid_parameter, s)
  | GetK8sClient _ _ => (inr "/tmp/tmpca.crt", s)
  | K8sDeleteDeployment name =>
      let '(r, d) := delete_named name (deployments s) in
      (r, set_k8s s d (services s) (service_accounts s))
  | K8sDeleteService name =>
      let '(r, sv) := delete_named name (services s) in
      (r, set_k8s s (deployments s) sv (service_accounts s))
  | K8sDeleteServiceAccount name =>
      let '(r, sa) := delete_named name (service_accounts s) in
      (r, set_k8s s (deployments s) (services s) sa)
  | OsUnlink _ => (inr tt, s)
  | StsGetCallerIdentity => (inr (account a), s)
  | Ec2DescribeVpcs _ _ => (inr (vpcs a), s)
  | Ec2DescribeSubnets _ _ _ => (inr (subnets a), s)
  | EcsCreateExpressGatewayService _ _ => (express a, s)
  | Boto3Client _ _ => (inr tt, s)
  end.

End Aws.

Definition aws (a : setting) : world cloud := {| respond := Aws.respond a |}.

(** ** Notions the properties are stated with *)

(** The oracle fails with a throttling error whenever it is called with
    prompt [p], whatever the state of the world. *)
Definition always_throttled {S : Type} (w : world S) (p : routing_prompt) : Prop :=
  forall s, exists e,
    fst (respond w (InvokeModel p) s) = inl e /\ is_throttling (exn_msg e) = true.

(** From state [s] the oracle throttles [k] calls in a row, the router
    waiting after each as it does from attempt number [attempt] on; the
    call after them is answered [r], which leaves the world in [s']. *)
Fixpoint throttled_until {S : Type} (w : world S) (p : routing_prompt) (k : nat)
  (attempt : Z) (s : S) (r : exn + string) (s' : S) : Prop :=
  match k with
  | O => respond w (InvokeModel p) s = (r, s')
  | Datatypes.S k' =>
      exists e s1,
        respond w (InvokeModel p) s = (inl e, s1)
        /\ is_throttling (exn_msg e) = true
        /\ throttled_until w p k' (attempt + 1)
             (snd (respond w (Sleep (base_delay * 2 ^ attempt)) s1)) r s'
  end.

(** Five attempts with the four waits between them. *)
Definition retry_trace (p : routing_prompt) : list call :=
  [ InvokeModel p; Sleep 3; InvokeModel p; Sleep 6; InvokeModel p; Sleep 12;
    InvokeModel p; Sleep 24; InvokeModel p ].

Definition sleeps_of (calls : list call) : list Z :=
  List.flat_map (fun c => match c with Sleep d => [d] | _ => [] end) calls.

Definition oracle_calls (calls : list call) : nat :=
  List.length
    (List.filter (fun c => match c with InvokeModel _ => true | _ => false end) calls).

Definition field (key : string) (d : json) : option json :=
  match d with
  | JObj kv => Dict.lookup key kv
  | _ => None
  end.

(** The value found in a document by following keys. *)
Fixpoint at_path (keys : list string) (d : json) : option json :=
  match keys with
  | [] => Some d
  | key :: rest =>
      match field key d with
      | Some v => at_path rest v
      | None => None
      end
  end.

(** Every one of the texts occurs in the prompt. *)
Definition mentions (prompt : string) (texts : list string) : Prop :=
  Forall (fun text => Str.contains text prompt = true) texts.



Definition is_http_post (c : call) : bool :=
  match c with
  | HttpPost _ _ => true
  | _ => false
  end.

Definition is_delete_call (c : call) : bool :=
  match c with
  | CfnDeleteStack _ _ | K8sDeleteDeployment _ | K8sDeleteService _
  | K8sDeleteServiceAccount _ => true
  | _ => false
  end.

(** Every call a program can make, whatever it is answered, satisfies
    [P]. *)
Fixpoint only_calls {A : Type} (P : call -> Prop) (p : prog A) : Prop :=
  match p with
  | Ret _ => True
  | Raise _ => True
  | Call c k => P c /\ forall r, only_calls P (k r)
  end.

(** Two calls of a tool in a row. *)
Definition twice {A : Type} (p : prog A) : prog (A * A) :=
  first <- p ;; second <- p ;; Ret (first, second).

(** ** Settings of the examples *)

Definition unreachable : exn :=
  Exn OtherException "Could not connect to the endpoint URL".

Definition succeeded : completed_process := {| returncode := 0; stdout := ""; stderr := "" |}.

Definition quiet : setting :=
  {| account := "123456789012";
     clock := 1767225600;
     oracle := fun _ => inl unreachable;
     files := ∅;
     subprocess := fun _ => inr succeeded;
     http := fun _ _ => inr {| status_code := 200; text := "{}" |};
     vpcs := ["vpc-0a1b2c3d"];
     subnets := ["subnet-0a1b2c3d"];
     express :=
       inr (Some "arn:aws:ecs:us-west-2:123456789012:service/default/blog") |}.

Definition with_oracle (a : setting) (o : routing_prompt -> exn + string) : setting :=
  {| account := account a; clock := clock a; oracle := o; files := files a;
     subprocess := subprocess a; http := http a; vpcs := vpcs a;
     subnets := subnets a; express := express a |}.

Definition with_subprocess (a : setting)
  (f : list json -> exn + completed_process) : setting :=
  {| account := account a; clock := clock a; oracle := oracle a; files := files a;
     subprocess := f; http := http a; vpcs := vpcs a;
     subnets := subnets a; express := express a |}.

Definition with_express (a : setting) (r : exn + option string) : setting :=
  {| account := account a; clock := clock a; oracle := oracle a; files := files a;
     subprocess := subprocess a; http := http a; vpcs := vpcs a;
     subnets := subnets a; express := r |}.

Definition empty_cloud : cloud :=
  {| repositories := ∅; stacks := ∅; stack_events := ∅;
     deployments := ∅; services := ∅; service_accounts := ∅ |}.

(** The body of a Bedrock response whose first content block is [content]. *)
Definition bedrock_body (content : string) : string :=
  RefPy.dumps
    (JObj [ ("role", JStr "assistant");
            ("content", JArr [JObj [("type", JStr "text"); ("text", JStr content)]]) ]).

Definition throttling : exn :=
  Exn ClientError
    "An error occurred (ThrottlingException) when calling the InvokeModel operation (reached max retries: 0): Too many requests, please wait before trying again.".

Definition access_denied : exn :=
  Exn ClientError
    "An error occurred (AccessDeniedException) when calling the InvokeModel operation: You don't have access to the model with the specified model ID.".

(** The oracle throttles every request. *)
Definition throttled : setting := with_oracle quiet (fun _ => inl throttling).

(** An oracle that throttles its first [failures] calls and answers
    [r] from then on; every other call is answered as in [quiet].  The
    state counts the oracle's calls. *)
Definition falters (failures : nat) (r : exn + string) : world (nat * cloud) :=
  {| respond := fun c '(n, s) =>
       match c return resp_ty c * (nat * cloud) with
       | InvokeModel _ =>
           if (n <? failures)%nat then (inl throttling, (Datatypes.S n, s))
           else (r, (n, s))
       | c' => let '(x, s1) := Aws.respond quiet c' s in (x, (n, s1))
       end |}.

(** [boto3] refuses the name of the region. *)
Definition invalid_region : exn :=
  Exn ValueError "Provided region_name 'us west 2' doesn't match a supported format.".

(** A machine where no client can be created. *)
Definition region_refused : world cloud :=
  {| respond := fun c s =>
       match c return resp_ty c * cloud with
       | Boto3Client _ _ => (inl invalid_region, s)
       | c' => Aws.respond quiet c' s
       end |}.
(** The oracle refuses every request. *)
(** The oracle answers [content] to every request. *)
Definition says (content : string) : setting :=
  with_oracle quiet (fun _ => inr (bedrock_body content)).


Definition with_stack (s : cloud) (region name : string) (st : stack)
  (events : list stack_event) : cloud :=
  {| repositories := repositories s;
     stacks := <[(region, name) := st]> (stacks s);
     stack_events := <[(region, name) := events]> (stack_events s);
     deployments := deployments s; services := services s;
     service_accounts := service_accounts s |}.





(** The field [key] of a request, [d] when it is absent. *)
Definition request_arg (request : list (string * json)) (key : string) (d : json)
  : json :=
  match Dict.lookup key request with
  | Some x => x
  | None => d
  end.

(** The [Type] of each resource of a template's [Resources]. *)
Definition resource_types (resources : list (string * json)) : list (option json) :=
  List.map (fun '(_, r) => field "Type" r) resources.

(** A stack named as the fallback of the service [checkout] would be. *)
Definition fallback_taken : cloud :=
  with_stack empty_cloud "us-west-2" "checkout-alb-stack"
    {| StackStatus := "CREATE_COMPLETE"; StackStatusReason := None; Outputs := None |}
    [].

Definition express_unavailable : exn :=
  Exn OtherException "'ECS' object has no attribute 'create_express_gateway_service'".

Definition checkout_request : list (string * json) :=
  [ ("service_name", JStr "checkout");
    ("image_uri", JStr "123456789012.dkr.ecr.us-west-2.amazonaws.com/checkout:latest");
    ("region", JStr "us-west-2");
    ("vpc_id", JStr "vpc-0a1b2c3d");
    ("subnet_ids", JArr [JStr "subnet-0a1b2c3d"]) ].

(** The ECR login of the build fails. *)
Definition login_refused : setting :=
  with_subprocess quiet
    (fun _ => inr {| returncode := 255;
                     stdout := "";
                     stderr := "Unable to locate credentials" |}).

(** ** The environment of a blog or sample application *)

Section Enrichment.
Context `{PyLib}.

(** What the chat handlers write into [env_vars], read back: the
    region and the port are those of the deployment at hand. *)
Definition enriched (region app_port : json) (env : list (string * json)) : Prop :=
  Dict.lookup "AWS_REGION" env = Some region
  /\ Dict.lookup "DYNAMODB_TABLE" env = Some (JStr CONFIG.dynamodb_table)
  /\ Dict.lookup "S3_BUCKET" env
     = Some (JStr (CONFIG.s3_bucket_prefix ++ "-" ++ CONFIG.account_id ++ "-"
                     ++ py_str region))
  /\ Dict.lookup "COGNITO_USER_POOL_ID" env = Some (JStr CONFIG.cognito_user_pool_id)
  /\ Dict.lookup "COGNITO_CLIENT_ID" env = Some (JStr CONFIG.cognito_client_id)
  /\ Dict.lookup "PORT" env = Some (JStr (py_str app_port)).

(** A call is no submission to the ECS agent, or submits the deployment
    prompt with an enriched environment: the prompt's lines for the
    environment, the port and the region give that environment, the
    deployment's port and its region. *)
Definition ecs_submission_enriched (deploy_region app_port : json) (c : call) : Prop :=
  match c with
  | HttpPost _ payload =>
      exists image_uri service_name cpu memory desired_count env prompt,
        payload = JObj [("prompt", JStr prompt)]
        /\ prompt
           = ecs_deploy_prompt image_uri deploy_region service_name cpu memory
               app_port desired_count (JObj env)
        /\ enriched deploy_region app_port env
        /\ mentions prompt
             [ "- environment_variables: " ++ json_dumps (JObj env) ++ nl;
               "- port: " ++ py_str app_port ++ nl;
               "- region: " ++ py_str deploy_region ++ nl ]
  | _ => True
  end.

(** The tool and the arguments of a [tools/call] request. *)
Definition mcp_tool_call (payload : json) : option (json * json) :=
  match field "params" payload with
  | Some params =>
      match field "name" params, field "arguments" params with
      | Some name, Some arguments => Some (name, arguments)
      | _, _ => None
      end
  | None => None
  end.

(** A call is no submission of the EKS deployment tool, or carries an
    enriched environment. *)
Definition eks_submission_enriched (region app_port : json) (c : call) : Prop :=
  match c with
  | HttpPost _ payload =>
      forall arguments,
        mcp_tool_call payload = Some (JStr "deploy_to_eks_with_irsa", arguments) ->
        exists env,
          field "env_vars" arguments = Some (JObj env)
          /\ enriched region app_port env
          /\ Dict.lookup "NODE_ENV" env = Some (JStr "production")
  | _ => True
  end.

End Enrichment.

(** The payload of a [tools/call] request (app.py, lines 567-575). *)
Definition mcp_payload (tool_name arguments : json) : json :=
  JObj [ ("jsonrpc", JStr "2.0");
         ("id", JNum 1);
         ("method", JStr "tools/call");
         ("params", JObj [("name", tool_name); ("arguments", arguments)]) ].

(** The oracle routes to a deployment of [blog-app] on port 8080 and
    proposes an environment of its own. *)
Definition blog_arguments : list (string * json) :=
  [ ("app_name", JStr "blog-app");
    ("port", JNum 8080);
    ("env_vars",
      JObj [ ("PORT", JStr "9999");
             ("DYNAMODB_TABLE", JStr "my-table") ]) ].

Definition blog_routing : list (string * json) :=
  [ ("operation", JStr "deploy");
    ("arguments", JObj blog_arguments);
    ("reasoning", JStr "The user wants to deploy the blog") ].

Definition blog_decision : json := JObj blog_routing.

(** The same decision of the EKS router. *)
Definition eks_blog_routing : list (string * json) :=
  [ ("tool_name", JStr "deploy_workflow");
    ("arguments", JObj blog_arguments);
    ("reasoning", JStr "The user wants to deploy the blog");
    ("needs_build", JBool true) ].

(** The agent answers every tool call with status [created]. *)
Definition mcp_created : string :=
  "data: "
    ++ RefPy.dumps
         (JObj
            [ ("jsonrpc", JStr "2.0");
              ("id", JNum 1);
              ("result",
                JObj
                  [ ("content",
                      JArr
                        [ JObj
                            [ ("type", JStr "text");
                              ("text",
                                JStr
                                  (RefPy.dumps
                                     (JObj
                                        [ ("status", JStr "created");
                                          ("role_arn",
                                            JStr "arn:aws:iam::123456789012:role/blog-app-irsa-role") ]))) ] ]) ]) ]).

Definition agent_creates : setting :=
  {| account := account quiet; clock := clock quiet; oracle := oracle quiet;
     files := files quiet; subprocess := subprocess quiet;
     http := fun _ _ => inr {| status_code := 200; text := mcp_created |};
     vpcs := vpcs quiet; subnets := subnets quiet; express := express quiet |}.

(** The body of the chat request. *)
Definition blog_request : json :=
  JObj [ ("message", JStr "deploy the blog"); ("region", JStr "us-west-2") ].

(** The environment of [blog_decision] after the enrichment. *)
Definition blog_environment_sent : list (string * json) :=
  [ ("PORT", JStr "8080");
    ("DYNAMODB_TABLE", JStr CONFIG.dynamodb_table);
    ("AWS_REGION", JStr "us-west-2");
    ("S3_BUCKET", JStr "blog-images-private-<AWS_ACCOUNT_ID>-us-west-2");
    ("COGNITO_USER_POOL_ID", JStr CONFIG.cognito_user_pool_id);
    ("COGNITO_CLIENT_ID", JStr CONFIG.cognito_client_id) ].

Definition routes_blog : setting :=
  with_oracle quiet (fun _ => inr (bedrock_body (RefPy.dumps blog_decision))).

(** The submissions to the agent among the calls of a run. *)
Definition submissions (calls : list call) : list json :=
  List.flat_map (fun c => match c with HttpPost _ payload => [payload] | _ => [] end)
    calls.

(** A call that is no HTTP request. *)
Definition not_http (c : call) : Prop := is_http_post c = false.

(** * Further notions *)

(** What a program can do when every answer it is given satisfies [G]:
    every call it makes satisfies [C], every value it returns [P], every
    exception it raises [Q]. *)
Fixpoint ends {A : Type} (G : forall c : call, resp_ty c -> Prop) (C : call -> Prop)
  (P : A -> Prop) (Q : exn -> Prop) (p : prog A) : Prop :=
  match p with
  | Ret a => P a
  | Raise e => Q e
  | Call c k => C c /\ forall r, G c r -> ends G C P Q (k r)
  end.

(** No assumption on the answers, no condition on the calls. *)
Definition any_answer : forall c : call, resp_ty c -> Prop := fun _ _ => True.
Definition any_call : call -> Prop := fun _ => True.
Definition no_exception : exn -> Prop := fun _ => False.

(** The world's answers satisfy [G] in every state. *)
Definition answers {S : Type} (w : world S) (G : forall c : call, resp_ty c -> Prop)
  : Prop :=
  forall c s, G c (fst (respond w c s)).

(** From state [s] the oracle throttles [k] calls in a row, the router
    waiting after each as it does from attempt number [attempt] on, and
    then answers [body], leaving the world in [s']. *)
Fixpoint throttled_then {S : Type} (w : world S) (p : routing_prompt) (k : nat)
  (attempt : Z) (s : S) (body : string) (s' : S) : Prop :=
  match k with
  | O => respond w (InvokeModel p) s = (inr body, s')
  | Datatypes.S k' =>
      exists e s1,
        respond w (InvokeModel p) s = (inl e, s1)
        /\ is_throttling (exn_msg e) = true
        /\ throttled_then w p k' (attempt + 1)
             (snd (respond w (Sleep (base_delay * 2 ^ attempt)) s1)) body s'
  end.

(** The calls of a router that is throttled [k] times and then answered. *)
Fixpoint recovery_trace (p : routing_prompt) (k : nat) (attempt : Z) : list call :=
  match k with
  | O => [InvokeModel p]
  | Datatypes.S k' =>
      InvokeModel p :: Sleep (base_delay * 2 ^ attempt)
        :: recovery_trace p k' (attempt + 1)
  end.

(** An oracle that throttles its first [failures] calls and answers
    [answer] from then on; every other call is answered as in [quiet].
    The state counts the oracle's calls. *)
Definition flaky (failures : nat) (answer : string) : world (nat * cloud) :=
  {| respond := fun c '(n, s) =>
       match c return resp_ty c * (nat * cloud) with
       | InvokeModel _ =>
           if (n <? failures)%nat then (inl throttling, (Datatypes.S n, s))
           else (inr answer, (n, s))
       | c' => let '(r, s1) := Aws.respond quiet c' s in (r, (n, s1))
       end |}.

(** The oracle's answer in the examples: a listing request. *)
Definition list_decision : json :=
  JObj [ ("operation", JStr "list");
         ("arguments", JObj [("region", JStr "us-west-2")]);
         ("reasoning", JStr "The user wants to list the services") ].

(** The tool names [eks_chat] has a branch for (app.py, lines 1232,
    1375, 1404 and 1419). *)
Definition eks_tools : list string :=
  [ "deploy_workflow"; "list_deployments"; "get_deployment_status";
    "delete_eks_deployment"; "setup_oidc_provider"; "create_irsa_role"; "error" ].

(** A command line whose program is [name]. *)
Definition runs_program (name : string) (c : call) : bool :=
  match c with
  | SubprocessRun (program :: _) _ _ => eq_str program name
  | _ => false
  end.

(** The [aws] command line is answered with a non-zero return code. *)
Definition login_fails (c : call) : resp_ty c -> Prop :=
  match c return resp_ty c -> Prop with
  | SubprocessRun (program :: _) _ _ =>
      fun r =>
        eq_str program "aws" = true ->
        match r with
        | inr result => returncode result <> 0
        | inl _ => False
        end
  | _ => fun _ => True
  end.

Section Lines.
Context `{PyLib}.

(** A line of the agent's answer the loop of [invoke_mcp_tool] passes
    over: it is no [data: ] line, or what follows the marker is not
    JSON (app.py, lines 600-614). *)
Definition skipped (line : string) : Prop :=
  String.prefix "data: " line = false
  \/ exists m, json_loads (Str.drop 6 line) = inl m.

End Lines.

(** An agent that is down. *)
Definition bad_gateway : http_response :=
  {| status_code := 502; text := "Bad Gateway" |}.

Definition agent_down : setting :=
  {| account := account quiet; clock := clock quiet; oracle := oracle quiet;
     files := files quiet; subprocess := subprocess quiet;
     http := fun _ _ => inr bad_gateway;
     vpcs := vpcs quiet; subnets := subnets quiet; express := express quiet |}.

(** An agent whose answer holds a comment line, a [data: ] line that is
    not JSON and then the tool's answer. *)
Definition mcp_stream : string :=
  ": ping" ++ nl ++ "data: [DONE" ++ nl ++ mcp_created ++ nl.

Definition agent_streams : setting :=
  {| account := account quiet; clock := clock quiet; oracle := oracle quiet;
     files := files quiet; subprocess := subprocess quiet;
     http := fun _ _ => inr {| status_code := 200; text := mcp_stream |};
     vpcs := vpcs quiet; subnets := subnets quiet; express := express quiet |}.

(** The deletion of the deployment is refused. *)
Definition forbidden : exn :=
  Exn (ApiException 403 "Forbidden") ("(403)" ++ nl ++ "Reason: Forbidden" ++ nl).

(** A cluster that refuses the deletion of deployments and answers every
    other call as [quiet] does. *)
Definition read_only_cluster : world cloud :=
  {| respond := fun c s =>
       match c return resp_ty c * cloud with
       | K8sDeleteDeployment _ => (inl forbidden, s)
       | c' => Aws.respond quiet c' s
       end |}.

(** A call to EC2. *)
Definition is_ec2_call (c : call) : bool :=
  match c with
  | Ec2DescribeVpcs _ _ | Ec2DescribeSubnets _ _ _ => true
  | _ => false
  end.

(** A request that names its network. *)
Definition placed_request : list (string * json) :=
  [ ("service_name", JStr "checkout");
    ("image_uri", JStr "123456789012.dkr.ecr.us-west-2.amazonaws.com/checkout:latest");
    ("vpc_id", JStr "vpc-0a1b2c3d");
    ("subnet_ids", JArr [JStr "subnet-0a1b2c3d"; JStr "subnet-1a2b3c4d"]) ].

(** * More of web-ui/app.py: the routes beside the two chats *)

Section Routes.
Context `{PyLib}.

(** The reply of a route's [except Exception as e]. *)
Definition route_failure (e : exn) : prog json :=
  Ret (jsonify [("status", JStr "error"); ("message", JStr (exn_msg e))]).

(** [POST /api/ecs/list] (lines 626-637).  The fields of the body are
    read before the [try]. *)
Definition ecs_list_services (data : json) : prog json :=
  region <- lift (py_get data "region" (JStr "us-west-2")) ;;
  catch
    (let prompt := "List all ECS services in " ++ py_str region in
     result <- invoke_strands_agent CONFIG.ecs_agent_arn prompt CONFIG.agent_region ;;
     Ret (jsonify [("status", JStr "success"); ("result", result)]))
    route_failure.

(** The prompt of [ecs_deploy] (lines 656-670). *)
Definition ecs_workflow_prompt (image_uri : string)
  (region app_name service_name cpu memory port env_vars : json) : string :=
  "I need to deploy a containerized application to ECS Express Mode in "
    ++ py_str region ++ ". Let's do this step by step:" ++ nl
    ++ nl
    ++ "Step 1: First, create an ECR repository named " ++ py_str app_name ++ " in "
    ++ py_str region ++ " if it doesn't exist." ++ nl
    ++ nl
    ++ "Step 2: After the repository is ready, I will build and push the Docker image locally to "
    ++ image_uri ++ "." ++ nl
    ++ nl
    ++ "Step 3: Then deploy the image " ++ image_uri ++ " to ECS Express Mode in "
    ++ py_str region ++ " with these parameters:" ++ nl
    ++ "- service_name: " ++ py_str service_name ++ nl
    ++ "- cpu: " ++ py_str cpu ++ nl
    ++ "- memory: " ++ py_str memory ++ nl
    ++ "- port: " ++ py_str port ++ nl
    ++ "- region: " ++ py_str region ++ nl
    ++ "- environment_variables: " ++ json_dumps env_vars ++ nl
    ++ nl
    ++ "Let's start with Step 1 - create the ECR repository.".

(** The [next_steps] of [ecs_deploy] (lines 679-688). *)
Definition ecs_next_steps (image_uri : string) (region : json) : string :=
  nl
    ++ "Next steps to complete deployment:" ++ nl
    ++ nl
    ++ "1. Build and push Docker image locally:" ++ nl
    ++ "   cd " ++ CONFIG.app_path ++ nl
    ++ "   aws ecr get-login-password --region " ++ py_str region
    ++ " | docker login --username AWS --password-stdin " ++ CONFIG.account_id
    ++ ".dkr.ecr." ++ py_str region ++ ".amazonaws.com" ++ nl
    ++ "   docker buildx build --platform linux/amd64,linux/arm64 -t " ++ image_uri
    ++ " --push ." ++ nl
    ++ nl
    ++ "2. After image is pushed, click " ++ Str.dq ++ "Continue Deployment" ++ Str.dq
    ++ " to deploy to ECS." ++ nl.

(** [POST /api/ecs/deploy] (lines 639-691).  The default of
    [service_name] reads the clock, whether the body names the service
    or not; [data.get] itself is looked up before that. *)
Definition ecs_deploy (data : json) : prog json :=
  (if is_dict data then Ret tt else Raise (attribute_error data "get")) ;;;
  now <- ask TimeTime ;;
  service_name <-
    lift (py_get data "service_name" (JStr ("blog-app-" ++ Str.of_Z now))) ;;
  app_name <- lift (py_get data "app_name" (JStr "blog-app")) ;;
  region <- lift (py_get data "region" (JStr "us-west-2")) ;;
  cpu <- lift (py_get data "cpu" (JStr CONFIG.default_cpu)) ;;
  memory <- lift (py_get data "memory" (JStr CONFIG.default_memory)) ;;
  port <- lift (py_get data "port" (JNum 3000)) ;;
  env_vars <- lift (py_get data "env_vars" (JObj [])) ;;
  catch
    (let account_id := CONFIG.account_id in
     let image_uri :=
       account_id ++ ".dkr.ecr." ++ py_str region ++ ".amazonaws.com/"
         ++ py_str app_name ++ ":latest" in
     let prompt :=
       ecs_workflow_prompt image_uri region app_name service_name cpu memory port
         env_vars in
     result <- invoke_strands_agent CONFIG.ecs_agent_arn prompt CONFIG.agent_region ;;
     Ret (jsonify [ ("status", JStr "success");
                    ("result", result);
                    ("service_name", service_name);
                    ("image_uri", JStr image_uri);
                    ("next_steps", JStr (ecs_next_steps image_uri region)) ]))
    route_failure.

(** [POST /api/ecs/delete] (lines 693-706). *)
Definition ecs_delete (data : json) : prog json :=
  service_name <- lift (py_get data "service_name" JNull) ;;
  region <- lift (py_get data "region" (JStr "us-west-2")) ;;
  catch
    (let prompt :=
       "Delete the ECS service named " ++ py_str service_name ++ " in region "
         ++ py_str region in
     result <- invoke_strands_agent CONFIG.ecs_agent_arn prompt CONFIG.agent_region ;;
     Ret (jsonify [("status", JStr "success"); ("result", result)]))
    route_failure.

(** The prompt of [ecs_continue_deploy] (lines 942-952). *)
Definition ecs_continue_prompt (image_uri region service_name cpu memory port
  env_vars : json) : string :=
  "The Docker image has been built and pushed to " ++ py_str image_uri ++ "." ++ nl
    ++ nl
    ++ "Now deploy this image to ECS Express Mode in " ++ py_str region
    ++ " with these parameters:" ++ nl
    ++ "- service_name: " ++ py_str service_name ++ nl
    ++ "- cpu: " ++ py_str cpu ++ nl
    ++ "- memory: " ++ py_str memory ++ nl
    ++ "- port: " ++ py_str port ++ nl
    ++ "- region: " ++ py_str region ++ nl
    ++ "- environment_variables: " ++ json_dumps env_vars ++ nl
    ++ nl
    ++ "Make sure to pass the environment_variables parameter to the deploy_ecs_express_service tool.".

(** [POST /api/ecs/continue-deploy] (lines 929-957). *)
Definition ecs_continue_deploy (data : json) : prog json :=
  service_name <- lift (py_get data "service_name" JNull) ;;
  image_uri <- lift (py_get data "image_uri" JNull) ;;
  region <- lift (py_get data "region" (JStr "us-west-2")) ;;
  cpu <- lift (py_get data "cpu" (JStr CONFIG.default_cpu)) ;;
  memory <- lift (py_get data "memory" (JStr CONFIG.default_memory)) ;;
  port <- lift (py_get data "port" (JNum 3000)) ;;
  env_vars <- lift (py_get data "env_vars" (JObj [])) ;;
  catch
    (let prompt :=
       ecs_continue_prompt image_uri region service_name cpu memory port env_vars in
     result <- invoke_strands_agent CONFIG.ecs_agent_arn prompt CONFIG.agent_region ;;
     Ret (jsonify [ ("status", JStr "success");
                    ("result", result);
                    ("service_name", service_name) ]))
    route_failure.

(** A route that calls one tool of the EKS agent and wraps its answer. *)
Definition eks_tool_route (tool_name : string) (arguments : list (string * json))
  : prog json :=
  catch
    (result <-
       invoke_mcp_tool CONFIG.eks_agent_arn (JStr tool_name) (JObj arguments)
         CONFIG.agent_region ;;
     Ret (jsonify [("status", JStr "success"); ("result", result)]))
    route_failure.

(** [POST /api/eks/status] (lines 708-729). *)
Definition eks_status (data : json) : prog json :=
  cluster_name <- lift (py_get data "cluster_name" JNull) ;;
  app_name <- lift (py_get data "app_name" JNull) ;;
  region <- lift (py_get data "region" JNull) ;;
  eks_tool_route "get_deployment_status"
    [("cluster_name", cluster_name); ("app_name", app_name); ("region", region)].

(** [POST /api/eks/delete] (lines 731-754). *)
Definition eks_delete (data : json) : prog json :=
  cluster_name <- lift (py_get data "cluster_name" JNull) ;;
  app_name <- lift (py_get data "app_name" JNull) ;;
  region <- lift (py_get data "region" JNull) ;;
  eks_tool_route "delete_eks_deployment"
    [ ("cluster_name", cluster_name); ("app_name", app_name); ("region", region);
      ("delete_service", JBool true); ("delete_service_account", JBool true) ].

(** The lines of the prompt [eks_deploy] builds (lines 777-814). *)
Definition eks_workflow_prompt (image_uri : string)
  (cluster_name app_name region port replicas env_vars role_arn
     service_account_name s3_bucket dynamodb_table : json) : string :=
  let prompt_parts :=
    [ "I need to deploy a containerized application to EKS cluster '"
        ++ py_str cluster_name ++ "' in " ++ py_str region
        ++ ". Let's do this step by step:";
      "";
      "Step 1: Setup OIDC provider for the cluster if not already done.";
      "" ] in
  let prompt_parts :=
    if negb (truthy role_arn) then
      List.app prompt_parts
        [ "Step 2: Create an IRSA role for app '" ++ py_str app_name
            ++ "' with access to:";
          "  - S3 bucket: " ++ py_str s3_bucket;
          "  - DynamoDB table: " ++ py_str dynamodb_table;
          "" ]
    else
      List.app (List.app prompt_parts
                  ["Step 2: Use existing IRSA role: " ++ py_str role_arn]) [""] in
  let step_num := 3 in
  let prompt_parts :=
    List.app prompt_parts
      [ "Step " ++ Str.of_Z step_num
          ++ ": After IRSA is ready, I will build and push the Docker image locally to "
          ++ image_uri ++ ".";
        "";
        "Step " ++ Str.of_Z (step_num + 1)
          ++ ": Then deploy to EKS with these parameters:";
        "  - cluster: " ++ py_str cluster_name;
        "  - app_name: " ++ py_str app_name;
        "  - image_uri: " ++ image_uri;
        "  - port: " ++ py_str port;
        "  - replicas: " ++ py_str replicas;
        "  - region: " ++ py_str region;
        "  - role_arn: "
          ++ (if truthy role_arn then py_str role_arn else "from Step 2");
        "  - service_account_name: " ++ py_str service_account_name;
        "  - env_vars: " ++ json_dumps env_vars;
        "";
        "Let's start with Step 1 - setup OIDC provider." ] in
  String.concat nl prompt_parts.

(** The [next_steps] of [eks_deploy] (lines 830-841). *)
Definition eks_next_steps (image_uri : string) (region role_arn : json) : string :=
  nl
    ++ "Next steps to complete deployment:" ++ nl
    ++ nl
    ++ "1. "
    ++ (if negb (truthy role_arn) then "Create IRSA role (click button below)"
        else "IRSA role already provided") ++ nl
    ++ nl
    ++ "2. Build and push Docker image locally:" ++ nl
    ++ "   cd " ++ CONFIG.app_path ++ nl
    ++ "   aws ecr get-login-password --region " ++ py_str region
    ++ " | docker login --username AWS --password-stdin " ++ CONFIG.account_id
    ++ ".dkr.ecr." ++ py_str region ++ ".amazonaws.com" ++ nl
    ++ "   && docker buildx build --platform linux/amd64,linux/arm64 -t " ++ image_uri
    ++ " --push ." ++ nl
    ++ nl
    ++ "3. After image is pushed, click " ++ Str.dq ++ "Continue Deployment" ++ Str.dq
    ++ " to deploy to EKS." ++ nl.

(** [POST /api/eks/deploy] (lines 756-844).  The prompt is built and
    then not used: the route calls [setup_oidc_provider] only. *)
Definition eks_deploy (data : json) : prog json :=
  cluster_name <- lift (py_get data "cluster_name" JNull) ;;
  app_name <- lift (py_get data "app_name" JNull) ;;
  image_name <- lift (py_get data "image_name" app_name) ;;
  region <- lift (py_get data "region" JNull) ;;
  port <- lift (py_get data "port" (JNum 3000)) ;;
  replicas <- lift (py_get data "replicas" (JNum CONFIG.default_replicas)) ;;
  env_vars <- lift (py_get data "env_vars" (JObj [])) ;;
  role_arn <- lift (py_get data "role_arn" JNull) ;;
  service_account_name <-
    lift (py_get data "service_account_name" (JStr (py_str app_name ++ "-sa"))) ;;
  s3_bucket <- lift (py_get data "s3_bucket" JNull) ;;
  dynamodb_table <- lift (py_get data "dynamodb_table" JNull) ;;
  catch
    (let account_id := CONFIG.account_id in
     let image_uri :=
       account_id ++ ".dkr.ecr." ++ py_str region ++ ".amazonaws.com/"
         ++ py_str image_name ++ ":latest" in
     let prompt :=
       eks_workflow_prompt image_uri cluster_name app_name region port replicas
         env_vars role_arn service_account_name s3_bucket dynamodb_table in
     result <-
       invoke_mcp_tool CONFIG.eks_agent_arn (JStr "setup_oidc_provider")
         (JObj [("cluster_name", cluster_name); ("region", region)])
         CONFIG.agent_region ;;
     Ret (jsonify [ ("status", JStr "success");
                    ("result", result);
                    ("image_uri", JStr image_uri);
                    ("next_steps", JStr (eks_next_steps image_uri region role_arn)) ]))
    route_failure.

(** [POST /api/eks/continue-deploy] (lines 846-879). *)
Definition eks_continue_deploy (data : json) : prog json :=
  cluster_name <- lift (py_get data "cluster_name" JNull) ;;
  app_name <- lift (py_get data "app_name" JNull) ;;
  image_uri <- lift (py_get data "image_uri" JNull) ;;
  region <- lift (py_get data "region" JNull) ;;
  port <- lift (py_get data "port" (JNum 3000)) ;;
  replicas <- lift (py_get data "replicas" (JNum CONFIG.default_replicas)) ;;
  env_vars <- lift (py_get data "env_vars" (JObj [])) ;;
  role_arn <- lift (py_get data "role_arn" JNull) ;;
  service_account_name <-
    lift (py_get data "service_account_name" (JStr (py_str app_name ++ "-sa"))) ;;
  eks_tool_route "deploy_to_eks_with_irsa"
    [ ("cluster_name", cluster_name); ("app_name", app_name);
      ("image_uri", image_uri); ("port", port); ("replicas", replicas);
      ("env_vars", env_vars); ("region", region); ("role_arn", role_arn);
      ("service_account_name", service_account_name) ].

(** [POST /api/eks/setup-oidc] (lines 881-900). *)
Definition eks_setup_oidc (data : json) : prog json :=
  cluster_name <- lift (py_get data "cluster_name" JNull) ;;
  region <- lift (py_get data "region" JNull) ;;
  eks_tool_route "setup_oidc_provider"
    [("cluster_name", cluster_name); ("region", region)].

(** [POST /api/eks/create-irsa] (lines 902-927). *)
Definition eks_create_irsa (data : json) : prog json :=
  cluster_name <- lift (py_get data "cluster_name" JNull) ;;
  app_name <- lift (py_get data "app_name" JNull) ;;
  region <- lift (py_get data "region" JNull) ;;
  s3_bucket <- lift (py_get data "s3_bucket" JNull) ;;
  dynamodb_table <- lift (py_get data "dynamodb_table" JNull) ;;
  eks_tool_route "create_irsa_role"
    [ ("cluster_name", cluster_name); ("app_name", app_name); ("region", region);
      ("s3_bucket", s3_bucket); ("dynamodb_table", dynamodb_table) ].

(** [POST /api/cloudformation/stacks] (lines 1432-1465). *)
Definition list_cfn_stacks (data : json) : prog json :=
  region <- lift (py_get data "region" (JStr "us-west-2")) ;;
  catch
    (summaries <-
       cfn_list_stacks region
         [ "CREATE_COMPLETE"; "CREATE_IN_PROGRESS"; "UPDATE_COMPLETE";
           "UPDATE_IN_PROGRESS"; "ROLLBACK_COMPLETE"; "ROLLBACK_IN_PROGRESS";
           "CREATE_FAILED"; "DELETE_IN_PROGRESS" ] ;;
     let ecs_stacks :=
       List.map
         (fun st =>
            JObj [ ("name", JStr (StackName st));
                   ("status", JStr (SummaryStatus st));
                   ("created", JStr (CreationTime st)) ])
         (List.filter (fun st => Str.contains "ecs-express" (StackName st))
            summaries) in
     Ret (jsonify [("status", JStr "success"); ("stacks", JArr ecs_stacks)]))
    route_failure.

(** [POST /api/cloudformation/stack-status] (lines 1467-1481). *)
Definition get_stack_status (data : json) : prog json :=
  stack_name <- lift (py_get data "stack_name" JNull) ;;
  region <- lift (py_get data "region" (JStr "us-west-2")) ;;
  if negb (truthy stack_name) then
    Ret (jsonify [("status", JStr "error"); ("message", JStr "stack_name is required")])
  else
    catch
      (result <- check_stack_status stack_name region ;;
       Ret (jsonify [("status", JStr "success"); ("result", result)]))
      route_failure.

End Routes.

(** ** The operation logs (app.py, lines 43, 412-421 and 959-963)

    [operation_logs] is the module's dictionary of log entries by
    operation; the functions take and give it.  [now] stands for
    [datetime.now().isoformat()]. *)

Abbreviation operation_logs := (gmap string (list json)).

Definition log_message (now : string) (logs : operation_logs)
  (operation_id message level : string) : operation_logs :=
  let logs :=
    match logs !! operation_id with
    | None => <[operation_id := []]> logs
    | Some _ => logs
    end in
  <[operation_id :=
      (default [] (logs !! operation_id)
         ++ [ JObj [ ("timestamp", JStr now);
                     ("level", JStr level);
                     ("message", JStr message) ] ])%list]> logs.

Definition get_logs (logs : operation_logs) (operation_id : string) : json :=
  jsonify [("logs", JArr (default [] (logs !! operation_id)))].

(** A program that makes no call. *)
Definition is_pure {A : Type} (p : prog A) : Prop :=
  match p with
  | Call _ _ => False
  | _ => True
  end.

(** A program that makes the call [c] and, whatever the answer, no
    other. *)
Definition calls_once {A : Type} (c : call) (p : prog A) : Prop :=
  match p with
  | Call c' k => c' = c /\ forall r, is_pure (k r)
  | _ => False
  end.

(** The request a route sends to the ECS agent. *)
Definition submit (prompt : string) : call :=
  HttpPost (agent_url CONFIG.ecs_agent_arn CONFIG.agent_region)
    (JObj [("prompt", JStr prompt)]).

(** The request a route sends to the EKS agent. *)
Definition tool_call (tool_name : string) (arguments : list (string * json)) : call :=
  HttpPost (agent_url CONFIG.eks_agent_arn CONFIG.agent_region)
    (mcp_payload (JStr tool_name) (JObj arguments)).

(** A service is deployed, looked at, deleted and looked at again, with
    the tools of the ECS agent. *)
Definition lifecycle `{PyLib} (service_name image_uri cpu memory : string) (port : Z)
  (region : string) (environment_variables : option (list (string * json)))
  (desired_count : Z) : prog (json * json * json * json) :=
  deployed <-
    deploy_ecs_express_service service_name image_uri cpu memory port region
      environment_variables desired_count ;;
  status <- check_service_status None (Some ("ecs-express-" ++ service_name)) region ;;
  deleted <- delete_ecs_service (Some service_name) None region ;;
  after <- check_service_status None (Some ("ecs-express-" ++ service_name)) region ;;
  Ret (deployed, status, deleted, after).

(** * More of container-migration/lambda_function.py *)

From Stdlib Require QArith.

Definition backslash : string := String (ascii_of_nat 92) EmptyString.

(** The signs of the findings, byte for byte as the source file has
    them. *)
Module Sign.
Definition cross := Str.of_bytes [195; 162; 197; 146]%nat.
Definition warning :=
  Str.of_bytes [195; 162; 197; 161; 194; 160; 195; 175; 194; 184]%nat.
Definition check := Str.of_bytes [195; 162; 197; 147; 226; 128; 166]%nat.
End Sign.

Section Containers.
Context `{PyLib}.

(** The Dockerfile of [handle_optimize_dockerfile] (lines 73-106). *)
Definition dockerfile (base_image port : json) : string :=
  "FROM " ++ py_str base_image ++ nl
    ++ nl
    ++ "WORKDIR /app" ++ nl
    ++ nl
    ++ "# Copy package files" ++ nl
    ++ "COPY package*.json ./" ++ nl
    ++ nl
    ++ "# Install dependencies" ++ nl
    ++ "RUN npm ci --only=production" ++ nl
    ++ nl
    ++ "# Copy application code" ++ nl
    ++ "COPY src/ ./src/" ++ nl
    ++ "COPY public/ ./public/" ++ nl
    ++ nl
    ++ "# Create uploads directory" ++ nl
    ++ "RUN mkdir -p uploads" ++ nl
    ++ nl
    ++ "# Create non-root user" ++ nl
    ++ "RUN addgroup -g 1001 -S nodejs" ++ nl
    ++ "RUN adduser -S nodejs -u 1001" ++ nl
    ++ nl
    ++ "# Change ownership of the app directory" ++ nl
    ++ "RUN chown -R nodejs:nodejs /app" ++ nl
    ++ "USER nodejs" ++ nl
    ++ nl
    ++ "# Expose port" ++ nl
    ++ "EXPOSE " ++ py_str port ++ nl
    ++ nl
    ++ "# Health check" ++ nl
    ++ "HEALTHCHECK --interval=30s --timeout=3s --start-period=5s --retries=3 "
    ++ backslash ++ nl
    ++ "  CMD node -e " ++ Str.dq ++ "require('http').get('http://localhost:"
    ++ py_str port
    ++ "/health', (res) => { process.exit(res.statusCode === 200 ? 0 : 1) })"
    ++ Str.dq ++ nl
    ++ nl
    ++ "# Start application" ++ nl
    ++ "CMD [" ++ Str.dq ++ "npm" ++ Str.dq ++ ", " ++ Str.dq ++ "start" ++ Str.dq
    ++ "]".

Definition handle_optimize_dockerfile (request_data : json) : exn + json :=
  base_image <-- py_get request_data "base_image" (JStr "node:18-alpine") ;
  port <-- py_get request_data "port" (JNum 3000) ;
  let dockerfile_content := dockerfile base_image port in
  inr (create_response 200
         (JObj [ ("status", JStr "success");
                 ("dockerfile", JStr dockerfile_content);
                 ("message",
                   JStr "Optimized Dockerfile generated with security best practices") ])).

(** The template of [handle_dockerfile_template] (lines 217-250). *)
Definition dockerfile_template : string :=
  "FROM node:18-alpine" ++ nl
    ++ nl
    ++ "WORKDIR /app" ++ nl
    ++ nl
    ++ "# Copy package files" ++ nl
    ++ "COPY package*.json ./" ++ nl
    ++ nl
    ++ "# Install dependencies" ++ nl
    ++ "RUN npm ci --only=production" ++ nl
    ++ nl
    ++ "# Copy application code" ++ nl
    ++ "COPY src/ ./src/" ++ nl
    ++ "COPY public/ ./public/" ++ nl
    ++ nl
    ++ "# Create uploads directory" ++ nl
    ++ "RUN mkdir -p uploads" ++ nl
    ++ nl
    ++ "# Create non-root user" ++ nl
    ++ "RUN addgroup -g 1001 -S nodejs" ++ nl
    ++ "RUN adduser -S nodejs -u 1001" ++ nl
    ++ nl
    ++ "# Change ownership of the app directory" ++ nl
    ++ "RUN chown -R nodejs:nodejs /app" ++ nl
    ++ "USER nodejs" ++ nl
    ++ nl
    ++ "# Expose port" ++ nl
    ++ "EXPOSE 3000" ++ nl
    ++ nl
    ++ "# Health check" ++ nl
    ++ "HEALTHCHECK --interval=30s --timeout=3s --start-period=5s --retries=3 "
    ++ backslash ++ nl
    ++ "  CMD node -e " ++ Str.dq
    ++ "require('http').get('http://localhost:3000/health', (res) => { process.exit(res.statusCode === 200 ? 0 : 1) })"
    ++ Str.dq ++ nl
    ++ nl
    ++ "# Start application" ++ nl
    ++ "CMD [" ++ Str.dq ++ "npm" ++ Str.dq ++ ", " ++ Str.dq ++ "start" ++ Str.dq
    ++ "]".

Definition handle_dockerfile_template : json :=
  create_response 200
    (JObj [ ("status", JStr "success");
            ("template", JStr dockerfile_template);
            ("description",
              JStr "Production-ready Dockerfile template with security best practices") ]).

(** What [handle_validate_container_security] hands to
    [create_response] with status 200 (lines 207-212).  The score is a
    Python float; it is kept as the rational number it is computed
    from. *)
Record security_report : Type := {
  report_status : string;
  recommendations : list string;
  issues : list string;
  security_score : QArith_base.Q;
}.

(** [len(r) / (len(r) + len(i)) * 100 if (r or i) else 100] *)
Definition score (recommendations issues : list string) : QArith_base.Q :=
  match recommendations, issues with
  | [], [] => QArith_base.inject_Z 100
  | _, _ =>
      QArith_base.Qmult
        (QArith_base.Qdiv
           (QArith_base.inject_Z (Z.of_nat (List.length recommendations)))
           (QArith_base.inject_Z
              (Z.of_nat (List.length recommendations + List.length issues))))
        (QArith_base.inject_Z 100)
  end.

(** [l.append(x)] *)
Definition appended (l : list string) (x : string) : list string := List.app l [x].

(** The security checks (lines 179-205): the two lists as the four
    tests leave them. *)
Definition security_findings (dockerfile_content : json)
  : exn + (list string * list string) :=
  let recommendations : list string := [] in
  let issues : list string := [] in
  root <-- py_in "USER root" dockerfile_content ;
  root <-- (if root then inr true else py_in "USER 0" dockerfile_content) ;
  user <-- (if root then inr false else py_in "USER " dockerfile_content) ;
  let '(recommendations, issues) :=
    if root then (recommendations, appended issues (Sign.cross ++ " Running as root user"))
    else if negb user then
      (recommendations,
        appended issues
          (Sign.warning ++ " No explicit user specified (may run as root)"))
    else (appended recommendations (Sign.check ++ " Non-root user specified"), issues) in
  healthcheck <-- py_in "HEALTHCHECK" dockerfile_content ;
  let '(recommendations, issues) :=
    if negb healthcheck then
      (recommendations, appended issues (Sign.warning ++ " No health check defined"))
    else (appended recommendations (Sign.check ++ " Health check included"), issues) in
  production <-- py_in "--only=production" dockerfile_content ;
  production <--
    (if production then inr true else py_in "--omit=dev" dockerfile_content) ;
  let '(recommendations, issues) :=
    if production then
      (appended recommendations (Sign.check ++ " Production dependencies only"), issues)
    else
      (recommendations,
        appended issues
          (Sign.warning ++ " Consider using production-only dependencies")) in
  copy_all <-- py_in "COPY . ." dockerfile_content ;
  let '(recommendations, issues) :=
    if copy_all then
      (recommendations,
        appended issues
          (Sign.warning ++ " Copying entire directory (consider .dockerignore)"))
    else (appended recommendations (Sign.check ++ " Selective file copying"), issues) in
  inr (recommendations, issues).

Definition handle_validate_container_security (request_data : json)
  : exn + security_report :=
  dockerfile_content <-- py_get request_data "dockerfile_content" (JStr "") ;
  findings <-- security_findings dockerfile_content ;
  let '(recommendations, issues) := findings in
  inr {| report_status := "success";
         recommendations := recommendations;
         issues := issues;
         security_score := score recommendations issues |}.

End Containers.

(** * The tools that call further services

    The other tools of the EKS agent call clients of the AWS SDK and of
    the Kubernetes client that the first part has no call for.  A
    request is such a call, kept by the client, the operation and its
    arguments; the SDK answers with a dictionary, the Kubernetes client
    with an object.  An object of the Kubernetes client, answered or
    sent, is kept as the dictionary of the attributes that are set. *)

Inductive request : Type :=
| Boto (service : string) (region : option string) (operation : string)
    (arguments : list (string * json))
| Kube (api operation : string) (arguments : list json)
| Base (c : call).

Definition answer (r : request) : Type :=
  match r with
  | Boto _ _ _ _ => (exn + json)%type
  | Kube _ _ _ => (exn + json)%type
  | Base c => resp_ty c
  end.

Inductive task (A : Type) : Type :=
| Done (a : A)
| Fail (e : exn)
| Ask (r : request) (k : answer r -> task A).

Arguments Done {A} a.
Arguments Fail {A} e.
Arguments Ask {A} r k.

Fixpoint andthen {A B : Type} (p : task A) (f : A -> task B) : task B :=
  match p with
  | Done a => f a
  | Fail e => Fail e
  | Ask r k => Ask r (fun x => andthen (k x) f)
  end.

(** [try: p  except Exception as e: h e] *)
Fixpoint rescue {A : Type} (p : task A) (h : exn -> task A) : task A :=
  match p with
  | Done a => Done a
  | Fail e => h e
  | Ask r k => Ask r (fun x => rescue (k x) h)
  end.

(** [try: p  except <class> as e: h e] *)
Definition rescue_if {A : Type} (sel : exn -> bool) (p : task A)
  (h : exn -> task A) : task A :=
  rescue p (fun e => if sel e then h e else Fail e).

Definition give {A : Type} (r : exn + A) : task A :=
  match r with
  | inl e => Fail e
  | inr a => Done a
  end.

(** A request that may raise. *)
Definition call_for {A : Type} (r : request) (read : answer r -> exn + A) : task A :=
  Ask r (fun x => give (read x)).

Definition boto (service : string) (region : option string) (operation : string)
  (arguments : list (string * json)) : task json :=
  call_for (Boto service region operation arguments) (fun x => x).

Definition kube (api operation : string) (arguments : list json) : task json :=
  call_for (Kube api operation arguments) (fun x => x).

Declare Scope task_scope.
Delimit Scope task_scope with task.
Notation "x <- p ;; k" := (andthen p (fun x => k))
  (at level 100, p at next level, right associativity) : task_scope.
Notation "p ;;; k" := (andthen p (fun _ => k))
  (at level 100, right associativity) : task_scope.

(** The provider answers every request from its current state. *)
Record provider (S : Type) : Type :=
  { reply : forall r : request, S -> answer r * S }.
Arguments reply {S} _ r _.

(** The outcome of a task: what it returned or raised, the final state,
    and the requests made, in order. *)
Fixpoint perform {S A : Type} (w : provider S) (p : task A) (s : S)
  : (exn + A) * S * list request :=
  match p with
  | Done a => (inr a, s, [])
  | Fail e => (inl e, s, [])
  | Ask r k =>
      let '(x, s1) := reply w r s in
      let '(out, s2, requests) := perform w (k x) s1 in
      (out, s2, r :: requests)
  end.

(** What a task can do when every answer it is given satisfies [G]:
    when it returns [a] after the requests [rs], [P rs a] holds; when it
    raises [e] after them, [Q rs e]. *)
Fixpoint traced {A : Type} (G : forall r : request, answer r -> Prop)
  (P : list request -> A -> Prop) (Q : list request -> exn -> Prop)
  (p : task A) : Prop :=
  match p with
  | Done a => P [] a
  | Fail e => Q [] e
  | Ask r k =>
      forall x, G r x ->
        traced G (fun rs => P (r :: rs)) (fun rs => Q (r :: rs)) (k x)
  end.

Definition any_reply : forall r : request, answer r -> Prop := fun _ _ => True.

Definition replies {S : Type} (w : provider S) (G : forall r : request, answer r -> Prop)
  : Prop :=
  forall r s, G r (fst (reply w r s)).

(** ** Library functions of the SDK

    Which class an exception of the SDK belongs to is decided by the
    SDK; the test of the [except] clause of [create_irsa_role] is kept
    as a predicate. *)
Class SdkLib : Type := {
  is_entity_already_exists : exn -> bool;
}.

Section Attributes.
Context `{PyLib}.

(** [obj.name] for an object of the Kubernetes client: its model
    classes have every attribute, [None] when it is not set. *)
Definition attr (obj : json) (name : string) : exn + json :=
  match obj with
  | JObj kv => inr (default JNull (Dict.lookup name kv))
  | _ => inl (attribute_error obj name)
  end.

(** [v or d] *)
Definition py_or (v d : json) : json := if truthy v then v else d.

(** [v.split(sep)[-1]] *)
Definition py_split_last (sep : string) (v : json) : exn + string :=
  match v with
  | JStr s => inr (Str.split_last sep s)
  | _ => inl (attribute_error v "split")
  end.

(** [v > 0] *)
Definition py_positive (v : json) : exn + bool :=
  match v with
  | JNum n => inr (n >? 0)
  | JBool b => inr b
  | _ =>
      inl (Exn TypeError
             ("'>' not supported between instances of '" ++ type_name v
                ++ "' and 'int'"))
  end.

End Attributes.

(** ** agentcore-eks-runtime/agent.py: the other tools *)

Section EksAgent.
Context `{PyLib}.
Local Open Scope task_scope.

(** [get_k8s_client], [os.unlink] and [time.sleep], as in the first
    part. *)
Definition k8s_client (cluster_name region : string) : task string :=
  call_for (Base (GetK8sClient cluster_name region)) (fun x => x).
Definition unlink (path : string) : task unit :=
  call_for (Base (OsUnlink path)) (fun x => x).
Definition sleep (seconds : Z) : task unit := Ask (Base (Sleep seconds)) Done.

(** [cluster['cluster']['identity']['oidc']['issuer']] *)
Definition oidc_issuer_of (cluster : json) : exn + json :=
  c <-- py_item cluster "cluster" ;
  identity <-- py_item c "identity" ;
  oidc <-- py_item identity "oidc" ;
  py_item oidc "issuer".

(** The loop over the providers (lines 136-144): the ARN of the first
    whose ARN contains the identifier. *)
Fixpoint find_provider (oidc_id : string) (providers : list json)
  : exn + option json :=
  match providers with
  | [] => inr None
  | provider :: rest =>
      arn <-- py_item provider "Arn" ;
      found <-- py_in oidc_id arn ;
      if found then inr (Some arn) else find_provider oidc_id rest
  end.

Definition thumbprint : string := "9e99a48a9960b14926bb7f3b02e22da2b0ab7280".

Definition setup_oidc_provider (cluster_name region : string) : task json :=
  rescue
    (cluster <- boto "eks" (Some region) "describe_cluster" [("name", JStr cluster_name)] ;;
     oidc_issuer <- give (oidc_issuer_of cluster) ;;
     oidc_id <- give (py_split_last "/" oidc_issuer) ;;
     providers <- boto "iam" None "list_open_id_connect_providers" [] ;;
     provider_list <-
       give (l <-- py_item providers "OpenIDConnectProviderList" ; py_iter l) ;;
     found <- give (find_provider oidc_id provider_list) ;;
     match found with
     | Some arn =>
         Done (JObj [ ("status", JStr "exists");
                      ("oidc_issuer", oidc_issuer);
                      ("oidc_id", JStr oidc_id);
                      ("provider_arn", arn);
                      ("message", JStr "OIDC provider already exists") ])
     | None =>
         response <-
           boto "iam" None "create_open_id_connect_provider"
             [ ("Url", oidc_issuer);
               ("ClientIDList", JArr [JStr "sts.amazonaws.com"]);
               ("ThumbprintList", JArr [JStr thumbprint]) ] ;;
         provider_arn <- give (py_item response "OpenIDConnectProviderArn") ;;
         Done (JObj [ ("status", JStr "created");
                      ("oidc_issuer", oidc_issuer);
                      ("oidc_id", JStr oidc_id);
                      ("provider_arn", provider_arn);
                      ("message", JStr "OIDC provider created successfully") ])
     end)
    (fun e =>
       Done (JObj [ ("status", JStr "error");
                    ("message",
                      JStr ("Error setting up OIDC provider: " ++ exn_msg e)) ])).

(** The trust policy of the role (lines 201-216). *)
Definition trust_policy (account_id region oidc_id service_account_name : string)
  : json :=
  let provider := "oidc.eks." ++ region ++ ".amazonaws.com/id/" ++ oidc_id in
  JObj [ ("Version", JStr "2012-10-17");
         ("Statement",
           JArr [ JObj [ ("Effect", JStr "Allow");
                         ("Principal",
                           JObj [ ("Federated",
                                    JStr ("arn:aws:iam::" ++ account_id
                                            ++ ":oidc-provider/" ++ provider)) ]);
                         ("Action", JStr "sts:AssumeRoleWithWebIdentity");
                         ("Condition",
                           JObj [ ("StringEquals",
                                    JObj [ (provider ++ ":sub",
                                             JStr ("system:serviceaccount:default:"
                                                     ++ service_account_name));
                                           (provider ++ ":aud",
                                             JStr "sts.amazonaws.com") ]) ]) ] ]) ].

(** The permissions policy (lines 234-263). *)
Definition permissions_policy (account_id region s3_bucket dynamodb_table : string)
  : json :=
  JObj [ ("Version", JStr "2012-10-17");
         ("Statement",
           JArr [ JObj [ ("Effect", JStr "Allow");
                         ("Action",
                           JArr [ JStr "s3:GetObject"; JStr "s3:PutObject";
                                  JStr "s3:DeleteObject"; JStr "s3:ListBucket" ]);
                         ("Resource",
                           JArr [ JStr ("arn:aws:s3:::" ++ s3_bucket);
                                  JStr ("arn:aws:s3:::" ++ s3_bucket ++ "/*") ]) ];
                  JObj [ ("Effect", JStr "Allow");
                         ("Action",
                           JArr [ JStr "dynamodb:GetItem"; JStr "dynamodb:PutItem";
                                  JStr "dynamodb:UpdateItem"; JStr "dynamodb:DeleteItem";
                                  JStr "dynamodb:Query"; JStr "dynamodb:Scan" ]);
                         ("Resource",
                           JStr ("arn:aws:dynamodb:" ++ region ++ ":" ++ account_id
                                   ++ ":table/" ++ dynamodb_table)) ] ]) ].

End EksAgent.

Section EksAgentRoles.
Context `{PyLib} `{SdkLib}.
Local Open Scope task_scope.

Definition create_irsa_role (cluster_name app_name region s3_bucket
  dynamodb_table : string) : task json :=
  rescue
    (identity <- boto "sts" None "get_caller_identity" [] ;;
     account <- give (py_item identity "Account") ;;
     let account_id := py_str account in
     cluster <- boto "eks" (Some region) "describe_cluster" [("name", JStr cluster_name)] ;;
     oidc_issuer <- give (oidc_issuer_of cluster) ;;
     oidc_id <- give (py_split_last "/" oidc_issuer) ;;
     let role_name := app_name ++ "-irsa-role" in
     let service_account_name := app_name ++ "-sa" in
     let trust := trust_policy account_id region oidc_id service_account_name in
     role_created <-
       rescue_if is_entity_already_exists
         (boto "iam" None "create_role"
            [ ("RoleName", JStr role_name);
              ("AssumeRolePolicyDocument", JStr (json_dumps trust));
              ("Description", JStr ("IRSA role for " ++ app_name ++ " EKS application")) ] ;;;
          Done true)
         (fun _ =>
            boto "iam" None "update_assume_role_policy"
              [ ("RoleName", JStr role_name);
                ("PolicyDocument", JStr (json_dumps trust)) ] ;;;
            Done false) ;;
     let permissions := permissions_policy account_id region s3_bucket dynamodb_table in
     boto "iam" None "put_role_policy"
       [ ("RoleName", JStr role_name);
         ("PolicyName", JStr (app_name ++ "-permissions"));
         ("PolicyDocument", JStr (json_dumps permissions)) ] ;;;
     let role_arn := "arn:aws:iam::" ++ account_id ++ ":role/" ++ role_name in
     let outcome := if role_created : bool then "created" else "updated" in
     Done (JObj [ ("status", JStr outcome);
                  ("role_name", JStr role_name);
                  ("role_arn", JStr role_arn);
                  ("service_account_name", JStr service_account_name);
                  ("s3_bucket", JStr s3_bucket);
                  ("dynamodb_table", JStr dynamodb_table);
                  ("message", JStr ("IRSA role " ++ outcome ++ " successfully")) ]))
    (fun e =>
       Done (JObj [ ("status", JStr "error");
                    ("message", JStr ("Error creating IRSA role: " ++ exn_msg e)) ])).

End EksAgentRoles.

Section EksAgentCluster.
Context `{PyLib}.
Local Open Scope task_scope.

(** The answer of the [except] clauses for an error of the Kubernetes
    API and for any other (lines 721-731). *)
Definition kubernetes_failure (what : string) (e : exn) : json :=
  match exn_cls e with
  | ApiException _ reason =>
      JObj [ ("status", JStr "error");
             ("message", JStr ("Kubernetes API error: " ++ reason));
             ("details", JStr (exn_msg e)) ]
  | _ =>
      JObj [ ("status", JStr "error");
             ("message", JStr (what ++ exn_msg e)) ]
  end.

Definition get_deployment_status (cluster_name app_name region : string)
  : task json :=
  rescue
    (ca_cert_file <- k8s_client cluster_name region ;;
     deployment <-
       kube "AppsV1Api" "read_namespaced_deployment_status"
         [JStr app_name; JStr "default"] ;;
     unlink ca_cert_file ;;;
     status <- give (attr deployment "status") ;;
     available <- give (attr status "available_replicas") ;;
     running <- give (if truthy available then py_positive available else inr false) ;;
     replicas <- give (attr status "replicas") ;;
     ready <- give (attr status "ready_replicas") ;;
     updated <- give (attr status "updated_replicas") ;;
     Done (JObj [ ("status", JStr (if running : bool then "running" else "pending"));
                  ("replicas", py_or replicas (JNum 0));
                  ("available", py_or available (JNum 0));
                  ("ready", py_or ready (JNum 0));
                  ("updated", py_or updated (JNum 0)) ]))
    (fun e =>
       match api_status e with
       | Some status =>
           if status =? 404 then
             Done (JObj [ ("status", JStr "not_found");
                          ("message", JStr "Deployment not found") ])
           else Done (JObj [("status", JStr "error"); ("message", JStr (exn_msg e))])
       | None => Done (JObj [("status", JStr "error"); ("message", JStr (exn_msg e))])
       end).

(** One entry of [list_deployments] (lines 699-707).  The creation time
    is kept as [isoformat()] writes it. *)
Definition deployment_entry (dep : json) : exn + json :=
  metadata <-- attr dep "metadata" ;
  name <-- attr metadata "name" ;
  status <-- attr dep "status" ;
  replicas <-- attr status "replicas" ;
  ready <-- attr status "ready_replicas" ;
  available <-- attr status "available_replicas" ;
  updated <-- attr status "updated_replicas" ;
  created <-- attr metadata "creation_timestamp" ;
  labels <-- attr metadata "labels" ;
  inr (JObj [ ("name", name);
              ("replicas", py_or replicas (JNum 0));
              ("ready", py_or ready (JNum 0));
              ("available", py_or available (JNum 0));
              ("updated", py_or updated (JNum 0));
              ("created", if truthy created then created else JNull);
              ("labels", py_or labels (JObj [])) ]).

Fixpoint deployment_entries (deps : list json) : exn + list json :=
  match deps with
  | [] => inr []
  | dep :: rest =>
      entry <-- deployment_entry dep ;
      entries <-- deployment_entries rest ;
      inr (entry :: entries)
  end.

Definition list_deployments (cluster_name region namespace : string) : task json :=
  rescue
    (ca_cert_file <- k8s_client cluster_name region ;;
     deployments <- kube "AppsV1Api" "list_namespaced_deployment" [JStr namespace] ;;
     deployment_list <-
       give (items <-- attr deployments "items" ;
             deps <-- py_iter items ;
             deployment_entries deps) ;;
     unlink ca_cert_file ;;;
     Done (JObj [ ("status", JStr "success");
                  ("cluster", JStr cluster_name);
                  ("namespace", JStr namespace);
                  ("count", JNum (Z.of_nat (List.length deployment_list)));
                  ("deployments", JArr deployment_list) ]))
    (fun e => Done (kubernetes_failure "Error listing deployments: " e)).

(** [isinstance(e, ApiException)] *)
Definition is_api_exception (e : exn) : bool :=
  match api_status e with
  | Some _ => true
  | None => false
  end.

(** A resource is created, and patched when it is there already; an
    error of the API other than 409 is passed over (lines 428-434,
    468-474 and 493-497). *)
Definition create_or_patch (api kind name : string) (body : json) : task unit :=
  rescue_if is_api_exception
    (kube api ("create_namespaced_" ++ kind) [JStr "default"; body] ;;; Done tt)
    (fun e =>
       match api_status e with
       | Some status =>
           if status =? 409 then
             kube api ("patch_namespaced_" ++ kind) [JStr name; JStr "default"; body] ;;;
             Done tt
           else Done tt
       | None => Done tt
       end).

(** [V1EnvVar(name=k, value=v)] for the given variables, and the two
    that are added (lines 414-418). *)
Definition env_list (env_vars : list (string * json)) (region : string) : list json :=
  List.app
    (List.map (fun '(k, v) => JObj [("name", JStr k); ("value", v)]) env_vars)
    [ JObj [("name", JStr "AWS_REGION"); ("value", JStr region)];
      JObj [("name", JStr "AWS_SDK_LOAD_CONFIG"); ("value", JStr "1")] ].

Definition service_account_body (service_account_name role_arn : string) : json :=
  JObj [ ("metadata",
           JObj [ ("name", JStr service_account_name);
                  ("annotations",
                    JObj [("eks.amazonaws.com/role-arn", JStr role_arn)]) ]) ].

Definition deployment_body (app_name image_uri : string) (port replicas : Z)
  (env : list json) (service_account_name : string) : json :=
  JObj [ ("metadata",
           JObj [("name", JStr app_name); ("labels", JObj [("app", JStr app_name)])]);
         ("spec",
           JObj [ ("replicas", JNum replicas);
                  ("selector", JObj [("match_labels", JObj [("app", JStr app_name)])]);
                  ("template",
                    JObj [ ("metadata", JObj [("labels", JObj [("app", JStr app_name)])]);
                           ("spec",
                             JObj [ ("service_account_name", JStr service_account_name);
                                    ("containers",
                                      JArr [ JObj [ ("name", JStr app_name);
                                                    ("image", JStr image_uri);
                                                    ("ports",
                                                      JArr [JObj [("container_port", JNum port)]]);
                                                    ("env", JArr env);
                                                    ("resources",
                                                      JObj [ ("requests",
                                                               JObj [ ("cpu", JStr "250m");
                                                                      ("memory", JStr "512Mi") ]);
                                                             ("limits",
                                                               JObj [ ("cpu", JStr "500m");
                                                                      ("memory", JStr "1Gi") ]) ]) ] ]) ]) ]) ]) ].

Definition service_body (app_name : string) (port : Z) : json :=
  JObj [ ("metadata",
           JObj [ ("name", JStr app_name);
                  ("annotations",
                    JObj [ ("service.beta.kubernetes.io/aws-load-balancer-type",
                             JStr "external");
                           ("service.beta.kubernetes.io/aws-load-balancer-nlb-target-type",
                             JStr "ip");
                           ("service.beta.kubernetes.io/aws-load-balancer-scheme",
                             JStr "internet-facing") ]) ]);
         ("spec",
           JObj [ ("type", JStr "LoadBalancer");
                  ("selector", JObj [("app", JStr app_name)]);
                  ("ports", JArr [JObj [("port", JNum 80); ("target_port", JNum port)]]) ]) ].

(** [v == n] for an integer [n]. *)
Definition py_eq_int (v : json) (n : Z) : bool :=
  match v with
  | JNum m => m =? n
  | JBool b => (if b then 1 else 0) =? n
  | _ => false
  end.

(** "Wait for deployment to be ready" (lines 501-510): [rounds] more
    rounds of the loop. *)
Fixpoint wait_ready (rounds : nat) (app_name : string) (replicas : Z) : task unit :=
  match rounds with
  | O => Done tt
  | Datatypes.S rounds' =>
      deployment_status <-
        kube "AppsV1Api" "read_namespaced_deployment_status"
          [JStr app_name; JStr "default"] ;;
      status <- give (attr deployment_status "status") ;;
      available <- give (attr status "available_replicas") ;;
      if py_eq_int available replicas then Done tt
      else sleep 5 ;;; wait_ready rounds' app_name replicas
  end.

(** "Get service endpoint" (lines 513-518). *)
Definition endpoint_of (service_info : json) : exn + json :=
  status <-- attr service_info "status" ;
  load_balancer <-- attr status "load_balancer" ;
  ingress <-- attr load_balancer "ingress" ;
  nonempty <-- (if truthy ingress then py_nonempty ingress else inr false) ;
  if nonempty : bool then
    first <-- py_first ingress ;
    hostname <-- attr first "hostname" ;
    if truthy hostname then inr hostname else attr first "ip"
  else inr JNull.

Definition deploy_to_eks_with_irsa (cluster_name app_name image_uri : string)
  (port replicas : Z) (env_vars : list (string * json))
  (region role_arn service_account_name : string) : task json :=
  rescue
    (ca_cert_file <- k8s_client cluster_name region ;;
     let env := env_list env_vars region in
     create_or_patch "CoreV1Api" "service_account" service_account_name
       (service_account_body service_account_name role_arn) ;;;
     create_or_patch "AppsV1Api" "deployment" app_name
       (deployment_body app_name image_uri port replicas env service_account_name) ;;;
     create_or_patch "CoreV1Api" "service" app_name (service_body app_name port) ;;;
     wait_ready 60 app_name replicas ;;;
     service_info <-
       kube "CoreV1Api" "read_namespaced_service" [JStr app_name; JStr "default"] ;;
     endpoint <- give (endpoint_of service_info) ;;
     unlink ca_cert_file ;;;
     Done (JObj [ ("status", JStr "success");
                  ("endpoint",
                    if truthy endpoint then JStr ("http://" ++ py_str endpoint)
                    else JNull);
                  ("app_name", JStr app_name);
                  ("replicas", JNum replicas);
                  ("service_account", JStr service_account_name);
                  ("role_arn", JStr role_arn);
                  ("message", JStr "Deployment successful with IRSA") ]))
    (fun e =>
       Done (JObj [ ("status", JStr "error");
                    ("message", JStr ("Deployment failed: " ++ exn_msg e)) ])).

End EksAgentCluster.

(** ** What the further theorems speak about *)

Definition outcome {S A : Type} (o : (exn + A) * S * list request) : exn + A :=
  fst (fst o).
Definition requests {S A : Type} (o : (exn + A) * S * list request) : list request :=
  snd o.

(** The seconds a run has slept. *)
Definition nap (r : request) : Z :=
  match r with
  | Base (Sleep seconds) => seconds
  | _ => 0
  end.

Fixpoint slept (rs : list request) : Z :=
  match rs with
  | [] => 0
  | r :: rest => nap r + slept rest
  end.

Definition never_raised {A : Type} : list request -> A -> Prop := fun _ _ => False.

Definition describe_cluster (cluster_name region : string) : request :=
  Boto "eks" (Some region) "describe_cluster" [("name", JStr cluster_name)].
Definition list_providers : request :=
  Boto "iam" None "list_open_id_connect_providers" [].
Definition create_provider (oidc_issuer : json) : request :=
  Boto "iam" None "create_open_id_connect_provider"
    [ ("Url", oidc_issuer);
      ("ClientIDList", JArr [JStr "sts.amazonaws.com"]);
      ("ThumbprintList", JArr [JStr thumbprint]) ].

(** The requests of [setup_oidc_provider], in order. *)
Definition oidc_requests (cluster_name region : string) (rs : list request) : Prop :=
  rs = [describe_cluster cluster_name region]
  \/ rs = [describe_cluster cluster_name region; list_providers]
  \/ exists oidc_issuer,
       rs = [ describe_cluster cluster_name region; list_providers;
              create_provider oidc_issuer ].

Definition status_among (statuses : list string) (v : json) : Prop :=
  exists status, field "status" v = Some (JStr status) /\ In status statuses.

(** ** Reference providers *)

Module RefSdk.
(** botocore raises the class of the error code, which the message of a
    [ClientError] names in brackets. *)
Definition entity_already_exists (e : exn) : bool :=
  is_client_error e && Str.contains "(EntityAlreadyExists)" (exn_msg e).
End RefSdk.

#[export] Instance ref_sdk : SdkLib :=
  {| is_entity_already_exists := RefSdk.entity_already_exists |}.

(** A provider that answers the SDK and the Kubernetes client from two
    tables, by operation and arguments, and every other call as the
    reference environment does. *)
Definition scripted (sdk : string -> list (string * json) -> exn + json)
  (cluster : string -> list json -> exn + json) : provider cloud :=
  {| reply := fun r s =>
       match r return answer r * cloud with
       | Boto _ _ operation arguments => (sdk operation arguments, s)
       | Kube _ operation arguments => (cluster operation arguments, s)
       | Base c => Aws.respond quiet c s
       end |}.

Definition unexpected : exn := Exn OtherException "unexpected request".

(** ** The identity provider and the role: requests and examples *)

(** A provider of the list whose ARN does not contain the identifier. *)
Definition arn_without (oidc_id : string) (provider : json) : Prop :=
  exists arn, field "Arn" provider = Some (JStr arn)
              /\ Str.contains oidc_id arn = false.

Definition caller_identity : request := Boto "sts" None "get_caller_identity" [].
Definition create_role (app_name document : string) : request :=
  Boto "iam" None "create_role"
    [ ("RoleName", JStr (app_name ++ "-irsa-role"));
      ("AssumeRolePolicyDocument", JStr document);
      ("Description", JStr ("IRSA role for " ++ app_name ++ " EKS application")) ].
Definition update_trust (app_name document : string) : request :=
  Boto "iam" None "update_assume_role_policy"
    [ ("RoleName", JStr (app_name ++ "-irsa-role"));
      ("PolicyDocument", JStr document) ].
Definition put_policy (app_name document : string) : request :=
  Boto "iam" None "put_role_policy"
    [ ("RoleName", JStr (app_name ++ "-irsa-role"));
      ("PolicyName", JStr (app_name ++ "-permissions"));
      ("PolicyDocument", JStr document) ].

(** The requests of [create_irsa_role]. *)
Definition irsa_requests (cluster_name app_name region : string) (r : request)
  : Prop :=
  r = caller_identity
  \/ r = describe_cluster cluster_name region
  \/ exists document,
       r = create_role app_name document
       \/ r = update_trust app_name document
       \/ r = put_policy app_name document.

(** A cluster and its identity provider. *)
Definition issuer_url : string :=
  "https://oidc.eks.us-west-2.amazonaws.com/id/0A1B2C3D4E5F60718293A4B5C6D7E8F9".

Definition cluster_description : json :=
  JObj [ ("cluster",
           JObj [ ("name", JStr "blog-cluster");
                  ("identity", JObj [("oidc", JObj [("issuer", JStr issuer_url)])]) ]) ].

Definition provider_arn : string :=
  "arn:aws:iam::123456789012:oidc-provider/oidc.eks.us-west-2.amazonaws.com/id/0A1B2C3D4E5F60718293A4B5C6D7E8F9".

Definition other_provider_arn : string :=
  "arn:aws:iam::123456789012:oidc-provider/token.actions.githubusercontent.com".

Definition role_exists : exn :=
  Exn ClientError
    "An error occurred (EntityAlreadyExists) when calling the CreateRole operation: Role with name blog-app-irsa-role already exists.".

(** An account where the provider and the role are there already. *)
Definition set_up : provider cloud :=
  scripted
    (fun operation _ =>
       if String.eqb operation "get_caller_identity" then
         inr (JObj [("Account", JStr "123456789012")])
       else if String.eqb operation "describe_cluster" then inr cluster_description
       else if String.eqb operation "list_open_id_connect_providers" then
         inr (JObj [ ("OpenIDConnectProviderList",
                       JArr [ JObj [("Arn", JStr other_provider_arn)];
                              JObj [("Arn", JStr provider_arn)] ]) ])
       else if String.eqb operation "create_role" then inl role_exists
       else inr (JObj []))
    (fun _ _ => inl unexpected).

(** ** The deployment: requests *)

Definition deploy_operations : list string :=
  [ "create_namespaced_service_account"; "patch_namespaced_service_account";
    "create_namespaced_deployment"; "patch_namespaced_deployment";
    "create_namespaced_service"; "patch_namespaced_service";
    "read_namespaced_deployment_status"; "read_namespaced_service" ].

(** The requests of [deploy_to_eks_with_irsa]: the client for the
    cluster, the eight operations above, sleeps of five seconds and the
    removal of a file. *)
Definition deploy_request (cluster_name region : string) (r : request) : Prop :=
  match r with
  | Kube _ operation _ => In operation deploy_operations
  | Base (GetK8sClient c g) => c = cluster_name /\ g = region
  | Base (Sleep seconds) => seconds = 5
  | Base (OsUnlink _) => True
  | _ => False
  end.

(** The requests so far are requests of the deployment, and the run has
    slept [n] seconds at most. *)
Definition so_far (cluster_name region : string) (n : Z) {A : Type}
  (rs : list request) (_ : A) : Prop :=
  Forall (deploy_request cluster_name region) rs /\ 0 <= slept rs <= n.

Definition create_resource (api kind : string) (body : json) : request :=
  Kube api ("create_namespaced_" ++ kind) [JStr "default"; body].
Definition patch_resource (api kind name : string) (body : json) : request :=
  Kube api ("patch_namespaced_" ++ kind) [JStr name; JStr "default"; body].
Definition read_status (app_name : string) : request :=
  Kube "AppsV1Api" "read_namespaced_deployment_status" [JStr app_name; JStr "default"].
Definition read_service (app_name : string) : request :=
  Kube "CoreV1Api" "read_namespaced_service" [JStr app_name; JStr "default"].

(** The requests to the Kubernetes client among the requests of a run. *)
Definition cluster_requests (rs : list request) : list request :=
  List.filter (fun r => match r with Kube _ _ _ => true | _ => false end) rs.

(** The answer is a deployment whose available replicas satisfy [P]. *)
Definition shows_available (P : json -> Prop) (x : exn + json) : Prop :=
  exists deployment status available,
    x = inr deployment
    /\ attr deployment "status" = inr status
    /\ attr status "available_replicas" = inr available
    /\ P available.

(** The answer is a service whose endpoint can be read. *)
Definition shows_endpoint (x : exn + json) : Prop :=
  exists service endpoint, x = inr service /\ endpoint_of service = inr endpoint.

(** A cluster that takes every request, where the deployment never shows
    [replicas] available replicas. *)
Definition never_ready (replicas : Z) (r : request) : answer r -> Prop :=
  match r return answer r -> Prop with
  | Kube _ operation _ =>
      fun x =>
        if String.eqb operation "read_namespaced_deployment_status" then
          shows_available (fun available => py_eq_int available replicas = false) x
        else if String.eqb operation "read_namespaced_service" then shows_endpoint x
        else exists created, x = inr created
  | Base (GetK8sClient _ _) => fun x => exists ca_cert_file, x = inr ca_cert_file
  | Base (OsUnlink _) => fun x => x = inr tt
  | _ => fun _ => True
  end.

(** A cluster that refuses every creation with an error of the API of
    status [code], takes every patch, and shows a deployment that has
    [replicas] available replicas. *)
Definition creation_refused (code replicas : Z) (r : request) : answer r -> Prop :=
  match r return answer r -> Prop with
  | Kube _ operation _ =>
      fun x =>
        if String.prefix "create_" operation then
          exists e, x = inl e /\ api_status e = Some code
        else if String.eqb operation "read_namespaced_deployment_status" then
          shows_available (fun available => py_eq_int available replicas = true) x
        else if String.eqb operation "read_namespaced_service" then shows_endpoint x
        else exists patched, x = inr patched
  | Base (GetK8sClient _ _) => fun x => exists ca_cert_file, x = inr ca_cert_file
  | Base (OsUnlink _) => fun x => x = inr tt
  | _ => fun _ => True
  end.

(** The requests to the cluster of a deployment whose creations are
    answered with status [code]. *)
Definition redeployment (code : Z) (app_name image_uri : string) (port replicas : Z)
  (env_vars : list (string * json)) (region role_arn service_account_name : string)
  : list request :=
  let account := service_account_body service_account_name role_arn in
  let deployment :=
    deployment_body app_name image_uri port replicas (env_list env_vars region)
      service_account_name in
  let service := service_body app_name port in
  List.app
    (if code =? 409 then
       [ create_resource "CoreV1Api" "service_account" account;
         patch_resource "CoreV1Api" "service_account" service_account_name account;
         create_resource "AppsV1Api" "deployment" deployment;
         patch_resource "AppsV1Api" "deployment" app_name deployment;
         create_resource "CoreV1Api" "service" service;
         patch_resource "CoreV1Api" "service" app_name service ]
     else
       [ create_resource "CoreV1Api" "service_account" account;
         create_resource "AppsV1Api" "deployment" deployment;
         create_resource "CoreV1Api" "service" service ])
    [read_status app_name; read_service app_name].

(** A cluster where the deployment stays without available replicas and
    the load balancer without address. *)
Definition stalled : provider cloud :=
  scripted (fun _ _ => inl unexpected)
    (fun operation _ =>
       if String.eqb operation "read_namespaced_deployment_status" then
         inr (JObj [ ("status",
                       JObj [("replicas", JNum 2); ("available_replicas", JNull)]) ])
       else if String.eqb operation "read_namespaced_service" then
         inr (JObj [ ("status",
                       JObj [("load_balancer", JObj [("ingress", JNull)])]) ])
       else inr (JObj [])).

(** A cluster that forbids every creation, and where an earlier
    deployment runs. *)
Definition creation_forbidden : provider cloud :=
  scripted (fun _ _ => inl unexpected)
    (fun operation _ =>
       if String.prefix "create_" operation then inl forbidden
       else if String.eqb operation "read_namespaced_deployment_status" then
         inr (JObj [ ("status",
                       JObj [("replicas", JNum 2); ("available_replicas", JNum 2)]) ])
       else if String.eqb operation "read_namespaced_service" then
         inr (JObj [ ("status",
                       JObj [ ("load_balancer",
                                JObj [ ("ingress",
                                         JArr [ JObj [ ("hostname",
                                                         JStr "blog-0a1b2c3d.elb.us-west-2.amazonaws.com") ] ]) ]) ]) ])
       else inr (JObj [])).

(** ** The status and the listing: requests and examples *)

Definition listing (namespace : string) : request :=
  Kube "AppsV1Api" "list_namespaced_deployment" [JStr namespace].

(** An item of the listing: its metadata and its status are objects. *)
Definition well_formed (dep : json) : Prop :=
  exists metadata status,
    attr dep "metadata" = inr (JObj metadata)
    /\ attr dep "status" = inr (JObj status).

Definition not_found : exn :=
  Exn (ApiException 404 "Not Found") ("(404)" ++ nl ++ "Reason: Not Found" ++ nl).

(** A cluster without deployments: the listing is empty and the status
    of a deployment is not found. *)
Definition vacant : provider cloud :=
  scripted (fun _ _ => inl unexpected)
    (fun operation _ =>
       if String.eqb operation "list_namespaced_deployment" then
         inr (JObj [("items", JArr [])])
       else inl not_found).

(** A cluster with two deployments, the second without replicas yet. *)
Definition blog_deployment : json :=
  JObj [ ("metadata",
           JObj [ ("name", JStr "blog-app");
                  ("creation_timestamp", JStr "2026-01-01T00:00:00+00:00");
                  ("labels", JObj [("app", JStr "blog-app")]) ]);
         ("status",
           JObj [ ("replicas", JNum 2); ("ready_replicas", JNum 2);
                  ("available_replicas", JNum 2); ("updated_replicas", JNum 2) ]) ].

Definition fresh_deployment : json :=
  JObj [ ("metadata", JObj [("name", JStr "checkout")]);
         ("status", JObj []) ].

Definition two_deployments : provider cloud :=
  scripted (fun _ _ => inl unexpected)
    (fun operation _ =>
       if String.eqb operation "list_namespaced_deployment" then
         inr (JObj [("items", JArr [blog_deployment; fresh_deployment])])
       else inl not_found).

(** * Properties *)

(** ** Runs of composed programs *)

Section RunLemmas.
Context {S : Type} (w : world S).

Lemma run_bind {A B : Type} (p : prog A) (f : A -> prog B) (s : S) :
  run w (bind p f) s =
    match run w p s with
    | (inl e, s1, c1) => (inl e, s1, c1)
    | (inr a, s1, c1) =>
        let '(r, s2, c2) := run w (f a) s1 in (r, s2, (c1 ++ c2)%list)
    end.
Proof.
  revert s; induction p as [a | e | c k IH]; intros s; simpl.
  - destruct (run w (f a) s) as [[r s2] c2]; reflexivity.
  - reflexivity.
  - destruct (respond w c s) as [r s1]. rewrite IH.
    destruct (run w (k r) s1) as [[[e | a] s2] c1]; simpl; [reflexivity |].
    destruct (run w (f a) s2) as [[r2 s3] c2]; reflexivity.
Qed.

Lemma run_catch {A : Type} (p : prog A) (h : exn -> prog A) (s : S) :
  run w (catch p h) s =
    match run w p s with
    | (inl e, s1, c1) =>
        let '(r, s2, c2) := run w (h e) s1 in (r, s2, (c1 ++ c2)%list)
    | (inr a, s1, c1) => (inr a, s1, c1)
    end.
Proof.
  revert s; induction p as [a | e | c k IH]; intros s; simpl.
  - reflexivity.
  - destruct (run w (h e) s) as [[r s2] c2]; reflexivity.
  - destruct (respond w c s) as [r s1]. rewrite IH.
    destruct (run w (k r) s1) as [[[e | a] s2] c1]; simpl; [| reflexivity].
    destruct (run w (h e) s2) as [[r2 s3] c2]; reflexivity.
Qed.

End RunLemmas.

(** ** The command router *)

Section Router.
Context `{PyLib} {S : Type} (w : world S).

(** An attempt whose oracle call raises makes that one call and raises
    the same exception. *)
Lemma run_route_attempt_raises p s e s1 :
  respond w (InvokeModel p) s = (inl e, s1) ->
  run w (route_attempt p) s = (inl e, s1, [InvokeModel p]).
Proof.
  intros Hr. unfold route_attempt, invoke_model. simpl. rewrite Hr. reflexivity.
Qed.

(** The loop's equation for one more attempt. *)
Lemma route_loop_cons err exh p attempt rest :
  route_loop err exh p (attempt :: rest) =
    catch (route_attempt p)
      (fun e =>
         if is_throttling (exn_msg e) && (attempt <? max_retries - 1) then
           ask (Sleep (base_delay * 2 ^ attempt)) ;;;
           route_loop err exh p rest
         else Ret (err (exn_msg e))).
Proof. reflexivity. Qed.

Lemma route_loop_throttled_step err exh p attempt rest s :
  always_throttled w p ->
  exists e s1,
    respond w (InvokeModel p) s = (inl e, s1) /\
    is_throttling (exn_msg e) = true /\
    run w (route_loop err exh p (attempt :: rest)) s =
      if attempt <? max_retries - 1 then
        let '(_, s2) := respond w (Sleep (base_delay * 2 ^ attempt)) s1 in
        let '(r, s3, cs) := run w (route_loop err exh p rest) s2 in
        (r, s3, InvokeModel p :: Sleep (base_delay * 2 ^ attempt) :: cs)
      else (inr (err (exn_msg e)), s1, [InvokeModel p]).
Proof.
  intros Hthr. destruct (Hthr s) as [e [He Ht]].
  destruct (respond w (InvokeModel p) s) as [r s1] eqn:Hr. simpl in He. subst r.
  exists e, s1. split; [reflexivity |]. split; [exact Ht |].
  rewrite route_loop_cons, run_catch.
  rewrite (run_route_attempt_raises p s e s1 Hr).
  rewrite Ht. simpl andb.
  destruct (attempt <? max_retries - 1); simpl.
  - destruct (respond w (Sleep (base_delay * 2 ^ attempt)) s1) as [u s2].
    destruct (run w (route_loop err exh p rest) s2) as [[r s3] cs]. reflexivity.
  - reflexivity.
Qed.

Lemma route_loop_all_throttled err exh p s :
  always_throttled w p ->
  exists msg,
    is_throttling msg = true /\
    result_of (run w (route_loop err exh p (range max_retries)) s) = inr (err msg) /\
    calls_of (run w (route_loop err exh p (range max_retries)) s) =
      [ InvokeModel p; Sleep 3; InvokeModel p; Sleep 6; InvokeModel p;
        Sleep 12; InvokeModel p; Sleep 24; InvokeModel p ].
Proof.
  intros Hthr.
  change (range max_retries) with [0; 1; 2; 3; 4].
  destruct (route_loop_throttled_step err exh p 0 [1; 2; 3; 4] s Hthr)
    as (e0 & s0 & _ & _ & ->). simpl Z.ltb. cbv iota.
  change (base_delay * 2 ^ 0) with 3.
  destruct (respond w (Sleep 3) s0) as [u0 t0].
  destruct (route_loop_throttled_step err exh p 1 [2; 3; 4] t0 Hthr)
    as (e1 & s1 & _ & _ & ->). simpl Z.ltb. cbv iota.
  change (base_delay * 2 ^ 1) with 6.
  destruct (respond w (Sleep 6) s1) as [u1 t1].
  destruct (route_loop_throttled_step err exh p 2 [3; 4] t1 Hthr)
    as (e2 & s2 & _ & _ & ->). simpl Z.ltb. cbv iota.
  change (base_delay * 2 ^ 2) with 12.
  destruct (respond w (Sleep 12) s2) as [u2 t2].
  destruct (route_loop_throttled_step err exh p 3 [4] t2 Hthr)
    as (e3 & s3 & _ & _ & ->). simpl Z.ltb. cbv iota.
  change (base_delay * 2 ^ 3) with 24.
  destruct (respond w (Sleep 24) s3) as [u3 t3].
  destruct (route_loop_throttled_step err exh p 4 [] t3 Hthr)
    as (e4 & s4 & _ & Ht & ->). simpl Z.ltb. cbv iota.
  exists (exn_msg e4). split; [exact Ht |]. split; reflexivity.
Qed.

(** A failure that is no throttling error ends the loop, at the first
    attempt or after throttled ones. *)
Lemma route_loop_fails_after err exh p e s' :
  is_throttling (exn_msg e) = false ->
  forall (k a : nat) (s : S),
    (a + k <= 4)%nat ->
    throttled_until w p k (Z.of_nat a) s (inl e) s' ->
    run w (route_loop err exh p (List.map Z.of_nat (List.seq a (5 - a)))) s
      = (inr (err (exn_msg e)), s', recovery_trace p k (Z.of_nat a)).
Proof.
  intros He. induction k as [| k IH]; intros a s Ha Hk.
  - destruct (5 - a)%nat as [| n] eqn:E; [lia |]. simpl List.seq. simpl List.map.
    rewrite route_loop_cons, run_catch.
    rewrite (run_route_attempt_raises p s e s' Hk), He. reflexivity.
  - destruct Hk as (e0 & s1 & Hr & Ht & Hrest).
    destruct (5 - a)%nat as [| n] eqn:E; [lia |]. simpl List.seq. simpl List.map.
    rewrite route_loop_cons, run_catch.
    rewrite (run_route_attempt_raises p s e0 s1 Hr), Ht.
    assert (Hlt : (Z.of_nat a <? max_retries - 1) = true)
      by (apply Z.ltb_lt; unfold max_retries; lia).
    rewrite Hlt. cbn [andb]. simpl run.
    destruct (respond w (Sleep (base_delay * 2 ^ Z.of_nat a)) s1) as [u s2].
    simpl in Hrest.
    assert (En : n = (5 - Datatypes.S a)%nat) by lia. subst n.
    replace (Z.of_nat a + 1) with (Z.of_nat (Datatypes.S a)) in * by lia.
    rewrite (IH (Datatypes.S a) s2) by (lia || assumption).
    cbn [recovery_trace].
    replace (Z.of_nat a + 1) with (Z.of_nat (Datatypes.S a)) by lia.
    reflexivity.
Qed.

(** The calls of a router that is throttled [k] times and then answered
    are the first [2 k + 1] of the five attempts and four waits. *)
Lemma recovery_trace_retry p k :
  (k <= 4)%nat ->
  recovery_trace p k 0 = List.firstn (2 * k + 1) (retry_trace p)
  /\ oracle_calls (List.firstn (2 * k + 1) (retry_trace p)) = Datatypes.S k
  /\ sleeps_of (List.firstn (2 * k + 1) (retry_trace p))
     = List.firstn k [3; 6; 12; 24].
Proof.
  intros Hk.
  destruct k as [| [| [| [| [| k]]]]]; try (repeat split; reflexivity). lia.
Qed.

(** C1 (amended). When the oracle fails with a throttling error on every
    attempt, the router (ECS or EKS) calls it exactly five times, sleeps
    3, 6, 12 and 24 seconds between consecutive attempts (there is no wait
    after the fifth), and returns the [error] decision; on a failure that
    is not a throttling error, at the first attempt or after [k]
    throttled ones, it returns the [error] decision at once: the failed
    call is its last, after [k] waits of 3, 6, ... seconds. *)
Theorem router_retry_policy (s : S) (message cluster region : string) :
  let ecs := EcsRoutingPrompt message region in
  let eks := EksRoutingPrompt message cluster region in
  (always_throttled w ecs ->
   exists msg,
     result_of (run w (llm_route_ecs_command message region) s)
       = inr (ecs_error_decision msg)
     /\ field "operation" (ecs_error_decision msg) = Some (JStr "error")
     /\ calls_of (run w (llm_route_ecs_command message region) s) = retry_trace ecs
     /\ oracle_calls (retry_trace ecs) = 5%nat
     /\ sleeps_of (retry_trace ecs) = [3; 6; 12; 24])
  /\ (forall (k : nat) e s',
        (k <= 4)%nat ->
        throttled_until w ecs k 0 s (inl e) s' ->
        is_throttling (exn_msg e) = false ->
        run w (llm_route_ecs_command message region) s
          = (inr (ecs_error_decision (exn_msg e)), s',
             List.firstn (2 * k + 1) (retry_trace ecs))
        /\ oracle_calls (List.firstn (2 * k + 1) (retry_trace ecs)) = Datatypes.S k
        /\ sleeps_of (List.firstn (2 * k + 1) (retry_trace ecs))
           = List.firstn k [3; 6; 12; 24])
  /\ (always_throttled w eks ->
      exists msg,
        result_of (run w (llm_route_eks_command message cluster region) s)
          = inr (eks_error_decision msg)
        /\ field "tool_name" (eks_error_decision msg) = Some (JStr "error")
        /\ calls_of (run w (llm_route_eks_command message cluster region) s)
            = retry_trace eks)
  /\ (forall (k : nat) e s',
        (k <= 4)%nat ->
        throttled_until w eks k 0 s (inl e) s' ->
        is_throttling (exn_msg e) = false ->
        run w (llm_route_eks_command message cluster region) s
          = (inr (eks_error_decision (exn_msg e)), s',
             List.firstn (2 * k + 1) (retry_trace eks))
        /\ oracle_calls (List.firstn (2 * k + 1) (retry_trace eks)) = Datatypes.S k
        /\ sleeps_of (List.firstn (2 * k + 1) (retry_trace eks))
           = List.firstn k [3; 6; 12; 24]).
Proof.
  intros ecs eks. split; [| split; [| split]].
  - intros Hthr.
    destruct (route_loop_all_throttled ecs_error_decision ecs_exhausted_decision
                ecs s Hthr) as (msg & _ & Hres & Hcalls).
    exists msg. repeat split; assumption.
  - intros k e s' Hk Hu Ht.
    destruct (recovery_trace_retry ecs k Hk) as (Htr & Hn & Hs).
    rewrite <- Htr at 1. split; [| split; assumption].
    exact (route_loop_fails_after _ _ ecs e s' Ht k 0%nat s Hk Hu).
  - intros Hthr.
    destruct (route_loop_all_throttled eks_error_decision eks_exhausted_decision
                eks s Hthr) as (msg & _ & Hres & Hcalls).
    exists msg. repeat split; assumption.
  - intros k e s' Hk Hu Ht.
    destruct (recovery_trace_retry eks k Hk) as (Htr & Hn & Hs).
    rewrite <- Htr at 1. split; [| split; assumption].
    exact (route_loop_fails_after _ _ eks e s' Ht k 0%nat s Hk Hu).
Qed.

End Router.

Lemma router_retry_policy_witness :
  calls_of (run (aws throttled) (llm_route_ecs_command "deploy my blog app" "us-west-2")
              empty_cloud)
    = retry_trace (EcsRoutingPrompt "deploy my blog app" "us-west-2")
  /\ run (falters 2 (inl access_denied))
       (llm_route_eks_command "list deployments" "demo" "eu-north-1")
       (0%nat, empty_cloud)
     = (inr (eks_error_decision (exn_msg access_denied)), (2%nat, empty_cloud),
        [ InvokeModel (EksRoutingPrompt "list deployments" "demo" "eu-north-1");
          Sleep 3;
          InvokeModel (EksRoutingPrompt "list deployments" "demo" "eu-north-1");
          Sleep 6;
          InvokeModel (EksRoutingPrompt "list deployments" "demo" "eu-north-1") ]).
Proof.
  destruct (router_retry_policy (aws throttled) empty_cloud
              "deploy my blog app" "demo" "us-west-2") as (Hecs & _).
  destruct (router_retry_policy (falters 2 (inl access_denied)) (0%nat, empty_cloud)
              "list deployments" "demo" "eu-north-1") as (_ & _ & _ & Heks).
  split.
  - destruct Hecs as (msg & _ & _ & Hcalls & _).
    + intros s0. exists throttling. split; reflexivity.
    + exact Hcalls.
  - apply (Heks 2%nat access_denied (2%nat, empty_cloud)).
    + lia.
    + exists throttling, (1%nat, empty_cloud).
      split; [reflexivity | split; [reflexivity |]].
      exists throttling, (2%nat, empty_cloud).
      split; [reflexivity | split; [reflexivity | reflexivity]].
    + reflexivity.
Defined.

(** C1 as stated fails: with an oracle that throttles every request the
    router sleeps four times, and never 48 seconds. *)
Lemma router_sleeps_four_times :
  always_throttled (aws throttled) (EcsRoutingPrompt "deploy my blog app" "us-west-2")
  /\ sleeps_of
       (calls_of (run (aws throttled)
                    (llm_route_ecs_command "deploy my blog app" "us-west-2")
                    empty_cloud))
     <> [3; 6; 12; 24; 48].
Proof.
  split.
  - intros s0. exists throttling. split; reflexivity.
  - vm_compute. discriminate.
Qed.

(** ** Malformed oracle output *)

Section Malformed.
Context `{PyLib} {S : Type} (w : world S).

Lemma py_json_loads_error v e :
  py_json_loads v = inl e -> is_throttling (exn_msg e) = false.
Proof.
  destruct v; simpl; try (intros [= <-]; reflexivity).
  destruct (json_loads s) as [m | j] eqn:Hl; intros [= <-].
  simpl. eapply json_loads_msg; eassumption.
Qed.

Lemma py_item_error v k e :
  (k = "content" \/ k = "text") ->
  py_item v k = inl e -> is_throttling (exn_msg e) = false.
Proof.
  intros Hk. destruct v; simpl; try (intros [= <-]; reflexivity).
  destruct (Dict.lookup k kv); intros [= <-].
  destruct Hk as [-> | ->]; reflexivity.
Qed.

Lemma py_first_error v e :
  py_first v = inl e -> is_throttling (exn_msg e) = false.
Proof.
  destruct v as [| b | n | s | l | kv]; simpl; try (intros [= <-]; reflexivity).
  - destruct s; intros [= <-]; reflexivity.
  - destruct l; intros [= <-]; reflexivity.
Qed.

Lemma between_fences_error sep v e :
  between_fences sep v = inl e -> is_throttling (exn_msg e) = false.
Proof.
  destruct v; simpl; try (intros [= <-]; reflexivity).
  destruct (Str.split_1 sep s); intros [= <-]; reflexivity.
Qed.

Lemma py_in_error s v e :
  py_in s v = inl e -> is_throttling (exn_msg e) = false.
Proof. destruct v; simpl; intros [= <-]; reflexivity. Qed.

Lemma extract_json_error v e :
  extract_json v = inl e -> is_throttling (exn_msg e) = false.
Proof.
  unfold extract_json.
  destruct (py_in fence_json v) as [e1 | [|]] eqn:H1.
  - intros [= <-]. eapply py_in_error; eassumption.
  - apply between_fences_error.
  - destruct (py_in fence v) as [e2 | [|]] eqn:H2.
    + intros [= <-]. eapply py_in_error; eassumption.
    + apply between_fences_error.
    + discriminate.
Qed.

(** No failure to decode a reply looks like a throttling error. *)
Lemma decode_reply_error body e :
  decode_reply body = inl e -> is_throttling (exn_msg e) = false.
Proof.
  unfold decode_reply, ebind.
  destruct (py_json_loads (JStr body)) as [e1 | result] eqn:H1.
  { intros [= <-]. eapply py_json_loads_error; eassumption. }
  destruct (py_item result "content") as [e2 | blocks] eqn:H2.
  { intros [= <-]. eapply py_item_error; [| eassumption]. now left. }
  destruct (py_first blocks) as [e3 | block] eqn:H3.
  { intros [= <-]. eapply py_first_error; eassumption. }
  destruct (py_item block "text") as [e4 | content] eqn:H4.
  { intros [= <-]. eapply py_item_error; [| eassumption]. now right. }
  destruct (extract_json content) as [e5 | content'] eqn:H5.
  { intros [= <-]. eapply extract_json_error; eassumption. }
  apply py_json_loads_error.
Qed.

(** An attempt whose oracle call answers makes that one call and
    returns or raises what decoding the answer gives. *)
Lemma run_route_attempt_answers p s body s1 :
  respond w (InvokeModel p) s = (inr body, s1) ->
  run w (route_attempt p) s = (decode_reply body, s1, [InvokeModel p]).
Proof.
  intros Hr. unfold route_attempt, invoke_model. simpl. rewrite Hr. simpl.
  destruct (decode_reply body); reflexivity.
Qed.

Lemma route_loop_undecodable err exh p s body s1 e :
  respond w (InvokeModel p) s = (inr body, s1) ->
  decode_reply body = inl e ->
  run w (route_loop err exh p (range max_retries)) s =
    (inr (err (exn_msg e)), s1, [InvokeModel p]).
Proof.
  intros Hr Hd. change (range max_retries) with [0; 1; 2; 3; 4].
  rewrite route_loop_cons, run_catch, (run_route_attempt_answers p s body s1 Hr), Hd.
  rewrite (decode_reply_error body e Hd). reflexivity.
Qed.


(** Whatever the world answers, the loop returns a decision: either a
    document decoded from an answer of the oracle, or one of the router's
    own decisions. *)
Lemma route_loop_returns err exh p attempts s :
  exists d,
    result_of (run w (route_loop err exh p attempts) s) = inr d
    /\ ((exists body, decode_reply body = inr d)
        \/ (exists msg, d = err msg) \/ d = exh).
Proof.
  revert s. induction attempts as [| attempt rest IH]; intros s.
  - exists exh. split; [reflexivity | auto].
  - rewrite route_loop_cons, run_catch.
    destruct (respond w (InvokeModel p) s) as [[e | body] s1] eqn:Hr.
    + rewrite (run_route_attempt_raises w p s e s1 Hr).
      destruct (is_throttling (exn_msg e) && (attempt <? max_retries - 1)).
      * simpl. destruct (respond w (Sleep (base_delay * 2 ^ attempt)) s1) as [u s2].
        destruct (IH s2) as (d & Hd & Hsrc).
        destruct (run w (route_loop err exh p rest) s2) as [[r s3] cs].
        exists d. split; [exact Hd | exact Hsrc].
      * exists (err (exn_msg e)). split; [reflexivity | eauto].
    + rewrite (run_route_attempt_answers p s body s1 Hr).
      destruct (decode_reply body) as [e | d] eqn:Hd.
      * destruct (is_throttling (exn_msg e) && (attempt <? max_retries - 1)).
        -- simpl. destruct (respond w (Sleep (base_delay * 2 ^ attempt)) s1) as [u s2].
           destruct (IH s2) as (d & Hd' & Hsrc).
           destruct (run w (route_loop err exh p rest) s2) as [[r s3] cs].
           exists d. split; [exact Hd' | exact Hsrc].
        -- exists (err (exn_msg e)). split; [reflexivity | eauto].
      * exists d. split; [reflexivity | eauto].
Qed.

(** A handler closed by the outer [except Exception] returns a reply. *)
Lemma run_chat_failure (p : prog json) s :
  exists reply, result_of (run w (catch p chat_failure) s) = inr reply.
Proof.
  rewrite run_catch.
  destruct (run w p s) as [[[e | a] s1] c1].
  - unfold chat_failure. simpl.
    destruct (respond w (FormatExc e) s1) as [tb s2]. simpl. eauto.
  - eauto.
Qed.

Lemma ecs_dispatch_without_operation routing region :
  is_dict routing = true ->
  truthy (default JNull (field "operation" routing)) = false ->
  ecs_dispatch routing region =
    Ret (jsonify
           [ ("status", JStr "error");
             ("result",
               JStr ("LLM failed to determine operation. Routing response: "
                       ++ json_dumps_indent routing)) ]).
Proof.
  destruct routing as [| | | | | kv]; try discriminate. intros _.
  unfold ecs_dispatch, field, py_get.
  destruct (Dict.lookup "operation" kv) as [op |]; intros Ht; simpl in Ht;
    cbn [lift bind]; rewrite ?Ht; reflexivity.
Qed.

(** What the loop returns when the oracle answers, at the first attempt
    or after throttled ones: the decoded document, or the [error]
    decision when the answer cannot be decoded. *)
Lemma route_loop_answered_after err exh p body s' :
  forall (k a : nat) (s : S),
    (a + k <= 4)%nat ->
    throttled_until w p k (Z.of_nat a) s (inr body) s' ->
    run w (route_loop err exh p (List.map Z.of_nat (List.seq a (5 - a)))) s
      = (inr match decode_reply body with
             | inr d => d
             | inl e => err (exn_msg e)
             end, s', recovery_trace p k (Z.of_nat a)).
Proof.
  induction k as [| k IH]; intros a s Ha Hk.
  - destruct (5 - a)%nat as [| n] eqn:E; [lia |]. simpl List.seq. simpl List.map.
    rewrite route_loop_cons, run_catch.
    rewrite (run_route_attempt_answers p s body s' Hk).
    destruct (decode_reply body) as [e | d] eqn:Hd; [| reflexivity].
    rewrite (decode_reply_error body e Hd). reflexivity.
  - destruct Hk as (e0 & s1 & Hr & Ht & Hrest).
    destruct (5 - a)%nat as [| n] eqn:E; [lia |]. simpl List.seq. simpl List.map.
    rewrite route_loop_cons, run_catch.
    rewrite (run_route_attempt_raises w p s e0 s1 Hr), Ht.
    assert (Hlt : (Z.of_nat a <? max_retries - 1) = true)
      by (apply Z.ltb_lt; unfold max_retries; lia).
    rewrite Hlt. cbn [andb]. simpl run.
    destruct (respond w (Sleep (base_delay * 2 ^ Z.of_nat a)) s1) as [u s2].
    simpl in Hrest.
    assert (En : n = (5 - Datatypes.S a)%nat) by lia. subst n.
    replace (Z.of_nat a + 1) with (Z.of_nat (Datatypes.S a)) in * by lia.
    rewrite (IH (Datatypes.S a) s2) by (lia || assumption).
    cbn [recovery_trace].
    replace (Z.of_nat a + 1) with (Z.of_nat (Datatypes.S a)) by lia.
    reflexivity.
Qed.

(** C2 (amended). When the oracle's answer cannot be decoded (the
    envelope or the text in it is not JSON, or the envelope has no text
    block) the router returns the [error] decision with a non-empty
    rationale, and the call that was so answered is its last; this holds
    for the answer to the first attempt and for the answer after [k]
    throttled attempts alike.  The router returns a decision in every
    world and never raises.  A decoded document is returned unchanged,
    whatever its keys: the test for a missing operation is the chat
    handler's, which answers status [error] without any call, and the
    chat handler returns a reply for every request body that is an
    object. *)
Theorem malformed_oracle_output (s : S) (message region : string) :
  let p := EcsRoutingPrompt message region in
  (forall (k : nat) body s' e,
     (k <= 4)%nat ->
     throttled_until w p k 0 s (inr body) s' ->
     decode_reply body = inl e ->
     run w (llm_route_ecs_command message region) s
       = (inr (ecs_error_decision (exn_msg e)), s',
          List.firstn (2 * k + 1) (retry_trace p))
     /\ field "operation" (ecs_error_decision (exn_msg e)) = Some (JStr "error")
     /\ exists rationale,
          field "reasoning" (ecs_error_decision (exn_msg e)) = Some (JStr rationale)
          /\ rationale <> "")
  /\ (forall (k : nat) body s' document,
        (k <= 4)%nat ->
        throttled_until w p k 0 s (inr body) s' ->
        decode_reply body = inr document ->
        run w (llm_route_ecs_command message region) s
          = (inr document, s', List.firstn (2 * k + 1) (retry_trace p)))
  /\ (exists decision,
        result_of (run w (llm_route_ecs_command message region) s) = inr decision)
  /\ (forall routing region',
        is_dict routing = true ->
        truthy (default JNull (field "operation" routing)) = false ->
        ecs_dispatch routing region' =
          Ret (jsonify
                 [ ("status", JStr "error");
                   ("result",
                     JStr ("LLM failed to determine operation. Routing response: "
                             ++ json_dumps_indent routing)) ]))
  /\ (forall data,
        is_dict data = true ->
        exists reply, result_of (run w (ecs_chat data) s) = inr reply).
Proof.
  intros p. split; [| split; [| split; [| split]]].
  - intros k body s' e Hk Hu Hd. split; [| split].
    + destruct (recovery_trace_retry p k Hk) as (<- & _).
      pose proof (route_loop_answered_after ecs_error_decision
                    ecs_exhausted_decision p body s' k 0%nat s Hk Hu) as Hrun.
      rewrite Hd in Hrun. exact Hrun.
    + reflexivity.
    + eexists. split; [reflexivity |]. discriminate.
  - intros k body s' document Hk Hu Hd.
    destruct (recovery_trace_retry p k Hk) as (<- & _).
    pose proof (route_loop_answered_after ecs_error_decision
                  ecs_exhausted_decision p body s' k 0%nat s Hk Hu) as Hrun.
    rewrite Hd in Hrun. exact Hrun.
  - destruct (route_loop_returns ecs_error_decision ecs_exhausted_decision p
                (range max_retries) s) as (d & Hd & _).
    exists d. exact Hd.
  - intros routing region'. apply ecs_dispatch_without_operation.
  - intros data Hdict. destruct data as [| | | | | kv]; try discriminate.
    unfold ecs_chat, py_get. cbn [lift bind]. apply run_chat_failure.
Qed.

End Malformed.

Lemma malformed_oracle_output_witness :
  run (falters 1 (inr (bedrock_body "I can not help with that.")))
    (llm_route_ecs_command "hello" "us-west-2") (0%nat, empty_cloud)
    = (inr (ecs_error_decision RefPy.decode_error), (1%nat, empty_cloud),
        [ InvokeModel (EcsRoutingPrompt "hello" "us-west-2"); Sleep 3;
          InvokeModel (EcsRoutingPrompt "hello" "us-west-2") ])
  /\ run (aws (says (RefPy.dumps (JObj [("arguments", JObj [])]))))
       (llm_route_ecs_command "hello" "us-west-2") empty_cloud
     = (inr (JObj [("arguments", JObj [])]), empty_cloud,
        [InvokeModel (EcsRoutingPrompt "hello" "us-west-2")])
  /\ ecs_dispatch (JObj [("arguments", JObj [])]) (JStr "us-west-2")
     = Ret (jsonify
              [ ("status", JStr "error");
                ("result",
                  JStr ("LLM failed to determine operation. Routing response: "
                          ++ json_dumps_indent (JObj [("arguments", JObj [])]))) ])
  /\ exists reply,
       result_of (run (aws (says "I can not help with that."))
                    (ecs_chat (JObj [("message", JStr "hello")])) empty_cloud)
         = inr reply.
Proof.
  destruct (malformed_oracle_output
              (falters 1 (inr (bedrock_body "I can not help with that.")))
              (0%nat, empty_cloud) "hello" "us-west-2") as (Hbad & _).
  destruct (malformed_oracle_output
              (aws (says (RefPy.dumps (JObj [("arguments", JObj [])]))))
              empty_cloud "hello" "us-west-2") as (_ & Hsame & _).
  destruct (malformed_oracle_output (aws (says "I can not help with that."))
              empty_cloud "hello" "us-west-2") as (_ & _ & _ & Hmissing & Hchat).
  split; [| split; [| split]].
  - apply (Hbad 1%nat (bedrock_body "I can not help with that.") (1%nat, empty_cloud)
             (Exn JSONDecodeError RefPy.decode_error)).
    + lia.
    + exists throttling, (1%nat, empty_cloud).
      split; [reflexivity | split; reflexivity].
    + reflexivity.
  - apply (Hsame 0%nat
             (bedrock_body (RefPy.dumps (JObj [("arguments", JObj [])]))) empty_cloud).
    + lia.
    + reflexivity.
    + vm_compute. reflexivity.
  - apply Hmissing; reflexivity.
  - apply Hchat. reflexivity.
Defined.

(** C2 as stated fails: a well-formed answer without the [operation]
    key is returned by the router as it is, not as an [error] decision. *)
Lemma router_returns_document_without_operation :
  result_of
    (run (aws (says (RefPy.dumps (JObj [("arguments", JObj [])]))))
       (llm_route_ecs_command "hello" "us-west-2") empty_cloud)
    = inr (JObj [("arguments", JObj [])])
  /\ field "operation" (JObj [("arguments", JObj [])]) <> Some (JStr "error").
Proof. split; [vm_compute; reflexivity | discriminate]. Qed.

(** ** The operation of a decision *)

Section Operation.
Context `{PyLib} {S : Type} (w : world S).



End Operation.



(** ** The registry *)

(** C4 (amended). In a registry that has no repository of that name,
    two calls of [create_ecr_repository] with the same name and region
    return status [success] (with the URI and ARN of the new repository)
    and then status [exists] with the URI of that repository; neither
    call raises, and the second leaves the registry as the first made
    it. *)
Theorem ensure_registry_twice (a : setting) (s : cloud) (app_name region : string) :
  repositories s !! (region, app_name) = None ->
  let repo := Aws.new_repository a region app_name in
  run (aws a) (twice (create_ecr_repository app_name region)) s =
    (inr (JObj [ ("status", JStr "success");
                 ("repository_uri", JStr (repositoryUri repo));
                 ("repository_arn", JStr (repositoryArn repo)) ],
           JObj [ ("status", JStr "exists");
                  ("repository_uri", JStr (repositoryUri repo)) ]),
      Aws.set_repositories s (<[(region, app_name) := repo]> (repositories s)),
      [ EcrCreateRepository (JStr region) (JStr app_name);
        EcrCreateRepository (JStr region) (JStr app_name);
        EcrDescribeRepositories (JStr region) [JStr app_name] ]).
Proof.
  intros Hfresh repo. unfold twice.
  rewrite run_bind.
  assert (H1 : run (aws a) (create_ecr_repository app_name region) s =
                 (inr (JObj [ ("status", JStr "success");
                              ("repository_uri", JStr (repositoryUri repo));
                              ("repository_arn", JStr (repositoryArn repo)) ]),
                   Aws.set_repositories s (<[(region, app_name) := repo]> (repositories s)),
                   [EcrCreateRepository (JStr region) (JStr app_name)])).
  { unfold create_ecr_repository, catch_if, ecr_create_repository. simpl.
    rewrite Hfresh. reflexivity. }
  rewrite H1. rewrite run_bind.
  assert (H2 : run (aws a) (create_ecr_repository app_name region)
                 (Aws.set_repositories s (<[(region, app_name) := repo]> (repositories s))) =
                 (inr (JObj [ ("status", JStr "exists");
                              ("repository_uri", JStr (repositoryUri repo)) ]),
                   Aws.set_repositories s (<[(region, app_name) := repo]> (repositories s)),
                   [ EcrCreateRepository (JStr region) (JStr app_name);
                     EcrDescribeRepositories (JStr region) [JStr app_name] ])).
  { unfold create_ecr_repository, catch_if, ecr_create_repository,
      ecr_describe_repositories. simpl.
    rewrite lookup_insert_eq. simpl. rewrite lookup_insert_eq. reflexivity. }
  rewrite H2. reflexivity.
Qed.

Lemma ensure_registry_twice_witness :
  run (aws quiet) (twice (create_ecr_repository "blog-app" "us-west-2")) empty_cloud =
    (inr (JObj [ ("status", JStr "success");
                 ("repository_uri",
                   JStr "123456789012.dkr.ecr.us-west-2.amazonaws.com/blog-app");
                 ("repository_arn",
                   JStr "arn:aws:ecr:us-west-2:123456789012:repository/blog-app") ],
           JObj [ ("status", JStr "exists");
                  ("repository_uri",
                    JStr "123456789012.dkr.ecr.us-west-2.amazonaws.com/blog-app") ]),
      Aws.set_repositories empty_cloud
        (<[("us-west-2", "blog-app") := Aws.new_repository quiet "us-west-2" "blog-app"]>
           (repositories empty_cloud)),
      [ EcrCreateRepository (JStr "us-west-2") (JStr "blog-app");
        EcrCreateRepository (JStr "us-west-2") (JStr "blog-app");
        EcrDescribeRepositories (JStr "us-west-2") [JStr "blog-app"] ]).
Proof.
  apply (ensure_registry_twice quiet empty_cloud "blog-app" "us-west-2").
  reflexivity.
Defined.

(** C4 as stated fails: the first call answers status [success], not
    [created]. *)
Lemma first_create_answers_success :
  exists first second,
    result_of (run (aws quiet) (twice (create_ecr_repository "blog-app" "us-west-2"))
                 empty_cloud) = inr (first, second)
    /\ field "status" first = Some (JStr "success")
    /\ field "status" first <> Some (JStr "created")
    /\ field "status" second = Some (JStr "exists").
Proof.
  do 2 eexists. split; [vm_compute; reflexivity |].
  split; [reflexivity | split; [discriminate | reflexivity]].
Qed.

(** ** Deleting what is not there *)

Lemma contains_cons needle c t :
  Str.contains needle (String c t) =
    if String.prefix needle (String c t) then true else Str.contains needle t.
Proof. reflexivity. Qed.

Lemma contains_append_right needle a b :
  Str.contains needle b = true -> Str.contains needle (a ++ b) = true.
Proof.
  intros Hb. induction a as [| c a IH].
  - exact Hb.
  - change (String c a ++ b) with (String c (a ++ b)). rewrite contains_cons.
    destruct (String.prefix needle (String c (a ++ b))); [reflexivity | exact IH].
Qed.

Lemma prefix_append needle b : String.prefix needle (needle ++ b) = true.
Proof.
  induction needle as [| c n IH]; simpl.
  - destruct b; reflexivity.
  - destruct (ascii_dec c c) as [_ | Hne]; [exact IH | now destruct Hne].
Qed.

Lemma contains_prefix needle b : Str.contains needle (needle ++ b) = true.
Proof.
  destruct (needle ++ b) as [| c t] eqn:E.
  - destruct needle; [reflexivity | discriminate].
  - rewrite contains_cons, <- E, prefix_append. reflexivity.
Qed.

Lemma contains_append needle a b : Str.contains needle (a ++ needle ++ b) = true.
Proof. apply contains_append_right, contains_prefix. Qed.

Section Deletion.
Context {S : Type} (w : world S).

(** C5 (amended). [delete_ecs_service], once its client is created:
    when the stack it resolves does not exist (describing it raises a
    client error that says so), the outcome is [not_found], nothing is
    raised, and no delete call is made.
    [delete_eks_deployment] has no such test: it issues the delete calls,
    records a 404 answer as "(not found)", and answers status [success]
    with zero resources deleted. *)
Theorem delete_absent (s : S) :
  (forall service_name stack_name region name s0 e s1,
     resolve_stack service_name stack_name = Some name ->
     name <> "" ->
     respond w (Boto3Client "cloudformation" (JStr region)) s = (inr tt, s0) ->
     respond w (CfnDescribeStacks (JStr region) (JStr name)) s0 = (inl e, s1) ->
     is_client_error e = true ->
     Str.contains "does not exist" (exn_msg e) = true ->
     run w (delete_ecs_service service_name stack_name region) s =
       (inr (JObj [ ("status", JStr "not_found");
                    ("stack_name", JStr name);
                    ("message", JStr ("Stack " ++ name ++ " does not exist")) ]),
         s1,
         [ Boto3Client "cloudformation" (JStr region);
           CfnDescribeStacks (JStr region) (JStr name) ])
     /\ List.existsb is_delete_call
          [ Boto3Client "cloudformation" (JStr region);
            CfnDescribeStacks (JStr region) (JStr name) ] = false)
  /\ (forall cluster_name app_name region ca s1 e1 s2 e2 s3 e3 s4 s5,
        respond w (GetK8sClient cluster_name region) s = (inr ca, s1) ->
        respond w (K8sDeleteDeployment app_name) s1 = (inl e1, s2) ->
        api_status e1 = Some 404 ->
        respond w (K8sDeleteService app_name) s2 = (inl e2, s3) ->
        api_status e2 = Some 404 ->
        respond w (K8sDeleteServiceAccount (app_name ++ "-sa")) s3 = (inl e3, s4) ->
        api_status e3 = Some 404 ->
        respond w (OsUnlink ca) s4 = (inr tt, s5) ->
        run w (delete_eks_deployment cluster_name app_name region true true) s =
          (inr (JObj [ ("status", JStr "success");
                       ("app_name", JStr app_name);
                       ("deleted_resources",
                         JArr [ JStr ("Deployment: " ++ app_name ++ " (not found)");
                                JStr ("Service: " ++ app_name ++ " (not found)");
                                JStr ("ServiceAccount: " ++ (app_name ++ "-sa")
                                        ++ " (not found)") ]);
                       ("message", JStr "Successfully deleted 0 resource(s)") ]),
            s5,
            [ GetK8sClient cluster_name region;
              K8sDeleteDeployment app_name;
              K8sDeleteService app_name;
              K8sDeleteServiceAccount (app_name ++ "-sa");
              OsUnlink ca ])).
Proof.
  split.
  - intros service_name stack_name region name s0 e s1 Hname Hne Hcl Hr Hce Hmsg.
    split; [| reflexivity].
    unfold delete_ecs_service. rewrite Hname.
    assert (Hm : missing (Some name) = false).
    { simpl. destruct name; [now destruct Hne | reflexivity]. }
    rewrite Hm. unfold boto3_client, catch_if, cfn_describe_stacks. simpl.
    rewrite Hcl. simpl. rewrite Hr. simpl.
    rewrite Hce, Hmsg. reflexivity.
  - intros cluster_name app_name region ca s1 e1 s2 e2 s3 e3 s4 s5
      H0 H1 E1 H2 E2 H3 E3 H4.
    unfold delete_eks_deployment, delete_resource, get_k8s_client,
      k8s_delete_deployment, k8s_delete_service, k8s_delete_service_account,
      os_unlink.
    simpl. rewrite H0. simpl. rewrite H1. simpl. rewrite E1. simpl.
    rewrite H2. simpl. rewrite E2. simpl. rewrite H3. simpl. rewrite E3. simpl.
    rewrite H4. simpl.
    rewrite !(contains_append_right "not found" _ " (not found)") by reflexivity.
    reflexivity.
Qed.

End Deletion.

Lemma delete_absent_witness :
  run (aws quiet) (delete_ecs_service (Some "checkout") None "us-west-2") empty_cloud =
    (inr (JObj [ ("status", JStr "not_found");
                 ("stack_name", JStr "ecs-express-checkout");
                 ("message", JStr "Stack ecs-express-checkout does not exist") ]),
      empty_cloud,
      [ Boto3Client "cloudformation" (JStr "us-west-2");
        CfnDescribeStacks (JStr "us-west-2") (JStr "ecs-express-checkout") ])
  /\ calls_of (run (aws quiet)
                 (delete_eks_deployment "demo" "checkout" "eu-north-1" true true)
                 empty_cloud)
     = [ GetK8sClient "demo" "eu-north-1";
         K8sDeleteDeployment "checkout";
         K8sDeleteService "checkout";
         K8sDeleteServiceAccount "checkout-sa";
         OsUnlink "/tmp/tmpca.crt" ].
Proof.
  destruct (delete_absent (aws quiet) empty_cloud) as [Hecs Heks].
  split.
  - apply (Hecs (Some "checkout") None "us-west-2" "ecs-express-checkout" empty_cloud
             (Aws.stack_missing "DescribeStacks" "ecs-express-checkout") empty_cloud);
      [ reflexivity | discriminate | reflexivity | reflexivity | reflexivity
      | reflexivity ].
  - rewrite (Heks "demo" "checkout" "eu-north-1" "/tmp/tmpca.crt" empty_cloud
               Aws.not_found empty_cloud Aws.not_found empty_cloud
               Aws.not_found empty_cloud empty_cloud);
      reflexivity.
Defined.

(** C5 as stated fails for [delete_eks_deployment]: with nothing of that
    name in the cluster it issues the delete calls and answers status
    [success] rather than [not_found]. *)
Lemma delete_eks_absent_answers_success :
  exists reply,
    result_of (run (aws quiet)
                 (delete_eks_deployment "demo" "checkout" "eu-north-1" true true)
                 empty_cloud) = inr reply
    /\ field "status" reply = Some (JStr "success")
    /\ field "status" reply <> Some (JStr "not_found")
    /\ List.existsb is_delete_call
         (calls_of (run (aws quiet)
                      (delete_eks_deployment "demo" "checkout" "eu-north-1" true true)
                      empty_cloud)) = true.
Proof.
  eexists. split; [vm_compute; reflexivity |].
  split; [reflexivity | split; [discriminate | vm_compute; reflexivity]].
Qed.

(** ** The status of a stack *)

Section Status.
Context `{PyLib} {S : Type} (w : world S).


End Status.



(** ** The scaling block of the express template *)

Section Scaling.
Context `{PyLib} {S : Type} (w : world S).

(** C9. Once its client is created, [deploy_ecs_express_service]
    submits one template, whatever the provider answers to the
    submission: a resource of type [AWS::ECS::ExpressGatewayService]
    whose properties are the service's.  These properties have a
    [ScalingTarget] if and only if [desired_count > 1]; it then has
    [MinTaskCount] equal to [desired_count], [MaxTaskCount] 50 and the
    average-CPU target 70.  When the creation of the client raises, the
    function raises the same exception and submits nothing. *)
Theorem scaling_target_iff (s : S) (service_name image_uri cpu memory : string)
  (port : Z) (region : string)
  (environment_variables : option (list (string * json))) (desired_count : Z) :
  let properties :=
    service_properties service_name image_uri cpu memory port environment_variables
      desired_count in
  let client := Boto3Client "cloudformation" (JStr region) in
  let scaling := ["Resources"; "ExpressService"; "Properties"; "ScalingTarget"] in
  let deploy :=
    deploy_ecs_express_service service_name image_uri cpu memory port region
      environment_variables desired_count in
  Dict.lookup "ScalingTarget" properties
    = (if desired_count >? 1 then
         Some (JObj [ ("MinTaskCount", JNum desired_count);
                      ("MaxTaskCount", JNum 50);
                      ("AutoScalingMetric", JStr "AVERAGE_CPU");
                      ("AutoScalingTargetValue", JNum 70) ])
       else None)
  /\ (is_Some (Dict.lookup "ScalingTarget" properties) <-> desired_count > 1)
  /\ (forall s0,
        respond w client s = (inr tt, s0) ->
        exists template,
          calls_of (run w deploy s)
          = [ client;
              CfnCreateStack (JStr region) ("ecs-express-" ++ service_name) template ]
          /\ at_path ["Resources"; "ExpressService"; "Type"] template
             = Some (JStr "AWS::ECS::ExpressGatewayService")
          /\ at_path ["Resources"; "ExpressService"; "Properties"] template
             = Some (JObj properties)
          /\ at_path scaling template
             = (if desired_count >? 1 then
                  Some (JObj [ ("MinTaskCount", JNum desired_count);
                               ("MaxTaskCount", JNum 50);
                               ("AutoScalingMetric", JStr "AVERAGE_CPU");
                               ("AutoScalingTargetValue", JNum 70) ])
                else None)
          /\ (is_Some (at_path scaling template) <-> desired_count > 1))
  /\ (forall e s0,
        respond w client s = (inl e, s0) ->
        run w deploy s = (inl e, s0, [client])).
Proof.
  intros properties client scaling deploy.
  assert (Hlookup :
    Dict.lookup "ScalingTarget" properties
      = (if desired_count >? 1 then Some (scaling_target desired_count) else None)).
  { unfold properties, service_properties.
    destruct (desired_count >? 1); reflexivity. }
  assert (Hiff : is_Some (Dict.lookup "ScalingTarget" properties) <-> desired_count > 1).
  { rewrite Hlookup. destruct (Z.gtb_spec desired_count 1) as [Hgt | Hle].
    - split; [lia | eauto].
    - split; [intros [v Hv]; discriminate | lia]. }
  split; [exact Hlookup | split; [exact Hiff | split]].
  - intros s0 Hcl. exists (express_template properties).
    assert (Hpath : at_path scaling (express_template properties)
                    = Dict.lookup "ScalingTarget" properties).
    { unfold scaling, express_template. cbn.
      destruct (Dict.lookup "ScalingTarget" properties); reflexivity. }
    split; [| split; [reflexivity | split; [reflexivity | split]]].
    + unfold deploy, deploy_ecs_express_service, boto3_client, cfn_create_stack.
      simpl. fold client. rewrite Hcl. simpl.
      destruct (respond w _ s0) as [[e | stack_id] s1]; reflexivity.
    + rewrite Hpath. exact Hlookup.
    + rewrite Hpath. exact Hiff.
  - intros e s0 Hcl.
    unfold deploy, deploy_ecs_express_service, boto3_client. simpl.
    fold client. rewrite Hcl. reflexivity.
Qed.

End Scaling.

Lemma scaling_target_iff_witness :
  (exists template,
     calls_of
       (run (aws quiet)
          (deploy_ecs_express_service "blog-app" "blog-app:latest" "256" "512" 3000
             "us-west-2" None 3)
          empty_cloud)
     = [ Boto3Client "cloudformation" (JStr "us-west-2");
         CfnCreateStack (JStr "us-west-2") "ecs-express-blog-app" template ]
     /\ at_path ["Resources"; "ExpressService"; "Properties"; "ScalingTarget"] template
        = Some (JObj [ ("MinTaskCount", JNum 3);
                       ("MaxTaskCount", JNum 50);
                       ("AutoScalingMetric", JStr "AVERAGE_CPU");
                       ("AutoScalingTargetValue", JNum 70) ]))
  /\ run region_refused
       (deploy_ecs_express_service "blog-app" "blog-app:latest" "256" "512" 3000
          "us west 2" None 3)
       empty_cloud
     = (inl invalid_region, empty_cloud,
        [Boto3Client "cloudformation" (JStr "us west 2")]).
Proof.
  split.
  - destruct (scaling_target_iff (aws quiet) empty_cloud "blog-app" "blog-app:latest"
                "256" "512" 3000 "us-west-2" None 3) as (_ & _ & Hsubmit & _).
    destruct (Hsubmit empty_cloud eq_refl) as (template & Hcalls & _ & _ & Hscaling & _).
    exists template. split; [exact Hcalls | exact Hscaling].
  - destruct (scaling_target_iff region_refused empty_cloud "blog-app"
                "blog-app:latest" "256" "512" 3000 "us west 2" None 3)
      as (_ & _ & _ & Hraise).
    exact (Hraise invalid_region empty_cloud eq_refl).
Defined.

(** ** The fallback of the managed submission *)

Section Fallback.
Context `{PyLib} {S : Type} (w : world S).

Lemma handle_deploy_of_request (request : list (string * json)) :
  handle_deploy_ecs_express_service (JObj request) =
    deploy_service
      (request_arg request "service_name" JNull)
      (request_arg request "image_uri" JNull)
      (request_arg request "environment_vars" (JObj []))
      (request_arg request "cpu" (JStr "256"))
      (request_arg request "memory" (JStr "512"))
      (request_arg request "port" (JNum 3000))
      (request_arg request "region" (JStr "us-west-2"))
      (request_arg request "vpc_id" JNull)
      (request_arg request "subnet_ids" JNull).
Proof. reflexivity. Qed.

(** C8 (amended). When the request names a service and an image, the
    account and the network are found, and the managed call raises any
    exception, the handler submits the fallback template under the name
    [<service>-alb-stack]; the resources of the template submitted are a
    cluster, two security groups, a load balancer, a target group, a
    listener, a task definition and a service; when that
    submission is accepted it answers 200 with status [success] and
    deployment status [in_progress]; when the submission raises, the
    handler answers 500 with the error's text. *)
Theorem express_fallback (s : S) (request : list (string * json)) :
  let service_name := request_arg request "service_name" JNull in
  let image_uri := request_arg request "image_uri" JNull in
  let env_vars := request_arg request "environment_vars" (JObj []) in
  let cpu := request_arg request "cpu" (JStr "256") in
  let memory := request_arg request "memory" (JStr "512") in
  let port := request_arg request "port" (JNum 3000) in
  let region := request_arg request "region" (JStr "us-west-2") in
  forall account_id s1 vpc_id subnet_ids s2 calls items express_error s3,
    truthy service_name = true ->
    truthy image_uri = true ->
    respond w StsGetCallerIdentity s = (inr account_id, s1) ->
    run w (discover_network region (request_arg request "vpc_id" JNull)
             (request_arg request "subnet_ids" JNull)) s1
      = (inr (inr (vpc_id, subnet_ids)), s2, calls) ->
    py_items env_vars = inr items ->
    let managed :=
      EcsCreateExpressGatewayService region
        (express_request service_name image_uri cpu memory port region subnet_ids items) in
    respond w managed s2 = (inl express_error, s3) ->
    let template :=
      fallback_template service_name image_uri cpu memory port region vpc_id
        subnet_ids account_id items in
    let stack_name := py_str service_name ++ "-alb-stack" in
    let submission := CfnCreateStack region stack_name template in
    let all_calls := (StsGetCallerIdentity :: calls ++ [managed; submission])%list in
    (forall stack_id s4,
       respond w submission s3 = (inr stack_id, s4) ->
       run w (handle_deploy_ecs_express_service (JObj request)) s =
         (inr (create_response 200
                 (fallback_started stack_name service_name port vpc_id subnet_ids)),
           s4, all_calls))
    /\ (forall e s4,
          respond w submission s3 = (inl e, s4) ->
          run w (handle_deploy_ecs_express_service (JObj request)) s =
            (inr (create_response 500
                    (JObj [ ("error",
                              JStr ("Failed to deploy service: " ++ exn_msg e)) ])),
              s4, all_calls))
    /\ field "status" (fallback_started stack_name service_name port vpc_id subnet_ids)
       = Some (JStr "success")
    /\ field "deployment_status"
         (fallback_started stack_name service_name port vpc_id subnet_ids)
       = Some (JStr "in_progress")
    /\ exists resources,
         field "Resources" template = Some (JObj resources)
         /\ resource_types resources
            = [ Some (JStr "AWS::ECS::Cluster");
           Some (JStr "AWS::EC2::SecurityGroup");
           Some (JStr "AWS::EC2::SecurityGroup");
           Some (JStr "AWS::ElasticLoadBalancingV2::LoadBalancer");
           Some (JStr "AWS::ElasticLoadBalancingV2::TargetGroup");
           Some (JStr "AWS::ElasticLoadBalancingV2::Listener");
           Some (JStr "AWS::ECS::TaskDefinition");
           Some (JStr "AWS::ECS::Service") ].
Proof.
  intros service_name image_uri env_vars cpu memory port region
    account_id s1 vpc_id subnet_ids s2 calls items express_error s3
    Hname Himage Hsts Hnet Hitems managed Hexpress template stack_name submission
    all_calls.
  assert (Hrun : forall out s4,
    respond w submission s3 = (out, s4) ->
    run w (handle_deploy_ecs_express_service (JObj request)) s =
      (inr match out with
           | inr _ =>
               create_response 200
                 (fallback_started stack_name service_name port vpc_id subnet_ids)
           | inl e =>
               create_response 500
                 (JObj [("error", JStr ("Failed to deploy service: " ++ exn_msg e))])
           end, s4, all_calls)).
  { intros out s4 Hsub.
    rewrite handle_deploy_of_request. unfold deploy_service.
    fold service_name image_uri env_vars cpu memory port region.
    rewrite Hname, Himage. cbn [negb orb].
    rewrite run_catch, run_bind.
    unfold sts_get_caller_identity at 1. simpl run at 1. rewrite Hsts.
    cbn [lift run]. rewrite run_bind, Hnet.
    unfold submit_service. rewrite run_catch, run_bind, Hitems. cbn [lift run].
    rewrite run_bind. unfold ecs_create_express_gateway_service.
    fold managed. simpl run at 1. rewrite Hexpress. cbn [lift run].
    rewrite run_bind. cbn [lift run]. rewrite run_bind.
    unfold cfn_create_stack. fold template stack_name submission.
    simpl run at 1. rewrite Hsub.
    destruct out as [e | stack_id]; cbn [lift run]; unfold all_calls;
      rewrite ?app_nil_r; simpl; rewrite ?app_nil_r; reflexivity. }
  split; [| split; [| split; [| split]]].
  - intros stack_id s4 Hsub. apply (Hrun (inr stack_id) s4 Hsub).
  - intros e s4 Hsub. apply (Hrun (inl e) s4 Hsub).
  - reflexivity.
  - reflexivity.
  - eexists. split; reflexivity.
Qed.

End Fallback.

Lemma express_fallback_witness :
  result_of
    (run (aws (with_express quiet (inl express_unavailable)))
       (handle_deploy_ecs_express_service (JObj checkout_request)) empty_cloud)
    = inr (create_response 200
             (fallback_started "checkout-alb-stack" (JStr "checkout") (JNum 3000)
                (JStr "vpc-0a1b2c3d") (JArr [JStr "subnet-0a1b2c3d"])))
  /\ result_of
       (run (aws (with_express quiet (inl express_unavailable)))
          (handle_deploy_ecs_express_service (JObj checkout_request)) fallback_taken)
     = inr (create_response 500
              (JObj [ ("error",
                        JStr ("Failed to deploy service: "
                                ++ exn_msg (Aws.stack_exists "checkout-alb-stack"))) ])).
Proof.
  set (a := with_express quiet (inl express_unavailable)).
  split.
  - destruct (express_fallback (aws a) empty_cloud checkout_request
                "123456789012" empty_cloud (JStr "vpc-0a1b2c3d")
                (JArr [JStr "subnet-0a1b2c3d"]) empty_cloud [] [] express_unavailable
                empty_cloud eq_refl eq_refl eq_refl eq_refl eq_refl eq_refl)
      as (Hok & _).
    erewrite Hok by reflexivity. reflexivity.
  - destruct (express_fallback (aws a) fallback_taken checkout_request
                "123456789012" fallback_taken (JStr "vpc-0a1b2c3d")
                (JArr [JStr "subnet-0a1b2c3d"]) fallback_taken [] [] express_unavailable
                fallback_taken eq_refl eq_refl eq_refl eq_refl eq_refl eq_refl)
      as (_ & Hfail & _).
    erewrite Hfail by reflexivity. reflexivity.
Defined.

(** C8 as stated fails: when the managed call raises and the submission
    of the fallback template raises too (here a stack of that name
    exists), the handler answers 500, not a success. *)
Lemma fallback_submission_can_fail :
  express (with_express quiet (inl express_unavailable)) = inl express_unavailable
  /\ exists reply,
       result_of
         (run (aws (with_express quiet (inl express_unavailable)))
            (handle_deploy_ecs_express_service (JObj checkout_request)) fallback_taken)
         = inr reply
       /\ field "statusCode" reply = Some (JNum 500)
       /\ List.existsb
            (fun c => match c with EcsCreateExpressGatewayService _ _ => true | _ => false end)
            (calls_of
               (run (aws (with_express quiet (inl express_unavailable)))
                  (handle_deploy_ecs_express_service (JObj checkout_request))
                  fallback_taken)) = true.
Proof.
  split; [reflexivity |].
  eexists. split; [vm_compute; reflexivity | split; [reflexivity |]].
  vm_compute. reflexivity.
Qed.

(** ** The calls a program can make *)

Section Calls.
Context {S : Type} (w : world S).

Lemma only_calls_mono {A : Type} (P Q : call -> Prop) (p : prog A) :
  (forall c, P c -> Q c) -> only_calls P p -> only_calls Q p.
Proof.
  intros HPQ. induction p as [a | e | c k IH]; simpl; auto.
  intros [Hc Hk]. split; [auto | intros r; apply IH, Hk].
Qed.

Lemma only_calls_bind {A B : Type} (P : call -> Prop) (p : prog A) (f : A -> prog B) :
  only_calls P p -> (forall a, only_calls P (f a)) -> only_calls P (bind p f).
Proof.
  intros Hp Hf. induction p as [a | e | c k IH]; simpl; auto.
  destruct Hp as [Hc Hk]. split; [exact Hc | intros r; apply IH, Hk].
Qed.

Lemma only_calls_catch {A : Type} (P : call -> Prop) (p : prog A) (h : exn -> prog A) :
  only_calls P p -> (forall e, only_calls P (h e)) -> only_calls P (catch p h).
Proof.
  intros Hp Hh. induction p as [a | e | c k IH]; simpl; auto.
  destruct Hp as [Hc Hk]. split; [exact Hc | intros r; apply IH, Hk].
Qed.

Lemma only_calls_catch_if {A : Type} (P : call -> Prop) sel (p : prog A) h :
  only_calls P p -> (forall e, only_calls P (h e)) -> only_calls P (catch_if sel p h).
Proof.
  intros Hp Hh. apply only_calls_catch; [exact Hp |].
  intros e. destruct (sel e); [apply Hh | exact I].
Qed.

Lemma only_calls_lift {A : Type} (P : call -> Prop) (r : exn + A) :
  only_calls P (lift r).
Proof. destruct r; exact I. Qed.

Lemma only_calls_ask (P : call -> Prop) (c : call) : P c -> only_calls P (ask c).
Proof. intros Hc. split; [exact Hc | intros r; exact I]. Qed.

Lemma only_calls_for_each {A : Type} (P : call -> Prop) (l : list A) text body :
  (forall t x, only_calls P (body t x)) -> only_calls P (for_each l text body).
Proof.
  intros Hb. revert text. induction l as [| x l IH]; intros text; simpl.
  - exact I.
  - apply only_calls_bind; [apply Hb | intros t; apply IH].
Qed.

(** The calls of a run are calls the program can make. *)
Lemma run_only_calls {A : Type} (P : call -> Prop) (p : prog A) (s : S) :
  only_calls P p -> Forall P (calls_of (run w p s)).
Proof.
  revert s. induction p as [a | e | c k IH]; intros s Hp; simpl.
  - constructor.
  - constructor.
  - destruct Hp as [Hc Hk]. destruct (respond w c s) as [r s1].
    specialize (IH r s1 (Hk r)).
    destruct (run w (k r) s1) as [[out s2] calls]. constructor; assumption.
Qed.

End Calls.

(** Walks a program along its binds, handlers and branches. *)
Ltac walk :=
  repeat lazymatch goal with
    | |- only_calls _ ((fun _ => _) _) => cbv beta
    | |- only_calls _ (let _ := _ in _) => cbv zeta
    | |- only_calls _ (Ret _) => exact I
    | |- only_calls _ (Raise _) => exact I
    | |- only_calls _ (lift _) => apply only_calls_lift
    | |- only_calls _ (ask _) => apply only_calls_ask
    | |- only_calls _ (bind _ _) => apply only_calls_bind; [| intros ?]
    | |- only_calls _ (catch_if _ _ _) => apply only_calls_catch_if; [| intros ?]
    | |- only_calls _ (catch _ _) => apply only_calls_catch; [| intros ?]
    | |- only_calls _ (for_each _ _ _) => apply only_calls_for_each; intros ? ?
    | |- only_calls _ (if ?b then _ else _) => destruct b
    | |- only_calls _ (match ?x with _ => _ end) => destruct x
    end.

Section NoSubmission.
Context `{PyLib}.

Lemma find_app_path_calls paths : only_calls not_http (find_app_path paths).
Proof.
  induction paths as [| path rest IH]; [exact I |].
  cbn [find_app_path]. walk; try reflexivity. exact IH.
Qed.

Lemma build_and_push_calls app_name region :
  only_calls not_http (build_and_push_docker_image app_name region).
Proof.
  unfold build_and_push_docker_image, ecr_create_repository, subprocess_run.
  apply only_calls_bind; [apply find_app_path_calls | intros found].
  walk; reflexivity.
Qed.

Lemma ecs_step_registry_calls app_name region text :
  only_calls not_http (ecs_step_registry app_name region text).
Proof. unfold ecs_step_registry, ecr_create_repository. walk; reflexivity. Qed.

End NoSubmission.

(** ** A build that fails *)

Section BuildFailure.
Context `{PyLib} {S : Type} (w : world S).

Lemma append_assoc (a b c : string) : (a ++ b) ++ c = a ++ b ++ c.
Proof.
  induction a as [| x a IH]; [reflexivity |].
  change (String x ((a ++ b) ++ c) = String x (a ++ b ++ c)). now f_equal.
Qed.

Lemma contains_in_middle (a needle b text : string) :
  text = a ++ needle ++ b -> Str.contains needle text = true.
Proof. intros ->. apply contains_append. Qed.

(** What the registry step adds to the report when it does not raise. *)
Lemma ecs_step_registry_report app_name region text s text1 s1 calls1 :
  run w (ecs_step_registry app_name region text) s = (inr text1, s1, calls1) ->
  text1 = text ++ "**Step 1: Create ECR Repository**" ++ nl
            ++ Mark.ok ++ " Created ECR repository: " ++ app_name ++ nl
  \/ text1 = text ++ "**Step 1: Create ECR Repository**" ++ nl
               ++ Mark.ok ++ " ECR repository already exists: " ++ app_name ++ nl.
Proof.
  unfold ecs_step_registry, catch_if, ecr_create_repository. simpl.
  destruct (respond w (EcrCreateRepository region (JStr app_name)) s) as [[e | r] s'].
  - simpl. destruct (is_repository_already_exists e); simpl.
    + intros [= <- _ _]. right. exact (append_assoc _ _ _).
    + discriminate.
  - simpl. intros [= <- _ _]. left. exact (append_assoc _ _ _).
Qed.

(** C7. In a run of the deployment pipeline of the chat handler where
    the registry step is passed and the build/push step returns an
    error, the reply has status [error], its report carries the line of
    the registry step (created, or already there) and the line of the
    failed build with its diagnostic, and the run makes no call to the
    agent: no deployment is submitted. *)
Theorem build_failure_report (s : S) (app_name service_name image_uri : string)
  (deploy_region cpu memory app_port desired_count env_vars : json)
  (response_text : string) :
  forall text1 s1 calls1 message s2 calls2,
    run w (ecs_step_registry app_name deploy_region response_text) s
      = (inr text1, s1, calls1) ->
    run w (build_and_push_docker_image app_name deploy_region) s1
      = (inr (build_error message), s2, calls2) ->
    let report :=
      text1 ++ nl ++ "**Step 2: Build and Push Docker Image**" ++ nl
        ++ Mark.cross ++ " Build failed: " ++ message ++ nl in
    run w (ecs_deploy_pipeline app_name service_name image_uri deploy_region cpu
             memory app_port desired_count env_vars response_text) s
      = (inr (jsonify [("status", JStr "error"); ("result", JStr report)]), s2,
          (calls1 ++ calls2)%list)
    /\ (Str.contains (Mark.ok ++ " Created ECR repository: " ++ app_name) report = true
        \/ Str.contains (Mark.ok ++ " ECR repository already exists: " ++ app_name)
             report = true)
    /\ Str.contains (Mark.cross ++ " Build failed: " ++ message) report = true
    /\ Forall (fun c => is_http_post c = false) (calls1 ++ calls2).
Proof.
  intros text1 s1 calls1 message s2 calls2 Hreg Hbuild report.
  split; [| split; [| split]].
  - unfold ecs_deploy_pipeline. rewrite run_bind, Hreg.
    unfold ecs_step_build. rewrite run_bind, Hbuild. simpl.
    rewrite app_nil_r, (append_assoc text1). reflexivity.
  - destruct (ecs_step_registry_report _ _ _ _ _ _ _ Hreg) as [-> | ->];
      [left | right];
      apply contains_in_middle
        with (a := response_text ++ "**Step 1: Create ECR Repository**" ++ nl)
             (b := nl ++ nl ++ "**Step 2: Build and Push Docker Image**" ++ nl
                     ++ Mark.cross ++ " Build failed: " ++ message ++ nl);
      unfold report; rewrite !append_assoc; reflexivity.
  - apply contains_in_middle
      with (a := text1 ++ nl ++ "**Step 2: Build and Push Docker Image**" ++ nl)
           (b := nl);
      unfold report; rewrite !append_assoc; reflexivity.
  - apply Forall_app. split.
    + replace calls1 with
        (calls_of (run w (ecs_step_registry app_name deploy_region response_text) s))
        by now rewrite Hreg.
      apply run_only_calls, ecs_step_registry_calls.
    + replace calls2 with
        (calls_of (run w (build_and_push_docker_image app_name deploy_region) s1))
        by now rewrite Hbuild.
      apply run_only_calls, build_and_push_calls.
Qed.

End BuildFailure.

Lemma build_failure_report_witness :
  exists report,
    result_of
      (run (aws login_refused)
         (ecs_deploy_pipeline "blog-app" "blog-app-1767225600"
            "<AWS_ACCOUNT_ID>.dkr.ecr.us-west-2.amazonaws.com/blog-app:latest"
            (JStr "us-west-2") (JStr "512") (JStr "1024") (JNum 3000) (JNum 1)
            (JObj []) "")
         empty_cloud)
      = inr (jsonify [("status", JStr "error"); ("result", JStr report)])
    /\ Str.contains "Created ECR repository: blog-app" report = true
    /\ Str.contains "Build failed: ECR login failed: Unable to locate credentials"
         report = true.
Proof.
  edestruct (build_failure_report (aws login_refused) empty_cloud "blog-app"
               "blog-app-1767225600"
               "<AWS_ACCOUNT_ID>.dkr.ecr.us-west-2.amazonaws.com/blog-app:latest"
               (JStr "us-west-2") (JStr "512") (JStr "1024") (JNum 3000) (JNum 1)
               (JObj []) "") as (Hrun & _).
  - vm_compute. reflexivity.
  - vm_compute. reflexivity.
  - eexists. rewrite Hrun. split; [reflexivity |]. split; vm_compute; reflexivity.
Defined.

(** The same scenario from the request on: the oracle routes the message
    to a deployment, the repository is created, the login of the build
    is refused. *)
Example ecs_chat_build_failure :
  let reply :=
    run (aws (with_oracle login_refused
                (fun _ =>
                   inr (bedrock_body
                          (RefPy.dumps
                             (JObj [ ("operation", JStr "deploy");
                                     ("arguments", JObj [("app_name", JStr "blog-app")]);
                                     ("reasoning", JStr "The user wants to deploy") ]))))))
      (ecs_chat (JObj [("message", JStr "deploy my blog app")])) empty_cloud in
  (exists report,
     result_of reply = inr (jsonify [("status", JStr "error"); ("result", JStr report)])
     /\ Str.contains "Created ECR repository: blog-app" report = true
     /\ Str.contains "Build failed: ECR login failed: Unable to locate credentials"
          report = true)
  /\ List.existsb is_http_post (calls_of reply) = false.
Proof.
  split.
  - eexists. split; [vm_compute; reflexivity |]. split; vm_compute; reflexivity.
  - vm_compute. reflexivity.
Qed.

(** ** The environment passed to a deployment *)

Lemma lookup_set_eq k v d : Dict.lookup k (Dict.set k v d) = Some v.
Proof.
  induction d as [| [k' v'] d IH]; simpl.
  - now rewrite String.eqb_refl.
  - destruct (String.eqb k k') eqn:E; simpl.
    + now rewrite String.eqb_refl.
    + rewrite E. exact IH.
Qed.

Lemma lookup_set_ne k k' v d :
  String.eqb k k' = false -> Dict.lookup k (Dict.set k' v d) = Dict.lookup k d.
Proof.
  intros Hne. induction d as [| [k2 v2] d IH]; simpl.
  - now rewrite Hne.
  - destruct (String.eqb k' k2) eqn:E; simpl.
    + apply String.eqb_eq in E. subst k2. now rewrite Hne.
    + destruct (String.eqb k k2); [reflexivity | exact IH].
Qed.

Ltac lookup_update :=
  repeat first
    [ rewrite lookup_set_eq
    | rewrite lookup_set_ne by reflexivity ];
  reflexivity.

(** A line of three pieces is found where it was written. *)
Lemma contains_line (a b c rest : string) :
  Str.contains (a ++ b ++ c) (a ++ b ++ c ++ rest) = true.
Proof.
  replace (a ++ b ++ c ++ rest) with ((a ++ b ++ c) ++ rest)
    by (now rewrite !append_assoc).
  apply contains_prefix.
Qed.

Ltac find_line :=
  first [ apply contains_line | apply contains_append_right; find_line ].

Section Environment.
Context `{PyLib}.

(** The deployment prompt gives the environment, the port and the
    region it is built from. *)
Lemma ecs_deploy_prompt_mentions image_uri deploy_region service_name cpu memory
  app_port desired_count env_vars :
  mentions
    (ecs_deploy_prompt image_uri deploy_region service_name cpu memory app_port
       desired_count env_vars)
    [ "- environment_variables: " ++ json_dumps env_vars ++ nl;
      "- port: " ++ py_str app_port ++ nl;
      "- region: " ++ py_str deploy_region ++ nl ].
Proof.
  unfold mentions, ecs_deploy_prompt.
  repeat (constructor; [find_line |]). constructor.
Qed.

(** Whatever the dictionary held, after the update it holds the values
    of the enrichment. *)
Lemma ecs_enrichment_enriched kv deploy_region app_port :
  enriched deploy_region app_port
    (Dict.update kv (ecs_enrichment deploy_region app_port)).
Proof.
  unfold enriched, Dict.update, ecs_enrichment. cbn [fold_left].
  repeat split; lookup_update.
Qed.

Lemma eks_enrichment_enriched kv region app_port :
  enriched region app_port (Dict.update kv (eks_enrichment region app_port))
  /\ Dict.lookup "NODE_ENV" (Dict.update kv (eks_enrichment region app_port))
     = Some (JStr "production").
Proof.
  unfold enriched, Dict.update, eks_enrichment. cbn [fold_left].
  repeat split; lookup_update.
Qed.

Lemma check_stack_status_calls stack_name region :
  only_calls not_http (check_stack_status stack_name region).
Proof.
  unfold check_stack_status, cfn_describe_stacks, cfn_describe_stack_events.
  walk; reflexivity.
Qed.

Lemma ecs_stack_report_calls (P : call -> Prop) stack_name stack_status text :
  only_calls P (ecs_stack_report stack_name stack_status text).
Proof. unfold ecs_stack_report. walk. Qed.

(** The only call of [invoke_strands_agent] posts the prompt. *)
Lemma invoke_strands_agent_calls agent_arn prompt agent_region :
  only_calls
    (fun c => c = HttpPost (agent_url agent_arn agent_region)
                    (JObj [("prompt", JStr prompt)]))
    (invoke_strands_agent agent_arn prompt agent_region).
Proof. unfold invoke_strands_agent, http_post. walk. reflexivity. Qed.

Lemma mcp_data_line_calls (P : call -> Prop) data : only_calls P (mcp_data_line data).
Proof. unfold mcp_data_line. walk. Qed.

Lemma mcp_lines_calls (P : call -> Prop) lines : only_calls P (mcp_lines lines).
Proof.
  induction lines as [| line rest IH]; [exact I |].
  cbn [mcp_lines]. walk; try exact IH. apply mcp_data_line_calls.
Qed.

(** The only call of [invoke_mcp_tool] posts the tool call. *)
Lemma invoke_mcp_tool_calls agent_arn tool_name arguments agent_region :
  only_calls
    (fun c => c = HttpPost (agent_url agent_arn agent_region)
                    (mcp_payload tool_name arguments))
    (invoke_mcp_tool agent_arn tool_name arguments agent_region).
Proof.
  unfold invoke_mcp_tool, http_post. walk; try reflexivity. apply mcp_lines_calls.
Qed.

Lemma not_http_ecs deploy_region app_port c :
  not_http c -> ecs_submission_enriched deploy_region app_port c.
Proof. destruct c; try (intros _; exact I). discriminate. Qed.

Lemma not_http_eks region app_port c :
  not_http c -> eks_submission_enriched region app_port c.
Proof. destruct c; try (intros _; exact I). discriminate. Qed.

Lemma ecs_deploy_pipeline_calls app_name service_name image_uri deploy_region cpu
  memory app_port desired_count env text :
  enriched deploy_region app_port env ->
  only_calls (ecs_submission_enriched deploy_region app_port)
    (ecs_deploy_pipeline app_name service_name image_uri deploy_region cpu memory
       app_port desired_count (JObj env) text).
Proof.
  intros Henv.
  unfold ecs_deploy_pipeline, ecs_step_build, ecs_step_deploy.
  walk;
    first
      [ exact I
      | apply ecs_stack_report_calls
      | eapply only_calls_mono; [apply not_http_ecs |];
        first [ apply ecs_step_registry_calls
              | apply build_and_push_calls
              | apply check_stack_status_calls ]
      | eapply only_calls_mono; [| apply invoke_strands_agent_calls];
        intros c ->; do 7 eexists;
        split; [reflexivity |];
        split; [reflexivity |];
        split; [exact Henv | apply ecs_deploy_prompt_mentions] ].
Qed.

Lemma eks_deploy_pipeline_calls cluster app_name image_uri port replicas env region
  app_port text :
  enriched region app_port env ->
  Dict.lookup "NODE_ENV" env = Some (JStr "production") ->
  only_calls (eks_submission_enriched region app_port)
    (eks_step_identity cluster app_name image_uri port replicas (JObj env) region
       text).
Proof.
  intros Henv Hnode.
  unfold eks_step_identity, eks_step_build, eks_step_deploy.
  walk;
    first
      [ exact I
      | eapply only_calls_mono; [apply not_http_eks |]; apply build_and_push_calls
      | eapply only_calls_mono; [| apply invoke_mcp_tool_calls];
        intros c -> arguments [= <-];
        exists env; split; [reflexivity | split; [exact Henv | exact Hnode]]
      | eapply only_calls_mono; [| apply invoke_mcp_tool_calls];
        intros c -> arguments; discriminate ].
Qed.

(** Every submission the ECS deploy branch makes for a blog or sample
    application carries the enriched environment. *)
Lemma ecs_chat_deploy_calls arguments app_name region text :
  Dict.lookup "app_name" arguments = Some (JStr app_name) ->
  Str.contains "blog" (Str.lower app_name)
    || Str.contains "sample" (Str.lower app_name) = true ->
  only_calls
    (ecs_submission_enriched (request_arg arguments "region" region)
       (request_arg arguments "port" (JStr CONFIG.app_port)))
    (ecs_chat_deploy (JObj arguments) region text).
Proof.
  intros Hname Hblog.
  unfold ecs_chat_deploy, py_get, is_blog_app, py_lower, request_arg.
  rewrite Hname. cbn [lift bind]. rewrite Hblog. cbn [lift bind].
  destruct (Dict.lookup "env_vars" arguments) as [[| | | | | kv] |];
    cbn [py_update lift bind]; try exact I.
  - destruct app_name as [| ch rest]; [discriminate Hblog |].
    cbn [truthy negb String.eqb bind]. walk; [exact I |].
    apply ecs_deploy_pipeline_calls, ecs_enrichment_enriched.
  - destruct app_name as [| ch rest]; [discriminate Hblog |].
    cbn [truthy negb String.eqb bind]. walk; [exact I |].
    apply ecs_deploy_pipeline_calls, ecs_enrichment_enriched.
Qed.

Lemma eks_chat_deploy_calls arguments app_name cluster region text :
  Dict.lookup "app_name" arguments = Some (JStr app_name) ->
  Str.contains "blog" (Str.lower app_name)
    || Str.contains "sample" (Str.lower app_name) = true ->
  only_calls
    (eks_submission_enriched region (request_arg arguments "port" (JNum 3000)))
    (eks_chat_deploy (JObj arguments) cluster region text).
Proof.
  intros Hname Hblog.
  unfold eks_chat_deploy, py_get, is_blog_app, py_lower, request_arg.
  rewrite Hname. cbn [lift bind]. rewrite Hblog. cbn [lift bind].
  destruct (Dict.lookup "env_vars" arguments) as [[| | | | | kv] |];
    cbn [py_update lift bind]; try exact I.
  - destruct app_name as [| ch rest]; [discriminate Hblog |].
    cbn [truthy negb String.eqb bind]. cbv zeta.
    apply eks_deploy_pipeline_calls; apply eks_enrichment_enriched.
  - destruct app_name as [| ch rest]; [discriminate Hblog |].
    cbn [truthy negb String.eqb bind]. cbv zeta.
    apply eks_deploy_pipeline_calls; apply eks_enrichment_enriched.
Qed.

End Environment.

(** C10 (amended).  When the routing decision asks for a deployment and
    names an application whose lower-cased name contains [blog] or
    [sample], every submission the ECS chat handler makes is a prompt
    whose lines for the environment, the port and the region give an
    environment, the deployment's port and its region, an environment in
    which DYNAMODB_TABLE, COGNITO_USER_POOL_ID and
    COGNITO_CLIENT_ID are the configured values, AWS_REGION is the region
    of the deployment (the decision's [region], else the request's),
    S3_BUCKET is the configured prefix and account followed by that
    region, and PORT is the text of the deployment's port (the decision's
    [port], else the configured one); every submission of the deployment
    tool the EKS chat handler makes carries the same six variables, for
    the request's region, and NODE_ENV set to [production].  This holds
    whatever [env_vars] the decision proposes. *)
Theorem blog_environment `{PyLib} {S : Type} (w : world S) (s : S)
  (routing arguments : list (string * json)) (app_name : string)
  (cluster region : json) :
  Dict.lookup "arguments" routing = Some (JObj arguments) ->
  Dict.lookup "app_name" arguments = Some (JStr app_name) ->
  Str.contains "blog" (Str.lower app_name)
    || Str.contains "sample" (Str.lower app_name) = true ->
  (Dict.lookup "operation" routing = Some (JStr "deploy") ->
   Forall
     (ecs_submission_enriched (request_arg arguments "region" region)
        (request_arg arguments "port" (JStr CONFIG.app_port)))
     (calls_of (run w (ecs_dispatch (JObj routing) region) s)))
  /\ (Dict.lookup "tool_name" routing = Some (JStr "deploy_workflow") ->
      Forall
        (eks_submission_enriched region
           (request_arg arguments "port" (JNum 3000)))
        (calls_of (run w (eks_dispatch (JObj routing) cluster region) s))).
Proof.
  intros Hargs Hname Hblog. split; intros Hop; apply run_only_calls.
  - unfold ecs_dispatch, py_get. rewrite Hop, Hargs. cbn [lift bind].
    change (negb (truthy (JStr "deploy"))) with false.
    change (eq_str (JStr "deploy") "deploy") with true. cbv iota zeta.
    now apply ecs_chat_deploy_calls with (app_name := app_name).
  - unfold eks_dispatch, py_get. rewrite Hop, Hargs. cbn [lift bind].
    change (negb (truthy (JStr "deploy_workflow"))) with false.
    change (eq_str (JStr "deploy_workflow") "deploy_workflow") with true.
    cbv iota zeta.
    now apply eks_chat_deploy_calls with (app_name := app_name).
Qed.

Lemma blog_environment_witness :
  Forall (ecs_submission_enriched (JStr "us-west-2") (JNum 8080))
    (calls_of
       (run (aws quiet) (ecs_dispatch (JObj blog_routing) (JStr "us-west-2"))
          empty_cloud))
  /\ Forall (eks_submission_enriched (JStr "eu-north-1") (JNum 8080))
       (calls_of
          (run (aws agent_creates)
             (eks_dispatch (JObj eks_blog_routing) (JStr "demo") (JStr "eu-north-1"))
             empty_cloud)).
Proof.
  split.
  - exact
      (proj1
         (blog_environment (aws quiet) empty_cloud blog_routing blog_arguments
            "blog-app" (JStr "demo") (JStr "us-west-2") eq_refl eq_refl eq_refl)
         eq_refl).
  - exact
      (proj2
         (blog_environment (aws agent_creates) empty_cloud eks_blog_routing
            blog_arguments
            "blog-app" (JStr "demo") (JStr "eu-north-1") eq_refl eq_refl eq_refl)
         eq_refl).
Defined.

(** C10 as stated fails: the oracle routes the request to a deployment
    on port 8080, and the one submission of the ECS chat handler carries
    PORT 8080, the decision's port, not the configured 3000. *)
Lemma blog_port_follows_decision :
  submissions (calls_of (run (aws routes_blog) (ecs_chat blog_request) empty_cloud))
  = [ JObj
        [ ("prompt",
            JStr
              (ecs_deploy_prompt
                 "<AWS_ACCOUNT_ID>.dkr.ecr.us-west-2.amazonaws.com/blog-app:latest"
                 (JStr "us-west-2") "blog-app-1767225600" (JStr "512") (JStr "1024")
                 (JNum 8080) (JNum 1) (JObj blog_environment_sent))) ] ]
  /\ Dict.lookup "PORT" blog_environment_sent = Some (JStr "8080")
  /\ CONFIG.app_port = "3000"
  /\ Dict.lookup "port" blog_arguments = Some (JNum 8080).
Proof. vm_compute. repeat split. Qed.

(** * Further properties *)

(** ** What a program can end with *)

Section Ends.
Context {S : Type} (w : world S).
Context (G : forall c : call, resp_ty c -> Prop) (C : call -> Prop).

Lemma ends_mono {A : Type} (P P' : A -> Prop) (Q Q' : exn -> Prop) (p : prog A) :
  (forall a, P a -> P' a) -> (forall e, Q e -> Q' e) ->
  ends G C P Q p -> ends G C P' Q' p.
Proof.
  intros HP HQ. induction p as [a | e | c k IH]; simpl; auto.
  intros [Hc Hk]. split; auto.
Qed.

Lemma ends_bind {A B : Type} (P' : A -> Prop) (P : B -> Prop) (Q : exn -> Prop)
  (p : prog A) (f : A -> prog B) :
  ends G C P' Q p -> (forall a, P' a -> ends G C P Q (f a)) ->
  ends G C P Q (bind p f).
Proof.
  intros Hp Hf. induction p as [a | e | c k IH]; simpl in *; auto.
  destruct Hp as [Hc Hk]. split; auto.
Qed.

Lemma ends_catch {A : Type} (P : A -> Prop) (Q' Q : exn -> Prop)
  (p : prog A) (h : exn -> prog A) :
  ends G C P Q' p -> (forall e, Q' e -> ends G C P Q (h e)) ->
  ends G C P Q (catch p h).
Proof.
  intros Hp Hh. induction p as [a | e | c k IH]; simpl in *; auto.
  destruct Hp as [Hc Hk]. split; auto.
Qed.

Lemma ends_call {A : Type} (P : A -> Prop) (Q : exn -> Prop) (c : call)
  (k : resp_ty c -> prog A) :
  C c -> (forall r, G c r -> ends G C P Q (k r)) -> ends G C P Q (Call c k).
Proof. intros Hc Hk. split; assumption. Qed.

Lemma run_ends {A : Type} (P : A -> Prop) (Q : exn -> Prop) (p : prog A) (s : S) :
  answers w G ->
  ends G C P Q p ->
  Forall C (calls_of (run w p s))
  /\ match result_of (run w p s) with
     | inr a => P a
     | inl e => Q e
     end.
Proof.
  intros Hw. revert s. induction p as [a | e | c k IH]; intros s Hp; simpl in *.
  - split; [constructor | exact Hp].
  - split; [constructor | exact Hp].
  - destruct Hp as [Hc Hk]. pose proof (Hw c s) as Hg.
    destruct (respond w c s) as [r s1]. simpl in Hg.
    specialize (IH r s1 (Hk r Hg)).
    destruct (run w (k r) s1) as [[out s2] calls]. simpl in *.
    destruct IH as [Hcalls Hout]. split; [constructor; assumption | exact Hout].
Qed.

Lemma run_returns {A : Type} (P : A -> Prop) (p : prog A) (s : S) :
  answers w G ->
  ends G C P no_exception p ->
  Forall C (calls_of (run w p s))
  /\ exists a, result_of (run w p s) = inr a /\ P a.
Proof.
  intros Hw Hp. destruct (run_ends P _ p s Hw Hp) as [Hc Hr].
  split; [exact Hc |].
  destruct (result_of (run w p s)) as [e | a]; [contradiction | eauto].
Qed.

End Ends.

Lemma answers_any {S : Type} (w : world S) : answers w any_answer.
Proof. intros c s. exact I. Qed.

(** Steps through a program whose calls are laid open. *)
Ltac unblock p :=
  lazymatch p with
  | bind ?q _ => unblock q
  | catch ?q _ => unblock q
  | lift ?r => destruct r
  | (if ?b then _ else _) => destruct b eqn:?
  | (match ?x with _ => _ end) => destruct x eqn:?
  end.

Ltac through :=
  repeat lazymatch goal with
    | |- ends _ _ _ _ (Ret _) => cbn [ends]
    | |- ends _ _ _ _ (Raise _) => cbn [ends]
    | |- ends _ _ _ _ (Call _ _) => apply ends_call; [| intros ? ?]
    | |- ends _ _ _ _ ?p =>
        first [ progress cbn [bind catch catch_if lift ask] | unblock p ]
    end.

(** ** The router recovers from throttling *)

Section Recovery.
Context `{PyLib} {S : Type} (w : world S).

Lemma route_loop_recovers err exh p body d s' :
  decode_reply body = inr d ->
  forall (k a : nat) (s : S),
    (a + k <= 4)%nat ->
    throttled_then w p k (Z.of_nat a) s body s' ->
    run w (route_loop err exh p (List.map Z.of_nat (List.seq a (5 - a)))) s
      = (inr d, s', recovery_trace p k (Z.of_nat a)).
Proof.
  intros Hd. induction k as [| k IH]; intros a s Ha Hk.
  - destruct (5 - a)%nat as [| n] eqn:E; [lia |]. simpl List.seq. simpl List.map.
    rewrite route_loop_cons, run_catch.
    rewrite (run_route_attempt_answers w p s body s' Hk), Hd. reflexivity.
  - destruct Hk as (e & s1 & Hr & Ht & Hrest).
    destruct (5 - a)%nat as [| n] eqn:E; [lia |]. simpl List.seq. simpl List.map.
    rewrite route_loop_cons, run_catch.
    rewrite (run_route_attempt_raises w p s e s1 Hr), Ht.
    assert (Hlt : (Z.of_nat a <? max_retries - 1) = true)
      by (apply Z.ltb_lt; unfold max_retries; lia).
    rewrite Hlt. cbn [andb]. simpl run.
    destruct (respond w (Sleep (base_delay * 2 ^ Z.of_nat a)) s1) as [u s2].
    simpl in Hrest.
    assert (En : n = (5 - Datatypes.S a)%nat) by lia. subst n.
    replace (Z.of_nat a + 1) with (Z.of_nat (Datatypes.S a)) in * by lia.
    rewrite (IH (Datatypes.S a) s2) by (lia || assumption).
    cbn [recovery_trace].
    replace (Z.of_nat a + 1) with (Z.of_nat (Datatypes.S a)) by lia.
    reflexivity.
Qed.

(** The router's waits when it is answered after [k] throttled calls. *)
Lemma sleeps_of_recovery p k :
  (k <= 4)%nat ->
  sleeps_of (recovery_trace p k 0) = List.firstn k [3; 6; 12; 24].
Proof.
  intros Hk.
  destruct k as [| [| [| [| [| k]]]]]; try reflexivity. lia.
Qed.

(** X1. When the oracle throttles the first [k] calls, [k] at most four,
    and then answers a reply that decodes to [decision], the router (ECS
    or EKS) returns that decision; it has called the oracle [k + 1]
    times and waited 3, 6, 12, ... seconds, [k] waits in all. *)
Theorem router_recovers (s s' : S) (message cluster region body : string)
  (k : nat) (decision : json) :
  (k <= 4)%nat ->
  decode_reply body = inr decision ->
  (throttled_then w (EcsRoutingPrompt message region) k 0 s body s' ->
   run w (llm_route_ecs_command message region) s
     = (inr decision, s', recovery_trace (EcsRoutingPrompt message region) k 0))
  /\ (throttled_then w (EksRoutingPrompt message cluster region) k 0 s body s' ->
      run w (llm_route_eks_command message cluster region) s
        = (inr decision, s',
           recovery_trace (EksRoutingPrompt message cluster region) k 0))
  /\ (forall p,
        sleeps_of (recovery_trace p k 0) = List.firstn k [3; 6; 12; 24]
        /\ oracle_calls (recovery_trace p k 0) = Datatypes.S k).
Proof.
  intros Hk Hd. split; [| split].
  - intros Ht. unfold llm_route_ecs_command.
    change (range max_retries) with (List.map Z.of_nat (List.seq 0 (5 - 0))).
    now apply (route_loop_recovers _ _ _ body decision s' Hd k 0%nat s).
  - intros Ht. unfold llm_route_eks_command.
    change (range max_retries) with (List.map Z.of_nat (List.seq 0 (5 - 0))).
    now apply (route_loop_recovers _ _ _ body decision s' Hd k 0%nat s).
  - intros p. split; [now apply sleeps_of_recovery |].
    destruct k as [| [| [| [| [| k]]]]]; try reflexivity. lia.
Qed.

End Recovery.

Lemma router_recovers_witness :
  run (flaky 2 (bedrock_body (RefPy.dumps list_decision)))
    (llm_route_ecs_command "list my services" "us-west-2") (0%nat, empty_cloud)
  = (inr list_decision, (2%nat, empty_cloud),
     [ InvokeModel (EcsRoutingPrompt "list my services" "us-west-2"); Sleep 3;
       InvokeModel (EcsRoutingPrompt "list my services" "us-west-2"); Sleep 6;
       InvokeModel (EcsRoutingPrompt "list my services" "us-west-2") ]).
Proof.
  refine (proj1
            (router_recovers (flaky 2 (bedrock_body (RefPy.dumps list_decision)))
               (0%nat, empty_cloud) (2%nat, empty_cloud) "list my services" ""
               "us-west-2" (bedrock_body (RefPy.dumps list_decision)) 2 list_decision
               _ _) _).
  - lia.
  - vm_compute. reflexivity.
  - simpl. eexists _, _. split; [reflexivity |]. split; [reflexivity |].
    eexists _, _. split; [reflexivity |]. split; reflexivity.
Defined.

(** ** Code fences around the oracle's answer *)

Lemma prefix_cons_eq c s1 s2 :
  String.prefix (String c s1) (String c s2) = String.prefix s1 s2.
Proof. simpl. destruct (ascii_dec c c) as [_ | Hne]; [reflexivity | now destruct Hne]. Qed.

Lemma prefix_cons_ne c d s1 s2 :
  c <> d -> String.prefix (String c s1) (String d s2) = false.
Proof. intros Hne. simpl. destruct (ascii_dec c d); [contradiction | reflexivity]. Qed.

Lemma append_nil_r (a : string) : a ++ "" = a.
Proof.
  induction a as [| c a IH]; [reflexivity |].
  change (String c (a ++ "") = String c a). now f_equal.
Qed.

(** A string without a backquote starts with none and has none further on. *)
Lemma no_tick_cons c t :
  Str.contains "`" (String c t) = false ->
  "`"%char <> c /\ Str.contains "`" t = false.
Proof.
  rewrite contains_cons.
  destruct (ascii_dec "`" c) as [<- | Hne].
  - rewrite prefix_cons_eq. destruct t; discriminate.
  - rewrite (prefix_cons_ne _ _ _ _ Hne). auto.
Qed.

(** A separator that starts with a backquote is searched for past any
    text that has none. *)
Lemma split_once_past sep' a x :
  Str.contains "`" a = false ->
  Str.split_once (String "`" sep') (a ++ x) =
    match Str.split_once (String "`" sep') x with
    | Some (b, rest) => Some (a ++ b, rest)
    | None => None
    end.
Proof.
  intros Ha. induction a as [| c a IH].
  - change ("" ++ x) with x.
    destruct (Str.split_once (String "`" sep') x) as [[b rest] |]; reflexivity.
  - apply no_tick_cons in Ha as [Hne Ha].
    change (String c a ++ x) with (String c (a ++ x)).
    cbn [Str.split_once]. rewrite (prefix_cons_ne _ _ _ _ Hne), (IH Ha).
    destruct (Str.split_once (String "`" sep') x) as [[b rest] |]; reflexivity.
Qed.

Lemma split_once_absent sep' a :
  Str.contains "`" a = false -> Str.split_once (String "`" sep') a = None.
Proof.
  intros Ha. rewrite <- (append_nil_r a), (split_once_past sep' a "" Ha).
  reflexivity.
Qed.

Lemma contains_absent sep' a :
  Str.contains "`" a = false -> Str.contains (String "`" sep') a = false.
Proof.
  intros Ha. induction a as [| c a IH]; [reflexivity |].
  apply no_tick_cons in Ha as [Hne Ha].
  rewrite contains_cons, (prefix_cons_ne _ _ _ _ Hne). auto.
Qed.

Lemma prefix_shorter a b s :
  String.prefix (a ++ b) s = true -> String.prefix a s = true.
Proof.
  revert s. induction a as [| c a IH]; intros s; [destruct s; reflexivity |].
  destruct s as [| d s]; [discriminate |].
  change (String c a ++ b) with (String c (a ++ b)). simpl.
  destruct (ascii_dec c d); [apply IH | discriminate].
Qed.

Lemma drop_append a y : Str.drop (String.length a) (a ++ y) = y.
Proof. induction a as [| c a IH]; [reflexivity | exact IH]. Qed.

Lemma split_once_here sep y : Str.split_once sep (sep ++ y) = Some ("", y).
Proof.
  assert (Hs : forall s, String.prefix sep s = true ->
                 Str.split_once sep s = Some ("", Str.drop (String.length sep) s)).
  { intros s Hs. destruct s; cbn [Str.split_once]; rewrite Hs; reflexivity. }
  rewrite (Hs _ (prefix_append sep y)), drop_append. reflexivity.
Qed.

(** The text up to the closing fence. *)
Lemma split_0_closing body post :
  Str.contains "`" body = false -> Str.contains "`" post = false ->
  Str.split_0 fence (Str.split_0 fence_json (body ++ fence ++ post)) = body.
Proof.
  intros Hb Hp.
  assert (Hclose : forall y, Str.split_0 fence (body ++ fence ++ y) = body).
  { intros y. unfold Str.split_0, fence.
    rewrite (split_once_past "``" body _ Hb), (split_once_here "```" y).
    apply append_nil_r. }
  assert (Hbare : Str.split_0 fence body = body).
  { unfold Str.split_0, fence. now rewrite (split_once_absent "``" body Hb). }
  unfold Str.split_0 at 2. unfold fence_json.
  rewrite (split_once_past "``json" body _ Hb).
  destruct post as [| c post].
  - simpl. rewrite append_nil_r. apply (Hclose "").
  - apply no_tick_cons in Hp as [Hne Hp].
    change (fence ++ String c post)
      with (String "`" (String "`" (String "`" (String c post)))).
    cbn [Str.split_once].
    rewrite !prefix_cons_eq.
    repeat rewrite (prefix_cons_ne "`" c) by exact Hne.
    rewrite (split_once_absent _ post Hp).
    destruct (String.prefix "json" (String c post)).
    + rewrite append_nil_r. exact Hbare.
    + exact (Hclose (String c post)).
Qed.

(** X2. When the answer holds a [json] code fence, with no backquote before
    it, inside it or after it, the router reads the fenced text, stripped
    of the white space around it; an answer without any fence is read as
    it is. *)
Theorem fenced_answer_is_unwrapped `{PyLib} (pre body post : string) :
  (Str.contains "`" pre = false ->
   Str.contains "`" body = false ->
   Str.contains "`" post = false ->
   extract_json (JStr (pre ++ fence_json ++ body ++ fence ++ post))
     = inr (JStr (Str.strip body)))
  /\ (Str.contains fence body = false -> extract_json (JStr body) = inr (JStr body)).
Proof.
  split.
  - intros Hpre Hb Hpost. unfold extract_json, py_in.
    rewrite contains_append. unfold between_fences, Str.split_1.
    unfold fence_json at 1 2.
    rewrite (split_once_past "``json" pre _ Hpre), (split_once_here "```json").
    fold fence_json.
    now rewrite (split_0_closing body post Hb Hpost).
  - intros Hb. unfold extract_json, py_in. rewrite Hb.
    assert (Hj : Str.contains fence_json body = false).
    { induction body as [| c t IH]; [reflexivity |].
      rewrite contains_cons in Hb |- *.
      destruct (String.prefix fence (String c t)) eqn:Hp; [discriminate |].
      rewrite (IH Hb).
      destruct (String.prefix fence_json (String c t)) eqn:Hpj; [| reflexivity].
      change fence_json with (fence ++ "json") in Hpj.
      apply prefix_shorter in Hpj. congruence. }
    now rewrite Hj.
Qed.

Lemma fenced_answer_is_unwrapped_witness :
  extract_json
    (JStr ("Here is the routing decision:" ++ nl ++ fence_json ++ nl
             ++ "{}" ++ nl ++ fence ++ nl))
  = inr (JStr "{}").
Proof.
  exact (proj1
           (fenced_answer_is_unwrapped ("Here is the routing decision:" ++ nl)
              (nl ++ "{}" ++ nl) nl)
           eq_refl eq_refl eq_refl).
Defined.

(** ** The EKS chat handler *)

Section EksChat.
Context `{PyLib} {S : Type} (w : world S).

(** X3. [eks_chat] answers every request whose body is an object, whatever
    the oracle and the agent do: it raises nothing.  When the oracle's
    answer cannot be decoded the router returns its [error] decision after
    that one call.  A decision without a tool name, and a decision whose
    tool is none of those the handler has a branch for, is answered with
    status [error] and without any call. *)
Theorem eks_chat_replies (s : S) (message cluster region : string) :
  let p := EksRoutingPrompt message cluster region in
  (forall data,
     is_dict data = true ->
     exists reply, result_of (run w (eks_chat data) s) = inr reply)
  /\ (forall body s1 e,
        respond w (InvokeModel p) s = (inr body, s1) ->
        decode_reply body = inl e ->
        run w (llm_route_eks_command message cluster region) s
          = (inr (eks_error_decision (exn_msg e)), s1, [InvokeModel p]))
  /\ (forall routing cluster' region',
        is_dict routing = true ->
        truthy (default JNull (field "tool_name" routing)) = false ->
        eks_dispatch routing cluster' region' =
          Ret (jsonify
                 [ ("status", JStr "error");
                   ("result",
                     JStr ("LLM failed to determine tool. Routing response: "
                             ++ json_dumps_indent routing)) ]))
  /\ (forall routing cluster' region' tool_name,
        field "tool_name" routing = Some tool_name ->
        truthy tool_name = true ->
        List.existsb (eq_str tool_name) eks_tools = false ->
        eks_dispatch routing cluster' region' =
          Ret (jsonify
                 [ ("status", JStr "error");
                   ("result",
                     JStr ("Unknown tool: " ++ py_str tool_name
                             ++ ". The LLM suggested a tool that is not implemented.")) ])).
Proof.
  intros p. split; [| split; [| split]].
  - intros data Hdict. destruct data as [| | | | | kv]; try discriminate.
    unfold eks_chat, py_get. cbn [lift bind]. apply run_chat_failure.
  - intros body s1 e Hr Hd. now apply route_loop_undecodable with (body := body).
  - intros routing cluster' region' Hdict Ht.
    destruct routing as [| | | | | kv]; try discriminate.
    unfold eks_dispatch, field, py_get in *.
    destruct (Dict.lookup "tool_name" kv) as [t |]; simpl in Ht;
      cbn [lift bind]; rewrite ?Ht; reflexivity.
  - intros routing cluster' region' tool_name Hf Ht Hn.
    destruct routing as [| | | | | kv]; try discriminate.
    unfold field in Hf. unfold eks_dispatch, py_get. rewrite Hf.
    cbn [lift bind]. rewrite Ht. cbn [negb].
    unfold eks_tools in Hn. cbn [List.existsb] in Hn.
    repeat (apply orb_false_elim in Hn; destruct Hn as [? Hn]).
    cbn [List.existsb].
    repeat match goal with
           | E : eq_str tool_name _ = false |- _ => rewrite E; clear E
           end.
    reflexivity.
Qed.

End EksChat.

Lemma eks_chat_replies_witness :
  run (aws (says "I can not help with that."))
    (llm_route_eks_command "hello" "demo" "eu-north-1") empty_cloud
    = (inr (eks_error_decision RefPy.decode_error), empty_cloud,
        [InvokeModel (EksRoutingPrompt "hello" "demo" "eu-north-1")])
  /\ eks_dispatch (JObj [("tool_name", JStr "scale_deployment")]) (JStr "demo")
       (JStr "eu-north-1")
     = Ret (jsonify
              [ ("status", JStr "error");
                ("result",
                  JStr "Unknown tool: scale_deployment. The LLM suggested a tool that is not implemented.") ])
  /\ exists reply,
       result_of (run (aws (says "I can not help with that."))
                    (eks_chat (JObj [("message", JStr "hello")])) empty_cloud)
         = inr reply.
Proof.
  destruct (eks_chat_replies (aws (says "I can not help with that."))
              empty_cloud "hello" "demo" "eu-north-1") as (Hchat & Hbad & _ & Hunknown).
  split; [| split].
  - apply (Hbad (bedrock_body "I can not help with that.") empty_cloud
             (Exn JSONDecodeError RefPy.decode_error)); reflexivity.
  - apply (Hunknown _ _ _ (JStr "scale_deployment")); reflexivity.
  - apply Hchat. reflexivity.
Defined.


(** ** Building and pushing the image *)

Section Build.
Context `{PyLib} {S : Type} (w : world S).

(** X4. [build_and_push_docker_image] raises nothing, whatever the registry
    and the commands answer.  It returns status [error] with a message,
    or status [success] with the image URI
    [<account>.dkr.ecr.<region>.amazonaws.com/<app>:latest] and, as the
    build context, the application's own folder or the sample
    application's. *)
Theorem build_never_raises (s : S) (app_name : string) (region : json) :
  exists r,
    result_of (run w (build_and_push_docker_image app_name region) s) = inr r
    /\ ((field "status" r = Some (JStr "error")
         /\ exists m, field "message" r = Some (JStr m))
        \/ (field "status" r = Some (JStr "success")
            /\ field "image_uri" r
               = Some (JStr (CONFIG.account_id ++ ".dkr.ecr." ++ py_str region
                               ++ ".amazonaws.com/" ++ app_name ++ ":latest"))
            /\ (field "app_path" r = Some (JStr ("$PROJECT_ROOT/" ++ app_name))
                \/ field "app_path" r
                   = Some (JStr "$PROJECT_ROOT/sample-application")))).
Proof.
  apply (run_returns w any_answer any_call); [apply answers_any |].
  unfold build_and_push_docker_image, find_app_path, subprocess_run,
    ecr_create_repository.
  through;
    try first
      [ exact I
      | left; split; [reflexivity | eexists; reflexivity]
      | right; split; [reflexivity |];
        split; [simpl; rewrite ?append_assoc; reflexivity |];
        first [left; reflexivity | right; reflexivity] ].
Qed.

(** X5. When the [aws ecr get-login-password] command ends with a non-zero
    return code, the function runs no [docker] command and returns
    status [error]. *)
Theorem failed_login_stops_build (s : S) (app_name : string) (region : json) :
  answers w login_fails ->
  Forall (fun c => runs_program "docker" c = false)
    (calls_of (run w (build_and_push_docker_image app_name region) s))
  /\ exists m,
       result_of (run w (build_and_push_docker_image app_name region) s)
         = inr (build_error m).
Proof.
  intros Hw.
  destruct (run_returns w login_fails (fun c => runs_program "docker" c = false)
              (fun r => exists m, r = build_error m)
              (build_and_push_docker_image app_name region) s Hw)
    as (Hcalls & r & Hr & m & ->).
  - unfold build_and_push_docker_image, find_app_path, subprocess_run,
      ecr_create_repository.
    through;
      try first
        [ reflexivity
        | eexists; reflexivity
        | match goal with
          | Hg : login_fails _ (inr ?cp), E : negb (returncode ?cp =? 0) = false
            |- _ =>
              exfalso; apply (Hg eq_refl);
              apply negb_false_iff, Z.eqb_eq in E; exact E
          | Hg : login_fails _ (inl _) |- _ => exfalso; exact (Hg eq_refl)
          end ].
  - split; [exact Hcalls | exists m; exact Hr].
Qed.

End Build.

Lemma login_refused_fails : answers (aws login_refused) login_fails.
Proof.
  intros c s. destruct c; try exact I.
  destruct cmd as [| program rest]; [exact I |]. simpl. intros _. discriminate.
Defined.

Lemma failed_login_stops_build_witness :
  Forall (fun c => runs_program "docker" c = false)
    (calls_of
       (run (aws login_refused)
          (build_and_push_docker_image "blog-app" (JStr "us-west-2")) empty_cloud))
  /\ exists m,
       result_of
         (run (aws login_refused)
            (build_and_push_docker_image "blog-app" (JStr "us-west-2")) empty_cloud)
         = inr (build_error m).
Proof.
  exact (failed_login_stops_build (aws login_refused) empty_cloud "blog-app"
           (JStr "us-west-2") login_refused_fails).
Defined.

(** ** The agent's address *)

Lemma contains_char_cons c d t :
  Str.contains (String c "") (String d t) =
    if ascii_dec c d then true else Str.contains (String c "") t.
Proof.
  rewrite contains_cons. destruct (ascii_dec c d) as [<- | Hne].
  - rewrite prefix_cons_eq. destruct t; reflexivity.
  - now rewrite (prefix_cons_ne _ _ _ _ Hne).
Qed.

Lemma contains_char_append c a b :
  Str.contains (String c "") (a ++ b) =
    Str.contains (String c "") a || Str.contains (String c "") b.
Proof.
  induction a as [| d a IH]; [reflexivity |].
  change (String d a ++ b) with (String d (a ++ b)).
  rewrite !contains_char_cons. destruct (ascii_dec c d); [reflexivity | exact IH].
Qed.

(** Replacing a character leaves none of it, when the replacement has
    none. *)
Lemma replace_char_removes c by_ s :
  Str.contains (String c "") by_ = false ->
  Str.contains (String c "") (Str.replace_char c by_ s) = false.
Proof.
  intros Hby. induction s as [| d s IH]; [reflexivity |].
  cbn [Str.replace_char]. destruct (Ascii.eqb c d) eqn:E.
  - now rewrite contains_char_append, Hby, IH.
  - rewrite contains_char_cons. apply Ascii.eqb_neq in E.
    destruct (ascii_dec c d); [contradiction | exact IH].
Qed.

(** Replacing another character brings none in. *)
Lemma replace_char_keeps c c' by_ s :
  Str.contains (String c "") by_ = false ->
  Str.contains (String c "") s = false ->
  Str.contains (String c "") (Str.replace_char c' by_ s) = false.
Proof.
  intros Hby. induction s as [| d s IH]; [reflexivity |].
  rewrite contains_char_cons. destruct (ascii_dec c d) as [| Hne]; [discriminate |].
  intros Hs. cbn [Str.replace_char]. destruct (Ascii.eqb c' d).
  - now rewrite contains_char_append, Hby, IH.
  - rewrite contains_char_cons.
    destruct (ascii_dec c d); [contradiction | now apply IH].
Qed.

(** X6. The address both agents are called at has the runtime's ARN as one
    path segment: in the encoded ARN no colon and no slash is left,
    whatever the ARN is. *)
Theorem agent_url_segment (agent_arn agent_region : string) :
  exists encoded_arn,
    agent_url agent_arn agent_region
      = "https://bedrock-agentcore." ++ agent_region ++ ".amazonaws.com/runtimes/"
          ++ encoded_arn ++ "/invocations?qualifier=DEFAULT"
    /\ Str.contains ":" encoded_arn = false
    /\ Str.contains "/" encoded_arn = false.
Proof.
  exists (Str.replace_char "/" "%2F" (Str.replace_char ":" "%3A" agent_arn)).
  split; [reflexivity |]. split.
  - apply replace_char_keeps; [reflexivity |].
    apply replace_char_removes. reflexivity.
  - apply replace_char_removes. reflexivity.
Qed.

(** ** Answers of the agents *)

Section Transport.
Context `{PyLib} {S : Type} (w : world S).

(** X7. When the agent answers with an HTTP status other than 200, neither
    function reads the body as JSON: [invoke_strands_agent] returns the
    text [Error: <body>], [invoke_mcp_tool] a dictionary with status
    [error] whose message gives the status and the first 500 characters
    of the body.  Each has made that one request. *)
Theorem agent_http_error (s s1 : S) (response : http_response)
  (agent_arn agent_region : string) :
  status_code response <> 200 ->
  (forall prompt,
     respond w (HttpPost (agent_url agent_arn agent_region)
                  (JObj [("prompt", JStr prompt)])) s = (inr response, s1) ->
     run w (invoke_strands_agent agent_arn prompt agent_region) s
       = (inr (JStr ("Error: " ++ text response)), s1,
          [HttpPost (agent_url agent_arn agent_region)
             (JObj [("prompt", JStr prompt)])]))
  /\ (forall tool_name arguments,
        respond w (HttpPost (agent_url agent_arn agent_region)
                     (mcp_payload tool_name arguments)) s = (inr response, s1) ->
        run w (invoke_mcp_tool agent_arn tool_name arguments agent_region) s
          = (inr (JObj [ ("status", JStr "error");
                         ("message",
                           JStr ("HTTP " ++ Str.of_Z (status_code response) ++ ": "
                                   ++ Str.take_chars 500 (text response))) ]),
             s1,
             [HttpPost (agent_url agent_arn agent_region)
                (mcp_payload tool_name arguments)])).
Proof.
  intros Hcode.
  assert (E : (status_code response =? 200) = false) by now apply Z.eqb_neq.
  split.
  - intros prompt Hr. unfold invoke_strands_agent, http_post. simpl.
    rewrite Hr. simpl. rewrite E. reflexivity.
  - intros tool_name arguments Hr. unfold invoke_mcp_tool, http_post. simpl.
    unfold mcp_payload in Hr. rewrite Hr. simpl. rewrite E. reflexivity.
Qed.

End Transport.

Lemma agent_http_error_witness :
  run (aws agent_down)
    (invoke_strands_agent CONFIG.ecs_agent_arn "List all ECS services in us-west-2"
       CONFIG.agent_region) empty_cloud
  = (inr (JStr "Error: Bad Gateway"), empty_cloud,
     [HttpPost (agent_url CONFIG.ecs_agent_arn CONFIG.agent_region)
        (JObj [("prompt", JStr "List all ECS services in us-west-2")])]).
Proof.
  refine (proj1
            (agent_http_error (aws agent_down) empty_cloud empty_cloud bad_gateway
               CONFIG.ecs_agent_arn CONFIG.agent_region _)
            "List all ECS services in us-west-2" eq_refl).
  discriminate.
Defined.

Section McpLines.
Context `{PyLib} {S : Type} (w : world S).

Lemma mcp_lines_skipped line rest :
  skipped line -> mcp_lines (line :: rest) = mcp_lines rest.
Proof.
  intros [Hp | [m Hm]]; cbn [mcp_lines].
  - now rewrite Hp.
  - destruct (String.prefix "data: " line); [| reflexivity].
    unfold mcp_data_line, py_json_loads. rewrite Hm. reflexivity.
Qed.

Lemma mcp_lines_past pre rest :
  Forall skipped pre -> mcp_lines (pre ++ rest)%list = mcp_lines rest.
Proof.
  induction 1 as [| line pre Hl _ IH]; [reflexivity |].
  change ((line :: pre) ++ rest)%list with (line :: (pre ++ rest))%list.
  now rewrite (mcp_lines_skipped line _ Hl).
Qed.

(** X8. How [invoke_mcp_tool] reads an answer with status 200.  Lines that
    are no [data: ] lines or whose data is not JSON are passed over, so
    the first data line that is JSON decides; when there is none, the
    result is a dictionary with status [error].  A data line that holds
    [result.content[0].text] yields that text decoded, or, when the text
    is not JSON, a dictionary with status [success] and the text as its
    message; a data line without [result] yields its document as it
    is. *)
Theorem mcp_answer_lines (s s1 : S) (response : http_response)
  (agent_arn agent_region : string) (tool_name arguments : json) :
  status_code response = 200 ->
  respond w (HttpPost (agent_url agent_arn agent_region)
               (mcp_payload tool_name arguments)) s = (inr response, s1) ->
  (forall pre rest,
     Forall skipped pre -> mcp_lines (pre ++ rest)%list = mcp_lines rest)
  /\ (Forall skipped (Str.split_all nl (Str.strip (text response))) ->
      run w (invoke_mcp_tool agent_arn tool_name arguments agent_region) s
        = (inr (JObj [ ("status", JStr "error");
                       ("message",
                         JStr ("No valid MCP response found. Raw response: "
                                 ++ Str.take_chars 500 (text response))) ]),
           s1,
           [HttpPost (agent_url agent_arn agent_region)
              (mcp_payload tool_name arguments)]))
  /\ (forall data kv res first more t,
        json_loads data = inr (JObj kv) ->
        Dict.lookup "result" kv = Some (JObj res) ->
        Dict.lookup "content" res = Some (JArr (JObj first :: more)) ->
        Dict.lookup "text" first = Some (JStr t) ->
        mcp_data_line data =
          Ret (Some match json_loads t with
                    | inr v => v
                    | inl _ => JObj [("status", JStr "success"); ("message", JStr t)]
                    end))
  /\ (forall data kv,
        json_loads data = inr (JObj kv) ->
        Dict.lookup "result" kv = None ->
        mcp_data_line data = Ret (Some (JObj kv))).
Proof.
  intros Hcode Hr. split; [exact mcp_lines_past |]. split; [| split].
  - intros Hall. unfold invoke_mcp_tool, http_post. simpl.
    unfold mcp_payload in Hr. rewrite Hr. simpl. rewrite Hcode. simpl.
    rewrite <- (app_nil_r (Str.split_all nl (Str.strip (text response)))).
    rewrite (mcp_lines_past _ [] Hall). reflexivity.
  - intros data kv res first more t Hd Hres Hcontent Htext.
    unfold mcp_data_line, py_json_loads, py_in, py_item, py_get, py_first,
      py_nonempty.
    rewrite Hd. cbn [lift bind catch catch_if]. rewrite Hres.
    cbn [lift bind catch catch_if]. rewrite Hcontent.
    cbn [lift bind catch catch_if truthy]. rewrite Htext.
    destruct (json_loads t); reflexivity.
  - intros data kv Hd Hres.
    unfold mcp_data_line, py_json_loads, py_in. rewrite Hd.
    cbn [lift bind catch catch_if]. rewrite Hres. reflexivity.
Qed.

End McpLines.

Lemma mcp_answer_lines_witness :
  mcp_lines (Str.split_all nl (Str.strip mcp_stream)) = mcp_lines [mcp_created].
Proof.
  refine (proj1
            (mcp_answer_lines (aws agent_streams) empty_cloud empty_cloud
               {| status_code := 200; text := mcp_stream |}
               CONFIG.eks_agent_arn CONFIG.agent_region (JStr "list_deployments")
               (JObj []) eq_refl eq_refl)
            [": ping"; "data: [DONE"] [mcp_created] _).
  constructor; [left; reflexivity |].
  constructor; [| constructor].
  right. eexists. vm_compute. reflexivity.
Defined.

(** ** Deleting an ECS service *)

Section DeleteService.
Context `{PyLib} {S : Type} (w : world S).

(** X9. [delete_ecs_service] creates its client before anything else and
    outside of the [try]: when that creation raises, the function raises
    the same exception and makes no other call.  Once the client is
    created, it raises nothing and touches one stack only, the one it
    resolves from its arguments: it makes no further call, or describes
    that stack, or describes it and then deletes it; the delete call is
    made only after the describe call was answered without an
    exception. *)
Theorem delete_service_calls (s : S) (service_name stack_name : option string)
  (region : string) :
  let name := default "" (resolve_stack service_name stack_name) in
  let client := Boto3Client "cloudformation" (JStr region) in
  let describe := CfnDescribeStacks (JStr region) (JStr name) in
  let delete := CfnDeleteStack (JStr region) (JStr name) in
  let outcome := run w (delete_ecs_service service_name stack_name region) s in
  (forall e s0,
     respond w client s = (inl e, s0) -> outcome = (inl e, s0, [client]))
  /\ (forall s0,
        respond w client s = (inr tt, s0) ->
        (exists reply, result_of outcome = inr reply)
        /\ (calls_of outcome = [client]
            \/ calls_of outcome = [client; describe]
            \/ (calls_of outcome = [client; describe; delete]
                /\ exists stacks s1, respond w describe s0 = (inr stacks, s1)))).
Proof.
  intros name client describe delete outcome.
  subst outcome describe delete name. split.
  - intros e s0 Hcl. unfold delete_ecs_service, boto3_client. simpl.
    fold client. rewrite Hcl. reflexivity.
  - intros s0 Hcl.
    unfold delete_ecs_service, boto3_client. cbn zeta. simpl.
    fold client. rewrite Hcl. simpl.
    destruct (missing (resolve_stack service_name stack_name)).
    { simpl. split; [eauto | left; reflexivity]. }
    unfold cfn_describe_stacks, cfn_delete_stack, catch_if. simpl.
    destruct (respond w _ s0) as [[e | stacks] s1] eqn:Hd; simpl.
    + destruct (is_client_error e); simpl.
      * destruct (Str.contains "does not exist" (exn_msg e)); simpl;
          (split; [eauto | right; left; reflexivity]).
      * split; [eauto | right; left; reflexivity].
    + destruct (respond w _ s1) as [[e | []] s2]; simpl;
        (split; [eauto | right; right; split; [reflexivity | eauto]]).
Qed.

End DeleteService.

Lemma delete_service_calls_witness :
  run region_refused (delete_ecs_service (Some "blog-app") None "us west 2") empty_cloud
  = (inl invalid_region, empty_cloud, [Boto3Client "cloudformation" (JStr "us west 2")])
  /\ exists reply,
       result_of
         (run (aws quiet) (delete_ecs_service (Some "blog-app") None "us-west-2")
            empty_cloud)
       = inr reply.
Proof.
  split.
  - exact (proj1 (delete_service_calls region_refused empty_cloud (Some "blog-app")
                    None "us west 2")
             invalid_region empty_cloud eq_refl).
  - exact (proj1 (proj2 (delete_service_calls (aws quiet) empty_cloud
                           (Some "blog-app") None "us-west-2")
                    empty_cloud eq_refl)).
Defined.

Lemma contains_does_not_exist operation name :
  Str.contains "does not exist" (exn_msg (Aws.stack_missing operation name)) = true.
Proof.
  unfold Aws.stack_missing. cbn [exn_msg].
  do 4 apply contains_append_right.
  apply (contains_append "does not exist" " " "").
Qed.

(** X10. In the reference cloud, deleting the service of an existing stack
    twice answers [success] and then [not_found]: the first call
    describes and deletes the stack [ecs-express-<service>], the second
    finds it gone and deletes nothing; each call creates its client
    first. *)
Theorem delete_service_twice (a : setting) (s : cloud) (service_name region : string)
  (st : stack) :
  service_name <> "" ->
  let name := "ecs-express-" ++ service_name in
  stacks s !! (region, name) = Some st ->
  run (aws a) (twice (delete_ecs_service (Some service_name) None region)) s =
    (inr (JObj [ ("status", JStr "success");
                 ("stack_name", JStr name);
                 ("service_name", JStr service_name);
                 ("message",
                   JStr ("Stack " ++ name
                           ++ " deletion initiated. This will delete the ECS service and all associated resources (ALB, target groups, security groups).")) ],
          JObj [ ("status", JStr "not_found");
                 ("stack_name", JStr name);
                 ("message", JStr ("Stack " ++ name ++ " does not exist")) ]),
     Aws.set_stacks s (delete (region, name) (stacks s)),
     [ Boto3Client "cloudformation" (JStr region);
       CfnDescribeStacks (JStr region) (JStr name);
       CfnDeleteStack (JStr region) (JStr name);
       Boto3Client "cloudformation" (JStr region);
       CfnDescribeStacks (JStr region) (JStr name) ]).
Proof.
  intros Hne name Hst. unfold twice.
  assert (Hm : missing (resolve_stack (Some service_name) None) = false).
  { destruct service_name; [now destruct Hne | reflexivity]. }
  assert (Hres : default "" (resolve_stack (Some service_name) None) = name).
  { destruct service_name; [now destruct Hne | reflexivity]. }
  rewrite run_bind.
  assert (H1 : run (aws a) (delete_ecs_service (Some service_name) None region) s =
                 (inr (JObj [ ("status", JStr "success");
                              ("stack_name", JStr name);
                              ("service_name", JStr service_name);
                              ("message",
                                JStr ("Stack " ++ name
                                        ++ " deletion initiated. This will delete the ECS service and all associated resources (ALB, target groups, security groups).")) ]),
                  Aws.set_stacks s (delete (region, name) (stacks s)),
                  [ Boto3Client "cloudformation" (JStr region);
                    CfnDescribeStacks (JStr region) (JStr name);
                    CfnDeleteStack (JStr region) (JStr name) ])).
  { unfold delete_ecs_service. cbn zeta. rewrite Hm, Hres.
    unfold boto3_client, cfn_describe_stacks, cfn_delete_stack, catch_if. simpl.
    fold name. rewrite Hst. reflexivity. }
  rewrite H1. rewrite run_bind.
  assert (H2 : run (aws a) (delete_ecs_service (Some service_name) None region)
                 (Aws.set_stacks s (delete (region, name) (stacks s))) =
                 (inr (JObj [ ("status", JStr "not_found");
                              ("stack_name", JStr name);
                              ("message",
                                JStr ("Stack " ++ name ++ " does not exist")) ]),
                  Aws.set_stacks s (delete (region, name) (stacks s)),
                  [ Boto3Client "cloudformation" (JStr region);
                    CfnDescribeStacks (JStr region) (JStr name) ])).
  { unfold delete_ecs_service. cbn zeta. rewrite Hm, Hres.
    unfold boto3_client, cfn_describe_stacks, catch_if.
    cbn -[Aws.stack_missing Str.contains append]. fold name.
    rewrite lookup_delete_eq. cbn -[Aws.stack_missing Str.contains append].
    rewrite contains_does_not_exist. reflexivity. }
  rewrite H2. reflexivity.
Qed.

Lemma delete_service_twice_witness :
  result_of
    (run (aws quiet) (twice (delete_ecs_service (Some "blog-app") None "us-west-2"))
       (with_stack empty_cloud "us-west-2" "ecs-express-blog-app" Aws.new_stack []))
  = inr (JObj [ ("status", JStr "success");
                ("stack_name", JStr "ecs-express-blog-app");
                ("service_name", JStr "blog-app");
                ("message",
                  JStr "Stack ecs-express-blog-app deletion initiated. This will delete the ECS service and all associated resources (ALB, target groups, security groups).") ],
         JObj [ ("status", JStr "not_found");
                ("stack_name", JStr "ecs-express-blog-app");
                ("message", JStr "Stack ecs-express-blog-app does not exist") ]).
Proof.
  rewrite (delete_service_twice quiet
             (with_stack empty_cloud "us-west-2" "ecs-express-blog-app" Aws.new_stack [])
             "blog-app" "us-west-2" Aws.new_stack).
  - reflexivity.
  - discriminate.
  - apply lookup_insert_eq.
Defined.

(** ** Deleting an EKS deployment *)

Section DeleteDeployment.
Context {S : Type} (w : world S).

(** X11. [delete_eks_deployment] raises nothing.  Besides getting the client
    and removing the CA file it calls the cluster only to delete the
    deployment and the service named as the application and the service
    account [<app>-sa], the latter two only when their flag is set.  When
    the deletion of the deployment fails with an API error other than
    404, nothing else is deleted, the CA file is left in place, and the
    answer has status [error] with the error's reason. *)
Theorem delete_deployment_calls (s : S) (cluster_name app_name region : string)
  (delete_service delete_service_account : bool) :
  let outcome :=
    run w (delete_eks_deployment cluster_name app_name region delete_service
             delete_service_account) s in
  (exists reply, result_of outcome = inr reply)
  /\ Forall
       (fun c =>
          c = GetK8sClient cluster_name region
          \/ c = K8sDeleteDeployment app_name
          \/ (delete_service = true /\ c = K8sDeleteService app_name)
          \/ (delete_service_account = true
              /\ c = K8sDeleteServiceAccount (app_name ++ "-sa"))
          \/ exists ca_cert_file, c = OsUnlink ca_cert_file)
       (calls_of outcome)
  /\ (forall ca_cert_file s1 status reason details s2,
        respond w (GetK8sClient cluster_name region) s = (inr ca_cert_file, s1) ->
        respond w (K8sDeleteDeployment app_name) s1
          = (inl (Exn (ApiException status reason) details), s2) ->
        status <> 404 ->
        outcome
          = (inr (JObj [ ("status", JStr "error");
                         ("message", JStr ("Kubernetes API error: " ++ reason));
                         ("details", JStr details) ]),
             s2,
             [GetK8sClient cluster_name region; K8sDeleteDeployment app_name])).
Proof.
  intros outcome. subst outcome. split; [| split].
  - destruct (run_returns w any_answer any_call (fun _ : json => True)
                (delete_eks_deployment cluster_name app_name region delete_service
                   delete_service_account) s (answers_any w)) as (_ & r & Hr & _);
      [| eauto].
    unfold delete_eks_deployment, delete_resource, get_k8s_client,
      k8s_delete_deployment, k8s_delete_service, k8s_delete_service_account,
      os_unlink.
    through; exact I.
  - apply (run_ends w any_answer _ (fun _ : json => True) (fun _ => True));
      [apply answers_any |].
    unfold delete_eks_deployment, delete_resource, get_k8s_client,
      k8s_delete_deployment, k8s_delete_service, k8s_delete_service_account,
      os_unlink.
    through;
      first
        [ exact I
        | left; reflexivity
        | right; left; reflexivity
        | right; right; left; split; reflexivity
        | right; right; right; left; split; reflexivity
        | right; right; right; right; eexists; reflexivity ].
  - intros ca_cert_file s1 status reason details s2 Hc Hd Hs.
    unfold delete_eks_deployment, delete_resource, get_k8s_client,
      k8s_delete_deployment. simpl.
    rewrite Hc. simpl. rewrite Hd. simpl.
    destruct (status =? 404) eqn:E; [apply Z.eqb_eq in E; contradiction |].
    reflexivity.
Qed.

End DeleteDeployment.

Lemma delete_deployment_calls_witness :
  run read_only_cluster
    (delete_eks_deployment "demo" "blog-app" "eu-north-1" true true) empty_cloud
  = (inr (JObj [ ("status", JStr "error");
                 ("message", JStr "Kubernetes API error: Forbidden");
                 ("details", JStr (exn_msg forbidden)) ]),
     empty_cloud,
     [GetK8sClient "demo" "eu-north-1"; K8sDeleteDeployment "blog-app"]).
Proof.
  refine (proj2 (proj2
            (delete_deployment_calls read_only_cluster empty_cloud "demo" "blog-app"
               "eu-north-1" true true))
            "/tmp/tmpca.crt" empty_cloud 403 "Forbidden" (exn_msg forbidden)
            empty_cloud eq_refl eq_refl _).
  discriminate.
Defined.

(** ** The stack of a service *)








Section ServiceStatus.
Context `{PyLib} {S : Type} (w : world S).


End ServiceStatus.


(** ** The deployment handler of the REST server *)

Section LambdaDeploy.
Context `{PyLib} {S : Type} (w : world S).

(** X13. [handle_deploy_ecs_express_service] answers every request that is
    an object with a response built by [create_response], with status
    code 200, 400 or 500: it raises nothing.  A request without a service
    name or without an image is answered 400 before any call is made.  A
    request that names its VPC and its subnets makes no call to EC2. *)
Theorem lambda_deploy_replies (s : S) (request : list (string * json)) :
  let outcome := run w (handle_deploy_ecs_express_service (JObj request)) s in
  (exists code body,
     result_of outcome = inr (create_response code body)
     /\ (code = 200 \/ code = 400 \/ code = 500))
  /\ (truthy (request_arg request "service_name" JNull) = false
      \/ truthy (request_arg request "image_uri" JNull) = false ->
      outcome
        = (inr (create_response 400
                  (JObj [("error", JStr "service_name and image_uri are required")])),
           s, []))
  /\ (truthy (request_arg request "vpc_id" JNull) = true ->
      truthy (request_arg request "subnet_ids" JNull) = true ->
      Forall (fun c => is_ec2_call c = false) (calls_of outcome)).
Proof.
  intros outcome. subst outcome. unfold request_arg. split; [| split].
  - destruct (run_returns w any_answer any_call
                (fun r => exists code body,
                     r = create_response code body
                     /\ (code = 200 \/ code = 400 \/ code = 500))
                (handle_deploy_ecs_express_service (JObj request)) s (answers_any w))
      as (_ & r & Hr & code & body & -> & Hcode); [| eauto].
    unfold handle_deploy_ecs_express_service, py_get. cbn [lift bind].
    unfold deploy_service, discover_network, submit_service, sts_get_caller_identity,
      ec2_describe_vpcs, ec2_describe_subnets, ecs_create_express_gateway_service,
      cfn_create_stack.
    through; try exact I; eexists _, _; (split; [reflexivity | auto]).
  - intros Hmissing.
    unfold handle_deploy_ecs_express_service, py_get. cbn [lift bind].
    unfold deploy_service.
    destruct Hmissing as [-> | ->]; [reflexivity |].
    rewrite orb_true_r. reflexivity.
  - intros Hv Hn.
    apply (run_ends w any_answer _ (fun _ : json => True) (fun _ => True));
      [apply answers_any |].
    unfold handle_deploy_ecs_express_service, py_get. cbn [lift bind].
    unfold deploy_service, discover_network. rewrite Hv, Hn. cbn [negb orb].
    unfold submit_service, sts_get_caller_identity,
      ecs_create_express_gateway_service, cfn_create_stack.
    through; first [exact I | reflexivity].
Qed.

End LambdaDeploy.

Lemma lambda_deploy_replies_witness :
  Forall (fun c => is_ec2_call c = false)
    (calls_of
       (run (aws quiet) (handle_deploy_ecs_express_service (JObj placed_request))
          empty_cloud))
  /\ result_of
       (run (aws quiet)
          (handle_deploy_ecs_express_service
             (JObj [("image_uri", JStr "checkout:latest")])) empty_cloud)
     = inr (create_response 400
              (JObj [("error", JStr "service_name and image_uri are required")])).
Proof.
  split.
  - exact (proj2 (proj2 (lambda_deploy_replies (aws quiet) empty_cloud placed_request))
             eq_refl eq_refl).
  - rewrite (proj1 (proj2 (lambda_deploy_replies (aws quiet) empty_cloud
                             [("image_uri", JStr "checkout:latest")])));
      [reflexivity | left; reflexivity].
Defined.

(** ** The routes beside the chats *)

Section Purity.
Context {S : Type} (w : world S).

Lemma pure_lift {A : Type} (r : exn + A) : is_pure (lift r).
Proof. destruct r; exact I. Qed.

Lemma pure_bind {A B : Type} (p : prog A) (f : A -> prog B) :
  is_pure p -> (forall a, is_pure (f a)) -> is_pure (bind p f).
Proof. destruct p; simpl; auto. Qed.

Lemma pure_catch {A : Type} (p : prog A) (h : exn -> prog A) :
  is_pure p -> (forall e, is_pure (h e)) -> is_pure (catch p h).
Proof. destruct p; simpl; auto. Qed.

Lemma pure_catch_if {A : Type} (sel : exn -> bool) (p : prog A) (h : exn -> prog A) :
  is_pure p -> (forall e, is_pure (h e)) -> is_pure (catch_if sel p h).
Proof.
  intros Hp Hh. apply pure_catch; [exact Hp |]. intros e.
  destruct (sel e); [apply Hh | exact I].
Qed.

Lemma run_pure {A : Type} (p : prog A) (s : S) :
  is_pure p -> exists out, run w p s = (out, s, []).
Proof. destruct p; simpl; [eauto | eauto | contradiction]. Qed.

Lemma once_bind {A B : Type} (c : call) (p : prog A) (f : A -> prog B) :
  calls_once c p -> (forall a, is_pure (f a)) -> calls_once c (bind p f).
Proof.
  destruct p as [a | e | c' k]; simpl; try contradiction.
  intros [-> Hk] Hf. split; [reflexivity |]. intros r. now apply pure_bind.
Qed.

(** A route whose [try] makes one call answers after that call, and
    raises nothing. *)
Lemma route_once (c : call) (p : prog json) (s : S) :
  calls_once c p ->
  exists reply s1, run w (catch p route_failure) s = (inr reply, s1, [c]).
Proof.
  destruct p as [a | e | c' k]; simpl; try contradiction.
  intros [-> Hk]. destruct (respond w c s) as [r s1]. specialize (Hk r).
  destruct (k r) as [a | e | c2 k2]; simpl in *; [eauto | eauto | contradiction].
Qed.

End Purity.

Ltac purity :=
  repeat lazymatch goal with
    | |- is_pure (Ret _) => exact I
    | |- is_pure (Raise _) => exact I
    | |- is_pure (lift _) => apply pure_lift
    | |- is_pure (bind _ _) => apply pure_bind; [| intros ?]
    | |- is_pure (catch_if _ _ _) => apply pure_catch_if; [| intros ?]
    | |- is_pure (catch _ _) => apply pure_catch; [| intros ?]
    | |- is_pure (if ?b then _ else _) => destruct b
    | |- is_pure (match ?x with _ => _ end) => destruct x
    | |- is_pure ((fun _ => _) _) => cbv beta
    | |- is_pure (let _ := _ in _) => cbv zeta
    end.

Section Clients.
Context `{PyLib}.

Lemma mcp_data_line_pure data : is_pure (mcp_data_line data).
Proof. unfold mcp_data_line. purity. Qed.

Lemma mcp_lines_pure lines : is_pure (mcp_lines lines).
Proof.
  induction lines as [| line rest IH]; [exact I |]. cbn [mcp_lines].
  destruct (String.prefix "data: " line); [| exact IH].
  apply pure_bind; [apply mcp_data_line_pure |]. intros [v |]; [exact I | exact IH].
Qed.

(** Each client of an agent makes one request. *)
Lemma invoke_strands_agent_once prompt :
  calls_once (submit prompt)
    (invoke_strands_agent CONFIG.ecs_agent_arn prompt CONFIG.agent_region).
Proof.
  unfold invoke_strands_agent, http_post. cbn [bind ask]. split; [reflexivity |].
  intros r. cbn [bind]. purity.
Qed.

Lemma invoke_mcp_tool_once tool_name arguments :
  calls_once (tool_call tool_name arguments)
    (invoke_mcp_tool CONFIG.eks_agent_arn (JStr tool_name) (JObj arguments)
       CONFIG.agent_region).
Proof.
  unfold invoke_mcp_tool, http_post. cbn [bind ask]. split; [reflexivity |].
  intros r. cbn [bind]. purity. apply mcp_lines_pure.
Qed.

End Clients.

Section EcsRoutes.
Context `{PyLib} {S : Type} (w : world S).

Ltac one_submission :=
  unfold request_arg; apply route_once; cbv zeta;
  apply once_bind; [apply invoke_strands_agent_once | intros ?; exact I].

Lemma ecs_delete_once (s : S) (body : list (string * json)) :
  exists reply s1,
    run w (ecs_delete (JObj body)) s
      = (inr reply, s1,
         [submit ("Delete the ECS service named "
                    ++ py_str (request_arg body "service_name" JNull) ++ " in region "
                    ++ py_str (request_arg body "region" (JStr "us-west-2")))]).
Proof. unfold ecs_delete, py_get. cbn [lift bind]. one_submission. Qed.

(** The prompts of the two deployment routes give the parameters they
    are built from. *)
Lemma ecs_continue_prompt_mentions image_uri region service_name cpu memory port
  env_vars :
  mentions
    (ecs_continue_prompt image_uri region service_name cpu memory port env_vars)
    [ "The Docker image has been built and pushed to " ++ py_str image_uri ++ ".";
      "- service_name: " ++ py_str service_name ++ nl;
      "- cpu: " ++ py_str cpu ++ nl;
      "- memory: " ++ py_str memory ++ nl;
      "- port: " ++ py_str port ++ nl;
      "- region: " ++ py_str region ++ nl;
      "- environment_variables: " ++ json_dumps env_vars ++ nl ].
Proof.
  unfold mentions, ecs_continue_prompt.
  repeat (constructor; [find_line |]). constructor.
Qed.

Lemma ecs_workflow_prompt_mentions image_uri region app_name service_name cpu memory
  port env_vars :
  mentions
    (ecs_workflow_prompt image_uri region app_name service_name cpu memory port
       env_vars)
    [ "Step 1: First, create an ECR repository named " ++ py_str app_name ++ " in ";
      "Step 3: Then deploy the image " ++ image_uri ++ " to ECS Express Mode in ";
      "- service_name: " ++ py_str service_name ++ nl;
      "- cpu: " ++ py_str cpu ++ nl;
      "- memory: " ++ py_str memory ++ nl;
      "- port: " ++ py_str port ++ nl;
      "- region: " ++ py_str region ++ nl;
      "- environment_variables: " ++ json_dumps env_vars ++ nl ].
Proof.
  unfold mentions, ecs_workflow_prompt.
  repeat (constructor; [find_line |]). constructor.
Qed.

(** X14. The routes [/api/ecs/list], [/api/ecs/delete],
    [/api/ecs/continue-deploy] and [/api/ecs/deploy] answer every body
    that is an object, raising nothing, after exactly one request to the
    ECS agent, whose prompt is filled from the body's fields and their
    defaults: the prompts of the two deployment routes have a line for
    the service name, the CPU, the memory, the port, the region and the
    environment, each with the body's value or the default.
    [/api/ecs/deploy] reads the clock before that, for the default of
    the service name, and makes no call to the registry or to docker: it
    builds nothing. *)
Theorem ecs_routes_submit_once (s : S) (body : list (string * json)) :
  let arg := request_arg body in
  let region := arg "region" (JStr "us-west-2") in
  let cpu := arg "cpu" (JStr CONFIG.default_cpu) in
  let memory := arg "memory" (JStr CONFIG.default_memory) in
  let port := arg "port" (JNum 3000) in
  let env_vars := arg "env_vars" (JObj []) in
  (exists reply s1,
     run w (ecs_list_services (JObj body)) s
       = (inr reply, s1, [submit ("List all ECS services in " ++ py_str region)]))
  /\ (exists reply s1,
        run w (ecs_delete (JObj body)) s
          = (inr reply, s1,
             [submit ("Delete the ECS service named "
                        ++ py_str (arg "service_name" JNull) ++ " in region "
                        ++ py_str region)]))
  /\ (exists reply s1 prompt,
        run w (ecs_continue_deploy (JObj body)) s = (inr reply, s1, [submit prompt])
        /\ prompt
           = ecs_continue_prompt (arg "image_uri" JNull) region
               (arg "service_name" JNull) cpu memory port env_vars
        /\ mentions prompt
             [ "The Docker image has been built and pushed to "
                 ++ py_str (arg "image_uri" JNull) ++ ".";
               "- service_name: " ++ py_str (arg "service_name" JNull) ++ nl;
               "- cpu: " ++ py_str cpu ++ nl;
               "- memory: " ++ py_str memory ++ nl;
               "- port: " ++ py_str port ++ nl;
               "- region: " ++ py_str region ++ nl;
               "- environment_variables: " ++ json_dumps env_vars ++ nl ])
  /\ (forall now s0,
        respond w TimeTime s = (now, s0) ->
        let service_name := arg "service_name" (JStr ("blog-app-" ++ Str.of_Z now)) in
        let app_name := arg "app_name" (JStr "blog-app") in
        let image_uri :=
          CONFIG.account_id ++ ".dkr.ecr." ++ py_str region ++ ".amazonaws.com/"
            ++ py_str app_name ++ ":latest" in
        exists reply s1 prompt,
          run w (ecs_deploy (JObj body)) s = (inr reply, s1, [TimeTime; submit prompt])
          /\ prompt
             = ecs_workflow_prompt image_uri region app_name service_name cpu memory
                 port env_vars
          /\ mentions prompt
               [ "Step 1: First, create an ECR repository named " ++ py_str app_name ++ " in ";
                 "Step 3: Then deploy the image " ++ image_uri
                   ++ " to ECS Express Mode in ";
                 "- service_name: " ++ py_str service_name ++ nl;
                 "- cpu: " ++ py_str cpu ++ nl;
                 "- memory: " ++ py_str memory ++ nl;
                 "- port: " ++ py_str port ++ nl;
                 "- region: " ++ py_str region ++ nl;
                 "- environment_variables: " ++ json_dumps env_vars ++ nl ]).
Proof.
  intros arg region cpu memory port env_vars.
  subst arg region cpu memory port env_vars. split; [| split; [| split]].
  - unfold ecs_list_services, py_get. cbn [lift bind]. one_submission.
  - apply ecs_delete_once.
  - assert (Hrun : exists reply s1,
              run w (ecs_continue_deploy (JObj body)) s
              = (inr reply, s1,
                 [submit
                    (ecs_continue_prompt (request_arg body "image_uri" JNull)
                       (request_arg body "region" (JStr "us-west-2"))
                       (request_arg body "service_name" JNull)
                       (request_arg body "cpu" (JStr CONFIG.default_cpu))
                       (request_arg body "memory" (JStr CONFIG.default_memory))
                       (request_arg body "port" (JNum 3000))
                       (request_arg body "env_vars" (JObj [])))])).
    { unfold ecs_continue_deploy, py_get. cbn [lift bind]. one_submission. }
    destruct Hrun as (reply & s1 & Hrun).
    exists reply, s1. eexists. split; [exact Hrun | split; [reflexivity |]].
    apply ecs_continue_prompt_mentions.
  - intros now s0 Hnow service_name app_name image_uri.
    unfold ecs_deploy, py_get. cbn [is_dict lift bind ask]. cbn [run].
    rewrite Hnow.
    match goal with
    | |- context [run w (catch ?p route_failure) s0] =>
        destruct (route_once w
                    (submit
                       (ecs_workflow_prompt image_uri
                          (request_arg body "region" (JStr "us-west-2"))
                          app_name service_name
                          (request_arg body "cpu" (JStr CONFIG.default_cpu))
                          (request_arg body "memory" (JStr CONFIG.default_memory))
                          (request_arg body "port" (JNum 3000))
                          (request_arg body "env_vars" (JObj []))))
                    p s0) as (reply & s1 & Hrun)
    end.
    + unfold image_uri, app_name, service_name, request_arg. cbv zeta.
      apply once_bind; [apply invoke_strands_agent_once | intros ?; exact I].
    + rewrite Hrun. exists reply, s1. eexists.
      split; [reflexivity | split; [reflexivity |]].
      apply ecs_workflow_prompt_mentions.
Qed.

(** X15. A body without [service_name]: the route [/api/ecs/delete] asks the
    agent all the same, to delete the service named [None]; the chat's
    delete branch, given the same arguments, answers status [error] and
    makes no call. *)
Theorem delete_without_name (s : S) (body : list (string * json)) (region : json)
  (response_text : string) :
  Dict.lookup "service_name" body = None ->
  (exists reply s1,
     run w (ecs_delete (JObj body)) s
       = (inr reply, s1,
          [submit ("Delete the ECS service named None in region "
                     ++ py_str (request_arg body "region" (JStr "us-west-2")))]))
  /\ run w (ecs_chat_delete (JObj body) region response_text) s
     = (inr (jsonify
               [ ("status", JStr "error");
                 ("result",
                   JStr "Could not determine service name from your message. Please specify the service name.") ]),
        s, []).
Proof.
  intros Hname. split.
  - pose proof (ecs_delete_once s body) as Hdelete.
    unfold request_arg in Hdelete at 1. rewrite Hname in Hdelete. exact Hdelete.
  - unfold ecs_chat_delete, py_get. rewrite Hname. reflexivity.
Qed.

End EcsRoutes.

Lemma ecs_routes_submit_once_witness :
  exists reply s1 prompt,
    run (aws quiet) (ecs_deploy (JObj [("service_name", JStr "checkout")])) empty_cloud
    = (inr reply, s1, [TimeTime; submit prompt])
    /\ prompt
       = ecs_workflow_prompt
           (CONFIG.account_id ++ ".dkr.ecr.us-west-2.amazonaws.com/blog-app:latest")
           (JStr "us-west-2") (JStr "blog-app") (JStr "checkout")
           (JStr CONFIG.default_cpu) (JStr CONFIG.default_memory) (JNum 3000)
           (JObj []).
Proof.
  destruct (proj2 (proj2 (proj2
              (ecs_routes_submit_once (aws quiet) empty_cloud
                 [("service_name", JStr "checkout")])))
              1767225600 empty_cloud eq_refl)
    as (reply & s1 & prompt & Hrun & Hprompt & _).
  exists reply, s1, prompt. split; [exact Hrun | exact Hprompt].
Defined.

Lemma delete_without_name_witness :
  calls_of (run (aws quiet) (ecs_delete (JObj [("region", JStr "eu-west-1")])) empty_cloud)
  = [submit "Delete the ECS service named None in region eu-west-1"].
Proof.
  destruct (proj1 (delete_without_name (aws quiet) empty_cloud
                     [("region", JStr "eu-west-1")] (JStr "us-west-2") "" eq_refl))
    as (reply & s1 & Hrun).
  rewrite Hrun. reflexivity.
Defined.

Section EksRoutes.
Context `{PyLib} {S : Type} (w : world S).

Ltac one_tool :=
  unfold request_arg; first [unfold eks_tool_route | idtac]; apply route_once;
  cbv zeta; apply once_bind; [apply invoke_mcp_tool_once | intros ?; exact I].

(** X16. Each EKS route answers every body that is an object, raising
    nothing, after exactly one [tools/call] request to the EKS agent.
    The tool's arguments are the body's fields, [None] for a field that is
    absent.  [/api/eks/delete] always asks for the service and the service
    account to be deleted too, whatever the body says, and
    [/api/eks/deploy] calls [setup_oidc_provider] only: it neither builds
    nor deploys. *)
Theorem eks_routes_call_one_tool (s : S) (body : list (string * json)) :
  let arg key := request_arg body key JNull in
  (exists reply s1,
     run w (eks_status (JObj body)) s
       = (inr reply, s1,
          [tool_call "get_deployment_status"
             [ ("cluster_name", arg "cluster_name"); ("app_name", arg "app_name");
               ("region", arg "region") ]]))
  /\ (exists reply s1,
        run w (eks_delete (JObj body)) s
          = (inr reply, s1,
             [tool_call "delete_eks_deployment"
                [ ("cluster_name", arg "cluster_name"); ("app_name", arg "app_name");
                  ("region", arg "region"); ("delete_service", JBool true);
                  ("delete_service_account", JBool true) ]]))
  /\ (exists reply s1,
        run w (eks_setup_oidc (JObj body)) s
          = (inr reply, s1,
             [tool_call "setup_oidc_provider"
                [("cluster_name", arg "cluster_name"); ("region", arg "region")]]))
  /\ (exists reply s1,
        run w (eks_create_irsa (JObj body)) s
          = (inr reply, s1,
             [tool_call "create_irsa_role"
                [ ("cluster_name", arg "cluster_name"); ("app_name", arg "app_name");
                  ("region", arg "region"); ("s3_bucket", arg "s3_bucket");
                  ("dynamodb_table", arg "dynamodb_table") ]]))
  /\ (exists reply s1,
        run w (eks_continue_deploy (JObj body)) s
          = (inr reply, s1,
             [tool_call "deploy_to_eks_with_irsa"
                [ ("cluster_name", arg "cluster_name"); ("app_name", arg "app_name");
                  ("image_uri", arg "image_uri");
                  ("port", request_arg body "port" (JNum 3000));
                  ("replicas",
                    request_arg body "replicas" (JNum CONFIG.default_replicas));
                  ("env_vars", request_arg body "env_vars" (JObj []));
                  ("region", arg "region"); ("role_arn", arg "role_arn");
                  ("service_account_name",
                    request_arg body "service_account_name"
                      (JStr (py_str (arg "app_name") ++ "-sa"))) ]]))
  /\ (exists reply s1,
        run w (eks_deploy (JObj body)) s
          = (inr reply, s1,
             [tool_call "setup_oidc_provider"
                [("cluster_name", arg "cluster_name"); ("region", arg "region")]])).
Proof.
  intros arg. subst arg. repeat split.
  - unfold eks_status, py_get. cbn [lift bind]. one_tool.
  - unfold eks_delete, py_get. cbn [lift bind]. one_tool.
  - unfold eks_setup_oidc, py_get. cbn [lift bind]. one_tool.
  - unfold eks_create_irsa, py_get. cbn [lift bind]. one_tool.
  - unfold eks_continue_deploy, py_get. cbn [lift bind]. one_tool.
  - unfold eks_deploy, py_get. cbn [lift bind]. one_tool.
Qed.

End EksRoutes.

(** ** The stack routes *)

Section StackRoutes.
Context `{PyLib} {S : Type} (w : world S).

(** X17. [/api/cloudformation/stack-status]: a body without a stack name is
    answered status [error] before any call; otherwise the route makes
    the calls of [check_stack_status] and wraps its result in status
    [success], also when that result is [NOT_FOUND] or [ERROR]; an
    exception is answered with status [error].  The route raises
    nothing. *)
Theorem stack_status_route (s : S) (body : list (string * json)) :
  let stack_name := request_arg body "stack_name" JNull in
  let region := request_arg body "region" (JStr "us-west-2") in
  (truthy stack_name = false ->
   run w (get_stack_status (JObj body)) s
     = (inr (jsonify [ ("status", JStr "error");
                       ("message", JStr "stack_name is required") ]), s, []))
  /\ (truthy stack_name = true ->
      forall out s1 calls,
        run w (check_stack_status stack_name region) s = (out, s1, calls) ->
        run w (get_stack_status (JObj body)) s
          = (inr match out with
                 | inr result =>
                     jsonify [("status", JStr "success"); ("result", result)]
                 | inl e =>
                     jsonify [("status", JStr "error"); ("message", JStr (exn_msg e))]
                 end,
             s1, calls))
  /\ (truthy stack_name = true ->
      forall e s1,
        respond w (CfnDescribeStacks region stack_name) s = (inl e, s1) ->
        is_client_error e = true ->
        Str.contains "does not exist" (exn_msg e) = true ->
        result_of (run w (get_stack_status (JObj body)) s)
          = inr (jsonify
                   [ ("status", JStr "success");
                     ("result",
                       JObj [ ("status", JStr "NOT_FOUND");
                              ("stack_name", stack_name) ]) ])).
Proof.
  intros stack_name region. subst stack_name region. unfold request_arg.
  assert (Hwrap :
    truthy match Dict.lookup "stack_name" body with Some x => x | None => JNull end
      = true ->
    forall out s1 calls,
      run w (check_stack_status
               match Dict.lookup "stack_name" body with Some x => x | None => JNull end
               match Dict.lookup "region" body with
               | Some x => x
               | None => JStr "us-west-2"
               end) s = (out, s1, calls) ->
      run w (get_stack_status (JObj body)) s
        = (inr match out with
               | inr result => jsonify [("status", JStr "success"); ("result", result)]
               | inl e =>
                   jsonify [("status", JStr "error"); ("message", JStr (exn_msg e))]
               end,
           s1, calls)).
  { intros Ht out s1 calls Hrun.
    unfold get_stack_status, py_get. cbn [lift bind]. rewrite Ht. cbn [negb].
    rewrite run_catch, run_bind, Hrun.
    destruct out as [e | result]; simpl; now rewrite app_nil_r. }
  split; [| split].
  - intros Ht. unfold get_stack_status, py_get. cbn [lift bind]. rewrite Ht.
    reflexivity.
  - exact Hwrap.
  - intros Ht e s1 Hr Hce Hmsg.
    erewrite Hwrap; [| exact Ht |].
    2: { unfold check_stack_status, cfn_describe_stacks, catch_if. simpl.
         rewrite Hr. simpl. rewrite Hce, Hmsg. reflexivity. }
    reflexivity.
Qed.

End StackRoutes.

Lemma stack_status_route_witness :
  result_of
    (run (aws quiet) (get_stack_status (JObj [("stack_name", JStr "ecs-express-gone")]))
       empty_cloud)
  = inr (jsonify
           [ ("status", JStr "success");
             ("result",
               JObj [ ("status", JStr "NOT_FOUND");
                      ("stack_name", JStr "ecs-express-gone") ]) ]).
Proof.
  refine (proj2 (proj2
            (stack_status_route (aws quiet) empty_cloud
               [("stack_name", JStr "ecs-express-gone")]))
            eq_refl (Aws.stack_missing "DescribeStacks" "ecs-express-gone")
            empty_cloud eq_refl eq_refl _).
  vm_compute. reflexivity.
Defined.

(** ** The life of a service *)

(** X18. In the reference cloud, for a service whose stack does not exist
    yet: [deploy_ecs_express_service] creates the stack
    [ecs-express-<service>], [check_service_status] then reports it as
    [CREATE_IN_PROGRESS], [delete_ecs_service] called with the service's
    name finds and deletes that same stack, and [check_service_status]
    then answers status [error]; the cloud's stacks are as they were
    before.  Each of the four calls creates its client first. *)
Theorem service_lifecycle (a : setting) (s : cloud)
  (service_name image_uri cpu memory : string) (port : Z) (region : string)
  (environment_variables : option (list (string * json))) (desired_count : Z) :
  service_name <> "" ->
  let name := "ecs-express-" ++ service_name in
  stacks s !! (region, name) = None ->
  exists stack_id message,
    run (aws a)
      (lifecycle service_name image_uri cpu memory port region environment_variables
         desired_count) s
    = (inr (JObj [ ("status", JStr "success");
                   ("stack_name", JStr name);
                   ("stack_id", JStr stack_id);
                   ("desired_count", JNum desired_count);
                   ("message", JStr message) ],
            JObj [("status", JStr "CREATE_IN_PROGRESS"); ("stack_name", JStr name)],
            JObj [ ("status", JStr "success");
                   ("stack_name", JStr name);
                   ("service_name", JStr service_name);
                   ("message",
                     JStr ("Stack " ++ name
                             ++ " deletion initiated. This will delete the ECS service and all associated resources (ALB, target groups, security groups).")) ],
            JObj [ ("status", JStr "error");
                   ("message",
                     JStr (exn_msg (Aws.stack_missing "DescribeStacks" name))) ]),
       s,
       [ Boto3Client "cloudformation" (JStr region);
         CfnCreateStack (JStr region) name
           (express_template
              (service_properties service_name image_uri cpu memory port
                 environment_variables desired_count));
         Boto3Client "cloudformation" (JStr region);
         CfnDescribeStacks (JStr region) (JStr name);
         Boto3Client "cloudformation" (JStr region);
         CfnDescribeStacks (JStr region) (JStr name);
         CfnDeleteStack (JStr region) (JStr name);
         Boto3Client "cloudformation" (JStr region);
         CfnDescribeStacks (JStr region) (JStr name) ]).
Proof.
  intros Hne name Hfresh.
  assert (Hm : missing (resolve_stack (Some service_name) None) = false)
    by (destruct service_name; [now destruct Hne | reflexivity]).
  assert (Hres : default "" (resolve_stack (Some service_name) None) = name)
    by (destruct service_name; [now destruct Hne | reflexivity]).
  set (s1 := Aws.set_stacks s (<[(region, name) := Aws.new_stack]> (stacks s))).
  assert (H1 : exists stack_id message,
             run (aws a)
               (deploy_ecs_express_service service_name image_uri cpu memory port
                  region environment_variables desired_count) s
             = (inr (JObj [ ("status", JStr "success");
                            ("stack_name", JStr name);
                            ("stack_id", JStr stack_id);
                            ("desired_count", JNum desired_count);
                            ("message", JStr message) ]),
                s1,
                [ Boto3Client "cloudformation" (JStr region);
                  CfnCreateStack (JStr region) name
                    (express_template
                       (service_properties service_name image_uri cpu memory port
                          environment_variables desired_count)) ])).
  { eexists _, _. unfold deploy_ecs_express_service, boto3_client, cfn_create_stack.
    cbn zeta.
    fold name. simpl. rewrite Hfresh. reflexivity. }
  assert (H2 : run (aws a) (check_service_status None (Some name) region) s1
               = (inr (JObj [ ("status", JStr "CREATE_IN_PROGRESS");
                              ("stack_name", JStr name) ]),
                  s1,
                  [ Boto3Client "cloudformation" (JStr region);
                    CfnDescribeStacks (JStr region) (JStr name) ])).
  { unfold check_service_status, boto3_client, cfn_describe_stacks.
    unfold name at 1 2. simpl.
    fold name. rewrite lookup_insert_eq. reflexivity. }
  assert (H3 : run (aws a) (delete_ecs_service (Some service_name) None region) s1
               = (inr (JObj [ ("status", JStr "success");
                              ("stack_name", JStr name);
                              ("service_name", JStr service_name);
                              ("message",
                                JStr ("Stack " ++ name
                                        ++ " deletion initiated. This will delete the ECS service and all associated resources (ALB, target groups, security groups).")) ]),
                  s,
                  [ Boto3Client "cloudformation" (JStr region);
                    CfnDescribeStacks (JStr region) (JStr name);
                    CfnDeleteStack (JStr region) (JStr name) ])).
  { unfold delete_ecs_service. cbn zeta. rewrite Hm, Hres.
    unfold boto3_client, cfn_describe_stacks, cfn_delete_stack, catch_if. simpl.
    rewrite lookup_insert_eq. simpl.
    rewrite (delete_insert_id (stacks s) (region, name) Aws.new_stack Hfresh).
    destruct s; reflexivity. }
  assert (H4 : run (aws a) (check_service_status None (Some name) region) s
               = (inr (JObj [ ("status", JStr "error");
                              ("message",
                                JStr (exn_msg
                                        (Aws.stack_missing "DescribeStacks" name))) ]),
                  s,
                  [ Boto3Client "cloudformation" (JStr region);
                    CfnDescribeStacks (JStr region) (JStr name) ])).
  { unfold check_service_status, boto3_client, cfn_describe_stacks.
    unfold name at 1 2. simpl.
    fold name. rewrite Hfresh. reflexivity. }
  destruct H1 as (stack_id & message & H1). exists stack_id, message.
  unfold lifecycle. fold name.
  rewrite run_bind, H1, run_bind, H2, run_bind, H3, run_bind, H4. reflexivity.
Qed.

Lemma service_lifecycle_witness :
  state_of
    (run (aws quiet)
       (lifecycle "blog-app" "blog-app:latest" "256" "512" 3000 "us-west-2" None 1)
       empty_cloud)
  = empty_cloud.
Proof.
  destruct (service_lifecycle quiet empty_cloud "blog-app" "blog-app:latest" "256"
              "512" 3000 "us-west-2" None 1) as (stack_id & message & Hrun).
  - discriminate.
  - reflexivity.
  - rewrite Hrun. reflexivity.
Defined.

(** ** The operation logs *)

(** X19. A message that is logged is the last entry of its operation's logs,
    after those that were there; the logs of every other operation are
    as before; with nothing logged, the logs of an operation are the
    empty list. *)
Theorem logs_are_kept (now : string) (logs : operation_logs)
  (operation_id other message level : string) :
  get_logs (log_message now logs operation_id message level) operation_id
    = jsonify
        [ ("logs",
            JArr (default [] (logs !! operation_id)
                    ++ [ JObj [ ("timestamp", JStr now);
                                ("level", JStr level);
                                ("message", JStr message) ] ])%list) ]
  /\ (other <> operation_id ->
      get_logs (log_message now logs operation_id message level) other
        = get_logs logs other)
  /\ get_logs ∅ operation_id = jsonify [("logs", JArr [])].
Proof.
  split; [| split].
  - unfold get_logs, log_message. cbv zeta.
    destruct (logs !! operation_id) as [entries |] eqn:E.
    + now rewrite lookup_insert_eq, E.
    + now rewrite !lookup_insert_eq.
  - intros Hne. unfold get_logs, log_message. cbv zeta.
    destruct (logs !! operation_id); now rewrite !lookup_insert_ne by congruence.
  - reflexivity.
Qed.

Lemma logs_are_kept_witness :
  get_logs
    (log_message "2026-01-15T10:00:00" ∅ "deploy-1" "Creating repository" "info")
    "deploy-2"
  = jsonify [("logs", JArr [])].
Proof.
  rewrite (proj1 (proj2 (logs_are_kept "2026-01-15T10:00:00" ∅ "deploy-1" "deploy-2"
                           "Creating repository" "info"))).
  - reflexivity.
  - discriminate.
Defined.

(** ** The security validation of a Dockerfile *)

Section Security.
Context `{PyLib}.

(** X20. Each of the four checks of [handle_validate_container_security]
    adds one finding, a recommendation or an issue: there are always four
    findings, so that the score is 25 times the number of
    recommendations (the quotient is exact, in floating point as here),
    and the alternative score of a report without findings is never
    used.  The score is 100 exactly when there is no issue. *)
Theorem security_score_quarters (request : list (string * json))
  (report : security_report) :
  handle_validate_container_security (JObj request) = inr report ->
  (List.length (recommendations report) + List.length (issues report) = 4)%nat
  /\ QArith_base.Qeq (security_score report)
       (QArith_base.inject_Z (25 * Z.of_nat (List.length (recommendations report))))
  /\ (issues report = []
      <-> QArith_base.Qeq (security_score report) (QArith_base.inject_Z 100)).
Proof.
  unfold handle_validate_container_security, security_findings, py_get, ebind.
  set (content := match Dict.lookup "dockerfile_content" request with
                  | Some x => x
                  | None => JStr ""
                  end).
  destruct (py_in "USER root" content) as [? | []];
    [discriminate | | destruct (py_in "USER 0" content) as [? | []]; [discriminate | |]];
    cbn iota beta;
    try (destruct (py_in "USER " content) as [? | []]; [discriminate | |]);
    cbn iota beta;
    (destruct (py_in "HEALTHCHECK" content) as [? | []]; [discriminate | |]);
    cbn iota beta;
    (destruct (py_in "--only=production" content) as [? | []];
     [discriminate | | destruct (py_in "--omit=dev" content) as [? | []];
                       [discriminate | |]]);
    cbn iota beta;
    (destruct (py_in "COPY . ." content) as [? | []]; [discriminate | |]);
    cbn iota beta;
    intros [= <-]; cbn;
    (split; [reflexivity |]); (split; [reflexivity |]);
    (split; [intros Hi; first [reflexivity | discriminate Hi]
            | intros Hq; first [reflexivity | discriminate Hq]]).
Qed.

End Security.

Lemma security_score_quarters_witness :
  QArith_base.Qeq
    (score [ Sign.check ++ " Non-root user specified";
             Sign.check ++ " Health check included";
             Sign.check ++ " Production dependencies only";
             Sign.check ++ " Selective file copying" ] [])
    (QArith_base.inject_Z 100).
Proof.
  exact (proj1 (proj2
           (security_score_quarters [("dockerfile_content", JStr dockerfile_template)]
              {| report_status := "success";
                 recommendations :=
                   [ Sign.check ++ " Non-root user specified";
                     Sign.check ++ " Health check included";
                     Sign.check ++ " Production dependencies only";
                     Sign.check ++ " Selective file copying" ];
                 issues := [];
                 security_score :=
                   score [ Sign.check ++ " Non-root user specified";
                           Sign.check ++ " Health check included";
                           Sign.check ++ " Production dependencies only";
                           Sign.check ++ " Selective file copying" ] [] |}
              eq_refl))).
Defined.

(** ** The generated Dockerfile *)

Lemma prefix_append_left needle a b :
  String.prefix needle a = true -> String.prefix needle (a ++ b) = true.
Proof.
  revert a. induction needle as [| c needle IH]; intros a.
  - intros _. destruct (a ++ b); reflexivity.
  - destruct a as [| d a]; [discriminate |].
    change (String d a ++ b) with (String d (a ++ b)). simpl.
    destruct (ascii_dec c d); [apply IH | discriminate].
Qed.

Lemma contains_append_left needle a b :
  Str.contains needle a = true -> Str.contains needle (a ++ b) = true.
Proof.
  induction a as [| c a IH].
  - intros Ha. destruct needle; [| discriminate Ha]. destruct b; reflexivity.
  - change (String c a ++ b) with (String c (a ++ b)). rewrite !contains_cons.
    destruct (String.prefix needle (String c a)) eqn:E.
    + intros _. change (String c (a ++ b)) with (String c a ++ b).
      now rewrite (prefix_append_left _ _ b E).
    + intros Ha.
      destruct (String.prefix needle (String c (a ++ b))); [reflexivity | auto].
Qed.

(** Looks for a needle in the literal parts of a concatenation. *)
Ltac find_in_text :=
  repeat first
    [ apply contains_append_left; reflexivity
    | apply contains_append_right ].

Section Dockerfile.
Context `{PyLib}.

(** X21. The Dockerfile [handle_optimize_dockerfile] generates, whatever the
    base image and the port, has a [USER] line, has a health check and
    installs the production dependencies only: the validation of
    [handle_validate_container_security] recommends the last two and
    finds at most two issues in it.  With the default image and port
    the file is the template of [handle_dockerfile_template], in which
    the validation finds no issue at all. *)
Theorem generated_dockerfile_is_valid (base_image port : json) :
  Str.contains "USER " (dockerfile base_image port) = true
  /\ (exists recommendations issues,
     security_findings (JStr (dockerfile base_image port))
       = inr (recommendations, issues)
     /\ In (Sign.check ++ " Health check included") recommendations
     /\ In (Sign.check ++ " Production dependencies only") recommendations
     /\ (List.length issues <= 2)%nat)
  /\ handle_optimize_dockerfile (JObj [])
     = inr (create_response 200
              (JObj [ ("status", JStr "success");
                      ("dockerfile", JStr dockerfile_template);
                      ("message",
                        JStr "Optimized Dockerfile generated with security best practices") ]))
  /\ security_findings (JStr dockerfile_template)
     = inr ([ Sign.check ++ " Non-root user specified";
              Sign.check ++ " Health check included";
              Sign.check ++ " Production dependencies only";
              Sign.check ++ " Selective file copying" ], []).
Proof.
  assert (Huser : Str.contains "USER " (dockerfile base_image port) = true)
    by (unfold dockerfile; find_in_text).
  split; [exact Huser | split; [| split]].
  -
    assert (Hhealth : Str.contains "HEALTHCHECK" (dockerfile base_image port) = true)
      by (unfold dockerfile; find_in_text).
    assert (Hprod : Str.contains "--only=production" (dockerfile base_image port) = true)
      by (unfold dockerfile; find_in_text).
    unfold security_findings, py_in, ebind. rewrite Huser, Hhealth, Hprod.
    destruct (Str.contains "USER root" (dockerfile base_image port));
      [| destruct (Str.contains "USER 0" (dockerfile base_image port))];
      destruct (Str.contains "COPY . ." (dockerfile base_image port));
      cbn; eexists _, _; (split; [reflexivity |]);
      (split; [repeat first [left; reflexivity | right] |]);
      (split; [repeat first [left; reflexivity | right] | simpl; lia]).
  - unfold handle_optimize_dockerfile, py_get, ebind. cbn [Dict.lookup].
    reflexivity.
  - vm_compute. reflexivity.
Qed.

End Dockerfile.
(** * The tools that call further services *)

Section Traced.
Context {S : Type} (w : provider S).
Context (G : forall r : request, answer r -> Prop).

Lemma traced_mono {A : Type} (P P' : list request -> A -> Prop)
  (Q Q' : list request -> exn -> Prop) (p : task A) :
  (forall rs a, P rs a -> P' rs a) -> (forall rs e, Q rs e -> Q' rs e) ->
  traced G P Q p -> traced G P' Q' p.
Proof.
  revert P P' Q Q'. induction p as [a | e | r k IH]; intros P P' Q Q' HP HQ; simpl.
  - apply HP.
  - apply HQ.
  - intros Hk x Hx. apply (IH x _ _ _ _ (fun rs => HP (r :: rs)) (fun rs => HQ (r :: rs))).
    exact (Hk x Hx).
Qed.

Lemma traced_andthen {A B : Type} (P' : list request -> A -> Prop)
  (Q' : list request -> exn -> Prop) (P : list request -> B -> Prop)
  (Q : list request -> exn -> Prop) (p : task A) (f : A -> task B) :
  traced G P' Q' p ->
  (forall rs a, P' rs a ->
     traced G (fun rs2 => P (List.app rs rs2)) (fun rs2 => Q (List.app rs rs2)) (f a)) ->
  (forall rs e, Q' rs e -> Q rs e) ->
  traced G P Q (andthen p f).
Proof.
  revert P' Q' P Q. induction p as [a | e | r k IH]; intros P' Q' P Q Hp Hf HQ;
    simpl in *.
  - exact (Hf [] a Hp).
  - exact (HQ [] e Hp).
  - intros x Hx.
    apply (IH x (fun rs => P' (r :: rs)) (fun rs => Q' (r :: rs))).
    + exact (Hp x Hx).
    + intros rs a Ha. exact (Hf (r :: rs) a Ha).
    + intros rs e He. exact (HQ (r :: rs) e He).
Qed.

Lemma traced_rescue {A : Type} (P : list request -> A -> Prop)
  (Q' Q : list request -> exn -> Prop) (p : task A) (h : exn -> task A) :
  traced G P Q' p ->
  (forall rs e, Q' rs e ->
     traced G (fun rs2 => P (List.app rs rs2)) (fun rs2 => Q (List.app rs rs2)) (h e)) ->
  traced G P Q (rescue p h).
Proof.
  revert P Q' Q. induction p as [a | e | r k IH]; intros P Q' Q Hp Hh; simpl in *.
  - exact Hp.
  - exact (Hh [] e Hp).
  - intros x Hx.
    apply (IH x (fun rs => P (r :: rs)) (fun rs => Q' (r :: rs))).
    + exact (Hp x Hx).
    + intros rs e He. exact (Hh (r :: rs) e He).
Qed.

Lemma traced_ask {A : Type} (P : list request -> A -> Prop)
  (Q : list request -> exn -> Prop) (r : request) (k : answer r -> task A) :
  (forall x, G r x ->
     traced G (fun rs => P (r :: rs)) (fun rs => Q (r :: rs)) (k x)) ->
  traced G P Q (Ask r k).
Proof. intros Hk. exact Hk. Qed.

Lemma perform_traced {A : Type} (P : list request -> A -> Prop)
  (Q : list request -> exn -> Prop) (p : task A) (s : S) :
  replies w G ->
  traced G P Q p ->
  match outcome (perform w p s) with
  | inr a => P (requests (perform w p s)) a
  | inl e => Q (requests (perform w p s)) e
  end.
Proof.
  intros Hw. revert P Q s.
  induction p as [a | e | r k IH]; intros P Q s Hp; simpl in *.
  - exact Hp.
  - exact Hp.
  - pose proof (Hw r s) as Hg.
    destruct (reply w r s) as [x s1]. simpl in Hg.
    specialize (IH x _ _ s1 (Hp x Hg)).
    destruct (perform w (k x) s1) as [[out s2] rs]. exact IH.
Qed.

Lemma perform_returns {A : Type} (P : list request -> A -> Prop) (p : task A)
  (s : S) :
  replies w G ->
  traced G P never_raised p ->
  exists a, outcome (perform w p s) = inr a /\ P (requests (perform w p s)) a.
Proof.
  intros Hw Hp. pose proof (perform_traced P _ p s Hw Hp) as Hr.
  destruct (outcome (perform w p s)) as [e | a]; [contradiction | eauto].
Qed.

End Traced.

Lemma replies_any {S : Type} (w : provider S) : replies w any_reply.
Proof. intros r s. exact I. Qed.

Lemma slept_app (rs1 rs2 : list request) :
  slept (List.app rs1 rs2) = slept rs1 + slept rs2.
Proof. induction rs1 as [| r rs1 IH]; simpl; [reflexivity | rewrite IH; lia]. Qed.

(** Steps through a task whose requests are laid open. *)
Ltac unfold_task p :=
  lazymatch p with
  | andthen ?q _ => unfold_task q
  | rescue ?q _ => unfold_task q
  | give ?r => destruct r eqn:?
  | (if ?b then _ else _) => destruct b eqn:?
  | (match ?x with _ => _ end) => destruct x eqn:?
  end.

Ltac along :=
  repeat lazymatch goal with
    | |- traced _ _ _ (Done _) => cbn [traced]
    | |- traced _ _ _ (Fail _) => cbn [traced]
    | |- traced _ _ _ (Ask _ _) => apply traced_ask; intros ? ?
    | |- traced _ _ _ ?p =>
        first [ progress cbn [andthen rescue rescue_if give call_for boto kube
                                k8s_client unlink sleep]
              | unfold_task p ]
    end.

Ltac status_is :=
  eexists; split; [reflexivity | simpl; tauto].

(** ** The identity provider of the cluster *)

Section Oidc.
Context `{PyLib} {S : Type} (w : provider S).

(** X22. [setup_oidc_provider] raises nothing, whatever the services answer.
    It asks for the description of the cluster, then for the list of
    the identity providers, then, at most once, for the creation of a
    provider with the certificate thumbprint the code holds, and for
    nothing else; its answer has status [exists], [created] or
    [error]. *)
Theorem oidc_setup_never_raises (s : S) (cluster_name region : string) :
  exists v,
    outcome (perform w (setup_oidc_provider cluster_name region) s) = inr v
    /\ status_among ["exists"; "created"; "error"] v
    /\ oidc_requests cluster_name region
         (requests (perform w (setup_oidc_provider cluster_name region) s)).
Proof.
  apply (perform_returns w any_reply
           (fun rs v =>
              status_among ["exists"; "created"; "error"] v
              /\ oidc_requests cluster_name region rs));
    [apply replies_any |].
  unfold setup_oidc_provider.
  along;
    (split;
     [ status_is
     | first [ left; reflexivity
             | right; left; reflexivity
             | right; right; eexists; reflexivity ] ]).
Qed.

Lemma py_item_field (v : json) (k : string) (x : json) :
  field k v = Some x -> py_item v k = inr x.
Proof.
  destruct v; simpl; try discriminate. intros ->. reflexivity.
Qed.

Lemma find_provider_first (oidc_id : string) (before : list json) (p : json)
  (arn : string) (rest : list json) :
  Forall (arn_without oidc_id) before ->
  field "Arn" p = Some (JStr arn) ->
  Str.contains oidc_id arn = true ->
  find_provider oidc_id (List.app before (p :: rest)) = inr (Some (JStr arn)).
Proof.
  intros Hb Hp Hc. induction Hb as [| q before (b & Hq & Hn) _ IH]; simpl.
  - rewrite (py_item_field _ _ _ Hp). simpl. rewrite Hc. reflexivity.
  - rewrite (py_item_field _ _ _ Hq). simpl. rewrite Hn. exact IH.
Qed.

(** X23. When the list of the identity providers holds one whose ARN
    contains the last segment of the cluster's issuer URL, the tool
    answers [exists] with the ARN of the first such provider and asks
    for no creation: its requests are the description of the cluster
    and the list of the providers. *)
Theorem existing_oidc_provider_is_kept (s s1 s2 : S) (cluster_name region : string)
  (cluster providers : json) (issuer : string) (before : list json) (p : json)
  (arn : string) (rest : list json) :
  reply w (describe_cluster cluster_name region) s = (inr cluster, s1) ->
  oidc_issuer_of cluster = inr (JStr issuer) ->
  reply w list_providers s1 = (inr providers, s2) ->
  field "OpenIDConnectProviderList" providers
    = Some (JArr (List.app before (p :: rest))) ->
  Forall (arn_without (Str.split_last "/" issuer)) before ->
  field "Arn" p = Some (JStr arn) ->
  Str.contains (Str.split_last "/" issuer) arn = true ->
  perform w (setup_oidc_provider cluster_name region) s
  = (inr (JObj [ ("status", JStr "exists");
                 ("oidc_issuer", JStr issuer);
                 ("oidc_id", JStr (Str.split_last "/" issuer));
                 ("provider_arn", JStr arn);
                 ("message", JStr "OIDC provider already exists") ]),
     s2,
     [describe_cluster cluster_name region; list_providers]).
Proof.
  intros Hd Hi Hl Hf Hb Hp Hc.
  unfold setup_oidc_provider, describe_cluster, list_providers in *.
  cbn [perform rescue andthen boto call_for give].
  rewrite Hd. cbn [perform rescue andthen boto call_for give].
  rewrite Hi. cbn [perform rescue andthen boto call_for give py_split_last].
  rewrite Hl. cbn [perform rescue andthen boto call_for give].
  rewrite (py_item_field _ _ _ Hf). cbn [ebind py_iter].
  cbn [perform rescue andthen boto call_for give].
  rewrite (find_provider_first _ _ _ _ _ Hb Hp Hc).
  reflexivity.
Qed.

End Oidc.

Lemma existing_oidc_provider_is_kept_witness :
  perform set_up (setup_oidc_provider "blog-cluster" "us-west-2") empty_cloud
  = (inr (JObj [ ("status", JStr "exists");
                 ("oidc_issuer", JStr issuer_url);
                 ("oidc_id", JStr "0A1B2C3D4E5F60718293A4B5C6D7E8F9");
                 ("provider_arn", JStr provider_arn);
                 ("message", JStr "OIDC provider already exists") ]),
     empty_cloud,
     [describe_cluster "blog-cluster" "us-west-2"; list_providers]).
Proof.
  refine (existing_oidc_provider_is_kept set_up empty_cloud empty_cloud empty_cloud
            "blog-cluster" "us-west-2" cluster_description _ issuer_url
            [JObj [("Arn", JStr other_provider_arn)]]
            (JObj [("Arn", JStr provider_arn)]) provider_arn []
            eq_refl eq_refl eq_refl eq_refl _ eq_refl eq_refl).
  constructor; [| constructor].
  exists other_provider_arn. split; reflexivity.
Defined.

(** ** The role of the service account *)

Section Irsa.
Context `{PyLib} `{SdkLib} {S : Type} (w : provider S).

Ltac irsa_request :=
  first [ left; reflexivity
        | right; left; reflexivity
        | right; right; eexists; left; reflexivity
        | right; right; eexists; right; left; reflexivity
        | right; right; eexists; right; right; reflexivity ].

(** X24. [create_irsa_role] raises nothing, whatever the services answer.
    It asks for the caller's identity, the description of the cluster,
    the creation of the role [<app>-irsa-role], the update of its trust
    policy and the attachment of the policy [<app>-permissions], and
    for nothing else.  Its answer has status [created], [updated] or
    [error], and when it is not [error] the permissions policy has been
    attached. *)
Theorem irsa_role_never_raises (s : S)
  (cluster_name app_name region s3_bucket dynamodb_table : string) :
  exists v,
    outcome
      (perform w
         (create_irsa_role cluster_name app_name region s3_bucket dynamodb_table) s)
    = inr v
    /\ status_among ["created"; "updated"; "error"] v
    /\ Forall (irsa_requests cluster_name app_name region)
         (requests
            (perform w
               (create_irsa_role cluster_name app_name region s3_bucket
                  dynamodb_table) s))
    /\ (field "status" v = Some (JStr "error")
        \/ exists document,
             In (put_policy app_name document)
               (requests
                  (perform w
                     (create_irsa_role cluster_name app_name region s3_bucket
                        dynamodb_table) s))).
Proof.
  apply (perform_returns w any_reply
           (fun rs v =>
              status_among ["created"; "updated"; "error"] v
              /\ Forall (irsa_requests cluster_name app_name region) rs
              /\ (field "status" v = Some (JStr "error")
                  \/ exists document, In (put_policy app_name document) rs)));
    [apply replies_any |].
  unfold create_irsa_role.
  along;
    (split; [status_is |]);
    (split;
     [ repeat (constructor; [irsa_request |]); constructor
     | first [ left; reflexivity
             | right; eexists; unfold put_policy; simpl; tauto ] ]).
Qed.

(** X25. When the role is there already ([create_role] raises
    [EntityAlreadyExistsException]), the tool updates the role's trust
    policy with the very document it asked to create the role with,
    attaches the permissions policy all the same, and answers
    [updated].  The trust policy names the service account
    [<app>-sa]. *)
Theorem existing_role_is_updated (s s1 s2 s3 s4 s5 : S)
  (cluster_name app_name region s3_bucket dynamodb_table : string)
  (identity cluster x y : json) (account issuer : string) (e : exn) :
  let trust :=
    json_dumps (trust_policy account region (Str.split_last "/" issuer)
                  (app_name ++ "-sa")) in
  let permissions :=
    json_dumps (permissions_policy account region s3_bucket dynamodb_table) in
  reply w caller_identity s = (inr identity, s1) ->
  field "Account" identity = Some (JStr account) ->
  reply w (describe_cluster cluster_name region) s1 = (inr cluster, s2) ->
  oidc_issuer_of cluster = inr (JStr issuer) ->
  reply w (create_role app_name trust) s2 = (inl e, s3) ->
  is_entity_already_exists e = true ->
  reply w (update_trust app_name trust) s3 = (inr x, s4) ->
  reply w (put_policy app_name permissions) s4 = (inr y, s5) ->
  perform w
    (create_irsa_role cluster_name app_name region s3_bucket dynamodb_table) s
  = (inr (JObj [ ("status", JStr "updated");
                 ("role_name", JStr (app_name ++ "-irsa-role"));
                 ("role_arn",
                   JStr ("arn:aws:iam::" ++ account ++ ":role/" ++ app_name
                           ++ "-irsa-role"));
                 ("service_account_name", JStr (app_name ++ "-sa"));
                 ("s3_bucket", JStr s3_bucket);
                 ("dynamodb_table", JStr dynamodb_table);
                 ("message", JStr "IRSA role updated successfully") ]),
     s5,
     [ caller_identity; describe_cluster cluster_name region;
       create_role app_name trust; update_trust app_name trust;
       put_policy app_name permissions ]).
Proof.
  intros trust permissions Hi Ha Hd Ho Hc He Hu Hp.
  unfold create_irsa_role, caller_identity, describe_cluster, create_role,
    update_trust, put_policy in *.
  cbn [perform rescue rescue_if andthen boto call_for give].
  rewrite Hi. cbn [perform rescue rescue_if andthen boto call_for give].
  rewrite (py_item_field _ _ _ Ha).
  cbn [perform rescue rescue_if andthen boto call_for give py_str].
  rewrite Hd. cbn [perform rescue rescue_if andthen boto call_for give].
  rewrite Ho. cbn [perform rescue rescue_if andthen boto call_for give py_split_last].
  fold trust. rewrite Hc.
  cbn [perform rescue rescue_if andthen boto call_for give]. rewrite He.
  cbn [perform rescue rescue_if andthen boto call_for give].
  rewrite Hu. cbn [perform rescue rescue_if andthen boto call_for give].
  fold permissions. rewrite Hp.
  reflexivity.
Qed.

End Irsa.

Lemma existing_role_is_updated_witness :
  outcome
    (perform set_up
       (create_irsa_role "blog-cluster" "blog-app" "us-west-2" "blog-assets"
          "blog-posts")
       empty_cloud)
  = inr (JObj [ ("status", JStr "updated");
                ("role_name", JStr "blog-app-irsa-role");
                ("role_arn", JStr "arn:aws:iam::123456789012:role/blog-app-irsa-role");
                ("service_account_name", JStr "blog-app-sa");
                ("s3_bucket", JStr "blog-assets");
                ("dynamodb_table", JStr "blog-posts");
                ("message", JStr "IRSA role updated successfully") ]).
Proof.
  assert (He : is_entity_already_exists role_exists = true)
    by (vm_compute; reflexivity).
  rewrite (existing_role_is_updated set_up empty_cloud empty_cloud empty_cloud
             empty_cloud empty_cloud empty_cloud
             "blog-cluster" "blog-app" "us-west-2" "blog-assets" "blog-posts"
             (JObj [("Account", JStr "123456789012")]) cluster_description
             (JObj []) (JObj []) "123456789012" issuer_url role_exists
             eq_refl eq_refl eq_refl eq_refl eq_refl He eq_refl eq_refl).
  reflexivity.
Defined.
(** ** The deployment to the cluster *)

Section Deploy.
Context `{PyLib} {S : Type} (w : provider S).
Context (cluster_name region : string).

Lemma so_far_nil (n : Z) {A : Type} (a : A) : 0 <= n -> so_far cluster_name region n [] a.
Proof. intros Hn. split; [constructor | simpl; lia]. Qed.

Ltac so_far_here :=
  unfold so_far; cbv beta;
  split;
  [ repeat (constructor; [simpl; first [tauto | reflexivity | auto 12] |]);
    constructor
  | simpl slept; simpl nap; lia ].

Lemma create_or_patch_so_far (api kind name : string) (body : json) :
  In ("create_namespaced_" ++ kind) deploy_operations ->
  In ("patch_namespaced_" ++ kind) deploy_operations ->
  traced any_reply (so_far cluster_name region 0) (so_far cluster_name region 0) (create_or_patch api kind name body).
Proof.
  intros Hc Hp. unfold create_or_patch.
  along; unfold so_far; cbv beta;
    (split; [repeat (constructor; [exact Hc || exact Hp |]); constructor
            | simpl; lia]).
Qed.

Lemma wait_ready_so_far (rounds : nat) (app_name : string) (replicas : Z) :
  traced any_reply (so_far cluster_name region (5 * Z.of_nat rounds)) (so_far cluster_name region (5 * Z.of_nat rounds))
    (wait_ready rounds app_name replicas).
Proof.
  induction rounds as [| n IH].
  - simpl. apply so_far_nil. lia.
  - cbn [wait_ready].
    along; try (so_far_here; fail).
    eapply traced_mono; [| | exact IH].
    + intros rs a [Hf Hs]. unfold so_far; cbv beta. split.
      * constructor; [simpl; tauto |]. constructor; [reflexivity | exact Hf].
      * simpl slept. simpl nap. lia.
    + intros rs a [Hf Hs]. unfold so_far; cbv beta. split.
      * constructor; [simpl; tauto |]. constructor; [reflexivity | exact Hf].
      * simpl slept. simpl nap. lia.
Qed.

Ltac settle :=
  cbv beta; unfold so_far in *;
  repeat match goal with H : _ /\ _ |- _ => destruct H end;
  split;
  [ repeat first
      [ assumption
      | apply Forall_app; split
      | constructor;
        [simpl; first [reflexivity | split; reflexivity | exact I | auto 12] |]
      | constructor ]
  | simpl slept; rewrite ?slept_app; simpl slept; simpl nap; lia ].

(** X26. [deploy_to_eks_with_irsa] raises nothing, whatever the cluster
    answers: its answer has status [success] or [error].  It asks for
    the client of the cluster, for the creation or the patch of the
    service account, the deployment and the service, for the status of
    the deployment and for the service, and removes a file; it deletes
    nothing.  It sleeps five seconds at a time and 300 seconds at
    most. *)
Theorem deploy_never_raises (s : S) (app_name image_uri : string)
  (port replicas : Z) (env_vars : list (string * json))
  (role_arn service_account_name : string) :
  exists v,
    outcome
      (perform w
         (deploy_to_eks_with_irsa cluster_name app_name image_uri port replicas
            env_vars region role_arn service_account_name) s)
    = inr v
    /\ status_among ["success"; "error"] v
    /\ Forall (deploy_request cluster_name region)
         (requests
            (perform w
               (deploy_to_eks_with_irsa cluster_name app_name image_uri port
                  replicas env_vars region role_arn service_account_name) s))
    /\ slept
         (requests
            (perform w
               (deploy_to_eks_with_irsa cluster_name app_name image_uri port
                  replicas env_vars region role_arn service_account_name) s))
       <= 300.
Proof.
  assert (Ht : traced any_reply
                 (fun rs v => status_among ["success"; "error"] v /\ so_far cluster_name region 300 rs v)
                 never_raised
                 (deploy_to_eks_with_irsa cluster_name app_name image_uri port
                    replicas env_vars region role_arn service_account_name)).
  { unfold deploy_to_eks_with_irsa.
    apply traced_rescue with (Q' := so_far cluster_name region 300).
    - along; [settle |].
      eapply traced_andthen;
        [ apply create_or_patch_so_far; simpl; tauto | | intros; settle ].
      intros rs1 ? H1.
      eapply traced_andthen;
        [ apply create_or_patch_so_far; simpl; tauto | | intros; settle ].
      intros rs2 ? H2.
      eapply traced_andthen;
        [ apply create_or_patch_so_far; simpl; tauto | | intros; settle ].
      intros rs3 ? H3.
      eapply traced_andthen;
        [ apply (wait_ready_so_far 60) | | intros; change (5 * Z.of_nat 60) with 300 in *; settle ].
      intros rs4 ? H4. change (5 * Z.of_nat 60) with 300 in H4.
      along; try (settle; fail); (split; [status_is | settle]).
    - intros rs e He. cbn [traced]. split; [status_is |].
      rewrite app_nil_r. exact He. }
  destruct (perform_returns w any_reply _ _ s (replies_any w) Ht)
    as (v & Hv & Hs & Hf & Hn).
  exists v. repeat split; try assumption. lia.
Qed.

End Deploy.
(** ** A deployment that does not get ready, and one that is not created *)

Ltac grounded :=
  repeat match goal with
    | H : never_ready _ _ _ |- _ => progress simpl in H
    | H : creation_refused _ _ _ _ |- _ => progress simpl in H
    | H : shows_available _ _ |- _ => destruct H as (? & ? & ? & ? & ? & ? & ?)
    | H : shows_endpoint _ |- _ => destruct H as (? & ? & ? & ?)
    | H : exists _, _ |- _ => destruct H
    | H : _ /\ _ |- _ => destruct H
    end; subst.

Ltac known :=
  match goal with
  | H : ?t = inr _ |- context [?t] => rewrite H
  | H : ?t = Some _ |- context [?t] => rewrite H
  | H : ?t = false |- context [?t] => rewrite H
  | H : ?t = true |- context [?t] => rewrite H
  end.

Ltac along_known :=
  repeat lazymatch goal with
    | |- traced _ _ _ (Done _) => cbn [traced]
    | |- traced _ _ _ (Fail _) => cbn [traced]
    | |- traced _ _ _ (Ask _ _) => apply traced_ask; intros ? ?; grounded
    | |- traced _ _ _ _ =>
        first [ progress cbn [andthen rescue rescue_if give call_for boto kube
                                k8s_client unlink sleep create_or_patch]
              | known ]
    end.

Section Stalled.
Context `{PyLib}.
Context (G : forall r : request, answer r -> Prop).

Lemma wait_ready_stalls (app_name : string) (replicas : Z) (rounds : nat) :
  (forall x, G (read_status app_name) x ->
     shows_available (fun available => py_eq_int available replicas = false) x) ->
  traced G (fun rs _ => slept rs = 5 * Z.of_nat rounds) never_raised
    (wait_ready rounds app_name replicas).
Proof.
  intros HG. induction rounds as [| n IH].
  - reflexivity.
  - cbn [wait_ready andthen kube call_for].
    apply traced_ask. intros x Hx. apply HG in Hx.
    destruct Hx as (d & st & a & -> & Hs & Ha & Hn).
    cbn [give andthen]. rewrite Hs. cbn [give andthen]. rewrite Ha.
    cbn [give andthen]. rewrite Hn. cbn [sleep andthen].
    apply traced_ask. intros _ _.
    eapply traced_mono; [| | exact IH].
    + intros rs ? Hr. cbv beta in Hr. rewrite Nat2Z.inj_succ. cbn [slept nap]. lia.
    + intros rs e [].
Qed.

Lemma wait_ready_at_once (app_name : string) (replicas : Z) (rounds : nat) :
  (forall x, G (read_status app_name) x ->
     shows_available (fun available => py_eq_int available replicas = true) x) ->
  traced G (fun rs _ => rs = [read_status app_name]) never_raised
    (wait_ready (Datatypes.S rounds) app_name replicas).
Proof.
  intros HG. cbn [wait_ready andthen kube call_for].
  apply traced_ask. intros x Hx. apply HG in Hx.
  destruct Hx as (d & st & a & -> & Hs & Ha & Hn).
  cbn [give andthen]. rewrite Hs. cbn [give andthen]. rewrite Ha.
  cbn [give andthen]. rewrite Hn. reflexivity.
Qed.

End Stalled.

Section Unready.
Context `{PyLib} {S : Type} (w : provider S).

(** X27. When the cluster takes every request but the deployment never shows
    the wanted number of available replicas, [deploy_to_eks_with_irsa]
    gives up after 300 seconds of sleep and answers status [success],
    with the message "Deployment successful with IRSA". *)
Theorem unready_deployment_is_reported (s : S)
  (cluster_name app_name image_uri : string) (port replicas : Z)
  (env_vars : list (string * json)) (region role_arn service_account_name : string) :
  replies w (never_ready replicas) ->
  exists v,
    outcome
      (perform w
         (deploy_to_eks_with_irsa cluster_name app_name image_uri port replicas
            env_vars region role_arn service_account_name) s)
    = inr v
    /\ field "status" v = Some (JStr "success")
    /\ field "message" v = Some (JStr "Deployment successful with IRSA")
    /\ slept
         (requests
            (perform w
               (deploy_to_eks_with_irsa cluster_name app_name image_uri port
                  replicas env_vars region role_arn service_account_name) s))
       = 300.
Proof.
  intros Hw.
  apply (perform_returns w (never_ready replicas)
           (fun rs v =>
              field "status" v = Some (JStr "success")
              /\ field "message" v = Some (JStr "Deployment successful with IRSA")
              /\ slept rs = 300));
    [exact Hw |].
  unfold deploy_to_eks_with_irsa.
  apply traced_rescue with (Q' := never_raised); [| intros rs e []].
  along_known.
  eapply traced_andthen;
    [ apply (wait_ready_stalls (never_ready replicas) app_name replicas 60);
      intros x Hx; exact Hx
    | | intros rs e [] ].
  intros rs4 ? H4. cbv beta in H4. change (5 * Z.of_nat 60) with 300 in H4.
  along_known.
  repeat split; try reflexivity.
  simpl slept. rewrite slept_app. simpl slept. simpl nap. lia.
Qed.

End Unready.

Lemma stalled_never_ready : replies stalled (never_ready 2).
Proof.
  intros [service region operation arguments | api operation arguments | c] s.
  - exact I.
  - cbn.
    destruct (String.eqb operation "read_namespaced_deployment_status");
      [ do 3 eexists; repeat split; reflexivity |].
    destruct (String.eqb operation "read_namespaced_service");
      [ do 2 eexists; split; reflexivity |].
    eexists; reflexivity.
  - destruct c; try exact I.
    + eexists; reflexivity.
    + reflexivity.
Qed.

Lemma unready_deployment_is_reported_witness :
  exists v,
    outcome
      (perform stalled
         (deploy_to_eks_with_irsa "blog-cluster" "blog-app"
            "123456789012.dkr.ecr.us-west-2.amazonaws.com/blog-app:latest" 3000 2
            [("TABLE", JStr "blog-posts")] "us-west-2"
            "arn:aws:iam::123456789012:role/blog-app-irsa-role" "blog-app-sa")
         empty_cloud)
    = inr v
    /\ field "status" v = Some (JStr "success")
    /\ field "message" v = Some (JStr "Deployment successful with IRSA")
    /\ slept
         (requests
            (perform stalled
               (deploy_to_eks_with_irsa "blog-cluster" "blog-app"
                  "123456789012.dkr.ecr.us-west-2.amazonaws.com/blog-app:latest"
                  3000 2 [("TABLE", JStr "blog-posts")] "us-west-2"
                  "arn:aws:iam::123456789012:role/blog-app-irsa-role" "blog-app-sa")
               empty_cloud))
       = 300.
Proof.
  exact (unready_deployment_is_reported stalled empty_cloud "blog-cluster" "blog-app"
           "123456789012.dkr.ecr.us-west-2.amazonaws.com/blog-app:latest" 3000 2
           [("TABLE", JStr "blog-posts")] "us-west-2"
           "arn:aws:iam::123456789012:role/blog-app-irsa-role" "blog-app-sa"
           stalled_never_ready).
Defined.

Section Refused.
Context `{PyLib} {S : Type} (w : provider S).

(** X28. When the cluster answers the creation of the service account, of the
    deployment and of the service with an error of the API, the tool
    goes on.  On status 409 it patches each resource with the very body
    it asked to create; on any other status it asks for no patch, so
    that nothing is created or changed.  In both cases, when the
    deployment found in the cluster shows the wanted replicas, the
    answer has status [success]. *)
Theorem refused_creation_is_passed_over (s : S) (code : Z)
  (cluster_name app_name image_uri : string) (port replicas : Z)
  (env_vars : list (string * json)) (region role_arn service_account_name : string) :
  replies w (creation_refused code replicas) ->
  exists v,
    outcome
      (perform w
         (deploy_to_eks_with_irsa cluster_name app_name image_uri port replicas
            env_vars region role_arn service_account_name) s)
    = inr v
    /\ field "status" v = Some (JStr "success")
    /\ cluster_requests
         (requests
            (perform w
               (deploy_to_eks_with_irsa cluster_name app_name image_uri port
                  replicas env_vars region role_arn service_account_name) s))
       = redeployment code app_name image_uri port replicas env_vars region
           role_arn service_account_name.
Proof.
  intros Hw.
  apply (perform_returns w (creation_refused code replicas)
           (fun rs v =>
              field "status" v = Some (JStr "success")
              /\ cluster_requests rs
                 = redeployment code app_name image_uri port replicas env_vars
                     region role_arn service_account_name));
    [exact Hw |].
  unfold deploy_to_eks_with_irsa, redeployment.
  apply traced_rescue with (Q' := never_raised); [| intros rs e []].
  destruct (code =? 409) eqn:Hcode;
    along_known; unfold is_api_exception;
    repeat (along_known; unfold is_api_exception);
    (eapply traced_andthen;
     [ apply (wait_ready_at_once (creation_refused code replicas) app_name replicas 59);
       intros x Hx; exact Hx
     | | intros rs e [] ]);
    intros rs4 ? H4; cbv beta in H4; subst rs4;
    along_known; split; reflexivity.
Qed.

End Refused.

Lemma creation_forbidden_refused : replies creation_forbidden (creation_refused 403 2).
Proof.
  intros [service region operation arguments | api operation arguments | c] s.
  - exact I.
  - cbn.
    destruct (String.prefix "create_" operation);
      [ eexists; split; reflexivity |].
    destruct (String.eqb operation "read_namespaced_deployment_status");
      [ do 3 eexists; repeat split; reflexivity |].
    destruct (String.eqb operation "read_namespaced_service");
      [ do 2 eexists; split; reflexivity |].
    eexists; reflexivity.
  - destruct c; try exact I.
    + eexists; reflexivity.
    + reflexivity.
Qed.

Lemma refused_creation_is_passed_over_witness :
  exists v,
    outcome
      (perform creation_forbidden
         (deploy_to_eks_with_irsa "blog-cluster" "blog-app"
            "123456789012.dkr.ecr.us-west-2.amazonaws.com/blog-app:v2" 3000 2 []
            "us-west-2" "arn:aws:iam::123456789012:role/blog-app-irsa-role"
            "blog-app-sa")
         empty_cloud)
    = inr v
    /\ field "status" v = Some (JStr "success")
    /\ cluster_requests
         (requests
            (perform creation_forbidden
               (deploy_to_eks_with_irsa "blog-cluster" "blog-app"
                  "123456789012.dkr.ecr.us-west-2.amazonaws.com/blog-app:v2" 3000 2
                  [] "us-west-2" "arn:aws:iam::123456789012:role/blog-app-irsa-role"
                  "blog-app-sa")
               empty_cloud))
       = redeployment 403 "blog-app"
           "123456789012.dkr.ecr.us-west-2.amazonaws.com/blog-app:v2" 3000 2 []
           "us-west-2" "arn:aws:iam::123456789012:role/blog-app-irsa-role"
           "blog-app-sa".
Proof.
  exact (refused_creation_is_passed_over creation_forbidden empty_cloud 403
           "blog-cluster" "blog-app"
           "123456789012.dkr.ecr.us-west-2.amazonaws.com/blog-app:v2" 3000 2 []
           "us-west-2" "arn:aws:iam::123456789012:role/blog-app-irsa-role"
           "blog-app-sa" creation_forbidden_refused).
Defined.
(** ** The status of a deployment and the listing *)

Section Status.
Context `{PyLib} {S : Type} (w : provider S).

(** X29. When the cluster answers the read of the status
    ([get_deployment_status]) or the listing ([list_deployments]) with
    an exception, the tool answers without removing the certificate
    file that was written for the client: its requests are the client
    and the read, or the listing.  [get_deployment_status] answers
    [not_found] when the exception is an error of the API of status 404,
    and [error] with the exception's text otherwise. *)
Theorem failed_read_leaves_certificate (s s1 s2 : S)
  (cluster_name app_name region namespace ca_cert_file : string) (e : exn) :
  reply w (Base (GetK8sClient cluster_name region)) s = (inr ca_cert_file, s1) ->
  (reply w (read_status app_name) s1 = (inl e, s2) ->
   requests (perform w (get_deployment_status cluster_name app_name region) s)
   = [Base (GetK8sClient cluster_name region); read_status app_name]
   /\ outcome (perform w (get_deployment_status cluster_name app_name region) s)
      = inr (if match api_status e with
                | Some status => status =? 404
                | None => false
                end
             then JObj [ ("status", JStr "not_found");
                         ("message", JStr "Deployment not found") ]
             else JObj [("status", JStr "error"); ("message", JStr (exn_msg e))]))
  /\ (reply w (listing namespace) s1 = (inl e, s2) ->
      requests (perform w (list_deployments cluster_name region namespace) s)
      = [Base (GetK8sClient cluster_name region); listing namespace]
      /\ exists v,
           outcome (perform w (list_deployments cluster_name region namespace) s)
           = inr v
           /\ field "status" v = Some (JStr "error")).
Proof.
  intros Hc. split; intros Hr.
  - unfold get_deployment_status, read_status in *.
    cbn [perform rescue andthen kube call_for give k8s_client].
    rewrite Hc. cbn [perform rescue andthen kube call_for give].
    rewrite Hr. cbn [perform rescue andthen kube call_for give].
    destruct (api_status e) as [status |]; [destruct (status =? 404) |];
      split; reflexivity.
  - unfold list_deployments, listing in *.
    cbn [perform rescue andthen kube call_for give k8s_client].
    rewrite Hc. cbn [perform rescue andthen kube call_for give].
    rewrite Hr. cbn [perform rescue andthen kube call_for give].
    split; [reflexivity |].
    eexists. split; [reflexivity |].
    unfold kubernetes_failure. destruct (exn_cls e); reflexivity.
Qed.

End Status.

Lemma failed_read_leaves_certificate_witness :
  requests (perform vacant (get_deployment_status "blog-cluster" "blog-app" "us-west-2")
              empty_cloud)
  = [Base (GetK8sClient "blog-cluster" "us-west-2"); read_status "blog-app"]
  /\ outcome
       (perform vacant (get_deployment_status "blog-cluster" "blog-app" "us-west-2")
          empty_cloud)
     = inr (JObj [ ("status", JStr "not_found");
                   ("message", JStr "Deployment not found") ]).
Proof.
  exact (proj1
           (failed_read_leaves_certificate vacant empty_cloud empty_cloud empty_cloud
              "blog-cluster" "blog-app" "us-west-2" "default" "/tmp/tmpca.crt"
              not_found eq_refl)
           eq_refl).
Defined.

Section Listing.
Context `{PyLib} {S : Type} (w : provider S).

Lemma entries_of_well_formed (deps : list json) :
  Forall well_formed deps ->
  exists entries,
    deployment_entries deps = inr entries
    /\ Forall2 (fun dep entry => deployment_entry dep = inr entry) deps entries.
Proof.
  induction 1 as [| dep deps (metadata & status & Hm & Hs) _ (entries & He & Hf)].
  - exists []. split; [reflexivity | constructor].
  - assert (Hd : exists entry, deployment_entry dep = inr entry).
    { unfold deployment_entry. rewrite Hm. cbn [ebind attr]. rewrite Hs.
      cbn [ebind attr]. eexists. reflexivity. }
    destruct Hd as (entry & Hd). exists (entry :: entries). split.
    + cbn [deployment_entries]. rewrite Hd. cbn [ebind]. rewrite He. reflexivity.
    + constructor; assumption.
Qed.

(** X30. When the cluster answers the listing with items whose metadata and
    status are objects, [list_deployments] answers [success] with one
    entry for each item, in their order, and their number as [count];
    it has asked for the client, the listing of the namespace and the
    removal of the certificate file, and for nothing else. *)
Theorem listing_has_an_entry_for_each_item (s s1 s2 s3 : S)
  (cluster_name region namespace ca_cert_file : string) (deployments : json)
  (deps : list json) :
  reply w (Base (GetK8sClient cluster_name region)) s = (inr ca_cert_file, s1) ->
  reply w (listing namespace) s1 = (inr deployments, s2) ->
  attr deployments "items" = inr (JArr deps) ->
  Forall well_formed deps ->
  reply w (Base (OsUnlink ca_cert_file)) s2 = (inr tt, s3) ->
  exists entries,
    Forall2 (fun dep entry => deployment_entry dep = inr entry) deps entries
    /\ perform w (list_deployments cluster_name region namespace) s
       = (inr (JObj [ ("status", JStr "success");
                      ("cluster", JStr cluster_name);
                      ("namespace", JStr namespace);
                      ("count", JNum (Z.of_nat (List.length deps)));
                      ("deployments", JArr entries) ]),
          s3,
          [ Base (GetK8sClient cluster_name region); listing namespace;
            Base (OsUnlink ca_cert_file) ]).
Proof.
  intros Hc Hl Hi Hd Hu.
  destruct (entries_of_well_formed deps Hd) as (entries & He & Hf).
  exists entries. split; [exact Hf |].
  unfold list_deployments, listing in *.
  cbn [perform rescue andthen kube call_for give k8s_client unlink].
  rewrite Hc. cbn [perform rescue andthen kube call_for give].
  rewrite Hl. cbn [perform rescue andthen kube call_for give].
  rewrite Hi. cbn [ebind py_iter]. rewrite He.
  cbn [perform rescue andthen kube call_for give].
  rewrite Hu. cbn [perform rescue andthen kube call_for give].
  replace (List.length entries) with (List.length deps)
    by (eapply Forall2_length; exact Hf).
  reflexivity.
Qed.

End Listing.

Lemma listing_has_an_entry_for_each_item_witness :
  exists entries,
    Forall2 (fun dep entry => deployment_entry dep = inr entry)
      [blog_deployment; fresh_deployment] entries
    /\ perform two_deployments (list_deployments "blog-cluster" "us-west-2" "default")
         empty_cloud
       = (inr (JObj [ ("status", JStr "success");
                      ("cluster", JStr "blog-cluster");
                      ("namespace", JStr "default");
                      ("count", JNum 2);
                      ("deployments", JArr entries) ]),
          empty_cloud,
          [ Base (GetK8sClient "blog-cluster" "us-west-2"); listing "default";
            Base (OsUnlink "/tmp/tmpca.crt") ]).
Proof.
  refine (listing_has_an_entry_for_each_item two_deployments empty_cloud empty_cloud
            empty_cloud empty_cloud "blog-cluster" "us-west-2" "default"
            "/tmp/tmpca.crt" (JObj [("items", JArr [blog_deployment; fresh_deployment])])
            [blog_deployment; fresh_deployment] eq_refl eq_refl eq_refl _ eq_refl).
  repeat constructor; do 2 eexists; split; reflexivity.
Defined.
